(** * Statz: the native Windows GPU monitors (NVIDIA / AMD / Intel)

    A shallow embedding of the three files
      src/statz/internal/native/windows/gpu/{nvidia,amd,intel}/gpu_usage.c
    and the properties of the vendor-backend acquisition layer.

    The C globals of each file become a record; every function becomes a
    computation in a small state-and-fault monad that threads those
    globals together with a model of the platform: the modules the loader
    currently holds, the open performance-counter queries, and the trace
    of platform calls made so far.  The platform itself (the loader, the
    vendor libraries, PDH, the registry) is a record of oracles, indexed
    by the number of platform calls already made, so that an oracle can
    answer differently from one call to the next (transient failures). *)

From Stdlib Require Import ZArith List String Bool Lia QArith.
Import ListNotations.
Local Open Scope string_scope.
Local Open Scope Z_scope.
Local Open Scope list_scope.

(* ===================================================================== *)
(** ** C integer types *)

Definition u32 (z : Z) : Z := z mod 2 ^ 32.
Definition u64 (z : Z) : Z := z mod 2 ^ 64.

(** Conversion to [int]: the value modulo 2^32, read as two's complement
    (what MSVC and GCC do for an out-of-range integer conversion). *)
Definition to_int (z : Z) : Z := (z + 2 ^ 31) mod 2 ^ 32 - 2 ^ 31.

Definition INT_MIN : Z := - 2 ^ 31.
Definition INT_MAX : Z := 2 ^ 31 - 1.

(** [(int) f] for a floating value [f], carried as the rational it
    denotes: truncation toward zero when the truncated value fits an
    [int].  When it does not fit, C leaves the conversion undefined; the
    conversion instructions of the x86 and x64 targets these Windows
    files are built for (cvttss2si, cvttsd2si) then answer the "integer
    indefinite" value 0x80000000, which is [INT_MIN]. *)
Definition int_of_float (q : Q) : Z :=
  let z := Z.quot (Qnum q) (Zpos (Qden q)) in
  if (INT_MIN <=? z) && (z <=? INT_MAX) then z else INT_MIN.

(** [(float) z / 1000.0]: milliwatts to watts. *)
Definition milli (z : Z) : Q := Qmake z 1000.

(* ===================================================================== *)
(** ** The platform *)

Definition HMODULE := nat.
Definition PDH_HQUERY := nat.
Definition PDH_HCOUNTER := nat.

(** A function pointer obtained from [GetProcAddress]: [None] is NULL,
    [Some h] points into module [h]. *)
Definition fnptr := option HMODULE.

Inductive event : Type :=
| EvLoadLibraryA (path : string) (r : option HMODULE)
| EvGetProcAddress (h : HMODULE) (sym : string) (r : bool)
| EvFreeLibrary (h : HMODULE)
| EvCall (fn : string) (h : HMODULE)
| EvPdhOpenQueryA (r : option PDH_HQUERY)
| EvPdhAddCounterA (q : PDH_HQUERY) (path : string) (r : option PDH_HCOUNTER)
| EvPdhCollectQueryData (q : PDH_HQUERY) (r : bool)
| EvPdhGetFormattedCounterValue (c : PDH_HCOUNTER)
| EvPdhCloseQuery (q : PDH_HQUERY)
| EvSleep (ms : Z)
| EvPrintf (s : string)
| EvMalloc (r : bool)
| EvRegistry
| EvGlobalMemoryStatusEx.

Record world : Type := mkWorld {
  trace : list event;            (* newest first *)
  modules : list HMODULE;        (* one entry per reference held *)
  queries : list PDH_HQUERY      (* open PDH queries *)
}.

Definition world0 : world := mkWorld [] [] [].

(** Operating-system services used by all three files. *)
Record OS : Type := mkOS {
  os_LoadLibraryA : nat -> string -> option HMODULE;
  os_exports : HMODULE -> string -> bool;
  os_malloc : nat -> bool;
  os_PdhOpenQueryA : nat -> option PDH_HQUERY;
  os_PdhAddCounterA : nat -> PDH_HQUERY -> string -> option PDH_HCOUNTER;
  os_PdhCollectQueryData : nat -> PDH_HQUERY -> bool;
  (* [Some v]: status ERROR_SUCCESS and CStatus PDH_CSTATUS_VALID_DATA *)
  os_PdhGetFormattedCounterValue_double : nat -> PDH_HCOUNTER -> option Q;
  os_PdhGetFormattedCounterValue_large : nat -> PDH_HCOUNTER -> option Z;
  (* outer [None]: RegOpenKeyExA failed; inner [None]: the value query
     left the buffer untouched *)
  os_DriverDesc : nat -> option (option string);
  os_ullTotalPhys : nat -> Z
}.

(* ===================================================================== *)
(** ** The monad: globals, world, faults *)

Inductive fault : Type :=
| NullCall (fn : string)                     (* call through a NULL pointer *)
| DanglingCall (fn : string) (h : HMODULE)   (* call into an unloaded module *)
| InvalidFree (h : HMODULE)                  (* FreeLibrary of a module not held *)
| InvalidClose (q : PDH_HQUERY).             (* PdhCloseQuery of a closed query *)

Inductive outcome (G A : Type) : Type :=
| Done (a : A) (g : G) (w : world)
| Fault (f : fault).
Arguments Done {G A} a g w.
Arguments Fault {G A} f.

Definition M (G A : Type) : Type := G -> world -> outcome G A.

Definition ret {G A} (a : A) : M G A := fun g w => Done a g w.

Definition bind {G A B} (m : M G A) (k : A -> M G B) : M G B :=
  fun g w => match m g w with
             | Done a g' w' => k a g' w'
             | Fault f => Fault f
             end.

Declare Scope monad_scope.
Delimit Scope monad_scope with monad.
Notation "x <- m ;; k" := (bind m (fun x => k))
  (at level 61, m at next level, right associativity) : monad_scope.
Notation "' pat <- m ;; k" := (bind m (fun x => match x with pat => k end))
  (at level 61, pat pattern, m at next level, right associativity) : monad_scope.
Notation "m ;; k" := (bind m (fun _ => k))
  (at level 61, right associativity) : monad_scope.
Local Open Scope monad_scope.

Definition read {G A} (f : G -> A) : M G A := fun g w => Done (f g) g w.
Definition write {G} (upd : G -> G) : M G unit := fun g w => Done tt (upd g) w.

Definition is_null {A} (p : option A) : bool :=
  match p with Some _ => false | None => true end.
Definition non_null {A} (p : option A) : bool := negb (is_null p).

Fixpoint remove_one (h : nat) (l : list nat) : list nat :=
  match l with
  | [] => []
  | x :: r => if Nat.eqb h x then r else x :: remove_one h r
  end.

Definition held (h : nat) (l : list nat) : bool := existsb (Nat.eqb h) l.

Definition log (e : event) (w : world) : world :=
  mkWorld (e :: trace w) (modules w) (queries w).

Definition now (w : world) : nat := List.length (trace w).

(** The address [GetProcAddress] answers: into module [h] when the symbol
    was found, NULL otherwise. *)
Definition ptr_of (found : bool) (h : HMODULE) : fnptr :=
  if found then Some h else None.

Section Platform.
Context {G : Type}.
Variable O : OS.

Definition emit (e : event) : M G unit := fun g w => Done tt g (log e w).

Definition LoadLibraryA (path : string) : M G (option HMODULE) :=
    fun g w =>
      let r := os_LoadLibraryA O (now w) path in
      let ms := match r with Some h => h :: modules w | None => modules w end in
      Done r g (mkWorld (EvLoadLibraryA path r :: trace w) ms (queries w)).

Definition GetProcAddress (h : HMODULE) (sym : string) : M G fnptr :=
    fun g w =>
      let r := os_exports O h sym in
      Done (ptr_of r h) g (log (EvGetProcAddress h sym r) w).

Definition FreeLibrary (h : HMODULE) : M G unit :=
    fun g w =>
      if held h (modules w)
      then Done tt g (mkWorld (EvFreeLibrary h :: trace w)
                              (remove_one h (modules w)) (queries w))
      else Fault (InvalidFree h).

  (** A call through the function pointer [p]; [impl] is what the vendor
      function answers at this moment. *)
Definition call {R} (fn : string) (p : fnptr) (impl : nat -> R) : M G R :=
    fun g w =>
      match p with
      | None => Fault (NullCall fn)
      | Some h =>
          if held h (modules w)
          then Done (impl (now w)) g (log (EvCall fn h) w)
          else Fault (DanglingCall fn h)
      end.

Definition malloc (size : Z) : M G bool :=
    fun g w => let r := os_malloc O (now w) in Done r g (log (EvMalloc r) w).

Definition printf (s : string) : M G unit := emit (EvPrintf s).

  (** The probe loop shared by [load_nvml], [load_ags] and [load_igcl]:
      [for (i...) { lib = LoadLibraryA(paths[i]); if (lib) break; }] *)
Fixpoint load_first (set_lib : option HMODULE -> G -> G) (paths : list string)
    : M G unit :=
    match paths with
    | [] => ret tt
    | p :: rest =>
        r <- LoadLibraryA p ;;
        write (set_lib r) ;;
        if non_null r then ret tt else load_first set_lib rest
    end.

  (** What the probe loop finds when started at time [t]: the candidates
      that failed to load, in order, and the first one that loaded. *)
Fixpoint probe (t : nat) (paths : list string)
    : list string * option (string * HMODULE) :=
    match paths with
    | [] => ([], None)
    | p :: rest =>
        match os_LoadLibraryA O t p with
        | Some h => ([], Some (p, h))
        | None => let '(failed, found) := probe (S t) rest in (p :: failed, found)
        end
    end.
End Platform.

(* ===================================================================== *)
(** ** The JSON document *)

(** One object of the [gpus] array: the arguments handed to [snprintf]. *)
Record gpu_record : Type := mkRecord {
  index : Z;
  name : string;
  gpu_utilization : Z;
  memory_utilization : Z;
  memory_total : Z;
  memory_used : Z;
  memory_free : Z;
  temperature : Q;
  power_usage : Q
}.

(** What is appended between the opening and the closing bracket. *)
Inductive token : Type :=
| Comma
| Obj (r : gpu_record).

Fixpoint records (doc : list token) : list gpu_record :=
  match doc with
  | [] => []
  | Comma :: d => records d
  | Obj r :: d => r :: records d
  end.

(** [for (i = lo; i < lo + n; i++) body(i)], the output of each
    iteration appended to the buffer. *)
Fixpoint for_loop {G} (n : nat) (i : Z) (body : Z -> M G (list token))
  : M G (list token) :=
  match n with
  | O => ret []
  | S n' => out <- body i ;; rest <- for_loop n' (i + 1) body ;; ret (out ++ rest)
  end.

Definition strncpy255 (s : string) : string := substring 0 255 s.

Section CallThroughGlobal.
Context {G : Type}.
  (** [fp(args)] where [fp] is a global function pointer. *)
Definition callg {R} (fn : string) (sel : G -> fnptr) (impl : nat -> R) : M G R :=
    p <- read sel ;; call fn p impl.
End CallThroughGlobal.

(* ===================================================================== *)
(** ** nvidia/gpu_usage.c *)

Module Nvidia.

Definition NVML_SUCCESS : Z := 0.
Definition nvmlDevice_t := Z.

Record nvmlUtilization_t : Type := mkUtil { gpu : Z; memory : Z }.
Record nvmlMemory_t : Type := mkMem { total : Z; free : Z; used : Z }.

  (** What the NVML entry points answer.  A pair is the return code and
      the contents of the out-parameter after the call.  The two optional
      readings write into a variable preset to 0 and their return code is
      ignored by the caller: [Some v] is the value written, [None] leaves
      the variable untouched. *)
Record NVML : Type := mkNVML {
    nvmlInit_impl : nat -> Z;
    nvmlShutdown_impl : nat -> Z;
    nvmlDeviceGetCount_impl : nat -> Z * Z;
    nvmlDeviceGetHandleByIndex_impl : nat -> Z -> Z * nvmlDevice_t;
    nvmlDeviceGetName_impl : nat -> nvmlDevice_t -> Z * string;
    nvmlDeviceGetUtilizationRates_impl : nat -> nvmlDevice_t -> Z * nvmlUtilization_t;
    nvmlDeviceGetMemoryInfo_impl : nat -> nvmlDevice_t -> Z * nvmlMemory_t;
    nvmlDeviceGetTemperature_impl : nat -> nvmlDevice_t -> option Z;
    nvmlDeviceGetPowerUsage_impl : nat -> nvmlDevice_t -> option Z
  }.

  (** The file's global variables. *)
Record globals : Type := mkGlobals {
    nvml_lib : option HMODULE;
    nvmlInit : fnptr;
    nvmlShutdown : fnptr;
    nvmlDeviceGetCount : fnptr;
    nvmlDeviceGetHandleByIndex : fnptr;
    nvmlDeviceGetName : fnptr;
    nvmlDeviceGetUtilizationRates : fnptr;
    nvmlDeviceGetMemoryInfo : fnptr;
    nvmlDeviceGetTemperature : fnptr;
    nvmlDeviceGetPowerUsage : fnptr
  }.

Definition globals0 : globals :=
    mkGlobals None None None None None None None None None None.

Definition set_nvml_lib v g :=
    mkGlobals v (nvmlInit g) (nvmlShutdown g) (nvmlDeviceGetCount g)
      (nvmlDeviceGetHandleByIndex g) (nvmlDeviceGetName g)
      (nvmlDeviceGetUtilizationRates g) (nvmlDeviceGetMemoryInfo g)
      (nvmlDeviceGetTemperature g) (nvmlDeviceGetPowerUsage g).
Definition set_nvmlInit v g :=
    mkGlobals (nvml_lib g) v (nvmlShutdown g) (nvmlDeviceGetCount g)
      (nvmlDeviceGetHandleByIndex g) (nvmlDeviceGetName g)
      (nvmlDeviceGetUtilizationRates g) (nvmlDeviceGetMemoryInfo g)
      (nvmlDeviceGetTemperature g) (nvmlDeviceGetPowerUsage g).
Definition set_nvmlShutdown v g :=
    mkGlobals (nvml_lib g) (nvmlInit g) v (nvmlDeviceGetCount g)
      (nvmlDeviceGetHandleByIndex g) (nvmlDeviceGetName g)
      (nvmlDeviceGetUtilizationRates g) (nvmlDeviceGetMemoryInfo g)
      (nvmlDeviceGetTemperature g) (nvmlDeviceGetPowerUsage g).
Definition set_nvmlDeviceGetCount v g :=
    mkGlobals (nvml_lib g) (nvmlInit g) (nvmlShutdown g) v
      (nvmlDeviceGetHandleByIndex g) (nvmlDeviceGetName g)
      (nvmlDeviceGetUtilizationRates g) (nvmlDeviceGetMemoryInfo g)
      (nvmlDeviceGetTemperature g) (nvmlDeviceGetPowerUsage g).
Definition set_nvmlDeviceGetHandleByIndex v g :=
    mkGlobals (nvml_lib g) (nvmlInit g) (nvmlShutdown g) (nvmlDeviceGetCount g)
      v (nvmlDeviceGetName g)
      (nvmlDeviceGetUtilizationRates g) (nvmlDeviceGetMemoryInfo g)
      (nvmlDeviceGetTemperature g) (nvmlDeviceGetPowerUsage g).
Definition set_nvmlDeviceGetName v g :=
    mkGlobals (nvml_lib g) (nvmlInit g) (nvmlShutdown g) (nvmlDeviceGetCount g)
      (nvmlDeviceGetHandleByIndex g) v
      (nvmlDeviceGetUtilizationRates g) (nvmlDeviceGetMemoryInfo g)
      (nvmlDeviceGetTemperature g) (nvmlDeviceGetPowerUsage g).
Definition set_nvmlDeviceGetUtilizationRates v g :=
    mkGlobals (nvml_lib g) (nvmlInit g) (nvmlShutdown g) (nvmlDeviceGetCount g)
      (nvmlDeviceGetHandleByIndex g) (nvmlDeviceGetName g)
      v (nvmlDeviceGetMemoryInfo g)
      (nvmlDeviceGetTemperature g) (nvmlDeviceGetPowerUsage g).
Definition set_nvmlDeviceGetMemoryInfo v g :=
    mkGlobals (nvml_lib g) (nvmlInit g) (nvmlShutdown g) (nvmlDeviceGetCount g)
      (nvmlDeviceGetHandleByIndex g) (nvmlDeviceGetName g)
      (nvmlDeviceGetUtilizationRates g) v
      (nvmlDeviceGetTemperature g) (nvmlDeviceGetPowerUsage g).
Definition set_nvmlDeviceGetTemperature v g :=
    mkGlobals (nvml_lib g) (nvmlInit g) (nvmlShutdown g) (nvmlDeviceGetCount g)
      (nvmlDeviceGetHandleByIndex g) (nvmlDeviceGetName g)
      (nvmlDeviceGetUtilizationRates g) (nvmlDeviceGetMemoryInfo g)
      v (nvmlDeviceGetPowerUsage g).
Definition set_nvmlDeviceGetPowerUsage v g :=
    mkGlobals (nvml_lib g) (nvmlInit g) (nvmlShutdown g) (nvmlDeviceGetCount g)
      (nvmlDeviceGetHandleByIndex g) (nvmlDeviceGetName g)
      (nvmlDeviceGetUtilizationRates g) (nvmlDeviceGetMemoryInfo g)
      (nvmlDeviceGetTemperature g) v.

Definition possible_paths : list string :=
    [ "C:\Program Files\NVIDIA Corporation\NVSMI\nvml.dll";
      "C:\Windows\System32\nvml.dll";
      "nvml.dll" ].

Section Code.
Variable O : OS.
Variable V : NVML.

    (** [fp = GetProcAddress(lib, sym)] *)
Definition resolve (h : HMODULE) (sym : string) (set : fnptr -> globals -> globals)
      : M globals unit :=
      p <- GetProcAddress O h sym ;; write (set p).

    (** [if (!fp) fp = GetProcAddress(lib, sym)] *)
Definition resolve_if_null (h : HMODULE) (sym : string)
        (sel : globals -> fnptr) (set : fnptr -> globals -> globals) : M globals unit :=
      p <- read sel ;;
      if is_null p then resolve h sym set else ret tt.

(** The block "Load function pointers" of [load_nvml]. *)
Definition resolve_symbols (h : HMODULE) : M globals unit :=
      resolve h "nvmlInit_v2" set_nvmlInit ;;
      resolve_if_null h "nvmlInit" nvmlInit set_nvmlInit ;;
      resolve h "nvmlShutdown" set_nvmlShutdown ;;
      resolve h "nvmlDeviceGetCount_v2" set_nvmlDeviceGetCount ;;
      resolve_if_null h "nvmlDeviceGetCount" nvmlDeviceGetCount set_nvmlDeviceGetCount ;;
      resolve h "nvmlDeviceGetHandleByIndex_v2" set_nvmlDeviceGetHandleByIndex ;;
      resolve_if_null h "nvmlDeviceGetHandleByIndex"
        nvmlDeviceGetHandleByIndex set_nvmlDeviceGetHandleByIndex ;;
      resolve h "nvmlDeviceGetName" set_nvmlDeviceGetName ;;
      resolve h "nvmlDeviceGetUtilizationRates" set_nvmlDeviceGetUtilizationRates ;;
      resolve h "nvmlDeviceGetMemoryInfo" set_nvmlDeviceGetMemoryInfo ;;
      resolve h "nvmlDeviceGetTemperature" set_nvmlDeviceGetTemperature ;;
      resolve h "nvmlDeviceGetPowerUsage" set_nvmlDeviceGetPowerUsage.

Definition load_nvml : M globals Z :=
      load_first O set_nvml_lib possible_paths ;;
      lib <- read nvml_lib ;;
      match lib with
      | None => ret (-1)
      | Some h =>
          resolve_symbols h ;;
          g <- read id ;;
          if is_null (nvmlInit g) || is_null (nvmlShutdown g)
             || is_null (nvmlDeviceGetCount g)
             || is_null (nvmlDeviceGetHandleByIndex g) || is_null (nvmlDeviceGetName g)
             || is_null (nvmlDeviceGetUtilizationRates g)
             || is_null (nvmlDeviceGetMemoryInfo g)
          then FreeLibrary h ;; write (set_nvml_lib None) ;; ret (-2)
          else ret 0
      end.

Definition unload_nvml : M globals unit :=
      lib <- read nvml_lib ;;
      match lib with
      | Some h => FreeLibrary h ;; write (set_nvml_lib None)
      | None => ret tt
      end.

Definition gpu_init : M globals Z :=
      r <- load_nvml ;;
      if negb (r =? 0) then ret (-1)
      else
        result <- callg "nvmlInit" nvmlInit (nvmlInit_impl V) ;;
        if negb (result =? NVML_SUCCESS) then unload_nvml ;; ret (-2)
        else ret 0.

Definition gpu_shutdown : M globals unit :=
      g <- read id ;;
      (if non_null (nvml_lib g) && non_null (nvmlShutdown g)
       then callg "nvmlShutdown" nvmlShutdown (nvmlShutdown_impl V) ;; ret tt
       else ret tt) ;;
      unload_nvml.

Definition gpu_get_count : M globals Z :=
      '(result, device_count) <-
        callg "nvmlDeviceGetCount" nvmlDeviceGetCount (nvmlDeviceGetCount_impl V) ;;
      if negb (result =? NVML_SUCCESS) then ret (-1)
      else ret (to_int (u32 device_count)).

    (** One iteration of the device loop of [gpu_get_info_json]. *)
Definition device_json (i : Z) : M globals (list token) :=
      '(result, device) <-
        callg "nvmlDeviceGetHandleByIndex" nvmlDeviceGetHandleByIndex
              (fun t => nvmlDeviceGetHandleByIndex_impl V t i) ;;
      if negb (result =? NVML_SUCCESS) then ret []   (* continue *)
      else
        '(result, vname) <-
          callg "nvmlDeviceGetName" nvmlDeviceGetName
                (fun t => nvmlDeviceGetName_impl V t device) ;;
        let name := if result =? NVML_SUCCESS then vname else "Unknown GPU" in
        '(result, utilization) <-
          callg "nvmlDeviceGetUtilizationRates" nvmlDeviceGetUtilizationRates
                (fun t => nvmlDeviceGetUtilizationRates_impl V t device) ;;
        let gpu_util := if result =? NVML_SUCCESS then u32 (gpu utilization) else 0 in
        let mem_util := if result =? NVML_SUCCESS then u32 (memory utilization) else 0 in
        '(result, memory) <-
          callg "nvmlDeviceGetMemoryInfo" nvmlDeviceGetMemoryInfo
                (fun t => nvmlDeviceGetMemoryInfo_impl V t device) ;;
        let total_mem := if result =? NVML_SUCCESS then u64 (total memory) else 0 in
        let used_mem := if result =? NVML_SUCCESS then u64 (used memory) else 0 in
        let free_mem := if result =? NVML_SUCCESS then u64 (free memory) else 0 in
        wrote <- callg "nvmlDeviceGetTemperature" nvmlDeviceGetTemperature
                       (fun t => nvmlDeviceGetTemperature_impl V t device) ;;
        let temperature := match wrote with Some v => u32 v | None => 0 end in
        wrote <- callg "nvmlDeviceGetPowerUsage" nvmlDeviceGetPowerUsage
                       (fun t => nvmlDeviceGetPowerUsage_impl V t device) ;;
        let power := match wrote with Some v => u32 v | None => 0 end in
        ret ((if i >? 0 then [Comma] else [])
             ++ [Obj (mkRecord i name gpu_util mem_util total_mem used_mem free_mem
                               (inject_Z temperature) (milli power))]).

    (** [None] is the NULL return; [Some doc] is the text between the
        brackets of [{"gpus":[ ... ]}]. *)
Definition gpu_get_info_json : M globals (option (list token)) :=
      '(result, device_count) <-
        callg "nvmlDeviceGetCount" nvmlDeviceGetCount (nvmlDeviceGetCount_impl V) ;;
      if negb (result =? NVML_SUCCESS) then ret None
      else
        let device_count := u32 device_count in
        json_buffer <- malloc O (u32 (1024 + u32 (device_count * 512))) ;;
        if negb json_buffer then ret None
        else
          doc <- for_loop (Z.to_nat device_count) 0 device_json ;;
          ret (Some doc).

Definition gpu_get_usage : M globals Z :=
      '(result, device) <-
        callg "nvmlDeviceGetHandleByIndex" nvmlDeviceGetHandleByIndex
              (fun t => nvmlDeviceGetHandleByIndex_impl V t 0) ;;
      if negb (result =? NVML_SUCCESS) then ret (-1)
      else
        '(result, utilization) <-
          callg "nvmlDeviceGetUtilizationRates" nvmlDeviceGetUtilizationRates
                (fun t => nvmlDeviceGetUtilizationRates_impl V t device) ;;
        if negb (result =? NVML_SUCCESS) then ret (-1)
        else ret (to_int (u32 (gpu utilization))).
End Code.

End Nvidia.

(* ===================================================================== *)
(** ** The performance-counter fallback (amd/ and intel/ carry the same
       code, with different counter paths) *)

Record pdh_globals : Type := mkPdh {
  query_handle : option PDH_HQUERY;
  gpu_util_counter : option PDH_HCOUNTER;
  gpu_memory_counter : option PDH_HCOUNTER;
  perf_counters_initialized : bool
}.

Definition pdh0 : pdh_globals := mkPdh None None None false.

Definition set_query_handle v p :=
  mkPdh v (gpu_util_counter p) (gpu_memory_counter p) (perf_counters_initialized p).
Definition set_gpu_util_counter v p :=
  mkPdh (query_handle p) v (gpu_memory_counter p) (perf_counters_initialized p).
Definition set_gpu_memory_counter v p :=
  mkPdh (query_handle p) (gpu_util_counter p) v (perf_counters_initialized p).
Definition set_perf_counters_initialized v p :=
  mkPdh (query_handle p) (gpu_util_counter p) (gpu_memory_counter p) v.

Section PerfCounters.
Context {G : Type}.
Variable O : OS.
  (** Where the four counter globals live inside the file's globals. *)
Variable pdh : G -> pdh_globals.
Variable with_pdh : pdh_globals -> G -> G.
Variable gpu_counter_paths : list string.
Variable memory_counter_paths : list string.

Definition upd (f : pdh_globals -> pdh_globals) : M G unit :=
    write (fun g => with_pdh (f (pdh g)) g).

  (** [PdhOpenQueryA(NULL, 0, &query_handle)]: [Some q] is ERROR_SUCCESS
      with [q] stored in [query_handle]; a failure leaves it untouched. *)
Definition PdhOpenQueryA : M G (option PDH_HQUERY) :=
    fun g w =>
      let r := os_PdhOpenQueryA O (now w) in
      match r with
      | Some q => Done r (with_pdh (set_query_handle (Some q) (pdh g)) g)
                       (mkWorld (EvPdhOpenQueryA r :: trace w) (modules w) (q :: queries w))
      | None => Done r g (log (EvPdhOpenQueryA r) w)
      end.

Definition PdhAddCounterA (q : PDH_HQUERY) (path : string) : M G (option PDH_HCOUNTER) :=
    fun g w =>
      let r := os_PdhAddCounterA O (now w) q path in
      Done r g (log (EvPdhAddCounterA q path r) w).

Definition PdhCollectQueryData (q : PDH_HQUERY) : M G bool :=
    fun g w =>
      let r := os_PdhCollectQueryData O (now w) q in
      Done r g (log (EvPdhCollectQueryData q r) w).

Definition PdhGetFormattedCounterValue {R}
      (impl : nat -> PDH_HCOUNTER -> option R) (c : PDH_HCOUNTER) : M G (option R) :=
    fun g w => Done (impl (now w) c) g (log (EvPdhGetFormattedCounterValue c) w).

Definition PdhCloseQuery (q : PDH_HQUERY) : M G unit :=
    fun g w =>
      if held q (queries w)
      then Done tt g (mkWorld (EvPdhCloseQuery q :: trace w) (modules w)
                              (remove_one q (queries w)))
      else Fault (InvalidClose q).

Definition Sleep (ms : Z) : M G unit := emit (EvSleep ms).

  (** [for (i...) { status = PdhAddCounterA(q, paths[i], 0, &counter);
                    if (status == ERROR_SUCCESS) { ...; break; } }]
      The result tells whether a path registered. *)
Fixpoint add_first_counter (q : PDH_HQUERY)
      (set : option PDH_HCOUNTER -> pdh_globals -> pdh_globals)
      (paths : list string) : M G bool :=
    match paths with
    | [] => ret false
    | p :: rest =>
        r <- PdhAddCounterA q p ;;
        match r with
        | Some c => upd (set (Some c)) ;; ret true
        | None => add_first_counter q set rest
        end
    end.

Definition init_performance_counters : M G Z :=
    status <- PdhOpenQueryA ;;
    match status with
    | None => ret (-1)
    | Some q =>      (* [q] is now [query_handle] *)
        found_counter <- add_first_counter q set_gpu_util_counter gpu_counter_paths ;;
        add_first_counter q set_gpu_memory_counter memory_counter_paths ;;
        if negb found_counter
        then PdhCloseQuery q ;; upd (set_query_handle None) ;; ret (-2)
        else
          PdhCollectQueryData q ;;
          Sleep 100 ;;
          upd (set_perf_counters_initialized true) ;;
          ret 0
    end.

Definition cleanup_performance_counters : M G unit :=
    qh <- read (fun g => query_handle (pdh g)) ;;
    match qh with
    | Some q => PdhCloseQuery q ;; upd (set_query_handle None)
    | None => ret tt
    end ;;
    upd (set_perf_counters_initialized false).

Definition get_gpu_utilization_perf_counter : M G Z :=
    p <- read pdh ;;
    match perf_counters_initialized p, query_handle p with
    | true, Some q =>
        ok <- PdhCollectQueryData q ;;
        if negb ok then ret (-1)
        else
          match gpu_util_counter p with
          | Some c =>
              v <- PdhGetFormattedCounterValue (os_PdhGetFormattedCounterValue_double O) c ;;
              match v with
              | Some doubleValue => ret (int_of_float doubleValue)
              | None => ret 0
              end
          | None => ret 0
          end
    | _, _ => ret (-1)
    end.

Definition get_gpu_memory_perf_counter : M G Z :=
    p <- read pdh ;;
    match perf_counters_initialized p, query_handle p with
    | true, Some _ =>
        match gpu_memory_counter p with
        | Some c =>
            v <- PdhGetFormattedCounterValue (os_PdhGetFormattedCounterValue_large O) c ;;
            match v with
            | Some largeValue => ret (u64 largeValue)
            | None => ret 0
            end
        | None => ret 0
        end
    | _, _ => ret 0
    end.

  (** The registry fallback for the adapter name: the buffer keeps its
      preset text unless the key opens and the value query fills it. *)
Definition registry_name (preset : string) : M G string :=
    fun g w =>
      let r := match os_DriverDesc O (now w) with
               | Some (Some s) => s
               | _ => preset
               end in
      Done r g (log EvRegistry w).
End PerfCounters.

(* ===================================================================== *)
(** ** amd/gpu_usage.c *)

Module Amd.

Definition AGS_SUCCESS : Z := 0.
Definition AGSContext := nat.

  (** [AGSDeviceInfo], the two members the file reads. *)
Record AGSDeviceInfo : Type := mkDevice {
    adapterString : string;
    localMemoryInBytes : Z
  }.

  (** [AGSGPUUsage], the members the file reads. *)
Record AGSGPUUsage : Type := mkUsage {
    gpuUsagePercent : Q;
    memoryUsedInBytes : Z;
    temperatureInC : Q;
    powerUsageInWatts : Q
  }.

  (** [devices] is a pointer into vendor memory: [devices i] is whatever
      is found at [devices[i]]. *)
Record AGSGPUInfo : Type := mkInfo {
    numDevices : Z;
    devices : Z -> AGSDeviceInfo
  }.

  (** What the AGS entry points answer.  [agsInitialize] receives the
      current contents of its two out-parameters and answers the return
      code and their contents after the call. *)
Record AGS : Type := mkAGS {
    agsInitialize_impl :
      nat -> option AGSContext -> AGSGPUInfo -> Z * option AGSContext * AGSGPUInfo;
    agsDeInitialize_impl : nat -> AGSContext -> Z;
    agsGetGPUMemoryUsage_impl : nat -> option AGSContext -> Z -> Z * AGSGPUUsage
  }.

Record globals : Type := mkGlobals {
    ags_lib : option HMODULE;
    agsInitialize : fnptr;
    agsDeInitialize : fnptr;
    agsGetGPUMemoryUsage : fnptr;
    agsGetVersionNumber : fnptr;
    ags_context : option AGSContext;
    gpu_info : AGSGPUInfo;
    ags_initialized : bool;
    pdh : pdh_globals
  }.

Definition globals0 : globals :=
    mkGlobals None None None None None None
              (mkInfo 0 (fun _ => mkDevice "" 0)) false pdh0.

Definition set_ags_lib v g :=
    mkGlobals v (agsInitialize g) (agsDeInitialize g) (agsGetGPUMemoryUsage g)
      (agsGetVersionNumber g) (ags_context g) (gpu_info g) (ags_initialized g) (pdh g).
Definition set_agsInitialize v g :=
    mkGlobals (ags_lib g) v (agsDeInitialize g) (agsGetGPUMemoryUsage g)
      (agsGetVersionNumber g) (ags_context g) (gpu_info g) (ags_initialized g) (pdh g).
Definition set_agsDeInitialize v g :=
    mkGlobals (ags_lib g) (agsInitialize g) v (agsGetGPUMemoryUsage g)
      (agsGetVersionNumber g) (ags_context g) (gpu_info g) (ags_initialized g) (pdh g).
Definition set_agsGetGPUMemoryUsage v g :=
    mkGlobals (ags_lib g) (agsInitialize g) (agsDeInitialize g) v
      (agsGetVersionNumber g) (ags_context g) (gpu_info g) (ags_initialized g) (pdh g).
Definition set_agsGetVersionNumber v g :=
    mkGlobals (ags_lib g) (agsInitialize g) (agsDeInitialize g) (agsGetGPUMemoryUsage g)
      v (ags_context g) (gpu_info g) (ags_initialized g) (pdh g).
Definition set_ags_context v g :=
    mkGlobals (ags_lib g) (agsInitialize g) (agsDeInitialize g) (agsGetGPUMemoryUsage g)
      (agsGetVersionNumber g) v (gpu_info g) (ags_initialized g) (pdh g).
Definition set_gpu_info v g :=
    mkGlobals (ags_lib g) (agsInitialize g) (agsDeInitialize g) (agsGetGPUMemoryUsage g)
      (agsGetVersionNumber g) (ags_context g) v (ags_initialized g) (pdh g).
Definition set_ags_initialized v g :=
    mkGlobals (ags_lib g) (agsInitialize g) (agsDeInitialize g) (agsGetGPUMemoryUsage g)
      (agsGetVersionNumber g) (ags_context g) (gpu_info g) v (pdh g).
Definition set_pdh v g :=
    mkGlobals (ags_lib g) (agsInitialize g) (agsDeInitialize g) (agsGetGPUMemoryUsage g)
      (agsGetVersionNumber g) (ags_context g) (gpu_info g) (ags_initialized g) v.

Definition possible_paths : list string :=
    [ "C:\Program Files\AMD\ags_lib\lib\amd_ags_x64.dll";
      "C:\Program Files (x86)\AMD\ags_lib\lib\amd_ags_x86.dll";
      "C:\Windows\System32\amd_ags_x64.dll";
      "C:\Windows\SysWOW64\amd_ags_x86.dll";
      "amd_ags_x64.dll";
      "amd_ags_x86.dll" ].

Definition gpu_counter_paths : list string :=
    [ "\GPU Engine(*)\Utilization Percentage";
      "\AMD Graphics\GPU Utilization";
      "\GPU Process Memory(*)\Dedicated Usage";
      "\GPU Engine(engtype_3D)\Utilization Percentage" ].

Definition memory_counter_paths : list string :=
    [ "\GPU Process Memory(*)\Dedicated Usage";
      "\GPU Process Memory(*)\Shared Usage";
      "\AMD Graphics\Memory Usage" ].

Section Code.
Variable O : OS.
Variable V : AGS.

Definition resolve (h : HMODULE) (sym : string) (set : fnptr -> globals -> globals)
      : M globals unit :=
      p <- GetProcAddress O h sym ;; write (set p).

(** The block "Load function pointers" of [load_ags]. *)
Definition resolve_symbols (h : HMODULE) : M globals unit :=
      resolve h "agsInitialize" set_agsInitialize ;;
      resolve h "agsDeInitialize" set_agsDeInitialize ;;
      resolve h "agsGetGPUMemoryUsage" set_agsGetGPUMemoryUsage ;;
      resolve h "agsGetVersionNumber" set_agsGetVersionNumber.

Definition load_ags : M globals Z :=
      load_first O set_ags_lib possible_paths ;;
      lib <- read ags_lib ;;
      match lib with
      | None => ret (-1)
      | Some h =>
          resolve_symbols h ;;
          g <- read id ;;
          if is_null (agsInitialize g) || is_null (agsDeInitialize g)
          then FreeLibrary h ;; write (set_ags_lib None) ;; ret (-2)
          else ret 0
      end.

Definition init_performance_counters : M globals Z :=
      init_performance_counters O pdh set_pdh gpu_counter_paths memory_counter_paths.

Definition unload_ags : M globals unit :=
      g <- read id ;;
      match ags_initialized g, ags_context g, agsDeInitialize g with
      | true, Some ctx, Some _ =>
          callg "agsDeInitialize" agsDeInitialize (fun t => agsDeInitialize_impl V t ctx) ;;
          write (set_ags_context None) ;;
          write (set_ags_initialized false)
      | _, _, _ => ret tt
      end ;;
      lib <- read ags_lib ;;
      match lib with
      | Some h => FreeLibrary h ;; write (set_ags_lib None)
      | None => ret tt
      end.

Definition cleanup_performance_counters : M globals unit :=
      cleanup_performance_counters pdh set_pdh.

Definition get_gpu_utilization_perf_counter : M globals Z :=
      get_gpu_utilization_perf_counter O pdh.

Definition get_gpu_memory_perf_counter : M globals Z :=
      get_gpu_memory_perf_counter O pdh.

    (** [agsGetGPUMemoryUsage(ags_context, device_index, &usage)] *)
Definition usage_query (device_index : Z) : M globals (Z * AGSGPUUsage) :=
      ctx <- read ags_context ;;
      callg "agsGetGPUMemoryUsage" agsGetGPUMemoryUsage
            (fun t => agsGetGPUMemoryUsage_impl V t ctx device_index).

    (** The vendor half of [gpu_init]: [true] when the early [return 0]
        is taken. *)
Definition try_ags : M globals bool :=
      r <- load_ags ;;
      if r =? 0
      then
        g <- read id ;;
        if non_null (agsInitialize g)
        then
          '(rc, ctx, info) <-
            callg "agsInitialize" agsInitialize
                  (fun t => agsInitialize_impl V t (ags_context g) (gpu_info g)) ;;
          write (set_ags_context ctx) ;;
          write (set_gpu_info info) ;;
          if rc =? AGS_SUCCESS
          then
            write (set_ags_initialized true) ;;
            printf "AMD AGS API initialized successfully" ;;
            ret true
          else ret false
        else ret false
      else ret false.

Definition gpu_init : M globals Z :=
      vendor <- try_ags ;;
      if vendor then ret 0
      else
        r <- init_performance_counters ;;
        if r =? 0
        then printf "Performance counters initialized successfully" ;; ret 0
        else ret (-1).

Definition gpu_shutdown : M globals unit :=
      unload_ags ;;
      cleanup_performance_counters.

Definition gpu_get_count : M globals Z :=
      g <- read id ;;
      if ags_initialized g then ret (numDevices (gpu_info g))
      else ret 1.

Definition get_gpu_utilization (device_index : Z) : M globals Z :=
      g <- read id ;;
      if ags_initialized g && non_null (agsGetGPUMemoryUsage g)
      then
        '(rc, usage) <- usage_query device_index ;;
        if rc =? AGS_SUCCESS then ret (int_of_float (gpuUsagePercent usage))
        else get_gpu_utilization_perf_counter
      else get_gpu_utilization_perf_counter.

Definition get_gpu_memory_usage (device_index : Z) : M globals Z :=
      g <- read id ;;
      if ags_initialized g && non_null (agsGetGPUMemoryUsage g)
      then
        '(rc, usage) <- usage_query device_index ;;
        if rc =? AGS_SUCCESS then ret (u64 (memoryUsedInBytes usage))
        else get_gpu_memory_perf_counter
      else get_gpu_memory_perf_counter.

    (** The object written for device [i], from the values gathered. *)
Definition make_record (i : Z) (gpu_name : string) (gpu_util total_mem used_mem : Z)
        (temperature power_usage : Q) : gpu_record :=
      let free_mem := if total_mem >? used_mem then total_mem - used_mem else 0 in
      mkRecord i gpu_name
               (if gpu_util >=? 0 then gpu_util else 0)
               (if total_mem >? 0 then to_int (u64 (used_mem * 100) / total_mem) else 0)
               total_mem used_mem free_mem temperature power_usage.

    (** One iteration of the device loop of [gpu_get_info_json]. *)
Definition device_json (i : Z) : M globals (list token) :=
      used_mem <- get_gpu_memory_usage i ;;
      gpu_util <- get_gpu_utilization i ;;
      g <- read id ;;
      '(gpu_name, total_mem, temperature, power_usage) <-
        (if ags_initialized g && (i <? numDevices (gpu_info g))
         then
           let gpu_name := strncpy255 (adapterString (devices (gpu_info g) i)) in
           let total_mem := u64 (localMemoryInBytes (devices (gpu_info g) i)) in
           if non_null (agsGetGPUMemoryUsage g)
           then
             '(rc, usage) <- usage_query i ;;
             if rc =? AGS_SUCCESS
             then ret (gpu_name, total_mem, temperatureInC usage, powerUsageInWatts usage)
             else ret (gpu_name, total_mem, 0%Q, 0%Q)
           else ret (gpu_name, total_mem, 0%Q, 0%Q)
         else
           gpu_name <- registry_name O "AMD Graphics Card" ;;
           ret (gpu_name, 8 * 1024 * 1024 * 1024, 0%Q, 0%Q)) ;;
      ret ((if i >? 0 then [Comma] else [])
           ++ [Obj (make_record i gpu_name gpu_util total_mem used_mem
                                temperature power_usage)]).

Definition gpu_get_info_json : M globals (option (list token)) :=
      device_count <- gpu_get_count ;;
      if device_count <=? 0 then ret None
      else
        json_buffer <- malloc O (1024 + device_count * 1024) ;;
        if negb json_buffer then ret None
        else
          doc <- for_loop (Z.to_nat device_count) 0 device_json ;;
          ret (Some doc).

Definition gpu_get_usage : M globals Z := get_gpu_utilization 0.
End Code.

End Amd.

(* ===================================================================== *)
(** ** intel/gpu_usage.c *)

Module Intel.

Definition IGCL_SUCCESS : Z := 0.

  (** [igcl_device_info_t], the members the file reads. *)
Record igcl_device_info_t : Type := mkDeviceInfo {
    device_name : string;
    total_memory : Z
  }.

  (** [igcl_device_stats_t], the members the file reads. *)
Record igcl_device_stats_t : Type := mkStats {
    stats_gpu_utilization : Z;
    stats_memory_used : Z;
    stats_temperature : Z;
    stats_power_usage : Z
  }.

Record IGCL : Type := mkIGCL {
    igcl_init_impl : nat -> Z;
    igcl_shutdown_impl : nat -> Z;
    igcl_get_device_count_impl : nat -> Z * Z;
    igcl_get_device_info_impl : nat -> Z -> Z * igcl_device_info_t;
    igcl_get_device_stats_impl : nat -> Z -> Z * igcl_device_stats_t
  }.

Record globals : Type := mkGlobals {
    igcl_lib : option HMODULE;
    igcl_init : fnptr;
    igcl_shutdown : fnptr;
    igcl_get_device_count : fnptr;
    igcl_get_device_info : fnptr;
    igcl_get_device_stats : fnptr;
    igcl_initialized : bool;
    pdh : pdh_globals
  }.

Definition globals0 : globals :=
    mkGlobals None None None None None None false pdh0.

Definition set_igcl_lib v g :=
    mkGlobals v (igcl_init g) (igcl_shutdown g) (igcl_get_device_count g)
      (igcl_get_device_info g) (igcl_get_device_stats g) (igcl_initialized g) (pdh g).
Definition set_igcl_init v g :=
    mkGlobals (igcl_lib g) v (igcl_shutdown g) (igcl_get_device_count g)
      (igcl_get_device_info g) (igcl_get_device_stats g) (igcl_initialized g) (pdh g).
Definition set_igcl_shutdown v g :=
    mkGlobals (igcl_lib g) (igcl_init g) v (igcl_get_device_count g)
      (igcl_get_device_info g) (igcl_get_device_stats g) (igcl_initialized g) (pdh g).
Definition set_igcl_get_device_count v g :=
    mkGlobals (igcl_lib g) (igcl_init g) (igcl_shutdown g) v
      (igcl_get_device_info g) (igcl_get_device_stats g) (igcl_initialized g) (pdh g).
Definition set_igcl_get_device_info v g :=
    mkGlobals (igcl_lib g) (igcl_init g) (igcl_shutdown g) (igcl_get_device_count g)
      v (igcl_get_device_stats g) (igcl_initialized g) (pdh g).
Definition set_igcl_get_device_stats v g :=
    mkGlobals (igcl_lib g) (igcl_init g) (igcl_shutdown g) (igcl_get_device_count g)
      (igcl_get_device_info g) v (igcl_initialized g) (pdh g).
Definition set_igcl_initialized v g :=
    mkGlobals (igcl_lib g) (igcl_init g) (igcl_shutdown g) (igcl_get_device_count g)
      (igcl_get_device_info g) (igcl_get_device_stats g) v (pdh g).
Definition set_pdh v g :=
    mkGlobals (igcl_lib g) (igcl_init g) (igcl_shutdown g) (igcl_get_device_count g)
      (igcl_get_device_info g) (igcl_get_device_stats g) (igcl_initialized g) v.

Definition possible_paths : list string :=
    [ "C:\Windows\System32\igcl64.dll";
      "C:\Windows\SysWOW64\igcl32.dll";
      "C:\Program Files\Intel\Intel(R) Graphics\igcl64.dll";
      "C:\Program Files (x86)\Intel\Intel(R) Graphics\igcl32.dll";
      "igcl64.dll";
      "igcl32.dll" ].

Definition gpu_counter_paths : list string :=
    [ "\GPU Engine(*)\Utilization Percentage";
      "\Intel(R) Graphics\GPU Utilization";
      "\GPU Process Memory(*)\Shared Usage";
      "\GPU Engine(engtype_3D)\Utilization Percentage" ].

Definition memory_counter_paths : list string :=
    [ "\GPU Process Memory(*)\Dedicated Usage";
      "\GPU Process Memory(*)\Shared Usage";
      "\Intel(R) Graphics\Memory Usage" ].

Section Code.
Variable O : OS.
Variable V : IGCL.

Definition resolve (h : HMODULE) (sym : string) (set : fnptr -> globals -> globals)
      : M globals unit :=
      p <- GetProcAddress O h sym ;; write (set p).

(** The block "Load function pointers" of [load_igcl]. *)
Definition resolve_symbols (h : HMODULE) : M globals unit :=
      resolve h "igcl_init" set_igcl_init ;;
      resolve h "igcl_shutdown" set_igcl_shutdown ;;
      resolve h "igcl_get_device_count" set_igcl_get_device_count ;;
      resolve h "igcl_get_device_info" set_igcl_get_device_info ;;
      resolve h "igcl_get_device_stats" set_igcl_get_device_stats.

Definition load_igcl : M globals Z :=
      load_first O set_igcl_lib possible_paths ;;
      lib <- read igcl_lib ;;
      match lib with
      | None => ret (-1)
      | Some h =>
          resolve_symbols h ;;
          g <- read id ;;
          if is_null (igcl_init g) || is_null (igcl_shutdown g)
             || is_null (igcl_get_device_count g)
             || is_null (igcl_get_device_info g) || is_null (igcl_get_device_stats g)
          then FreeLibrary h ;; write (set_igcl_lib None) ;; ret (-2)
          else ret 0
      end.

Definition init_performance_counters : M globals Z :=
      init_performance_counters O pdh set_pdh gpu_counter_paths memory_counter_paths.

Definition unload_igcl : M globals unit :=
      g <- read id ;;
      (if igcl_initialized g && non_null (igcl_shutdown g)
       then
         callg "igcl_shutdown" igcl_shutdown (igcl_shutdown_impl V) ;;
         write (set_igcl_initialized false)
       else ret tt) ;;
      lib <- read igcl_lib ;;
      match lib with
      | Some h => FreeLibrary h ;; write (set_igcl_lib None)
      | None => ret tt
      end.

Definition cleanup_performance_counters : M globals unit :=
      cleanup_performance_counters pdh set_pdh.

Definition get_gpu_utilization_perf_counter : M globals Z :=
      get_gpu_utilization_perf_counter O pdh.

Definition get_gpu_memory_perf_counter : M globals Z :=
      get_gpu_memory_perf_counter O pdh.

    (** The vendor half of [gpu_init]: [true] when the early [return 0]
        is taken. *)
Definition try_igcl : M globals bool :=
      r <- load_igcl ;;
      if r =? 0
      then
        g <- read id ;;
        if non_null (igcl_init g)
        then
          rc <- callg "igcl_init" igcl_init (igcl_init_impl V) ;;
          if rc =? IGCL_SUCCESS
          then
            write (set_igcl_initialized true) ;;
            printf "Intel IGCL API initialized successfully" ;;
            ret true
          else ret false
        else ret false
      else ret false.

Definition gpu_init : M globals Z :=
      vendor <- try_igcl ;;
      if vendor then ret 0
      else
        r <- init_performance_counters ;;
        if r =? 0
        then printf "Performance counters initialized successfully" ;; ret 0
        else ret (-1).

Definition gpu_shutdown : M globals unit :=
      unload_igcl ;;
      cleanup_performance_counters.

Definition gpu_get_count : M globals Z :=
      g <- read id ;;
      if igcl_initialized g && non_null (igcl_get_device_count g)
      then
        '(rc, count) <-
          callg "igcl_get_device_count" igcl_get_device_count
                (igcl_get_device_count_impl V) ;;
        if rc =? IGCL_SUCCESS then ret (to_int (u32 count))
        else ret 1
      else ret 1.

    (** [igcl_get_device_stats(0, &stats)] *)
Definition stats_query : M globals (Z * igcl_device_stats_t) :=
      callg "igcl_get_device_stats" igcl_get_device_stats
            (fun t => igcl_get_device_stats_impl V t 0).

    (** [igcl_get_device_info(0, &info)] *)
Definition info_query : M globals (Z * igcl_device_info_t) :=
      callg "igcl_get_device_info" igcl_get_device_info
            (fun t => igcl_get_device_info_impl V t 0).

Definition get_gpu_utilization : M globals Z :=
      g <- read id ;;
      if igcl_initialized g && non_null (igcl_get_device_stats g)
      then
        '(rc, stats) <- stats_query ;;
        if rc =? IGCL_SUCCESS then ret (to_int (u32 (stats_gpu_utilization stats)))
        else get_gpu_utilization_perf_counter
      else get_gpu_utilization_perf_counter.

Definition get_gpu_memory_usage : M globals Z :=
      g <- read id ;;
      if igcl_initialized g && non_null (igcl_get_device_stats g)
      then
        '(rc, stats) <- stats_query ;;
        if rc =? IGCL_SUCCESS then ret (u64 (stats_memory_used stats))
        else get_gpu_memory_perf_counter
      else get_gpu_memory_perf_counter.

    (** [GlobalMemoryStatusEx(&mem_status); mem_status.ullTotalPhys / 8] *)
Definition system_memory_estimate : M globals Z :=
      fun g w => Done (u64 (os_ullTotalPhys O (now w)) / 8) g (log EvGlobalMemoryStatusEx w).

Definition get_gpu_total_memory : M globals Z :=
      g <- read id ;;
      if igcl_initialized g && non_null (igcl_get_device_info g)
      then
        '(rc, info) <- info_query ;;
        if rc =? IGCL_SUCCESS then ret (u64 (total_memory info))
        else system_memory_estimate
      else system_memory_estimate.

    (** The single object written, from the values gathered. *)
Definition make_record (gpu_name : string) (gpu_util total_mem memory_used : Z)
        (temperature : Z) (power_usage : Q) : gpu_record :=
      let free_mem := u64 (total_mem - memory_used) in
      mkRecord 0 gpu_name
               (if gpu_util >=? 0 then gpu_util else 0)
               (if total_mem >? 0 then to_int (u64 (memory_used * 100) / total_mem) else 0)
               total_mem memory_used free_mem (inject_Z temperature) power_usage.

Definition gpu_get_info_json : M globals (option (list token)) :=
      json_buffer <- malloc O 1024 ;;
      if negb json_buffer then ret None
      else
        gpu_util <- get_gpu_utilization ;;
        memory_used <- get_gpu_memory_usage ;;
        total_mem <- get_gpu_total_memory ;;
        g <- read id ;;
        gpu_name <-
          (if igcl_initialized g && non_null (igcl_get_device_info g)
           then
             '(rc, info) <- info_query ;;
             if rc =? IGCL_SUCCESS then ret (strncpy255 (device_name info))
             else ret "Intel Integrated Graphics"
           else registry_name O "Intel Integrated Graphics") ;;
        '(temperature, power_usage) <-
          (if igcl_initialized g && non_null (igcl_get_device_stats g)
           then
             '(rc, stats) <- stats_query ;;
             if rc =? IGCL_SUCCESS
             then ret (u32 (stats_temperature stats), milli (u32 (stats_power_usage stats)))
             else ret (0, 0%Q)
           else ret (0, 0%Q)) ;;
        ret (Some [Obj (make_record gpu_name gpu_util total_mem memory_used
                                    temperature power_usage)]).

Definition gpu_get_usage : M globals Z := get_gpu_utilization.
End Code.

End Intel.

(* ===================================================================== *)
(** * Reasoning about computations *)

Lemma bind_Done {G A B} (m : M G A) (k : A -> M G B) g w b g2 w2 :
  bind m k g w = Done b g2 w2 ->
  exists a g1 w1, m g w = Done a g1 w1 /\ k a g1 w1 = Done b g2 w2.
Proof.
  unfold bind. destruct (m g w) as [a g1 w1 | f]; [ | discriminate ].
  intros H. exists a, g1, w1. split; [ reflexivity | exact H ].
Qed.

Lemma bind_eq {G A B} (m : M G A) (k : A -> M G B) g w a g1 w1 :
  m g w = Done a g1 w1 -> bind m k g w = k a g1 w1.
Proof. unfold bind. intros ->. reflexivity. Qed.

Lemma bind_Fault {G A B} (m : M G A) (k : A -> M G B) g w f :
  m g w = Fault f -> bind m k g w = Fault f.
Proof. unfold bind. intros ->. reflexivity. Qed.

Lemma records_app (a b : list token) : records (a ++ b) = records a ++ records b.
Proof.
  induction a as [ | [ | r ] a IH ]; simpl; [ reflexivity | exact IH | now rewrite IH ].
Qed.

Lemma held_cons_same h l : held h (h :: l) = true.
Proof. unfold held. simpl. now rewrite Nat.eqb_refl. Qed.

Lemma remove_one_cons_same h l : remove_one h (h :: l) = l.
Proof. simpl. now rewrite Nat.eqb_refl. Qed.

(** What the iterations of a [for_loop] appended: iteration [i + k]
    contributed a chunk satisfying [Qb (i + k)]. *)
Inductive loop_out (Qb : Z -> list token -> Prop) : nat -> Z -> list token -> Prop :=
| loop_out_nil : forall i, loop_out Qb O i []
| loop_out_cons : forall n i out rest,
    Qb i out -> loop_out Qb n (i + 1) rest -> loop_out Qb (S n) i (out ++ rest).

(** ** Read-only computations

    [runs P bad ok g Q m]: started with globals [g] in any world whose
    loaded modules satisfy [P], [m] either stops on a fault in [bad], or
    returns a value satisfying [Q], leaves the globals, the loaded modules
    and the open queries as they were, and adds only [ok] events to the
    trace.  With [bad := fun _ => False] this is total correctness. *)
Section Runs.
Context {G : Type}.
Variable P : list HMODULE -> Prop.
Variable bad : fault -> Prop.
Variable ok : event -> bool.
Variable g : G.

Definition extends (w w' : world) : Prop :=
    modules w' = modules w /\ queries w' = queries w /\
    exists evs, trace w' = evs ++ trace w /\ forallb ok evs = true.

Definition runs {A} (Q : A -> Prop) (m : M G A) : Prop :=
    forall w, P (modules w) ->
      match m g w with
      | Done a g' w' => Q a /\ g' = g /\ extends w w'
      | Fault f => bad f
      end.

Lemma extends_refl w : extends w w.
Proof. repeat split. exists []. split; reflexivity. Qed.

Lemma extends_trans w1 w2 w3 : extends w1 w2 -> extends w2 w3 -> extends w1 w3.
Proof.
    intros (Hm1 & Hq1 & e1 & Ht1 & Ho1) (Hm2 & Hq2 & e2 & Ht2 & Ho2).
    repeat split; try congruence.
    exists (e2 ++ e1). split.
    - rewrite Ht2, Ht1. now rewrite app_assoc.
    - rewrite forallb_app, Ho1, Ho2. reflexivity.
Qed.

Lemma extends_log e w : ok e = true -> extends w (log e w).
Proof.
    intros H. repeat split. exists [e]. split; [ reflexivity | ].
    simpl. now rewrite H.
Qed.

Lemma runs_ret {A} (Q : A -> Prop) a : Q a -> runs Q (ret a).
Proof.
    intros H w _. simpl. split; [ exact H | ]. split; [ reflexivity | ].
    apply extends_refl.
Qed.

Lemma runs_bind {A B} (Q1 : A -> Prop) (Q2 : B -> Prop) m k :
    runs Q1 m -> (forall a, Q1 a -> runs Q2 (k a)) -> runs Q2 (bind m k).
Proof.
    intros Hm Hk w Hw. unfold bind. specialize (Hm w Hw).
    destruct (m g w) as [a g1 w1 | f]; [ | exact Hm ].
    destruct Hm as (Ha & -> & Hext).
    assert (Hw1 : P (modules w1)) by (destruct Hext as (-> & _); exact Hw).
    specialize (Hk a Ha w1 Hw1).
    destruct (k a g w1) as [b g2 w2 | f]; [ | exact Hk ].
    destruct Hk as (Hb & -> & Hext2).
    split; [ exact Hb | ]. split; [ reflexivity | ].
    eapply extends_trans; eassumption.
Qed.

Lemma runs_weaken {A} (Q Q' : A -> Prop) m :
    runs Q m -> (forall a, Q a -> Q' a) -> runs Q' m.
Proof.
    intros Hm HQ w Hw. specialize (Hm w Hw).
    destruct (m g w); [ | exact Hm ]. destruct Hm as (? & ? & ?). auto.
Qed.

Lemma runs_read {A} (f : G -> A) : runs (fun a => a = f g) (read f).
Proof.
    intros w _. simpl. split; [ reflexivity | ]. split; [ reflexivity | ].
    apply extends_refl.
Qed.

(** A platform service that only answers and logs. *)
Lemma runs_step {A} (e : nat -> event) (v : nat -> A) (m : M G A) :
  (forall g w, m g w = Done (v (now w)) g (log (e (now w)) w)) ->
  (forall t, ok (e t) = true) -> runs (fun a => exists t, a = v t) m.
Proof.
  intros Hm He w _. rewrite Hm. split; [ eauto | ]. split; [ reflexivity | ].
  apply extends_log, He.
Qed.

(** A call through a pointer known to point into a loaded module. *)
Lemma runs_call_held {R} fn h (impl : nat -> R) :
    (forall ms, P ms -> held h ms = true) -> ok (EvCall fn h) = true ->
    runs (fun a => exists t, a = impl t) (call fn (Some h) impl).
Proof.
    intros Hh He w Hw. unfold call. rewrite (Hh _ Hw).
    split; [ eauto | ]. split; [ reflexivity | ]. now apply extends_log.
Qed.

  (** A call through any pointer, when faults are tolerated. *)
Lemma runs_call_any {R} fn p (impl : nat -> R) :
    (forall f, bad f) -> (forall h, ok (EvCall fn h) = true) ->
    runs (fun a => exists t, a = impl t) (call fn p impl).
Proof.
    intros Hb He w _. unfold call. destruct p as [h | ]; [ | apply Hb ].
    destruct (held h (modules w)); [ | apply Hb ].
    split; [ eauto | ]. split; [ reflexivity | ]. apply extends_log, He.
Qed.

(** A pointer through which a call is covered by [runs]: either faults
    are tolerated, or it points into a module known to be loaded. *)
Definition callable (p : fnptr) : Prop :=
  (forall f, bad f) \/ (exists h, p = Some h /\ forall ms, P ms -> held h ms = true).

Lemma runs_call {R} fn p (impl : nat -> R) :
  callable p -> (forall h, ok (EvCall fn h) = true) ->
  runs (fun a => exists t, a = impl t) (call fn p impl).
Proof.
  intros [Hb | (h & -> & Hh)] He.
  - now apply runs_call_any.
  - now apply runs_call_held.
Qed.

Lemma runs_callg {R} fn (sel : G -> fnptr) (impl : nat -> R) :
  callable (sel g) -> (forall h, ok (EvCall fn h) = true) ->
  runs (fun a => exists t, a = impl t) (callg fn sel impl).
Proof.
  intros Hc He. unfold callg.
  eapply runs_bind; [ apply runs_read | ].
  intros p ->. now apply runs_call.
Qed.

Lemma runs_malloc O size :
  (forall r, ok (EvMalloc r) = true) ->
  runs (fun a => exists t, a = os_malloc O t) (malloc O size).
Proof.
  intros He. apply (runs_step (fun t => EvMalloc (os_malloc O t))); [ reflexivity | ].
  intros t. apply He.
Qed.

Lemma runs_for_loop (Qb : Z -> list token -> Prop) body :
    (forall i, runs (Qb i) (body i)) ->
    forall n i, runs (loop_out Qb n i) (for_loop n i body).
Proof.
    intros Hb. induction n as [ | n IH ]; intros i; simpl.
    - apply runs_ret. constructor.
    - eapply runs_bind; [ apply Hb | ]. intros out Hout.
      eapply runs_bind; [ apply IH | ]. intros rest Hrest.
      apply runs_ret. now constructor.
Qed.
End Runs.

(* ===================================================================== *)
(** * Events of a query *)

(** Entry points that start or stop a vendor session. *)
Definition lifecycle_fn (fn : string) : bool :=
  existsb (String.eqb fn)
    [ "nvmlInit"; "nvmlShutdown"; "agsInitialize"; "agsDeInitialize";
      "igcl_init"; "igcl_shutdown" ].

(** What a query may do to the platform: sample.  Loading, resolving,
    freeing, starting or stopping a vendor session, opening or closing a
    counter query and registering counters are not sampling. *)
Definition sample_event (e : event) : bool :=
  match e with
  | EvCall fn _ => negb (lifecycle_fn fn)
  | EvPdhCollectQueryData _ _ | EvPdhGetFormattedCounterValue _
  | EvMalloc _ | EvRegistry | EvGlobalMemoryStatusEx => true
  | _ => false
  end.

(** Sampling without any call into a vendor library. *)
Definition counter_event (e : event) : bool :=
  match e with
  | EvCall _ _ => false
  | _ => sample_event e
  end.

(* ===================================================================== *)
(** * NVIDIA: what the queries return *)

Section NvidiaQueries.
Import Nvidia.
Variable O : OS.
Variable V : NVML.
Variable P : list HMODULE -> Prop.
Variable bad : fault -> Prop.
Variable g : globals.

Local Abbreviation runs' := (runs P bad sample_event g).
Local Abbreviation callable' := (callable P bad).

(** The two utilization fields of a record come from one answer of
    [nvmlDeviceGetUtilizationRates], or are 0 when it failed. *)
Definition nvidia_util_fields (r : gpu_record) : Prop :=
  exists t d,
    let rc := fst (nvmlDeviceGetUtilizationRates_impl V t d) in
    let u := snd (nvmlDeviceGetUtilizationRates_impl V t d) in
    gpu_utilization r = (if rc =? NVML_SUCCESS then u32 (gpu u) else 0) /\
    memory_utilization r = (if rc =? NVML_SUCCESS then u32 (memory u) else 0).

(** The three memory fields come from one answer of
    [nvmlDeviceGetMemoryInfo], or are 0 when it failed. *)
Definition nvidia_mem_fields (r : gpu_record) : Prop :=
  exists t d,
    let rc := fst (nvmlDeviceGetMemoryInfo_impl V t d) in
    let m := snd (nvmlDeviceGetMemoryInfo_impl V t d) in
    memory_total r = (if rc =? NVML_SUCCESS then u64 (total m) else 0) /\
    memory_used r = (if rc =? NVML_SUCCESS then u64 (used m) else 0) /\
    memory_free r = (if rc =? NVML_SUCCESS then u64 (free m) else 0).

(** What one iteration of the device loop appends. *)
Definition nvidia_device_out (i : Z) (out : list token) : Prop :=
  (out = [] /\
   exists t, fst (nvmlDeviceGetHandleByIndex_impl V t i) <> NVML_SUCCESS)
  \/
  (exists r,
     out = (if i >? 0 then [Comma] else []) ++ [Obj r] /\
     index r = i /\
     (exists t, fst (nvmlDeviceGetHandleByIndex_impl V t i) = NVML_SUCCESS) /\
     nvidia_util_fields r /\ nvidia_mem_fields r).

Lemma nvidia_device_json_runs i :
  callable' (nvmlDeviceGetHandleByIndex g) ->
  callable' (nvmlDeviceGetName g) ->
  callable' (nvmlDeviceGetUtilizationRates g) ->
  callable' (nvmlDeviceGetMemoryInfo g) ->
  callable' (nvmlDeviceGetTemperature g) ->
  callable' (nvmlDeviceGetPowerUsage g) ->
  runs' (nvidia_device_out i) (device_json V i).
Proof.
  intros H1 H2 H3 H4 H5 H6. unfold device_json.
  eapply runs_bind; [ apply runs_callg; [ exact H1 | reflexivity ] | ].
  intros [rc device] [t Ht]. simpl.
  destruct (rc =? NVML_SUCCESS) eqn:Hrc; simpl.
  2:{ apply runs_ret. left. split; [ reflexivity | ].
      exists t. rewrite <- Ht. simpl. now apply Z.eqb_neq. }
  eapply runs_bind; [ apply runs_callg; [ exact H2 | reflexivity ] | ].
  intros [rcn vname] _. simpl.
  eapply runs_bind; [ apply runs_callg; [ exact H3 | reflexivity ] | ].
  intros [rcu utilization] [tu Hu]. simpl.
  eapply runs_bind; [ apply runs_callg; [ exact H4 | reflexivity ] | ].
  intros [rcm memory] [tm Hm]. simpl.
  eapply runs_bind; [ apply runs_callg; [ exact H5 | reflexivity ] | ].
  intros wt _.
  eapply runs_bind; [ apply runs_callg; [ exact H6 | reflexivity ] | ].
  intros wp _.
  apply runs_ret. right. eexists. split; [ reflexivity | ].
  split; [ reflexivity | ]. split.
  { exists t. rewrite <- Ht. simpl. now apply Z.eqb_eq. }
  split.
  - exists tu, device. rewrite <- Hu. simpl. split; reflexivity.
  - exists tm, device. rewrite <- Hm. simpl. repeat split; reflexivity.
Qed.

(** What [gpu_get_info_json] returns. *)
Definition nvidia_info_out (res : option (list token)) : Prop :=
  match res with
  | None =>
      (exists t, fst (nvmlDeviceGetCount_impl V t) <> NVML_SUCCESS)
      \/ (exists t, os_malloc O t = false)
  | Some doc =>
      exists t,
        fst (nvmlDeviceGetCount_impl V t) = NVML_SUCCESS /\
        loop_out nvidia_device_out
                 (Z.to_nat (u32 (snd (nvmlDeviceGetCount_impl V t)))) 0 doc
  end.

Lemma nvidia_gpu_get_info_json_runs :
  callable' (nvmlDeviceGetCount g) ->
  callable' (nvmlDeviceGetHandleByIndex g) ->
  callable' (nvmlDeviceGetName g) ->
  callable' (nvmlDeviceGetUtilizationRates g) ->
  callable' (nvmlDeviceGetMemoryInfo g) ->
  callable' (nvmlDeviceGetTemperature g) ->
  callable' (nvmlDeviceGetPowerUsage g) ->
  runs' nvidia_info_out (gpu_get_info_json O V).
Proof.
  intros H0 H1 H2 H3 H4 H5 H6. unfold gpu_get_info_json.
  eapply runs_bind; [ apply runs_callg; [ exact H0 | reflexivity ] | ].
  intros [rc n] [t Ht]. simpl.
  destruct (rc =? NVML_SUCCESS) eqn:Hrc; simpl.
  2:{ apply runs_ret. left. exists t. rewrite <- Ht. simpl. now apply Z.eqb_neq. }
  eapply runs_bind; [ apply runs_malloc; reflexivity | ].
  intros b [tb Hb]. destruct b; simpl.
  2:{ apply runs_ret. right. exists tb. now rewrite <- Hb. }
  eapply runs_bind.
  { apply runs_for_loop. intros i. now apply nvidia_device_json_runs. }
  intros doc Hdoc. apply runs_ret. simpl. exists t. rewrite <- Ht. simpl.
  split; [ now apply Z.eqb_eq | exact Hdoc ].
Qed.

Lemma nvidia_gpu_get_count_runs :
  callable' (nvmlDeviceGetCount g) ->
  runs' (fun a => exists t,
           a = if fst (nvmlDeviceGetCount_impl V t) =? NVML_SUCCESS
               then to_int (u32 (snd (nvmlDeviceGetCount_impl V t))) else -1)
        (gpu_get_count V).
Proof.
  intros H0. unfold gpu_get_count.
  eapply runs_bind; [ apply runs_callg; [ exact H0 | reflexivity ] | ].
  intros [rc n] [t Ht]. simpl.
  destruct (rc =? NVML_SUCCESS) eqn:E; simpl; apply runs_ret;
    exists t; rewrite <- Ht; simpl; rewrite E; reflexivity.
Qed.

Lemma nvidia_gpu_get_usage_runs :
  callable' (nvmlDeviceGetHandleByIndex g) ->
  callable' (nvmlDeviceGetUtilizationRates g) ->
  runs' (fun a => a = -1 \/
                  exists t d, fst (nvmlDeviceGetUtilizationRates_impl V t d) = NVML_SUCCESS
                    /\ a = to_int (u32 (gpu (snd (nvmlDeviceGetUtilizationRates_impl V t d)))))
        (gpu_get_usage V).
Proof.
  intros H1 H3. unfold gpu_get_usage.
  eapply runs_bind; [ apply runs_callg; [ exact H1 | reflexivity ] | ].
  intros [rc device] _. simpl.
  destruct (rc =? NVML_SUCCESS); simpl; [ | apply runs_ret; now left ].
  eapply runs_bind; [ apply runs_callg; [ exact H3 | reflexivity ] | ].
  intros [rcu u] [t Ht]. simpl.
  destruct (rcu =? NVML_SUCCESS) eqn:E; simpl; apply runs_ret; [ right | now left ].
  exists t, device. rewrite <- Ht. simpl. split; [ now apply Z.eqb_eq | reflexivity ].
Qed.
End NvidiaQueries.

(* ===================================================================== *)
(** * The counter fallback: what the two readers return *)

Lemma u64_range z : 0 <= u64 z < 2 ^ 64.
Proof. unfold u64. apply Z.mod_pos_bound. reflexivity. Qed.

Lemma u32_range z : 0 <= u32 z < 2 ^ 32.
Proof. unfold u32. apply Z.mod_pos_bound. reflexivity. Qed.

Lemma u64_small z : 0 <= z < 2 ^ 64 -> u64 z = z.
Proof. intros H. unfold u64. now apply Z.mod_small. Qed.

Lemma to_int_small z : - 2 ^ 31 <= z < 2 ^ 31 -> to_int z = z.
Proof. intros H. unfold to_int. rewrite Z.mod_small; lia. Qed.

Section PerfCounterQueries.
Context {G : Type}.
Variable O : OS.
Variable pdh : G -> pdh_globals.
Variable P : list HMODULE -> Prop.
Variable bad : fault -> Prop.
Variable ok : event -> bool.
Variable g : G.
Hypothesis ok_counter : forall e, counter_event e = true -> ok e = true.

(** The fallback is usable: initialised, with a query handle. *)
Definition perf_ready : bool :=
  perf_counters_initialized (pdh g) && non_null (query_handle (pdh g)).

Definition perf_util_out (a : Z) : Prop :=
  a = -1 \/
  (perf_ready = true /\
   (a = 0 \/ exists t c q, os_PdhGetFormattedCounterValue_double O t c = Some q
                           /\ a = int_of_float q)).

Definition perf_mem_out (a : Z) : Prop :=
  a = 0 \/
  (perf_ready = true /\
   exists t c v, os_PdhGetFormattedCounterValue_large O t c = Some v /\ a = u64 v).

Lemma runs_PdhCollectQueryData q :
  runs P bad ok g (fun _ => True) (PdhCollectQueryData O q).
Proof.
  eapply runs_weaken.
  - apply (runs_step P bad ok g
             (fun t => EvPdhCollectQueryData q (os_PdhCollectQueryData O t q))
             (fun t => os_PdhCollectQueryData O t q)); [ reflexivity | ].
    intros t. now apply ok_counter.
  - trivial.
Qed.

Lemma runs_PdhGetFormattedCounterValue {R} (impl : nat -> PDH_HCOUNTER -> option R) c :
  runs P bad ok g (fun a => exists t, a = impl t c) (PdhGetFormattedCounterValue impl c).
Proof.
  apply (runs_step P bad ok g (fun _ => EvPdhGetFormattedCounterValue c)
                   (fun t => impl t c)); [ reflexivity | ].
  intros t. now apply ok_counter.
Qed.

Lemma runs_registry_name preset :
  runs P bad ok g (fun _ => True) (registry_name O preset).
Proof.
  eapply runs_weaken.
  - apply (runs_step P bad ok g (fun _ => EvRegistry)
             (fun t => match os_DriverDesc O t with
                       | Some (Some s) => s
                       | _ => preset
                       end)); [ reflexivity | ].
    intros t. now apply ok_counter.
  - trivial.
Qed.

Lemma get_gpu_utilization_perf_counter_runs :
  runs P bad ok g perf_util_out (get_gpu_utilization_perf_counter O pdh).
Proof.
  unfold get_gpu_utilization_perf_counter, perf_util_out, perf_ready.
  eapply runs_bind; [ apply runs_read | ]. intros p ->.
  destruct (perf_counters_initialized (pdh g)); [ | apply runs_ret; now left ].
  destruct (query_handle (pdh g)) as [q | ]; [ | apply runs_ret; now left ].
  eapply runs_bind; [ apply runs_PdhCollectQueryData | ].
  intros [ | ] _; simpl; [ | apply runs_ret; now left ].
  destruct (gpu_util_counter (pdh g)) as [c | ];
    [ | apply runs_ret; right; split; [ reflexivity | now left ] ].
  eapply runs_bind; [ apply runs_PdhGetFormattedCounterValue | ].
  intros [v | ] [t Ht]; apply runs_ret; right; (split; [ reflexivity | ]).
  - right. exists t, c, v. now split.
  - now left.
Qed.

Lemma get_gpu_memory_perf_counter_runs :
  runs P bad ok g perf_mem_out (get_gpu_memory_perf_counter O pdh).
Proof.
  unfold get_gpu_memory_perf_counter, perf_mem_out, perf_ready.
  eapply runs_bind; [ apply runs_read | ]. intros p ->.
  destruct (perf_counters_initialized (pdh g)); [ | apply runs_ret; now left ].
  destruct (query_handle (pdh g)) as [q | ]; [ | apply runs_ret; now left ].
  destruct (gpu_memory_counter (pdh g)) as [c | ]; [ | apply runs_ret; now left ].
  eapply runs_bind; [ apply runs_PdhGetFormattedCounterValue | ].
  intros [v | ] [t Ht]; apply runs_ret; [ right | now left ].
  split; [ reflexivity | ]. exists t, c, v. now split.
Qed.

Lemma perf_mem_out_range a : perf_mem_out a -> 0 <= a < 2 ^ 64.
Proof.
  intros [-> | (_ & t & c & v & _ & ->)]; [ split; [ lia | reflexivity ] | ].
  apply u64_range.
Qed.
End PerfCounterQueries.

(* ===================================================================== *)
(** * AMD: what the queries return *)

Section AmdQueries.
Import Amd.
Variable O : OS.
Variable V : AGS.
Variable P : list HMODULE -> Prop.
Variable bad : fault -> Prop.
Variable ok : event -> bool.
Variable g : globals.
Hypothesis ok_counter : forall e, counter_event e = true -> ok e = true.
Hypothesis ok_calls :
  ags_initialized g = true ->
  forall fn h, lifecycle_fn fn = false -> ok (EvCall fn h) = true.
Hypothesis usage_callable :
  ags_initialized g = true ->
  forall h, agsGetGPUMemoryUsage g = Some h -> callable P bad (Some h).

Local Abbreviation runs' := (runs P bad ok g).

(** What [gpu_get_count] returns in this state. *)
Definition amd_count : Z :=
  if ags_initialized g then numDevices (gpu_info g) else 1.

(** Some successful answer of [agsGetGPUMemoryUsage] for device [i]
    satisfies [f]. *)
Definition amd_sample (i : Z) (f : AGSGPUUsage -> Prop) : Prop :=
  ags_initialized g = true /\
  exists t, fst (agsGetGPUMemoryUsage_impl V t (ags_context g) i) = AGS_SUCCESS /\
            f (snd (agsGetGPUMemoryUsage_impl V t (ags_context g) i)).

Definition amd_used_out (i a : Z) : Prop :=
  amd_sample i (fun u => a = u64 (memoryUsedInBytes u)) \/ perf_mem_out O pdh g a.

Definition amd_util_out (i a : Z) : Prop :=
  amd_sample i (fun u => a = int_of_float (gpuUsagePercent u)) \/ perf_util_out O pdh g a.

(** Where the name, the capacity and the two optional readings of a
    record come from. *)
Definition amd_detail_out (i : Z) (gpu_name : string) (total_mem : Z)
    (temperature power_usage : Q) : Prop :=
  (ags_initialized g = true /\ i < numDevices (gpu_info g) /\
   gpu_name = strncpy255 (adapterString (devices (gpu_info g) i)) /\
   total_mem = u64 (localMemoryInBytes (devices (gpu_info g) i)) /\
   ((temperature = 0%Q /\ power_usage = 0%Q) \/
    amd_sample i (fun u => temperature = temperatureInC u /\
                           power_usage = powerUsageInWatts u)))
  \/
  ((ags_initialized g = false \/ numDevices (gpu_info g) <= i) /\
   total_mem = 8 * 1024 * 1024 * 1024 /\
   temperature = 0%Q /\ power_usage = 0%Q).

(** What one iteration of the device loop appends. *)
Definition amd_device_out (i : Z) (out : list token) : Prop :=
  exists gpu_name gpu_util total_mem used_mem temperature power_usage,
    out = (if i >? 0 then [Comma] else [])
          ++ [Obj (make_record i gpu_name gpu_util total_mem used_mem
                               temperature power_usage)] /\
    amd_used_out i used_mem /\ amd_util_out i gpu_util /\
    amd_detail_out i gpu_name total_mem temperature power_usage.

Lemma amd_usage_query_runs i h :
  ags_initialized g = true -> agsGetGPUMemoryUsage g = Some h ->
  runs' (fun a => exists t, a = agsGetGPUMemoryUsage_impl V t (ags_context g) i)
        (usage_query V i).
Proof.
  intros Hi Hp. unfold usage_query.
  eapply runs_bind; [ apply runs_read | ]. intros ctx ->.
  apply runs_callg.
  - rewrite Hp. now apply usage_callable.
  - intros h'. now apply ok_calls.
Qed.

Lemma amd_get_gpu_memory_usage_runs i :
  runs' (amd_used_out i) (get_gpu_memory_usage O V i).
Proof.
  unfold get_gpu_memory_usage, amd_used_out.
  eapply runs_bind; [ apply runs_read | ]. intros g' ->. unfold id.
  case_eq (ags_initialized g); intros Hi; simpl.
  2:{ eapply runs_weaken; [ now apply get_gpu_memory_perf_counter_runs | ]. now right. }
  case_eq (agsGetGPUMemoryUsage g); [ intros h Hp | intros Hp ]; simpl.
  2:{ eapply runs_weaken; [ now apply get_gpu_memory_perf_counter_runs | ]. now right. }
  eapply runs_bind; [ now apply (amd_usage_query_runs i h) | ].
  intros [rc usage] [t Ht]. simpl.
  destruct (rc =? AGS_SUCCESS) eqn:Hrc.
  - apply runs_ret. left. split; [ exact Hi | ]. exists t. rewrite <- Ht. simpl.
    split; [ now apply Z.eqb_eq | reflexivity ].
  - eapply runs_weaken; [ now apply get_gpu_memory_perf_counter_runs | ]. now right.
Qed.

Lemma amd_get_gpu_utilization_runs i :
  runs' (amd_util_out i) (get_gpu_utilization O V i).
Proof.
  unfold get_gpu_utilization, amd_util_out.
  eapply runs_bind; [ apply runs_read | ]. intros g' ->. unfold id.
  case_eq (ags_initialized g); intros Hi; simpl.
  2:{ eapply runs_weaken; [ now apply get_gpu_utilization_perf_counter_runs | ].
      now right. }
  case_eq (agsGetGPUMemoryUsage g); [ intros h Hp | intros Hp ]; simpl.
  2:{ eapply runs_weaken; [ now apply get_gpu_utilization_perf_counter_runs | ].
      now right. }
  eapply runs_bind; [ now apply (amd_usage_query_runs i h) | ].
  intros [rc usage] [t Ht]. simpl.
  destruct (rc =? AGS_SUCCESS) eqn:Hrc.
  - apply runs_ret. left. split; [ exact Hi | ]. exists t. rewrite <- Ht. simpl.
    split; [ now apply Z.eqb_eq | reflexivity ].
  - eapply runs_weaken; [ now apply get_gpu_utilization_perf_counter_runs | ].
    now right.
Qed.

Lemma amd_gpu_get_count_runs : runs' (fun a => a = amd_count) (gpu_get_count).
Proof.
  unfold gpu_get_count, amd_count.
  eapply runs_bind; [ apply runs_read | ]. intros g' ->. unfold id.
  case (ags_initialized g); now apply runs_ret.
Qed.

Lemma amd_device_json_runs i : runs' (amd_device_out i) (device_json O V i).
Proof.
  unfold device_json.
  eapply runs_bind; [ apply amd_get_gpu_memory_usage_runs | ]. intros used_mem Hused.
  eapply runs_bind; [ apply amd_get_gpu_utilization_runs | ]. intros gpu_util Hutil.
  eapply runs_bind; [ apply runs_read | ]. intros g' ->. unfold id.
  eapply runs_bind with
    (Q1 := fun x => amd_detail_out i (fst (fst (fst x))) (snd (fst (fst x)))
                                   (snd (fst x)) (snd x)).
  2:{ intros [[[gpu_name total_mem] temperature] power_usage] Hd. simpl in Hd.
      apply runs_ret. exists gpu_name, gpu_util, total_mem, used_mem, temperature,
        power_usage. auto. }
  unfold amd_detail_out.
  case_eq (ags_initialized g); intros Hi; simpl.
  2:{ eapply runs_bind; [ now apply runs_registry_name | ]. intros nm _.
      apply runs_ret. simpl. right. auto. }
  destruct (i <? numDevices (gpu_info g)) eqn:Hlt; simpl.
  2:{ eapply runs_bind; [ now apply runs_registry_name | ]. intros nm _.
      apply runs_ret. simpl. right. apply Z.ltb_ge in Hlt. auto. }
  apply Z.ltb_lt in Hlt.
  case_eq (agsGetGPUMemoryUsage g); [ intros h Hp | intros Hp ]; simpl.
  2:{ apply runs_ret. simpl. left. repeat split; auto. }
  eapply runs_bind; [ now apply (amd_usage_query_runs i h) | ].
  intros [rc usage] [t Ht]. simpl.
  destruct (rc =? AGS_SUCCESS) eqn:Hrc; apply runs_ret; simpl; left;
    repeat split; auto.
  right. split; [ exact Hi | ]. exists t. rewrite <- Ht. simpl.
  split; [ now apply Z.eqb_eq | split; reflexivity ].
Qed.

(** What [gpu_get_info_json] returns. *)
Definition amd_info_out (res : option (list token)) : Prop :=
  match res with
  | None => amd_count <= 0 \/ exists t, os_malloc O t = false
  | Some doc => 0 < amd_count /\ loop_out amd_device_out (Z.to_nat amd_count) 0 doc
  end.

Lemma amd_gpu_get_info_json_runs : runs' amd_info_out (gpu_get_info_json O V).
Proof.
  unfold gpu_get_info_json.
  eapply runs_bind; [ apply amd_gpu_get_count_runs | ]. intros n ->.
  destruct (amd_count <=? 0) eqn:Hn.
  { apply runs_ret. left. now apply Z.leb_le. }
  apply Z.leb_gt in Hn.
  eapply runs_bind; [ apply runs_malloc; intros r; now apply ok_counter | ].
  intros b [tb Hb]. destruct b; simpl.
  2:{ apply runs_ret. right. exists tb. now rewrite <- Hb. }
  eapply runs_bind; [ apply runs_for_loop, amd_device_json_runs | ].
  intros doc Hdoc. apply runs_ret. split; assumption.
Qed.

Lemma amd_gpu_get_usage_runs : runs' (amd_util_out 0) (gpu_get_usage O V).
Proof. apply amd_get_gpu_utilization_runs. Qed.
End AmdQueries.

(* ===================================================================== *)
(** * Intel: what the queries return *)

Section IntelQueries.
Import Intel.
Variable O : OS.
Variable V : IGCL.
Variable P : list HMODULE -> Prop.
Variable bad : fault -> Prop.
Variable ok : event -> bool.
Variable g : globals.
Hypothesis ok_counter : forall e, counter_event e = true -> ok e = true.
Hypothesis ok_calls :
  igcl_initialized g = true ->
  forall fn h, lifecycle_fn fn = false -> ok (EvCall fn h) = true.
Hypothesis count_callable :
  igcl_initialized g = true ->
  forall h, igcl_get_device_count g = Some h -> callable P bad (Some h).
Hypothesis info_callable :
  igcl_initialized g = true ->
  forall h, igcl_get_device_info g = Some h -> callable P bad (Some h).
Hypothesis stats_callable :
  igcl_initialized g = true ->
  forall h, igcl_get_device_stats g = Some h -> callable P bad (Some h).

Local Abbreviation runs' := (runs P bad ok g).

(** Some successful answer of [igcl_get_device_stats(0, ..)] satisfies [f]. *)
Definition intel_stats_sample (f : igcl_device_stats_t -> Prop) : Prop :=
  igcl_initialized g = true /\
  exists t, fst (igcl_get_device_stats_impl V t 0) = IGCL_SUCCESS /\
            f (snd (igcl_get_device_stats_impl V t 0)).

(** Some successful answer of [igcl_get_device_info(0, ..)] satisfies [f]. *)
Definition intel_info_sample (f : igcl_device_info_t -> Prop) : Prop :=
  igcl_initialized g = true /\
  exists t, fst (igcl_get_device_info_impl V t 0) = IGCL_SUCCESS /\
            f (snd (igcl_get_device_info_impl V t 0)).

Definition intel_util_out (a : Z) : Prop :=
  intel_stats_sample (fun s => a = to_int (u32 (stats_gpu_utilization s)))
  \/ perf_util_out O pdh g a.

Definition intel_used_out (a : Z) : Prop :=
  intel_stats_sample (fun s => a = u64 (stats_memory_used s)) \/ perf_mem_out O pdh g a.

Definition intel_total_out (a : Z) : Prop :=
  intel_info_sample (fun i => a = u64 (total_memory i))
  \/ exists t, a = u64 (os_ullTotalPhys O t) / 8.

Definition intel_count_out (a : Z) : Prop :=
  a = 1 \/
  (igcl_initialized g = true /\
   exists t, fst (igcl_get_device_count_impl V t) = IGCL_SUCCESS /\
             a = to_int (u32 (snd (igcl_get_device_count_impl V t)))).

Lemma intel_stats_query_runs h :
  igcl_initialized g = true -> igcl_get_device_stats g = Some h ->
  runs' (fun a => exists t, a = igcl_get_device_stats_impl V t 0) (stats_query V).
Proof.
  intros Hi Hp. unfold stats_query. apply runs_callg.
  - rewrite Hp. now apply stats_callable.
  - intros h'. now apply ok_calls.
Qed.

Lemma intel_info_query_runs h :
  igcl_initialized g = true -> igcl_get_device_info g = Some h ->
  runs' (fun a => exists t, a = igcl_get_device_info_impl V t 0) (info_query V).
Proof.
  intros Hi Hp. unfold info_query. apply runs_callg.
  - rewrite Hp. now apply info_callable.
  - intros h'. now apply ok_calls.
Qed.

Lemma intel_gpu_get_count_runs : runs' intel_count_out (gpu_get_count V).
Proof.
  unfold gpu_get_count, intel_count_out.
  eapply runs_bind; [ apply runs_read | ]. intros g' ->. unfold id.
  case_eq (igcl_initialized g); intros Hi; simpl; [ | apply runs_ret; now left ].
  case_eq (igcl_get_device_count g); [ intros h Hp | intros Hp ]; simpl;
    [ | apply runs_ret; now left ].
  eapply runs_bind.
  { apply runs_callg; [ rewrite Hp; now apply count_callable | ].
    intros h'. now apply ok_calls. }
  intros [rc count] [t Ht]. simpl.
  destruct (rc =? IGCL_SUCCESS) eqn:Hrc; apply runs_ret; [ right | now left ].
  split; [ reflexivity | ]. exists t. rewrite <- Ht. simpl.
  split; [ now apply Z.eqb_eq | reflexivity ].
Qed.

Lemma intel_get_gpu_utilization_runs : runs' intel_util_out (get_gpu_utilization O V).
Proof.
  unfold get_gpu_utilization, intel_util_out.
  eapply runs_bind; [ apply runs_read | ]. intros g' ->. unfold id.
  case_eq (igcl_initialized g); intros Hi; simpl.
  2:{ eapply runs_weaken; [ now apply get_gpu_utilization_perf_counter_runs | ].
      now right. }
  case_eq (igcl_get_device_stats g); [ intros h Hp | intros Hp ]; simpl.
  2:{ eapply runs_weaken; [ now apply get_gpu_utilization_perf_counter_runs | ].
      now right. }
  eapply runs_bind; [ now apply (intel_stats_query_runs h) | ].
  intros [rc stats] [t Ht]. simpl.
  destruct (rc =? IGCL_SUCCESS) eqn:Hrc.
  - apply runs_ret. left. split; [ exact Hi | ]. exists t. rewrite <- Ht. simpl.
    split; [ now apply Z.eqb_eq | reflexivity ].
  - eapply runs_weaken; [ now apply get_gpu_utilization_perf_counter_runs | ].
    now right.
Qed.

Lemma intel_get_gpu_memory_usage_runs : runs' intel_used_out (get_gpu_memory_usage O V).
Proof.
  unfold get_gpu_memory_usage, intel_used_out.
  eapply runs_bind; [ apply runs_read | ]. intros g' ->. unfold id.
  case_eq (igcl_initialized g); intros Hi; simpl.
  2:{ eapply runs_weaken; [ now apply get_gpu_memory_perf_counter_runs | ]. now right. }
  case_eq (igcl_get_device_stats g); [ intros h Hp | intros Hp ]; simpl.
  2:{ eapply runs_weaken; [ now apply get_gpu_memory_perf_counter_runs | ]. now right. }
  eapply runs_bind; [ now apply (intel_stats_query_runs h) | ].
  intros [rc stats] [t Ht]. simpl.
  destruct (rc =? IGCL_SUCCESS) eqn:Hrc.
  - apply runs_ret. left. split; [ exact Hi | ]. exists t. rewrite <- Ht. simpl.
    split; [ now apply Z.eqb_eq | reflexivity ].
  - eapply runs_weaken; [ now apply get_gpu_memory_perf_counter_runs | ]. now right.
Qed.

Lemma intel_system_memory_estimate_runs :
  runs' (fun a => exists t, a = u64 (os_ullTotalPhys O t) / 8) (system_memory_estimate O).
Proof.
  apply (runs_step P bad ok g (fun _ => EvGlobalMemoryStatusEx)
                   (fun t => u64 (os_ullTotalPhys O t) / 8)); [ reflexivity | ].
  intros t. now apply ok_counter.
Qed.

Lemma intel_get_gpu_total_memory_runs : runs' intel_total_out (get_gpu_total_memory O V).
Proof.
  unfold get_gpu_total_memory, intel_total_out.
  eapply runs_bind; [ apply runs_read | ]. intros g' ->. unfold id.
  case_eq (igcl_initialized g); intros Hi; simpl.
  2:{ eapply runs_weaken; [ apply intel_system_memory_estimate_runs | ]. now right. }
  case_eq (igcl_get_device_info g); [ intros h Hp | intros Hp ]; simpl.
  2:{ eapply runs_weaken; [ apply intel_system_memory_estimate_runs | ]. now right. }
  eapply runs_bind; [ now apply (intel_info_query_runs h) | ].
  intros [rc info] [t Ht]. simpl.
  destruct (rc =? IGCL_SUCCESS) eqn:Hrc.
  - apply runs_ret. left. split; [ exact Hi | ]. exists t. rewrite <- Ht. simpl.
    split; [ now apply Z.eqb_eq | reflexivity ].
  - eapply runs_weaken; [ apply intel_system_memory_estimate_runs | ]. now right.
Qed.

(** Where the two optional readings of the record come from. *)
Definition intel_detail_out (temperature : Z) (power_usage : Q) : Prop :=
  (temperature = 0 /\ power_usage = 0%Q) \/
  intel_stats_sample (fun s => temperature = u32 (stats_temperature s) /\
                               power_usage = milli (u32 (stats_power_usage s))).

(** What [gpu_get_info_json] returns. *)
Definition intel_info_out (res : option (list token)) : Prop :=
  match res with
  | None => exists t, os_malloc O t = false
  | Some doc =>
      exists gpu_name gpu_util total_mem memory_used temperature power_usage,
        doc = [Obj (make_record gpu_name gpu_util total_mem memory_used
                                temperature power_usage)] /\
        intel_util_out gpu_util /\ intel_used_out memory_used /\
        intel_total_out total_mem /\ intel_detail_out temperature power_usage
  end.

Lemma intel_gpu_get_info_json_runs : runs' intel_info_out (gpu_get_info_json O V).
Proof.
  unfold gpu_get_info_json.
  eapply runs_bind; [ apply runs_malloc; intros r; now apply ok_counter | ].
  intros b [tb Hb]. destruct b; simpl.
  2:{ apply runs_ret. exists tb. now rewrite <- Hb. }
  eapply runs_bind; [ apply intel_get_gpu_utilization_runs | ]. intros gpu_util Hu.
  eapply runs_bind; [ apply intel_get_gpu_memory_usage_runs | ]. intros memory_used Hm.
  eapply runs_bind; [ apply intel_get_gpu_total_memory_runs | ]. intros total_mem Ht.
  eapply runs_bind; [ apply runs_read | ]. intros g' ->. unfold id.
  eapply runs_bind with (Q1 := fun _ => True).
  { case_eq (igcl_initialized g); intros Hi; simpl.
    2:{ now apply runs_registry_name. }
    case_eq (igcl_get_device_info g); [ intros h Hp | intros Hp ]; simpl.
    2:{ now apply runs_registry_name. }
    eapply runs_bind; [ now apply (intel_info_query_runs h) | ].
    intros [rc info] _. simpl. destruct (rc =? IGCL_SUCCESS); now apply runs_ret. }
  intros gpu_name _.
  eapply runs_bind with (Q1 := fun x => intel_detail_out (fst x) (snd x)).
  2:{ intros [temperature power_usage] Hd. simpl in Hd. apply runs_ret.
      exists gpu_name, gpu_util, total_mem, memory_used, temperature, power_usage.
      auto. }
  unfold intel_detail_out.
  case_eq (igcl_initialized g); intros Hi; simpl; [ | apply runs_ret; now left ].
  case_eq (igcl_get_device_stats g); [ intros h Hp | intros Hp ]; simpl;
    [ | apply runs_ret; now left ].
  eapply runs_bind; [ now apply (intel_stats_query_runs h) | ].
  intros [rc stats] [t Hst]. simpl.
  destruct (rc =? IGCL_SUCCESS) eqn:Hrc; apply runs_ret; simpl; [ right | now left ].
  split; [ exact Hi | ]. exists t. rewrite <- Hst. simpl.
  split; [ now apply Z.eqb_eq | split; reflexivity ].
Qed.

Lemma intel_gpu_get_usage_runs : runs' intel_util_out (gpu_get_usage O V).
Proof. apply intel_get_gpu_utilization_runs. Qed.
End IntelQueries.

(* ===================================================================== *)
(** * From any state: partial correctness of the queries *)

Definition any_modules : list HMODULE -> Prop := fun _ => True.
Definition any_fault : fault -> Prop := fun _ => True.
Definition no_fault : fault -> Prop := fun _ => False.

Lemma runs_Done {G A} P bad ok (g : G) (Q : A -> Prop) (m : M G A) w a g' w' :
  runs P bad ok g Q m -> P (modules w) -> m g w = Done a g' w' ->
  Q a /\ g' = g /\ extends ok w w'.
Proof. intros H Hw E. specialize (H w Hw). now rewrite E in H. Qed.

Lemma runs_total {G A} P ok (g : G) (Q : A -> Prop) (m : M G A) w :
  runs P no_fault ok g Q m -> P (modules w) ->
  exists a w', m g w = Done a g w' /\ Q a /\ extends ok w w'.
Proof.
  intros H Hw. specialize (H w Hw).
  destruct (m g w) as [a g' w' | f]; [ | contradiction ].
  destruct H as (Ha & -> & He). now exists a, w'.
Qed.

Lemma callable_any p : callable any_modules any_fault p.
Proof. left. intros f. exact I. Qed.

Lemma loop_out_records Qb (R : gpu_record -> Prop) :
  (forall i out, Qb i out -> Forall R (records out)) ->
  forall n i doc, loop_out Qb n i doc -> Forall R (records doc).
Proof.
  intros H n i doc Hl. induction Hl as [ i | n i out rest Ho _ IH ].
  - constructor.
  - rewrite records_app. apply Forall_app. split; [ now apply (H i) | exact IH ].
Qed.

Lemma loop_out_length Qb :
  (forall i out, Qb i out -> List.length (records out) = 1%nat) ->
  forall n i doc, loop_out Qb n i doc -> List.length (records doc) = n.
Proof.
  intros H n i doc Hl. induction Hl as [ i | n i out rest Ho _ IH ].
  - reflexivity.
  - rewrite records_app, length_app, (H i out Ho), IH. reflexivity.
Qed.

Lemma records_chunk (i : Z) (r : gpu_record) :
  records ((if i >? 0 then [Comma] else []) ++ [Obj r]) = [r].
Proof. destruct (i >? 0); reflexivity. Qed.

Lemma amd_device_one O V g i out :
  amd_device_out O V g i out -> List.length (records out) = 1%nat.
Proof.
  intros (nm & u & tm & um & te & pw & -> & _). now rewrite records_chunk.
Qed.

Section AnyState.
Variable O : OS.

Lemma nvidia_info_any (V : Nvidia.NVML) g w res g' w' :
  Nvidia.gpu_get_info_json O V g w = Done res g' w' ->
  nvidia_info_out O V res /\ g' = g /\ extends sample_event w w'.
Proof.
  apply (runs_Done any_modules any_fault); [ | exact I ].
  apply nvidia_gpu_get_info_json_runs; apply callable_any.
Qed.

Lemma amd_info_any (V : Amd.AGS) g w res g' w' :
  Amd.gpu_get_info_json O V g w = Done res g' w' ->
  amd_info_out O V g res /\ g' = g /\ extends sample_event w w'.
Proof.
  apply (runs_Done any_modules any_fault); [ | exact I ].
  apply amd_gpu_get_info_json_runs.
  - intros [ ]; simpl; congruence.
  - intros _ fn h Hfn. simpl. now rewrite Hfn.
  - intros _ h _. apply callable_any.
Qed.

Lemma intel_info_any (V : Intel.IGCL) g w res g' w' :
  Intel.gpu_get_info_json O V g w = Done res g' w' ->
  intel_info_out O V g res /\ g' = g /\ extends sample_event w w'.
Proof.
  apply (runs_Done any_modules any_fault); [ | exact I ].
  apply intel_gpu_get_info_json_runs.
  - intros [ ]; simpl; congruence.
  - intros _ fn h Hfn. simpl. now rewrite Hfn.
  - intros _ h _. apply callable_any.
  - intros _ h _. apply callable_any.
Qed.
End AnyState.

(* ===================================================================== *)
(** * Concrete platforms *)

Definition GiB : Z := 1024 * 1024 * 1024.

(** A machine on which the library [dll] loads as module [1] with the
    export table [exports]; every other path fails.  When [counters]
    holds, PDH opens query [7], registers every counter path, reports
    42 percent and 2 GiB; otherwise PDH refuses to open a query. *)
Definition machine (dll : string) (exports : string -> bool) (counters : bool) : OS :=
  mkOS (fun _ path => if String.eqb path dll then Some 1%nat else None)
       (fun _ sym => exports sym)
       (fun _ => true)
       (fun _ => if counters then Some 7%nat else None)
       (fun _ _ _ => if counters then Some 3%nat else None)
       (fun _ _ => counters)
       (fun _ _ => Some (Qmake 42 1))
       (fun _ _ => Some (2 * GiB))
       (fun _ => None)
       (fun _ => 16 * GiB).

Definition all_symbols : string -> bool := fun _ => true.
Definition all_but (missing : string) : string -> bool :=
  fun sym => negb (String.eqb sym missing).

(** Two NVIDIA devices.  The driver reports 150 percent, a memory
    controller rate of 30, and a free figure that is not total - used;
    the two stats queries fail for the second device. *)
Definition nvml_two_devices : Nvidia.NVML :=
  Nvidia.mkNVML
    (fun _ => 0) (fun _ => 0)
    (fun _ => (0, 2))
    (fun _ i => (0, 100 + i))
    (fun _ _ => (0, "GeForce"))
    (fun _ d => if d =? 101 then (999, Nvidia.mkUtil 77 77)
                else (0, Nvidia.mkUtil 150 30))
    (fun _ d => if d =? 101 then (999, Nvidia.mkMem 5 5 5)
                else (0, Nvidia.mkMem 1000 500 400))
    (fun _ _ => Some 65)
    (fun _ _ => Some 120000).

(** As above, but the handle of the second device cannot be obtained. *)
Definition nvml_lost_device : Nvidia.NVML :=
  Nvidia.mkNVML
    (fun _ => 0) (fun _ => 0)
    (fun _ => (0, 2))
    (fun _ i => if i =? 1 then (15, 0) else (0, 100 + i))
    (fun _ _ => (0, "GeForce"))
    (fun _ _ => (0, Nvidia.mkUtil 50 30))
    (fun _ _ => (0, Nvidia.mkMem 1000 600 400))
    (fun _ _ => Some 65)
    (fun _ _ => Some 120000).

(** An AGS library that initialises with [n] devices of 16 GiB; usage
    queries succeed for device 0 only. *)
Definition ags_devices (n : Z) : Amd.AGS :=
  Amd.mkAGS
    (fun _ _ _ => (0, Some 9%nat,
                   Amd.mkInfo n (fun _ => Amd.mkDevice "Radeon" (16 * GiB))))
    (fun _ _ => 0)
    (fun _ _ i => if i =? 0
                  then (0, Amd.mkUsage (Qmake 130 1) (4 * GiB) (Qmake 61 1) (Qmake 200 1))
                  else (-1, Amd.mkUsage (Qmake 1 1) 1 (Qmake 1 1) (Qmake 1 1))).

(** An IGCL library with [n] devices whose GPU reports [used] bytes in
    use out of [total]. *)
Definition igcl_reporting (n used total : Z) : Intel.IGCL :=
  Intel.mkIGCL
    (fun _ => 0) (fun _ => 0)
    (fun _ => (0, n))
    (fun _ _ => (0, Intel.mkDeviceInfo "Iris Xe" total))
    (fun _ _ => (0, Intel.mkStats 120 used 50 15000)).

(** More memory in use than the GPU has. *)
Definition igcl_overcommitted (n : Z) : Intel.IGCL := igcl_reporting n 3000 1000.

Definition nvml_dll : string := "C:\Windows\System32\nvml.dll".
Definition ags_dll : string := "amd_ags_x64.dll".
Definition igcl_dll : string := "igcl64.dll".

(** The records of the document a query returned, if it returned one. *)
Definition records_of {G} (o : outcome G (option (list token))) : list gpu_record :=
  match o with
  | Done (Some doc) _ _ => records doc
  | _ => []
  end.

(** [gpu_init(); gpu_get_info_json()] from the initial state. *)
Definition nvidia_session (O : OS) (V : Nvidia.NVML) :=
  (Nvidia.gpu_init O V ;; Nvidia.gpu_get_info_json O V) Nvidia.globals0 world0.

Definition amd_session (O : OS) (V : Amd.AGS) :=
  (Amd.gpu_init O V ;; Amd.gpu_get_info_json O V) Amd.globals0 world0.

Definition intel_session (O : OS) (V : Intel.IGCL) :=
  (Intel.gpu_init O V ;; Intel.gpu_get_info_json O V) Intel.globals0 world0.

Example nvidia_session_two_devices :
  records_of (nvidia_session (machine nvml_dll all_symbols false) nvml_two_devices)
  = [ mkRecord 0 "GeForce" 150 30 1000 400 500 (inject_Z 65) (milli 120000);
      mkRecord 1 "GeForce" 0 0 0 0 0 (inject_Z 65) (milli 120000) ].
Proof. vm_compute. reflexivity. Qed.

Example amd_session_two_devices :
  records_of (amd_session (machine ags_dll all_symbols false) (ags_devices 2))
  = [ mkRecord 0 "Radeon" 130 25 (16 * GiB) (4 * GiB) (12 * GiB) (Qmake 61 1) (Qmake 200 1);
      mkRecord 1 "Radeon" 0 0 (16 * GiB) 0 (16 * GiB) 0%Q 0%Q ].
Proof. vm_compute. reflexivity. Qed.

Example intel_session_overcommitted :
  records_of (intel_session (machine igcl_dll all_symbols false) (igcl_overcommitted 1))
  = [ mkRecord 0 "Iris Xe" 120 300 1000 3000 (2 ^ 64 - 2000) (inject_Z 50) (milli 15000) ].
Proof. vm_compute. reflexivity. Qed.

(** The spec's fallback scenario: no vendor library, counters report 42
    percent and 2 GiB. *)
Example amd_session_fallback :
  records_of (amd_session (machine "none" all_symbols true) (ags_devices 2))
  = [ mkRecord 0 "AMD Graphics Card" 42 25 (8 * GiB) (2 * GiB) (6 * GiB) 0%Q 0%Q ].
Proof. vm_compute. reflexivity. Qed.

(* ===================================================================== *)
(** * The records of a document *)

Lemma records_of_session {G A} (R : gpu_record -> Prop)
    (init : M G A) (q : M G (option (list token))) g0 w0 :
  (forall g w, Forall R (records_of (q g w))) ->
  Forall R (records_of ((init ;; q) g0 w0)).
Proof.
  intros H. unfold bind. destruct (init g0 w0) as [a g w | f]; [ apply H | constructor ].
Qed.

Lemma amd_used_out_range O V g i a : amd_used_out O V g i a -> 0 <= a < 2 ^ 64.
Proof.
  intros [(_ & t & _ & ->) | Hp]; [ apply u64_range | ].
  eapply perf_mem_out_range; exact Hp.
Qed.

Lemma amd_detail_out_range V g i nm total_mem temperature power_usage :
  amd_detail_out V g i nm total_mem temperature power_usage -> 0 <= total_mem < 2 ^ 64.
Proof.
  intros [(_ & _ & _ & -> & _) | (_ & -> & _)]; [ apply u64_range | ].
  split; [ discriminate | reflexivity ].
Qed.

Lemma intel_used_out_range O V g a : intel_used_out O V g a -> 0 <= a < 2 ^ 64.
Proof.
  intros [(_ & t & _ & ->) | Hp]; [ apply u64_range | ].
  eapply perf_mem_out_range; exact Hp.
Qed.

Lemma intel_total_out_range O V g a : intel_total_out O V g a -> 0 <= a < 2 ^ 64.
Proof.
  intros [(_ & t & _ & ->) | (t & ->)]; [ apply u64_range | ].
  pose proof (u64_range (os_ullTotalPhys O t)) as H.
  split; [ apply Z.div_pos; lia | ].
  apply Z.div_lt_upper_bound; lia.
Qed.

(** Every record of an AMD document is a [make_record] of gathered
    values. *)
Lemma amd_records_of O V g w (R : gpu_record -> Prop) :
  (forall i gpu_name gpu_util total_mem used_mem temperature power_usage,
      amd_used_out O V g i used_mem -> amd_util_out O V g i gpu_util ->
      amd_detail_out V g i gpu_name total_mem temperature power_usage ->
      R (Amd.make_record i gpu_name gpu_util total_mem used_mem temperature power_usage)) ->
  Forall R (records_of (Amd.gpu_get_info_json O V g w)).
Proof.
  intros HR. destruct (Amd.gpu_get_info_json O V g w) as [[doc | ] g' w' | f] eqn:E;
    simpl; try constructor.
  apply amd_info_any in E. destruct E as ((_ & Hl) & _).
  apply (loop_out_records _ R) in Hl; [ exact Hl | ].
  intros i out (nm & u & tm & um & te & pw & -> & Hu & Hg & Hd).
  rewrite records_chunk. constructor; [ | constructor ]. now apply HR.
Qed.

Lemma intel_records_of O V g w (R : gpu_record -> Prop) :
  (forall gpu_name gpu_util total_mem memory_used temperature power_usage,
      intel_util_out O V g gpu_util -> intel_used_out O V g memory_used ->
      intel_total_out O V g total_mem ->
      R (Intel.make_record gpu_name gpu_util total_mem memory_used
                           temperature power_usage)) ->
  Forall R (records_of (Intel.gpu_get_info_json O V g w)).
Proof.
  intros HR. destruct (Intel.gpu_get_info_json O V g w) as [[doc | ] g' w' | f] eqn:E;
    simpl; try constructor.
  apply intel_info_any in E.
  destruct E as ((nm & u & tm & um & te & pw & -> & Hu & Hm & Ht & _) & _).
  simpl. constructor; [ | constructor ]. now apply HR.
Qed.

Lemma nvidia_records_of O V g w (R : gpu_record -> Prop) :
  (forall r, nvidia_util_fields V r -> nvidia_mem_fields V r -> R r) ->
  Forall R (records_of (Nvidia.gpu_get_info_json O V g w)).
Proof.
  intros HR. destruct (Nvidia.gpu_get_info_json O V g w) as [[doc | ] g' w' | f] eqn:E;
    simpl; try constructor.
  apply nvidia_info_any in E. destruct E as ((t & _ & Hl) & _).
  apply (loop_out_records _ R) in Hl; [ exact Hl | ].
  intros i out [(-> & _) | (r & -> & _ & _ & Hu & Hm)]; [ constructor | ].
  rewrite records_chunk. constructor; [ | constructor ]. now apply HR.
Qed.

(* --------------------------------------------------------------------- *)
(** ** memory_free *)

Definition free_is_clamped (r : gpu_record) : Prop :=
  memory_free r = Z.max (memory_total r - memory_used r) 0.

(** The Intel file subtracts in [unsigned long long] without a guard. *)
Lemma intel_memory_free_wraps O V g w :
  Forall (fun r => memory_free r = (memory_total r - memory_used r) mod 2 ^ 64)
         (records_of (Intel.gpu_get_info_json O V g w)).
Proof. apply intel_records_of. intros. reflexivity. Qed.

(** C1, as stated, fails: an NVIDIA record carries the driver's own
    [free] figure (500 where total - used is 600), and an Intel record
    with more memory used than present carries the wrapped difference
    2^64 - 2000. *)
Lemma memory_free_counterexample :
  ~ Forall free_is_clamped
      (records_of (nvidia_session (machine nvml_dll all_symbols false) nvml_two_devices))
  /\
  ~ Forall free_is_clamped
      (records_of (intel_session (machine igcl_dll all_symbols false)
                                 (igcl_overcommitted 1))).
Proof.
  split.
  - rewrite nvidia_session_two_devices. intros H.
    apply Forall_inv in H. vm_compute in H. discriminate.
  - rewrite intel_session_overcommitted. intros H.
    apply Forall_inv in H. vm_compute in H. discriminate.
Qed.

(** C1 (amended): in every record of an AMD document [memory_free] is
    max(memory_total - memory_used, 0); in every record of an Intel
    document it is that value whenever memory_used <= memory_total; in
    every record of an NVIDIA document the three memory fields are the
    total, used and free figures of one [nvmlDeviceGetMemoryInfo]
    answer, or all 0 when that query failed. *)
Theorem memory_free_by_backend (O : OS) :
  (forall V g w,
      Forall free_is_clamped (records_of (Amd.gpu_get_info_json O V g w))) /\
  (forall V g w,
      Forall (fun r => memory_used r <= memory_total r -> free_is_clamped r)
             (records_of (Intel.gpu_get_info_json O V g w))) /\
  (forall V g w,
      Forall (nvidia_mem_fields V) (records_of (Nvidia.gpu_get_info_json O V g w))).
Proof.
  split; [ | split ]; intros V g w.
  - apply amd_records_of. intros i nm u tm um te pw _ _ _.
    unfold free_is_clamped, Amd.make_record. simpl.
    destruct (Z.gtb_spec tm um); lia.
  - apply intel_records_of. intros nm u tm um te pw _ Hm Ht.
    unfold free_is_clamped, Intel.make_record. simpl. intros Hle.
    apply intel_used_out_range in Hm. apply intel_total_out_range in Ht.
    rewrite u64_small by lia. lia.
  - apply nvidia_records_of. intros r _ Hm. exact Hm.
Qed.

Lemma memory_free_by_backend_witness :
  Forall free_is_clamped
    (records_of (amd_session (machine ags_dll all_symbols false) (ags_devices 2))) /\
  Forall (fun r => memory_used r <= memory_total r -> free_is_clamped r)
    (records_of (intel_session (machine "none" all_symbols true) (igcl_overcommitted 1))) /\
  Forall (nvidia_mem_fields nvml_two_devices)
    (records_of (nvidia_session (machine nvml_dll all_symbols false) nvml_two_devices)).
Proof.
  split; [ | split ]; apply records_of_session; intros g w.
  - apply (proj1 (memory_free_by_backend _)).
  - apply (proj1 (proj2 (memory_free_by_backend _))).
  - apply (proj2 (proj2 (memory_free_by_backend _))).
Defined.

(* --------------------------------------------------------------------- *)
(** ** memory_utilization *)

(** 0 without capacity, else floor(used * 100 / total), as long as the
    product fits [unsigned long long] and the quotient fits [int]. *)
Definition utilization_is_derived (r : gpu_record) : Prop :=
  (memory_total r = 0 -> memory_utilization r = 0) /\
  (memory_total r <> 0 ->
   memory_used r * 100 < 2 ^ 64 ->
   memory_used r * 100 / memory_total r < 2 ^ 31 ->
   memory_utilization r = memory_used r * 100 / memory_total r).

(** The claim as stated: no side condition. *)
Definition utilization_is_floor (r : gpu_record) : Prop :=
  memory_utilization r
  = if memory_total r =? 0 then 0 else memory_used r * 100 / memory_total r.

Lemma derived_utilization total_mem used_mem u :
  0 <= total_mem -> 0 <= used_mem ->
  u = (if total_mem >? 0 then to_int (u64 (used_mem * 100) / total_mem) else 0) ->
  (total_mem = 0 -> u = 0) /\
  (total_mem <> 0 -> used_mem * 100 < 2 ^ 64 ->
   used_mem * 100 / total_mem < 2 ^ 31 -> u = used_mem * 100 / total_mem).
Proof.
  intros Ht Hu ->. split.
  - intros ->. reflexivity.
  - intros Hne Hp Hq. destruct (Z.gtb_spec total_mem 0); [ | lia ].
    rewrite u64_small by lia. apply to_int_small.
    split; [ | exact Hq ].
    assert (0 <= used_mem * 100 / total_mem) by (apply Z.div_pos; lia). lia.
Qed.

(** C2, as stated, fails: an NVIDIA record carries the driver's memory
    controller rate (30 where used * 100 / total is 40); on Intel the
    product used * 100 wraps at 2^64 (2^62 used of 2^63 gives 0, not 50)
    and the quotient is cut to [int] (2^40 used of 1 gives 0). *)
Lemma memory_utilization_counterexample :
  ~ Forall utilization_is_floor
      (records_of (nvidia_session (machine nvml_dll all_symbols false) nvml_two_devices))
  /\
  ~ Forall utilization_is_floor
      (records_of (intel_session (machine igcl_dll all_symbols false)
                                 (igcl_reporting 1 (2 ^ 62) (2 ^ 63))))
  /\
  ~ Forall utilization_is_floor
      (records_of (intel_session (machine igcl_dll all_symbols false)
                                 (igcl_reporting 1 (2 ^ 40) 1))).
Proof.
  split; [ | split ]; intros H.
  - rewrite nvidia_session_two_devices in H.
    apply Forall_inv in H. vm_compute in H. discriminate.
  - vm_compute in H. apply Forall_inv in H. vm_compute in H. discriminate.
  - vm_compute in H. apply Forall_inv in H. vm_compute in H. discriminate.
Qed.

(** C2 (amended): in every record of an AMD or Intel document
    [memory_utilization] is 0 when memory_total is 0, and otherwise
    floor(memory_used * 100 / memory_total) provided memory_used * 100 is
    below 2^64 and the quotient is below 2^31; in every record of an
    NVIDIA document it is the memory rate of one
    [nvmlDeviceGetUtilizationRates] answer, or 0 when that query
    failed. *)
Theorem memory_utilization_by_backend (O : OS) :
  (forall V g w,
      Forall utilization_is_derived (records_of (Amd.gpu_get_info_json O V g w))) /\
  (forall V g w,
      Forall utilization_is_derived (records_of (Intel.gpu_get_info_json O V g w))) /\
  (forall V g w,
      Forall (nvidia_util_fields V) (records_of (Nvidia.gpu_get_info_json O V g w))).
Proof.
  split; [ | split ]; intros V g w.
  - apply amd_records_of. intros i nm u tm um te pw Hu _ Hd.
    apply amd_used_out_range in Hu. apply amd_detail_out_range in Hd.
    unfold utilization_is_derived, Amd.make_record. simpl.
    apply derived_utilization; [ lia | lia | reflexivity ].
  - apply intel_records_of. intros nm u tm um te pw _ Hm Ht.
    apply intel_used_out_range in Hm. apply intel_total_out_range in Ht.
    unfold utilization_is_derived, Intel.make_record. simpl.
    apply derived_utilization; [ lia | lia | reflexivity ].
  - apply nvidia_records_of. intros r Hu _. exact Hu.
Qed.

Lemma memory_utilization_by_backend_witness :
  Forall utilization_is_derived
    (records_of (amd_session (machine "none" all_symbols true) (ags_devices 2))) /\
  Forall utilization_is_derived
    (records_of (intel_session (machine igcl_dll all_symbols false)
                               (igcl_overcommitted 1))) /\
  Forall (nvidia_util_fields nvml_two_devices)
    (records_of (nvidia_session (machine nvml_dll all_symbols false) nvml_two_devices)).
Proof.
  split; [ | split ]; apply records_of_session; intros g w.
  - apply (proj1 (memory_utilization_by_backend _)).
  - apply (proj1 (proj2 (memory_utilization_by_backend _))).
  - apply (proj2 (proj2 (memory_utilization_by_backend _))).
Defined.

(* ===================================================================== *)
(** * The probe *)

Definition failed_load (p : string) : event := EvLoadLibraryA p None.

(** The events of a probe loop, newest first. *)
Definition probe_events (failed : list string) (found : option (string * HMODULE))
  : list event :=
  match found with
  | Some (p, h) => [EvLoadLibraryA p (Some h)]
  | None => []
  end ++ rev (map failed_load failed).

Definition probe_modules (found : option (string * HMODULE)) (ms : list HMODULE)
  : list HMODULE :=
  match found with
  | Some (_, h) => h :: ms
  | None => ms
  end.

Definition found_module (found : option (string * HMODULE)) : option HMODULE :=
  option_map snd found.

Definition resolution_event (e : event) : bool :=
  match e with
  | EvGetProcAddress _ _ _ => true
  | _ => false
  end.

Lemma load_first_eq {G} (O : OS) (set : option HMODULE -> G -> G) :
  (forall a b g, set b (set a g) = set b g) ->
  forall rest p g w,
    load_first O set (p :: rest) g w
    = let '(failed, found) := probe O (now w) (p :: rest) in
      Done tt (set (found_module found) g)
           (mkWorld (probe_events failed found ++ trace w)
                    (probe_modules found (modules w)) (queries w)).
Proof.
  intros Hset. induction rest as [ | q rest IH ]; intros p g w.
  - simpl. unfold bind, LoadLibraryA, write.
    destruct (os_LoadLibraryA O (now w) p) as [h | ]; reflexivity.
  - change (load_first O set (p :: q :: rest) g w)
      with (bind (LoadLibraryA O p)
                 (fun r => bind (write (set r))
                                (fun _ => if non_null r then ret tt
                                          else load_first O set (q :: rest))) g w).
    change (probe O (now w) (p :: q :: rest))
      with (match os_LoadLibraryA O (now w) p with
            | Some h => ([], Some (p, h))
            | None => let '(failed, found) := probe O (S (now w)) (q :: rest) in
                      (p :: failed, found)
            end).
    unfold bind at 1. unfold LoadLibraryA.
    destruct (os_LoadLibraryA O (now w) p) as [h | ]; [ reflexivity | ].
    unfold bind, write. cbv [non_null is_null negb]. cbv iota.
    rewrite IH.
    change (now {| trace := EvLoadLibraryA p None :: trace w;
                   modules := modules w; queries := queries w |})
      with (S (now w)).
    destruct (probe O (S (now w)) (q :: rest)) as [failed found].
    rewrite Hset. f_equal. f_equal.
    unfold probe_events. simpl.
    now rewrite <- !app_assoc.
Qed.

(** The candidates that failed, followed by the one that loaded, are an
    initial segment of the list: nothing after it was attempted. *)
Lemma probe_prefix O paths : forall t failed found,
  probe O t paths = (failed, found) ->
  exists later,
    paths = failed ++ match found with Some (p, _) => [p] | None => [] end ++ later.
Proof.
  induction paths as [ | p rest IH ]; intros t failed found H; simpl in H.
  - inversion H. now exists [].
  - destruct (os_LoadLibraryA O t p) as [h | ].
    + inversion H. now exists rest.
    + destruct (probe O (S t) rest) as [f r] eqn:E. inversion H; subst.
      destruct (IH _ _ _ E) as [later Hl]. exists later. simpl. now rewrite <- Hl.
Qed.

(* ===================================================================== *)
(** * NVIDIA: probe, init, shutdown *)

Lemma is_null_ptr_of b h : is_null (ptr_of b h) = negb b.
Proof. now destruct b. Qed.

Lemma extends_events ok evs w :
  forallb ok evs = true ->
  extends ok w (mkWorld (evs ++ trace w) (modules w) (queries w)).
Proof. intros H. repeat split. now exists evs. Qed.

(** Closes [extends ok w w'] when [w'] is [w] with [ok] events logged. *)
Ltac extends_by_log :=
  repeat (eapply extends_trans; [ | apply extends_log; reflexivity ]);
  apply extends_refl.

Section NvidiaLifecycle.
Import Nvidia.
Variable O : OS.

(** The function-pointer globals after the symbols of module [h] have
    been looked up. *)
Definition nvidia_table (h : HMODULE) (g : globals) : globals :=
  let e := os_exports O h in
  mkGlobals (nvml_lib g)
    (ptr_of (e "nvmlInit_v2" || e "nvmlInit") h)
    (ptr_of (e "nvmlShutdown") h)
    (ptr_of (e "nvmlDeviceGetCount_v2" || e "nvmlDeviceGetCount") h)
    (ptr_of (e "nvmlDeviceGetHandleByIndex_v2" || e "nvmlDeviceGetHandleByIndex") h)
    (ptr_of (e "nvmlDeviceGetName") h)
    (ptr_of (e "nvmlDeviceGetUtilizationRates") h)
    (ptr_of (e "nvmlDeviceGetMemoryInfo") h)
    (ptr_of (e "nvmlDeviceGetTemperature") h)
    (ptr_of (e "nvmlDeviceGetPowerUsage") h).

(** Module [h] exports every symbol [load_nvml] insists on. *)
Definition nvidia_complete (h : HMODULE) : bool :=
  let e := os_exports O h in
  (e "nvmlInit_v2" || e "nvmlInit") && e "nvmlShutdown"
  && (e "nvmlDeviceGetCount_v2" || e "nvmlDeviceGetCount")
  && (e "nvmlDeviceGetHandleByIndex_v2" || e "nvmlDeviceGetHandleByIndex")
  && e "nvmlDeviceGetName" && e "nvmlDeviceGetUtilizationRates"
  && e "nvmlDeviceGetMemoryInfo".

Lemma nvidia_resolve_symbols_eq h g w :
  exists w', resolve_symbols O h g w = Done tt (nvidia_table h g) w'
             /\ extends resolution_event w w'.
Proof.
  unfold resolve_symbols, resolve, resolve_if_null, GetProcAddress, nvidia_table,
    bind, read, write, ret.
  destruct (os_exports O h "nvmlInit_v2"),
           (os_exports O h "nvmlDeviceGetCount_v2"),
           (os_exports O h "nvmlDeviceGetHandleByIndex_v2");
    cbv [orb ptr_of is_null set_nvmlInit set_nvmlShutdown
         set_nvmlDeviceGetCount set_nvmlDeviceGetHandleByIndex set_nvmlDeviceGetName
         set_nvmlDeviceGetUtilizationRates set_nvmlDeviceGetMemoryInfo
         set_nvmlDeviceGetTemperature set_nvmlDeviceGetPowerUsage
         nvml_lib nvmlInit nvmlShutdown nvmlDeviceGetCount nvmlDeviceGetHandleByIndex
         nvmlDeviceGetName nvmlDeviceGetUtilizationRates nvmlDeviceGetMemoryInfo
         nvmlDeviceGetTemperature nvmlDeviceGetPowerUsage];
    cbn [log trace modules queries];
    eexists; (split; [ reflexivity | ]); extends_by_log.
Qed.

Lemma nvidia_check_complete h g :
  (let t := nvidia_table h g in
   is_null (nvmlInit t) || is_null (nvmlShutdown t) || is_null (nvmlDeviceGetCount t)
   || is_null (nvmlDeviceGetHandleByIndex t) || is_null (nvmlDeviceGetName t)
   || is_null (nvmlDeviceGetUtilizationRates t) || is_null (nvmlDeviceGetMemoryInfo t))
  = negb (nvidia_complete h).
Proof.
  cbv [nvidia_table nvidia_complete nvmlInit nvmlShutdown nvmlDeviceGetCount
       nvmlDeviceGetHandleByIndex nvmlDeviceGetName nvmlDeviceGetUtilizationRates
       nvmlDeviceGetMemoryInfo].
  rewrite !is_null_ptr_of, !negb_andb. reflexivity.
Qed.

(** [load_nvml], evaluated. *)
Lemma nvidia_load_nvml_eq g w :
  match probe O (now w) possible_paths with
  | (failed, None) =>
      load_nvml O g w
      = Done (-1) (set_nvml_lib None g)
             (mkWorld (probe_events failed None ++ trace w) (modules w) (queries w))
  | (failed, Some (p, h)) =>
      exists res, forallb resolution_event res = true /\
        let tr := res ++ probe_events failed (Some (p, h)) ++ trace w in
        let g1 := nvidia_table h (set_nvml_lib (Some h) g) in
        load_nvml O g w
        = if nvidia_complete h
          then Done 0 g1 (mkWorld tr (h :: modules w) (queries w))
          else Done (-2) (set_nvml_lib None g1)
                    (mkWorld (EvFreeLibrary h :: tr) (modules w) (queries w))
  end.
Proof.
  assert (Hl := load_first_eq O set_nvml_lib (fun _ _ _ => eq_refl)
                 (tl possible_paths) (hd "" possible_paths) g w).
  change (hd "" possible_paths :: tl possible_paths) with possible_paths in Hl.
  destruct (probe O (now w) possible_paths) as [failed [[p h] | ]];
    unfold load_nvml; unfold bind at 1; rewrite Hl; [ | reflexivity ].
  cbv [found_module option_map snd probe_modules].
  unfold bind at 1. cbv [read]. cbn [nvml_lib set_nvml_lib].
  unfold bind at 1.
  destruct (nvidia_resolve_symbols_eq h (set_nvml_lib (Some h) g)
              (mkWorld (probe_events failed (Some (p, h)) ++ trace w)
                       (h :: modules w) (queries w)))
    as (w' & -> & Hm & Hq & res & Ht & Hres).
  exists res. split; [ exact Hres | ].
  unfold bind at 1. cbv [read id].
  pose proof (nvidia_check_complete h (set_nvml_lib (Some h) g)) as Hc.
  cbv zeta in Hc |- *. rewrite Hc.
  destruct w' as [tr' ms' qs']. cbn [trace modules queries] in Hm, Hq, Ht. subst.
  destruct (nvidia_complete h); cbv [negb].
  - reflexivity.
  - unfold bind, FreeLibrary, write, ret. cbn [modules trace queries].
    rewrite held_cons_same, remove_one_cons_same. reflexivity.
Qed.

(** The state [gpu_init] leaves on success: the library is module [h],
    every required pointer points into it, the two optional ones are
    NULL or point into it. *)
Definition nvidia_ready (h : HMODULE) (g : globals) : Prop :=
  nvml_lib g = Some h /\
  nvmlInit g = Some h /\ nvmlShutdown g = Some h /\
  nvmlDeviceGetCount g = Some h /\ nvmlDeviceGetHandleByIndex g = Some h /\
  nvmlDeviceGetName g = Some h /\ nvmlDeviceGetUtilizationRates g = Some h /\
  nvmlDeviceGetMemoryInfo g = Some h /\
  nvmlDeviceGetTemperature g = ptr_of (os_exports O h "nvmlDeviceGetTemperature") h /\
  nvmlDeviceGetPowerUsage g = ptr_of (os_exports O h "nvmlDeviceGetPowerUsage") h.

Lemma nvidia_complete_ready h g :
  nvidia_complete h = true -> nvidia_ready h (nvidia_table h (set_nvml_lib (Some h) g)).
Proof.
  unfold nvidia_complete. cbv zeta. rewrite !andb_true_iff.
  intros ((((((H1 & H2) & H3) & H4) & H5) & H6) & H7).
  unfold nvidia_ready, nvidia_table. cbv zeta.
  cbn [nvml_lib nvmlInit nvmlShutdown nvmlDeviceGetCount nvmlDeviceGetHandleByIndex
       nvmlDeviceGetName nvmlDeviceGetUtilizationRates nvmlDeviceGetMemoryInfo
       nvmlDeviceGetTemperature nvmlDeviceGetPowerUsage set_nvml_lib].
  rewrite H1, H2, H3, H4, H5, H6, H7. repeat split; reflexivity.
Qed.

(** [gpu_init] never faults; it either succeeds and leaves a ready
    state holding one more module, or fails and leaves no library. *)
Lemma nvidia_gpu_init_cases V g w :
  exists r g' w',
    gpu_init O V g w = Done r g' w' /\ queries w' = queries w /\
    ((r = 0 /\ exists h, nvidia_ready h g' /\ modules w' = h :: modules w) \/
     (r <> 0 /\ nvml_lib g' = None /\ modules w' = modules w)).
Proof.
  unfold gpu_init. unfold bind at 1.
  pose proof (nvidia_load_nvml_eq g w) as Hl.
  destruct (probe O (now w) possible_paths) as [failed [[p h] | ]].
  2:{ rewrite Hl. cbn. do 3 eexists. split; [ reflexivity | ]. split; [ reflexivity | ].
      right. repeat split. discriminate. }
  destruct Hl as (res & _ & Hl). cbv zeta in Hl. rewrite Hl. clear Hl.
  destruct (nvidia_complete h) eqn:Hc.
  2:{ cbn. do 3 eexists. split; [ reflexivity | ]. split; [ reflexivity | ].
      right. repeat split. discriminate. }
  pose proof (nvidia_complete_ready h g Hc) as Hr.
  set (g1 := nvidia_table h (set_nvml_lib (Some h) g)) in *.
  destruct Hr as (Hlib & Hinit & Hrest).
  cbn [Z.eqb negb]. unfold bind at 1, callg, bind at 1, read, call.
  rewrite Hinit. cbn [modules]. rewrite held_cons_same.
  destruct (negb (_ =? NVML_SUCCESS)) eqn:Hrc.
  - unfold unload_nvml, bind, read, FreeLibrary, write, ret. rewrite Hlib.
    cbn [log modules trace queries]. rewrite held_cons_same, remove_one_cons_same.
    do 3 eexists. split; [ reflexivity | ]. split; [ reflexivity | ].
    right. repeat split. discriminate.
  - do 3 eexists. split; [ reflexivity | ]. split; [ reflexivity | ].
    left. split; [ reflexivity | ]. exists h. split; [ | reflexivity ].
    repeat split; try assumption; apply Hrest.
Qed.

Lemma nvidia_gpu_shutdown_unloaded V g w :
  nvml_lib g = None -> gpu_shutdown V g w = Done tt g w.
Proof.
  intros H. unfold gpu_shutdown, unload_nvml, bind, read, ret, id. rewrite H.
  cbn [non_null is_null negb andb]. rewrite H. reflexivity.
Qed.

Lemma nvidia_gpu_shutdown_Done V g w g1 w1 :
  gpu_shutdown V g w = Done tt g1 w1 -> nvml_lib g1 = None.
Proof.
  unfold gpu_shutdown. intros H.
  apply bind_Done in H. destruct H as (g0 & ga & wa & _ & H).
  apply bind_Done in H. destruct H as ([ ] & gb & wb & Hb & H).
  assert (nvml_lib gb = nvml_lib ga) as Hsame.
  { unfold read, id in Hb. destruct (non_null (nvml_lib g0) && non_null (nvmlShutdown g0)).
    - apply bind_Done in Hb. destruct Hb as (r & gc & wc & Hc & Hb).
      inversion Hb; subst. unfold callg, call, bind, read in Hc.
      destruct (nvmlShutdown ga); [ | discriminate ].
      destruct (held _ _); [ | discriminate ]. now inversion Hc.
    - now inversion Hb. }
  unfold unload_nvml in H.
  apply bind_Done in H. destruct H as (lib & gc & wc & Hc & H).
  inversion Hc; subst. destruct (nvml_lib gc) as [h | ] eqn:Hlib.
  - apply bind_Done in H. destruct H as ([ ] & gd & wd & Hd & H).
    inversion H. reflexivity.
  - inversion H. subst. exact Hlib.
Qed.
End NvidiaLifecycle.

(* ===================================================================== *)
(** * The counter fallback: init and cleanup *)

Section PerfCounterLifecycle.
Context {G : Type}.
Variable O : OS.
Variable pdh : G -> pdh_globals.
Variable with_pdh : pdh_globals -> G -> G.
Hypothesis pdh_with : forall p g, pdh (with_pdh p g) = p.
Hypothesis with_with : forall p p' g, with_pdh p (with_pdh p' g) = with_pdh p g.
Hypothesis with_pdh_same : forall g, with_pdh (pdh g) g = g.

(** Changes confined to the two counter handles. *)
Definition same_session (p p' : pdh_globals) : Prop :=
  query_handle p' = query_handle p /\
  perf_counters_initialized p' = perf_counters_initialized p.

Lemma add_first_counter_cases q set paths :
  (forall c p, same_session p (set c p)) ->
  forall g w, exists found p' w',
    add_first_counter O pdh with_pdh q set paths g w = Done found (with_pdh p' g) w' /\
    same_session (pdh g) p' /\
    modules w' = modules w /\ queries w' = queries w.
Proof.
  intros Hset. induction paths as [ | p rest IH ]; intros g w.
  - exists false, (pdh g), w. rewrite with_pdh_same. repeat split.
  - simpl. unfold bind at 1, PdhAddCounterA.
    destruct (os_PdhAddCounterA O (now w) q p) as [c | ].
    + exists true, (set (Some c) (pdh g)), (log (EvPdhAddCounterA q p (Some c)) w).
      split; [ reflexivity | ]. split; [ apply Hset | ]. split; reflexivity.
    + destruct (IH g (log (EvPdhAddCounterA q p None) w)) as (f & p' & w' & E & Hs & Hm & Hq).
      exists f, p', w'. split; [ exact E | ]. repeat split; assumption || apply Hs.
Qed.

(** [init_performance_counters] never faults.  On success the fallback
    is initialised with a freshly opened query; on failure the flag is
    as before and no query stays open. *)
Lemma init_performance_counters_cases upaths mpaths g w :
  exists r p' w',
    init_performance_counters O pdh with_pdh upaths mpaths g w
    = Done r (with_pdh p' g) w' /\
    modules w' = modules w /\
    ((r = 0 /\ perf_counters_initialized p' = true /\
      exists q, query_handle p' = Some q /\ queries w' = q :: queries w) \/
     (r <> 0 /\ perf_counters_initialized p' = perf_counters_initialized (pdh g) /\
      (query_handle p' = query_handle (pdh g) \/ query_handle p' = None) /\
      queries w' = queries w)).
Proof.
  unfold init_performance_counters. unfold bind at 1, PdhOpenQueryA.
  destruct (os_PdhOpenQueryA O (now w)) as [q | ].
  2:{ exists (-1), (pdh g), (log (EvPdhOpenQueryA None) w). rewrite with_pdh_same.
      split; [ reflexivity | ]. split; [ reflexivity | ]. right.
      repeat split; auto. discriminate. }
  set (g1 := with_pdh (set_query_handle (Some q) (pdh g)) g).
  set (w1 := mkWorld _ _ _).
  unfold bind at 1.
  destruct (add_first_counter_cases q set_gpu_util_counter upaths
              (fun c p => conj eq_refl eq_refl) g1 w1)
    as (found & p1 & w2 & -> & (Hq1 & Hf1) & Hm2 & Hq2).
  unfold bind at 1.
  destruct (add_first_counter_cases q set_gpu_memory_counter mpaths
              (fun c p => conj eq_refl eq_refl) (with_pdh p1 g1) w2)
    as (found' & p2 & w3 & -> & (Hq3 & Hf3) & Hm3 & Hq4).
  rewrite pdh_with in Hq3, Hf3. unfold g1 in *. rewrite pdh_with in Hq1, Hf1.
  rewrite !with_with. cbn [query_handle perf_counters_initialized set_query_handle] in *.
  destruct found; cbn [negb].
  - unfold bind, PdhCollectQueryData, Sleep, emit, upd, write, ret.
    rewrite pdh_with, with_with.
    do 3 eexists. split; [ reflexivity | ]. cbn [log modules queries].
    split; [ rewrite Hm3, Hm2; reflexivity | ]. left. split; [ reflexivity | ].
    split; [ reflexivity | ]. exists q. split; [ cbn; congruence | ].
    rewrite Hq4, Hq2. reflexivity.
  - unfold bind, PdhCloseQuery, upd, write, ret.
    assert (Hh : held q (queries w3) = true).
    { rewrite Hq4, Hq2. apply held_cons_same. }
    rewrite Hh, pdh_with, with_with.
    do 3 eexists. split; [ reflexivity | ]. cbn [log modules queries].
    split; [ rewrite Hm3, Hm2; reflexivity | ]. right. split; [ discriminate | ].
    split; [ cbn; congruence | ]. split; [ right; reflexivity | ].
    rewrite Hq4, Hq2. apply remove_one_cons_same.
Qed.

(** [cleanup_performance_counters]: what it leaves, and that a second
    run in a row does nothing. *)
Lemma cleanup_performance_counters_Done g w g1 w1 :
  cleanup_performance_counters pdh with_pdh g w = Done tt g1 w1 ->
  query_handle (pdh g1) = None /\ perf_counters_initialized (pdh g1) = false /\
  modules w1 = modules w /\
  exists p', g1 = with_pdh p' g.
Proof.
  unfold cleanup_performance_counters, bind, read, PdhCloseQuery, upd, write, ret.
  destruct (query_handle (pdh g)) as [q | ] eqn:Hq.
  - destruct (held q (queries w)); [ | discriminate ].
    intros E. inversion E. subst. rewrite with_with, !pdh_with.
    repeat split. eexists. reflexivity.
  - intros E. inversion E. subst. rewrite pdh_with. cbn. rewrite Hq.
    repeat split. eexists. reflexivity.
Qed.

Lemma cleanup_performance_counters_idle g w :
  query_handle (pdh g) = None -> perf_counters_initialized (pdh g) = false ->
  cleanup_performance_counters pdh with_pdh g w = Done tt g w.
Proof.
  intros Hq Hf.
  unfold cleanup_performance_counters, bind, read, upd, write, ret. rewrite Hq.
  assert (E : set_perf_counters_initialized false (pdh g) = pdh g).
  { destruct (pdh g) as [a b c d]. cbn in *. subst. reflexivity. }
  rewrite E, with_pdh_same. reflexivity.
Qed.

Lemma cleanup_performance_counters_held g w q :
  query_handle (pdh g) = Some q -> held q (queries w) = true ->
  exists g1 w1, cleanup_performance_counters pdh with_pdh g w = Done tt g1 w1.
Proof.
  intros Hq Hh.
  unfold cleanup_performance_counters, bind, read, PdhCloseQuery, upd, write, ret.
  rewrite Hq, Hh. eauto.
Qed.
End PerfCounterLifecycle.

(* ===================================================================== *)
(** * AMD: probe, init, shutdown *)

Section AmdLifecycle.
Import Amd.
Variable O : OS.

Lemma amd_pdh_with p g : pdh (set_pdh p g) = p.
Proof. reflexivity. Qed.

Lemma amd_with_with p p' g : set_pdh p (set_pdh p' g) = set_pdh p g.
Proof. reflexivity. Qed.

Lemma amd_with_same g : set_pdh (pdh g) g = g.
Proof. destruct g. reflexivity. Qed.

(** The function-pointer globals after the symbols of module [h] have
    been looked up. *)
Definition amd_table (h : HMODULE) (g : globals) : globals :=
  mkGlobals (ags_lib g)
    (ptr_of (os_exports O h "agsInitialize") h)
    (ptr_of (os_exports O h "agsDeInitialize") h)
    (ptr_of (os_exports O h "agsGetGPUMemoryUsage") h)
    (ptr_of (os_exports O h "agsGetVersionNumber") h)
    (ags_context g) (gpu_info g) (ags_initialized g) (pdh g).

(** Module [h] exports every symbol [load_ags] insists on. *)
Definition amd_complete (h : HMODULE) : bool :=
  os_exports O h "agsInitialize" && os_exports O h "agsDeInitialize".

Lemma amd_resolve_symbols_eq h g w :
  exists w', resolve_symbols O h g w = Done tt (amd_table h g) w'
             /\ extends resolution_event w w'.
Proof.
  unfold resolve_symbols, resolve, GetProcAddress, amd_table, bind, write.
  cbv [set_agsInitialize set_agsDeInitialize set_agsGetGPUMemoryUsage
       set_agsGetVersionNumber ags_lib agsInitialize agsDeInitialize
       agsGetGPUMemoryUsage agsGetVersionNumber ags_context gpu_info
       ags_initialized pdh].
  eexists. split; [ destruct g; reflexivity | ]. extends_by_log.
Qed.

(** [load_ags], evaluated. *)
Lemma amd_load_ags_eq g w :
  match probe O (now w) possible_paths with
  | (failed, None) =>
      load_ags O g w
      = Done (-1) (set_ags_lib None g)
             (mkWorld (probe_events failed None ++ trace w) (modules w) (queries w))
  | (failed, Some (p, h)) =>
      exists res, forallb resolution_event res = true /\
        let tr := res ++ probe_events failed (Some (p, h)) ++ trace w in
        let g1 := amd_table h (set_ags_lib (Some h) g) in
        load_ags O g w
        = if amd_complete h
          then Done 0 g1 (mkWorld tr (h :: modules w) (queries w))
          else Done (-2) (set_ags_lib None g1)
                    (mkWorld (EvFreeLibrary h :: tr) (modules w) (queries w))
  end.
Proof.
  assert (Hl := load_first_eq O set_ags_lib (fun _ _ _ => eq_refl)
                 (tl possible_paths) (hd "" possible_paths) g w).
  change (hd "" possible_paths :: tl possible_paths) with possible_paths in Hl.
  destruct (probe O (now w) possible_paths) as [failed [[p h] | ]];
    unfold load_ags; unfold bind at 1; rewrite Hl; [ | reflexivity ].
  cbv [found_module option_map snd probe_modules].
  unfold bind at 1. cbv [read]. cbn [ags_lib set_ags_lib].
  unfold bind at 1.
  destruct (amd_resolve_symbols_eq h (set_ags_lib (Some h) g)
              (mkWorld (probe_events failed (Some (p, h)) ++ trace w)
                       (h :: modules w) (queries w)))
    as (w' & -> & Hm & Hq & res & Ht & Hres).
  exists res. split; [ exact Hres | ].
  unfold bind at 1. cbv [read id]. cbv zeta.
  assert (Hc : is_null (agsInitialize (amd_table h (set_ags_lib (Some h) g)))
               || is_null (agsDeInitialize (amd_table h (set_ags_lib (Some h) g)))
               = negb (amd_complete h)).
  { cbn [amd_table agsInitialize agsDeInitialize]. unfold amd_complete.
    rewrite !is_null_ptr_of, negb_andb. reflexivity. }
  rewrite Hc.
  destruct w' as [tr' ms' qs']. cbn [trace modules queries] in Hm, Hq, Ht. subst.
  destruct (amd_complete h); cbv [negb].
  - reflexivity.
  - unfold bind, FreeLibrary, write, ret. cbn [modules trace queries].
    rewrite held_cons_same, remove_one_cons_same. reflexivity.
Qed.

(** The vendor session is up: the flag is set and the pointers point
    into the loaded module [h]. *)
Definition amd_active (h : HMODULE) (g : globals) : Prop :=
  ags_initialized g = true /\ ags_lib g = Some h /\
  agsInitialize g = Some h /\ agsDeInitialize g = Some h /\
  agsGetGPUMemoryUsage g = ptr_of (os_exports O h "agsGetGPUMemoryUsage") h.

(** What is known of the library handle when the vendor half of
    [gpu_init] did not take the early return. *)
Definition amd_lib_state (g' : globals) (w w' : world) : Prop :=
  (ags_lib g' = None /\ modules w' = modules w) \/
  (exists h, ags_lib g' = Some h /\ modules w' = h :: modules w).

Lemma amd_try_ags_cases V g w :
  exists b g' w',
    try_ags O V g w = Done b g' w' /\ queries w' = queries w /\ pdh g' = pdh g /\
    ((b = true /\ exists h, amd_active h g' /\ modules w' = h :: modules w) \/
     (b = false /\ ags_initialized g' = ags_initialized g /\ amd_lib_state g' w w')).
Proof.
  unfold try_ags. unfold bind at 1.
  pose proof (amd_load_ags_eq g w) as Hl.
  destruct (probe O (now w) possible_paths) as [failed [[p h] | ]].
  2:{ rewrite Hl. cbn. do 3 eexists. repeat (split; [ reflexivity | ]).
      right. repeat split. left. split; reflexivity. }
  destruct Hl as (res & _ & Hl). cbv zeta in Hl. rewrite Hl. clear Hl.
  destruct (amd_complete h) eqn:Hc.
  2:{ cbn. do 3 eexists. repeat (split; [ reflexivity | ]).
      right. repeat split. left. split; reflexivity. }
  unfold amd_complete in Hc. apply andb_true_iff in Hc. destruct Hc as [Hi Hd].
  cbn [Z.eqb]. unfold bind at 1. cbv [read id].
  cbn [amd_table agsInitialize]. rewrite Hi. cbn [ptr_of non_null is_null negb].
  unfold bind at 1, callg, bind at 1, read, call.
  cbn [amd_table agsInitialize modules]. rewrite Hi. cbn [ptr_of]. rewrite held_cons_same.
  destruct (agsInitialize_impl V _ _ _) as [[rc ctx] info].
  unfold bind, write, printf, emit, ret.
  destruct (rc =? AGS_SUCCESS).
  - do 3 eexists. repeat (split; [ reflexivity | ]).
    left. split; [ reflexivity | ]. exists h. split; [ | reflexivity ].
    unfold amd_active. cbn. rewrite Hi, Hd. repeat split; reflexivity.
  - do 3 eexists. repeat (split; [ reflexivity | ]).
    right. repeat split. right. exists h. split; reflexivity.
Qed.

(** [gpu_init] never faults; it reports 0 exactly when the vendor
    session or the counter fallback came up. *)
Lemma amd_gpu_init_cases V g w :
  exists r g' w',
    gpu_init O V g w = Done r g' w' /\
    ((r = 0 /\ pdh g' = pdh g /\ queries w' = queries w /\
      exists h, amd_active h g' /\ modules w' = h :: modules w)
     \/
     (ags_initialized g' = ags_initialized g /\ amd_lib_state g' w w' /\
      ((r = 0 /\ perf_counters_initialized (pdh g') = true /\
        exists q, query_handle (pdh g') = Some q /\ queries w' = q :: queries w) \/
       (r = -1 /\
        perf_counters_initialized (pdh g') = perf_counters_initialized (pdh g) /\
        (query_handle (pdh g') = query_handle (pdh g) \/ query_handle (pdh g') = None) /\
        queries w' = queries w)))).
Proof.
  unfold gpu_init. unfold bind at 1.
  destruct (amd_try_ags_cases V g w)
    as (b & g1 & w1 & -> & Hq1 & Hp1 & [(-> & h & Ha & Hm) | (-> & Hf & Hlib)]).
  { do 3 eexists. split; [ reflexivity | ]. left. repeat split; eauto. }
  unfold bind at 1, init_performance_counters.
  destruct (init_performance_counters_cases O pdh set_pdh amd_pdh_with amd_with_with
              amd_with_same gpu_counter_paths memory_counter_paths g1 w1)
    as (r & p' & w2 & -> & Hm2 & Hcases).
  assert (Hlib2 : amd_lib_state (set_pdh p' g1) w w2).
  { destruct Hlib as [(Hn & Hm) | (h & Hs & Hm)]; [ left | right; exists h ];
      cbn [ags_lib set_pdh]; split; congruence. }
  destruct Hcases as [(-> & Hf2 & q & Hq & Hqs) | (Hr & Hf2 & Hq & Hqs)].
  - cbn. do 3 eexists. split; [ reflexivity | ]. right.
    split; [ exact Hf | ]. split; [ exact Hlib2 | ]. left. split; [ reflexivity | ].
    cbn [pdh set_pdh]. split; [ exact Hf2 | ]. exists q. split; [ exact Hq | ].
    cbn. congruence.
  - destruct (r =? 0) eqn:E; [ apply Z.eqb_eq in E; contradiction | ].
    cbn. do 3 eexists. split; [ reflexivity | ]. right.
    split; [ exact Hf | ]. split; [ exact Hlib2 | ]. right. split; [ reflexivity | ].
    cbn [pdh set_pdh]. rewrite <- Hp1, <- Hq1. repeat split; assumption.
Qed.

(** [unload_ags] would call [agsDeInitialize]. *)
Definition amd_deinit_due (g : globals) : bool :=
  ags_initialized g && non_null (ags_context g) && non_null (agsDeInitialize g).

Lemma amd_unload_ags_idle V g w :
  amd_deinit_due g = false -> ags_lib g = None -> unload_ags V g w = Done tt g w.
Proof.
  unfold amd_deinit_due, unload_ags, bind, read, ret, id. intros Hd Hl.
  destruct (ags_initialized g); [ | now rewrite Hl ].
  destruct (ags_context g); [ | now rewrite Hl ].
  destruct (agsDeInitialize g); [ discriminate | now rewrite Hl ].
Qed.

Lemma amd_unload_ags_Done V g w g1 w1 :
  unload_ags V g w = Done tt g1 w1 ->
  amd_deinit_due g1 = false /\ ags_lib g1 = None /\
  pdh g1 = pdh g /\ queries w1 = queries w.
Proof.
  unfold unload_ags. intros H.
  apply bind_Done in H. destruct H as (g0 & ga & wa & Ha & H).
  inversion Ha; subst; clear Ha. unfold id in H.
  apply bind_Done in H. destruct H as ([ ] & gb & wb & Hb & H).
  assert (Hmid : amd_deinit_due gb = false /\ ags_lib gb = ags_lib ga /\
                 pdh gb = pdh ga /\ queries wb = queries wa).
  { unfold amd_deinit_due.
    destruct (ags_initialized ga) eqn:Hi;
      [ | inversion Hb; subst; rewrite Hi; repeat split ].
    destruct (ags_context ga) as [ctx | ] eqn:Hc;
      [ | inversion Hb; subst; rewrite Hi, Hc; repeat split ].
    destruct (agsDeInitialize ga) as [hd | ] eqn:Hp;
      [ | inversion Hb; subst; rewrite Hi, Hc, Hp; repeat split ].
    apply bind_Done in Hb. destruct Hb as (rc & gc & wc & Hc1 & Hb).
    unfold callg, call, bind, read in Hc1. rewrite Hp in Hc1.
    destruct (held hd (modules wa)); [ | discriminate ].
    inversion Hc1; subst; clear Hc1.
    unfold bind, write in Hb. inversion Hb; subst. repeat split. }
  destruct Hmid as (Hd & Hl & Hp & Hq).
  apply bind_Done in H. destruct H as (lib & gc & wc & Hc & H).
  inversion Hc; subst; clear Hc.
  destruct (ags_lib gc) as [h | ] eqn:Hlib.
  - unfold bind, FreeLibrary, write in H.
    destruct (held h (modules wc)); [ | discriminate ].
    inversion H; subst. repeat split; assumption.
  - inversion H; subst. repeat split; assumption.
Qed.

(** [gpu_shutdown]: what it leaves, and that a second call in a row
    changes nothing and touches nothing. *)
Lemma amd_gpu_shutdown_Done V g w g1 w1 :
  gpu_shutdown V g w = Done tt g1 w1 ->
  ags_lib g1 = None /\ query_handle (pdh g1) = None /\
  perf_counters_initialized (pdh g1) = false /\
  gpu_shutdown V g1 w1 = Done tt g1 w1.
Proof.
  unfold gpu_shutdown. intros H.
  apply bind_Done in H. destruct H as ([ ] & ga & wa & Ha & H).
  apply amd_unload_ags_Done in Ha. destruct Ha as (Hd & Hl & _ & _).
  unfold cleanup_performance_counters in *.
  apply (cleanup_performance_counters_Done pdh set_pdh amd_pdh_with amd_with_with) in H.
  destruct H as (Hq & Hf & _ & p' & ->).
  cbn [ags_lib set_pdh]. repeat split; try assumption.
  rewrite (bind_eq _ _ _ _ tt (set_pdh p' ga) w1).
  - apply (cleanup_performance_counters_idle pdh set_pdh amd_with_same); assumption.
  - apply amd_unload_ags_idle; assumption.
Qed.
End AmdLifecycle.

(* ===================================================================== *)
(** * Intel: probe, init, shutdown *)

Section IntelLifecycle.
Import Intel.
Variable O : OS.

Lemma intel_pdh_with p g : pdh (set_pdh p g) = p.
Proof. reflexivity. Qed.

Lemma intel_with_with p p' g : set_pdh p (set_pdh p' g) = set_pdh p g.
Proof. reflexivity. Qed.

Lemma intel_with_same g : set_pdh (pdh g) g = g.
Proof. destruct g. reflexivity. Qed.

(** The function-pointer globals after the symbols of module [h] have
    been looked up. *)
Definition intel_table (h : HMODULE) (g : globals) : globals :=
  mkGlobals (igcl_lib g)
    (ptr_of (os_exports O h "igcl_init") h)
    (ptr_of (os_exports O h "igcl_shutdown") h)
    (ptr_of (os_exports O h "igcl_get_device_count") h)
    (ptr_of (os_exports O h "igcl_get_device_info") h)
    (ptr_of (os_exports O h "igcl_get_device_stats") h)
    (igcl_initialized g) (pdh g).

(** Module [h] exports every symbol [load_igcl] insists on. *)
Definition intel_complete (h : HMODULE) : bool :=
  os_exports O h "igcl_init" && os_exports O h "igcl_shutdown"
  && os_exports O h "igcl_get_device_count"
  && os_exports O h "igcl_get_device_info"
  && os_exports O h "igcl_get_device_stats".

Lemma intel_resolve_symbols_eq h g w :
  exists w', resolve_symbols O h g w = Done tt (intel_table h g) w'
             /\ extends resolution_event w w'.
Proof.
  unfold resolve_symbols, resolve, GetProcAddress, intel_table, bind, write.
  cbv [set_igcl_init set_igcl_shutdown set_igcl_get_device_count
       set_igcl_get_device_info set_igcl_get_device_stats igcl_lib igcl_init
       igcl_shutdown igcl_get_device_count igcl_get_device_info
       igcl_get_device_stats igcl_initialized pdh].
  eexists. split; [ destruct g; reflexivity | ]. extends_by_log.
Qed.

(** [load_igcl], evaluated. *)
Lemma intel_load_igcl_eq g w :
  match probe O (now w) possible_paths with
  | (failed, None) =>
      load_igcl O g w
      = Done (-1) (set_igcl_lib None g)
             (mkWorld (probe_events failed None ++ trace w) (modules w) (queries w))
  | (failed, Some (p, h)) =>
      exists res, forallb resolution_event res = true /\
        let tr := res ++ probe_events failed (Some (p, h)) ++ trace w in
        let g1 := intel_table h (set_igcl_lib (Some h) g) in
        load_igcl O g w
        = if intel_complete h
          then Done 0 g1 (mkWorld tr (h :: modules w) (queries w))
          else Done (-2) (set_igcl_lib None g1)
                    (mkWorld (EvFreeLibrary h :: tr) (modules w) (queries w))
  end.
Proof.
  assert (Hl := load_first_eq O set_igcl_lib (fun _ _ _ => eq_refl)
                 (tl possible_paths) (hd "" possible_paths) g w).
  change (hd "" possible_paths :: tl possible_paths) with possible_paths in Hl.
  destruct (probe O (now w) possible_paths) as [failed [[p h] | ]];
    unfold load_igcl; unfold bind at 1; rewrite Hl; [ | reflexivity ].
  cbv [found_module option_map snd probe_modules].
  unfold bind at 1. cbv [read]. cbn [igcl_lib set_igcl_lib].
  unfold bind at 1.
  destruct (intel_resolve_symbols_eq h (set_igcl_lib (Some h) g)
              (mkWorld (probe_events failed (Some (p, h)) ++ trace w)
                       (h :: modules w) (queries w)))
    as (w' & -> & Hm & Hq & res & Ht & Hres).
  exists res. split; [ exact Hres | ].
  unfold bind at 1. cbv [read id]. cbv zeta.
  set (t := intel_table h (set_igcl_lib (Some h) g)).
  assert (Hc : is_null (igcl_init t) || is_null (igcl_shutdown t)
               || is_null (igcl_get_device_count t)
               || is_null (igcl_get_device_info t) || is_null (igcl_get_device_stats t)
               = negb (intel_complete h)).
  { unfold t. cbn [intel_table igcl_init igcl_shutdown igcl_get_device_count
                   igcl_get_device_info igcl_get_device_stats].
    unfold intel_complete. rewrite !is_null_ptr_of, !negb_andb. reflexivity. }
  rewrite Hc.
  destruct w' as [tr' ms' qs']. cbn [trace modules queries] in Hm, Hq, Ht. subst.
  destruct (intel_complete h); cbv [negb].
  - reflexivity.
  - unfold bind, FreeLibrary, write, ret. cbn [modules trace queries].
    rewrite held_cons_same, remove_one_cons_same. reflexivity.
Qed.

(** The vendor session is up: the flag is set and every pointer points
    into the loaded module [h]. *)
Definition intel_active (h : HMODULE) (g : globals) : Prop :=
  igcl_initialized g = true /\ igcl_lib g = Some h /\
  igcl_init g = Some h /\ igcl_shutdown g = Some h /\
  igcl_get_device_count g = Some h /\ igcl_get_device_info g = Some h /\
  igcl_get_device_stats g = Some h.

Definition intel_lib_state (g' : globals) (w w' : world) : Prop :=
  (igcl_lib g' = None /\ modules w' = modules w) \/
  (exists h, igcl_lib g' = Some h /\ modules w' = h :: modules w).

Lemma intel_try_igcl_cases V g w :
  exists b g' w',
    try_igcl O V g w = Done b g' w' /\ queries w' = queries w /\ pdh g' = pdh g /\
    ((b = true /\ exists h, intel_active h g' /\ modules w' = h :: modules w) \/
     (b = false /\ igcl_initialized g' = igcl_initialized g /\ intel_lib_state g' w w')).
Proof.
  unfold try_igcl. unfold bind at 1.
  pose proof (intel_load_igcl_eq g w) as Hl.
  destruct (probe O (now w) possible_paths) as [failed [[p h] | ]].
  2:{ rewrite Hl. cbn. do 3 eexists. repeat (split; [ reflexivity | ]).
      right. repeat split. left. split; reflexivity. }
  destruct Hl as (res & _ & Hl). cbv zeta in Hl. rewrite Hl. clear Hl.
  destruct (intel_complete h) eqn:Hc.
  2:{ cbn. do 3 eexists. repeat (split; [ reflexivity | ]).
      right. repeat split. left. split; reflexivity. }
  unfold intel_complete in Hc. rewrite !andb_true_iff in Hc.
  destruct Hc as ((((H1 & H2) & H3) & H4) & H5).
  cbn [Z.eqb]. unfold bind at 1. cbv [read id].
  cbn [intel_table igcl_init]. rewrite H1. cbn [ptr_of non_null is_null negb].
  unfold bind at 1, callg, bind at 1, read, call.
  cbn [intel_table igcl_init modules]. rewrite H1. cbn [ptr_of]. rewrite held_cons_same.
  unfold bind, write, printf, emit, ret.
  destruct (_ =? IGCL_SUCCESS).
  - do 3 eexists. repeat (split; [ reflexivity | ]).
    left. split; [ reflexivity | ]. exists h. split; [ | reflexivity ].
    unfold intel_active. cbn. rewrite H1, H2, H3, H4, H5. repeat split; reflexivity.
  - do 3 eexists. repeat (split; [ reflexivity | ]).
    right. repeat split. right. exists h. split; reflexivity.
Qed.

(** [gpu_init] never faults; it reports 0 exactly when the vendor
    session or the counter fallback came up. *)
Lemma intel_gpu_init_cases V g w :
  exists r g' w',
    gpu_init O V g w = Done r g' w' /\
    ((r = 0 /\ pdh g' = pdh g /\ queries w' = queries w /\
      exists h, intel_active h g' /\ modules w' = h :: modules w)
     \/
     (igcl_initialized g' = igcl_initialized g /\ intel_lib_state g' w w' /\
      ((r = 0 /\ perf_counters_initialized (pdh g') = true /\
        exists q, query_handle (pdh g') = Some q /\ queries w' = q :: queries w) \/
       (r = -1 /\
        perf_counters_initialized (pdh g') = perf_counters_initialized (pdh g) /\
        (query_handle (pdh g') = query_handle (pdh g) \/ query_handle (pdh g') = None) /\
        queries w' = queries w)))).
Proof.
  unfold gpu_init. unfold bind at 1.
  destruct (intel_try_igcl_cases V g w)
    as (b & g1 & w1 & -> & Hq1 & Hp1 & [(-> & h & Ha & Hm) | (-> & Hf & Hlib)]).
  { do 3 eexists. split; [ reflexivity | ]. left. repeat split; eauto. }
  unfold bind at 1, init_performance_counters.
  destruct (init_performance_counters_cases O pdh set_pdh intel_pdh_with intel_with_with
              intel_with_same gpu_counter_paths memory_counter_paths g1 w1)
    as (r & p' & w2 & -> & Hm2 & Hcases).
  assert (Hlib2 : intel_lib_state (set_pdh p' g1) w w2).
  { destruct Hlib as [(Hn & Hm) | (h & Hs & Hm)]; [ left | right; exists h ];
      cbn [igcl_lib set_pdh]; split; congruence. }
  destruct Hcases as [(-> & Hf2 & q & Hq & Hqs) | (Hr & Hf2 & Hq & Hqs)].
  - cbn. do 3 eexists. split; [ reflexivity | ]. right.
    split; [ exact Hf | ]. split; [ exact Hlib2 | ]. left. split; [ reflexivity | ].
    cbn [pdh set_pdh]. split; [ exact Hf2 | ]. exists q. split; [ exact Hq | ].
    cbn. congruence.
  - destruct (r =? 0) eqn:E; [ apply Z.eqb_eq in E; contradiction | ].
    cbn. do 3 eexists. split; [ reflexivity | ]. right.
    split; [ exact Hf | ]. split; [ exact Hlib2 | ]. right. split; [ reflexivity | ].
    cbn [pdh set_pdh]. rewrite <- Hp1, <- Hq1. repeat split; assumption.
Qed.

(** [unload_igcl] would call [igcl_shutdown]. *)
Definition intel_shutdown_due (g : globals) : bool :=
  igcl_initialized g && non_null (igcl_shutdown g).

Lemma intel_unload_igcl_idle V g w :
  intel_shutdown_due g = false -> igcl_lib g = None -> unload_igcl V g w = Done tt g w.
Proof.
  unfold intel_shutdown_due, unload_igcl, bind, read, ret, id. intros Hd Hl.
  rewrite Hd, Hl. reflexivity.
Qed.

Lemma intel_unload_igcl_Done V g w g1 w1 :
  unload_igcl V g w = Done tt g1 w1 ->
  intel_shutdown_due g1 = false /\ igcl_lib g1 = None /\
  pdh g1 = pdh g /\ queries w1 = queries w.
Proof.
  unfold unload_igcl. intros H.
  apply bind_Done in H. destruct H as (g0 & ga & wa & Ha & H).
  inversion Ha; subst; clear Ha. unfold id in H.
  apply bind_Done in H. destruct H as ([ ] & gb & wb & Hb & H).
  assert (Hmid : intel_shutdown_due gb = false /\ igcl_lib gb = igcl_lib ga /\
                 pdh gb = pdh ga /\ queries wb = queries wa).
  { unfold intel_shutdown_due.
    destruct (igcl_initialized ga && non_null (igcl_shutdown ga)) eqn:Hg;
      [ | inversion Hb; subst; repeat split; exact Hg ].
    apply bind_Done in Hb. destruct Hb as (rc & gc & wc & Hc1 & Hb).
    unfold callg, call, bind, read in Hc1.
    destruct (igcl_shutdown ga) as [hs | ]; [ | discriminate ].
    destruct (held hs (modules wa)); [ | discriminate ].
    inversion Hc1; subst; clear Hc1.
    unfold write in Hb. inversion Hb; subst. repeat split. }
  destruct Hmid as (Hd & Hl & Hp & Hq).
  apply bind_Done in H. destruct H as (lib & gc & wc & Hc & H).
  inversion Hc; subst; clear Hc.
  destruct (igcl_lib gc) as [h | ] eqn:Hlib.
  - unfold bind, FreeLibrary, write in H.
    destruct (held h (modules wc)); [ | discriminate ].
    inversion H; subst. repeat split; assumption.
  - inversion H; subst. repeat split; assumption.
Qed.

(** [gpu_shutdown]: what it leaves, and that a second call in a row
    changes nothing and touches nothing. *)
Lemma intel_gpu_shutdown_Done V g w g1 w1 :
  gpu_shutdown V g w = Done tt g1 w1 ->
  igcl_lib g1 = None /\ query_handle (pdh g1) = None /\
  perf_counters_initialized (pdh g1) = false /\
  gpu_shutdown V g1 w1 = Done tt g1 w1.
Proof.
  unfold gpu_shutdown. intros H.
  apply bind_Done in H. destruct H as ([ ] & ga & wa & Ha & H).
  apply intel_unload_igcl_Done in Ha. destruct Ha as (Hd & Hl & _ & _).
  unfold cleanup_performance_counters in *.
  apply (cleanup_performance_counters_Done pdh set_pdh intel_pdh_with intel_with_with) in H.
  destruct H as (Hq & Hf & _ & p' & ->).
  cbn [igcl_lib set_pdh]. repeat split; try assumption.
  rewrite (bind_eq _ _ _ _ tt (set_pdh p' ga) w1).
  - apply (cleanup_performance_counters_idle pdh set_pdh intel_with_same); assumption.
  - apply intel_unload_igcl_idle; assumption.
Qed.
End IntelLifecycle.

(* ===================================================================== *)
(** * The probe chain (C6) *)

Definition returned {G A} (o : outcome G A) : option A :=
  match o with
  | Done a _ _ => Some a
  | Fault _ => None
  end.

Definition final_world {G A} (o : outcome G A) : world :=
  match o with
  | Done _ _ w => w
  | Fault _ => world0
  end.

(** The [LoadLibraryA] attempts of a trace, oldest first. *)
Definition load_attempts (w : world) : list (string * option HMODULE) :=
  rev (flat_map (fun e => match e with
                          | EvLoadLibraryA p r => [(p, r)]
                          | _ => []
                          end) (trace w)).

(** A machine with two libraries: [first] loads as module 1 with export
    table [exports1], [second] as module 2 with [exports2]. *)
Definition two_libraries (first second : string) (exports1 exports2 : string -> bool)
  : OS :=
  mkOS (fun _ path => if String.eqb path first then Some 1%nat
                      else if String.eqb path second then Some 2%nat else None)
       (fun h sym => if Nat.eqb h 1 then exports1 sym else exports2 sym)
       (fun _ => true)
       (fun _ => None) (fun _ _ _ => None) (fun _ _ => false)
       (fun _ _ => None) (fun _ _ => None) (fun _ => None) (fun _ => 16 * GiB).

Definition nvml_dll_first : string := "C:\Program Files\NVIDIA Corporation\NVSMI\nvml.dll".

(** C6, as stated, fails: the first candidate loads but lacks
    [nvmlShutdown]; the second candidate is a complete library; the probe
    reports -2 after a single [LoadLibraryA] and never tries the second. *)
Lemma probe_chain_counterexample :
  let O := two_libraries nvml_dll_first nvml_dll (all_but "nvmlShutdown") all_symbols in
  let run := Nvidia.load_nvml O Nvidia.globals0 world0 in
  returned run = Some (-2) /\
  load_attempts (final_world run) = [(nvml_dll_first, Some 1%nat)] /\
  nth_error Nvidia.possible_paths 1 = Some nvml_dll /\
  (forall t, os_LoadLibraryA O t nvml_dll = Some 2%nat) /\
  nvidia_complete O 2%nat = true.
Proof.
  cbv zeta. split; [ vm_compute; reflexivity | ].
  split; [ vm_compute; reflexivity | ].
  split; [ reflexivity | ].
  split; [ intros t; reflexivity | vm_compute; reflexivity ].
Qed.

(** What a probe that ends on a library with a missing symbol leaves
    behind. *)
Definition probe_rejected (paths : list string) (failed : list string) (p : string)
    (h : HMODULE) (lib : option HMODULE) (w w' : world) : Prop :=
  lib = None /\ modules w' = modules w /\ queries w' = queries w /\
  (exists res,
      forallb resolution_event res = true /\
      trace w' = EvFreeLibrary h :: res ++ EvLoadLibraryA p (Some h)
                   :: rev (map failed_load failed) ++ trace w) /\
  (exists later, paths = failed ++ [p] ++ later).

(** C6 (amended): when the first candidate that loads lacks a required
    symbol, the prober frees it, resets its handle to NULL and returns
    -2 at once.  The trace holds one [LoadLibraryA] per candidate up to
    and including that one, the symbol lookups, and the [FreeLibrary]:
    the candidates after it in the list are never attempted. *)
Theorem probe_stops_at_first_loaded (O : OS) :
  (forall g w failed p h,
      probe O (now w) Nvidia.possible_paths = (failed, Some (p, h)) ->
      nvidia_complete O h = false ->
      exists g' w',
        Nvidia.load_nvml O g w = Done (-2) g' w' /\
        probe_rejected Nvidia.possible_paths failed p h (Nvidia.nvml_lib g') w w') /\
  (forall g w failed p h,
      probe O (now w) Amd.possible_paths = (failed, Some (p, h)) ->
      amd_complete O h = false ->
      exists g' w',
        Amd.load_ags O g w = Done (-2) g' w' /\
        probe_rejected Amd.possible_paths failed p h (Amd.ags_lib g') w w') /\
  (forall g w failed p h,
      probe O (now w) Intel.possible_paths = (failed, Some (p, h)) ->
      intel_complete O h = false ->
      exists g' w',
        Intel.load_igcl O g w = Done (-2) g' w' /\
        probe_rejected Intel.possible_paths failed p h (Intel.igcl_lib g') w w').
Proof.
  split; [ | split ]; intros g w failed p h Hp Hc.
  - pose proof (nvidia_load_nvml_eq O g w) as Hl. rewrite Hp in Hl.
    destruct Hl as (res & Hres & Hl). cbv zeta in Hl. rewrite Hc in Hl.
    do 2 eexists. split; [ exact Hl | ].
    split; [ reflexivity | ]. split; [ reflexivity | ]. split; [ reflexivity | ].
    split; [ exists res; split; [ exact Hres | reflexivity ] | ].
    destruct (probe_prefix _ _ _ _ _ Hp) as [later E]. now exists later.
  - pose proof (amd_load_ags_eq O g w) as Hl. rewrite Hp in Hl.
    destruct Hl as (res & Hres & Hl). cbv zeta in Hl. rewrite Hc in Hl.
    do 2 eexists. split; [ exact Hl | ].
    split; [ reflexivity | ]. split; [ reflexivity | ]. split; [ reflexivity | ].
    split; [ exists res; split; [ exact Hres | reflexivity ] | ].
    destruct (probe_prefix _ _ _ _ _ Hp) as [later E]. now exists later.
  - pose proof (intel_load_igcl_eq O g w) as Hl. rewrite Hp in Hl.
    destruct Hl as (res & Hres & Hl). cbv zeta in Hl. rewrite Hc in Hl.
    do 2 eexists. split; [ exact Hl | ].
    split; [ reflexivity | ]. split; [ reflexivity | ]. split; [ reflexivity | ].
    split; [ exists res; split; [ exact Hres | reflexivity ] | ].
    destruct (probe_prefix _ _ _ _ _ Hp) as [later E]. now exists later.
Qed.

Lemma probe_stops_at_first_loaded_witness :
  let O := two_libraries nvml_dll_first nvml_dll (all_but "nvmlShutdown") all_symbols in
  exists g' w',
    Nvidia.load_nvml O Nvidia.globals0 world0 = Done (-2) g' w' /\
    probe_rejected Nvidia.possible_paths [] nvml_dll_first 1%nat
                   (Nvidia.nvml_lib g') world0 w'.
Proof.
  cbv zeta.
  apply (proj1 (probe_stops_at_first_loaded _) Nvidia.globals0 world0
               [] nvml_dll_first 1%nat).
  - vm_compute. reflexivity.
  - vm_compute. reflexivity.
Defined.

(* ===================================================================== *)
(** * Histories in which [gpu_init] has not succeeded *)

Inductive lifecycle_call : Type := CallInit | CallShutdown.

(** Runs the calls in order and stops at the first [gpu_init] that
    returns 0.  The result is [true] when none did. *)
Fixpoint failed_attempts {G} (init : M G Z) (shutdown : M G unit)
    (calls : list lifecycle_call) : M G bool :=
  match calls with
  | [] => ret true
  | CallInit :: rest =>
      r <- init ;;
      if r =? 0 then ret false else failed_attempts init shutdown rest
  | CallShutdown :: rest =>
      shutdown ;; failed_attempts init shutdown rest
  end.

Lemma failed_attempts_invariant {G} (init : M G Z) (shutdown : M G unit)
    (Inv : G -> world -> Prop) :
  (forall g w, Inv g w ->
     exists r g' w', init g w = Done r g' w' /\ (r <> 0 -> Inv g' w')) ->
  (forall g w, Inv g w -> exists g' w', shutdown g w = Done tt g' w' /\ Inv g' w') ->
  forall calls g w, Inv g w ->
    exists b g' w', failed_attempts init shutdown calls g w = Done b g' w'
                    /\ (b = true -> Inv g' w').
Proof.
  intros Hinit Hshut. induction calls as [ | [ | ] rest IH ]; intros g w HI; simpl.
  - exists true, g, w. split; [ reflexivity | auto ].
  - destruct (Hinit g w HI) as (r & g1 & w1 & E & H1).
    rewrite (bind_eq _ _ _ _ _ _ _ E).
    destruct (r =? 0) eqn:Er.
    + exists false, g1, w1. split; [ reflexivity | discriminate ].
    + apply IH, H1. now apply Z.eqb_neq.
  - destruct (Hshut g w HI) as (g1 & w1 & E & H1).
    rewrite (bind_eq _ _ _ _ _ _ _ E). now apply IH.
Qed.

(** NVIDIA: no library handle, nothing loaded. *)
Definition nvidia_unloaded (g : Nvidia.globals) (w : world) : Prop :=
  Nvidia.nvml_lib g = None /\ modules w = [].

(** AMD: neither backend is up, no query is open, and a library handle
    still held (initialize was rejected) is a loaded module. *)
Definition amd_unselected (g : Amd.globals) (w : world) : Prop :=
  Amd.ags_initialized g = false /\
  perf_counters_initialized (Amd.pdh g) = false /\
  query_handle (Amd.pdh g) = None /\
  (forall h, Amd.ags_lib g = Some h -> held h (modules w) = true).

Definition intel_unselected (g : Intel.globals) (w : world) : Prop :=
  Intel.igcl_initialized g = false /\
  perf_counters_initialized (Intel.pdh g) = false /\
  query_handle (Intel.pdh g) = None /\
  (forall h, Intel.igcl_lib g = Some h -> held h (modules w) = true).

Section NeverInitialized.
Variable O : OS.

Lemma nvidia_unloaded_init V g w :
  nvidia_unloaded g w ->
  exists r g' w', Nvidia.gpu_init O V g w = Done r g' w'
                  /\ (r <> 0 -> nvidia_unloaded g' w').
Proof.
  intros (Hl & Hm).
  destruct (nvidia_gpu_init_cases O V g w)
    as (r & g' & w' & E & _ & [(-> & _) | (Hr & Hl' & Hm')]).
  - exists 0, g', w'. split; [ exact E | ]. intros H. now elim H.
  - exists r, g', w'. split; [ exact E | ]. intros _. split; congruence.
Qed.

Lemma nvidia_unloaded_shutdown V g w :
  nvidia_unloaded g w ->
  exists g' w', Nvidia.gpu_shutdown V g w = Done tt g' w' /\ nvidia_unloaded g' w'.
Proof.
  intros HI. exists g, w. split; [ | exact HI ].
  apply nvidia_gpu_shutdown_unloaded, HI.
Qed.

Lemma callg_unloaded {G R} fn (sel : G -> fnptr) (impl : nat -> R) g w :
  modules w = [] -> exists f, callg fn sel impl g w = Fault f.
Proof.
  intros Hm. unfold callg, call, bind, read. destruct (sel g) as [h | ].
  - rewrite Hm. simpl. eauto.
  - eauto.
Qed.

Lemma nvidia_unloaded_queries V g w :
  nvidia_unloaded g w ->
  (exists f, Nvidia.gpu_get_count V g w = Fault f) /\
  (exists f, Nvidia.gpu_get_info_json O V g w = Fault f) /\
  (exists f, Nvidia.gpu_get_usage V g w = Fault f).
Proof.
  intros (_ & Hm). split; [ | split ].
  - destruct (callg_unloaded "nvmlDeviceGetCount" Nvidia.nvmlDeviceGetCount
                (Nvidia.nvmlDeviceGetCount_impl V) g w Hm) as [f E].
    exists f. unfold Nvidia.gpu_get_count. now apply bind_Fault.
  - destruct (callg_unloaded "nvmlDeviceGetCount" Nvidia.nvmlDeviceGetCount
                (Nvidia.nvmlDeviceGetCount_impl V) g w Hm) as [f E].
    exists f. unfold Nvidia.gpu_get_info_json. now apply bind_Fault.
  - destruct (callg_unloaded "nvmlDeviceGetHandleByIndex"
                Nvidia.nvmlDeviceGetHandleByIndex
                (fun t => Nvidia.nvmlDeviceGetHandleByIndex_impl V t 0) g w Hm) as [f E].
    exists f. unfold Nvidia.gpu_get_usage. now apply bind_Fault.
Qed.

Lemma amd_unselected_init V g w :
  amd_unselected g w ->
  exists r g' w', Amd.gpu_init O V g w = Done r g' w'
                  /\ (r <> 0 -> amd_unselected g' w').
Proof.
  intros (Hi & Hf & Hq & Hl).
  destruct (amd_gpu_init_cases O V g w) as (r & g' & w' & E & Hc).
  exists r, g', w'. split; [ exact E | ]. intros Hr.
  destruct Hc as [(-> & _) | (Hi' & Hlib & [(-> & _) | (_ & Hf' & Hq' & _)])];
    try (now elim Hr).
  split; [ congruence | ]. split; [ congruence | ].
  split; [ destruct Hq'; congruence | ].
  intros h Hh. destruct Hlib as [(Hn & _) | (h' & Hs & Hm)]; [ congruence | ].
  rewrite Hm. assert (h = h') by congruence. subst. apply held_cons_same.
Qed.

Lemma amd_unselected_shutdown V g w :
  amd_unselected g w ->
  exists g' w', Amd.gpu_shutdown V g w = Done tt g' w' /\ amd_unselected g' w'.
Proof.
  intros (Hi & Hf & Hq & Hl).
  assert (Hu : exists w1, Amd.unload_ags V g w = Done tt (Amd.set_ags_lib None g) w1).
  { unfold Amd.unload_ags, bind, read, ret, id, FreeLibrary, write. rewrite Hi.
    destruct (Amd.ags_lib g) as [h | ] eqn:E.
    - rewrite (Hl h eq_refl). eauto.
    - exists w. f_equal. destruct g. simpl in *. now subst. }
  destruct Hu as (w1 & Hu).
  exists (Amd.set_ags_lib None g), w1. split.
  - unfold Amd.gpu_shutdown. rewrite (bind_eq _ _ _ _ _ _ _ Hu).
    apply (cleanup_performance_counters_idle Amd.pdh Amd.set_pdh (amd_with_same));
      assumption.
  - repeat split; try assumption. discriminate.
Qed.

Lemma intel_unselected_init V g w :
  intel_unselected g w ->
  exists r g' w', Intel.gpu_init O V g w = Done r g' w'
                  /\ (r <> 0 -> intel_unselected g' w').
Proof.
  intros (Hi & Hf & Hq & Hl).
  destruct (intel_gpu_init_cases O V g w) as (r & g' & w' & E & Hc).
  exists r, g', w'. split; [ exact E | ]. intros Hr.
  destruct Hc as [(-> & _) | (Hi' & Hlib & [(-> & _) | (_ & Hf' & Hq' & _)])];
    try (now elim Hr).
  split; [ congruence | ]. split; [ congruence | ].
  split; [ destruct Hq'; congruence | ].
  intros h Hh. destruct Hlib as [(Hn & _) | (h' & Hs & Hm)]; [ congruence | ].
  rewrite Hm. assert (h = h') by congruence. subst. apply held_cons_same.
Qed.

Lemma intel_unselected_shutdown V g w :
  intel_unselected g w ->
  exists g' w', Intel.gpu_shutdown V g w = Done tt g' w' /\ intel_unselected g' w'.
Proof.
  intros (Hi & Hf & Hq & Hl).
  assert (Hu : exists w1,
             Intel.unload_igcl V g w = Done tt (Intel.set_igcl_lib None g) w1).
  { unfold Intel.unload_igcl, bind, read, ret, id, FreeLibrary, write. rewrite Hi.
    cbn [andb]. destruct (Intel.igcl_lib g) as [h | ] eqn:E.
    - rewrite (Hl h eq_refl). eauto.
    - exists w. f_equal. destruct g. simpl in *. now subst. }
  destruct Hu as (w1 & Hu).
  exists (Intel.set_igcl_lib None g), w1. split.
  - unfold Intel.gpu_shutdown. rewrite (bind_eq _ _ _ _ _ _ _ Hu).
    apply (cleanup_performance_counters_idle Intel.pdh Intel.set_pdh (intel_with_same));
      assumption.
  - repeat split; try assumption. discriminate.
Qed.
End NeverInitialized.

(* ===================================================================== *)
(** * After a successful [gpu_init] *)

Section Initialized.
Variable O : OS.

Definition module_loaded (h : HMODULE) : list HMODULE -> Prop :=
  fun ms => held h ms = true.

Lemma callable_loaded h : callable (module_loaded h) no_fault (Some h).
Proof. right. exists h. split; [ reflexivity | auto ]. Qed.

Lemma ptr_of_callable h b p :
  p = ptr_of b h -> p <> None -> callable (module_loaded h) no_fault p.
Proof.
  intros -> Hn. destruct b; [ apply callable_loaded | now elim Hn ].
Qed.

(** The state [gpu_init] returned 0 in. *)
Lemma nvidia_init_ready V g0 w0 g w :
  Nvidia.gpu_init O V g0 w0 = Done 0 g w ->
  exists h, nvidia_ready O h g /\ module_loaded h (modules w).
Proof.
  intros E. destruct (nvidia_gpu_init_cases O V g0 w0)
    as (r & g' & w' & E' & _ & [(_ & h & Hr & Hm) | (Hr & _)]);
    rewrite E in E'; inversion E'; subst.
  - exists h. split; [ exact Hr | ]. unfold module_loaded. rewrite Hm.
    apply held_cons_same.
  - now elim Hr.
Qed.

(** [gpu_shutdown] in a ready state, evaluated. *)
Lemma nvidia_ready_shutdown_eq V h g w :
  nvidia_ready O h g -> held h (modules w) = true ->
  Nvidia.gpu_shutdown V g w
  = Done tt (Nvidia.set_nvml_lib None g)
         (mkWorld (EvFreeLibrary h :: EvCall "nvmlShutdown" h :: trace w)
                  (remove_one h (modules w)) (queries w)).
Proof.
  intros (Hlib & _ & Hs & _) Hw.
  unfold Nvidia.gpu_shutdown, Nvidia.unload_nvml, callg, call, bind, read, ret, id,
    FreeLibrary, write.
  rewrite Hlib, Hs. cbn [non_null is_null negb andb]. rewrite Hs, Hw.
  rewrite Hlib. cbn [log modules trace queries]. rewrite Hw. reflexivity.
Qed.

Lemma nvidia_ready_count V h g w :
  nvidia_ready O h g -> module_loaded h (modules w) ->
  exists a w', Nvidia.gpu_get_count V g w = Done a g w' /\ extends sample_event w w'.
Proof.
  intros (_ & _ & _ & Hc & _) Hw.
  destruct (runs_total (module_loaded h) sample_event g _ (Nvidia.gpu_get_count V) w
              (nvidia_gpu_get_count_runs V _ _ g
                 ltac:(rewrite Hc; apply callable_loaded)) Hw)
    as (a & w' & E & _ & Hext).
  now exists a, w'.
Qed.

Lemma nvidia_ready_usage V h g w :
  nvidia_ready O h g -> module_loaded h (modules w) ->
  exists a w', Nvidia.gpu_get_usage V g w = Done a g w' /\ extends sample_event w w'.
Proof.
  intros (_ & _ & _ & _ & Hh & _ & Hu & _) Hw.
  destruct (runs_total (module_loaded h) sample_event g _ (Nvidia.gpu_get_usage V) w
              (nvidia_gpu_get_usage_runs V _ _ g
                 ltac:(rewrite Hh; apply callable_loaded)
                 ltac:(rewrite Hu; apply callable_loaded)) Hw)
    as (a & w' & E & _ & Hext).
  now exists a, w'.
Qed.

Lemma nvidia_ready_info V h g w :
  nvidia_ready O h g -> module_loaded h (modules w) ->
  Nvidia.nvmlDeviceGetTemperature g <> None ->
  Nvidia.nvmlDeviceGetPowerUsage g <> None ->
  exists res w', Nvidia.gpu_get_info_json O V g w = Done res g w'
                 /\ nvidia_info_out O V res.
Proof.
  intros (_ & _ & _ & Hc & Hh & Hn & Hu & Hm & Ht & Hp) Hw Htn Hpn.
  destruct (runs_total (module_loaded h) sample_event g _
              (Nvidia.gpu_get_info_json O V) w
              (nvidia_gpu_get_info_json_runs O V _ _ g
                 ltac:(rewrite Hc; apply callable_loaded)
                 ltac:(rewrite Hh; apply callable_loaded)
                 ltac:(rewrite Hn; apply callable_loaded)
                 ltac:(rewrite Hu; apply callable_loaded)
                 ltac:(rewrite Hm; apply callable_loaded)
                 (ptr_of_callable h _ _ Ht Htn)
                 (ptr_of_callable h _ _ Hp Hpn)) Hw)
    as (a & w' & E & Ha & _).
  now exists a, w'.
Qed.
End Initialized.

(* ===================================================================== *)
(** * The NVIDIA queries carry no guard (C10) *)

Definition nvidia_attempts (O : OS) (V : Nvidia.NVML) :=
  failed_attempts (Nvidia.gpu_init O V) (Nvidia.gpu_shutdown V).

(** C10: the three NVIDIA queries call through the stored pointers
    unguarded.  (1) Before any [gpu_init] each of them calls a NULL
    pointer.  (2) After any history of [gpu_init] and [gpu_shutdown]
    calls in which no [gpu_init] returned 0, each of them faults (NULL
    pointer, or pointer into a library that was freed again).  (3) In
    the state a [gpu_init] returned 0 in, [gpu_get_count] and
    [gpu_get_usage] return.  (4) Once [gpu_shutdown] has closed that
    session each of them faults again.  (5) The AMD and Intel queries
    test their flags: before any [gpu_init] they return 1, a document
    and -1. *)
Theorem nvidia_queries_need_init (O : OS) (V : Nvidia.NVML) :
  (forall w,
      Nvidia.gpu_get_count V Nvidia.globals0 w = Fault (NullCall "nvmlDeviceGetCount") /\
      Nvidia.gpu_get_info_json O V Nvidia.globals0 w
      = Fault (NullCall "nvmlDeviceGetCount") /\
      Nvidia.gpu_get_usage V Nvidia.globals0 w
      = Fault (NullCall "nvmlDeviceGetHandleByIndex")) /\
  (forall calls g w,
      nvidia_attempts O V calls Nvidia.globals0 world0 = Done true g w ->
      (exists f, Nvidia.gpu_get_count V g w = Fault f) /\
      (exists f, Nvidia.gpu_get_info_json O V g w = Fault f) /\
      (exists f, Nvidia.gpu_get_usage V g w = Fault f)) /\
  (forall g0 w0 g w,
      Nvidia.gpu_init O V g0 w0 = Done 0 g w ->
      (exists a w', Nvidia.gpu_get_count V g w = Done a g w') /\
      (exists a w', Nvidia.gpu_get_usage V g w = Done a g w')) /\
  (forall g w g1 w1,
      Nvidia.gpu_init O V Nvidia.globals0 world0 = Done 0 g w ->
      Nvidia.gpu_shutdown V g w = Done tt g1 w1 ->
      (exists f, Nvidia.gpu_get_count V g1 w1 = Fault f) /\
      (exists f, Nvidia.gpu_get_info_json O V g1 w1 = Fault f) /\
      (exists f, Nvidia.gpu_get_usage V g1 w1 = Fault f)) /\
  (forall VA VI w,
      Amd.gpu_get_count Amd.globals0 w = Done 1 Amd.globals0 w /\
      Amd.gpu_get_usage O VA Amd.globals0 w = Done (-1) Amd.globals0 w /\
      returned (Amd.gpu_get_info_json O VA Amd.globals0 w) <> None /\
      Intel.gpu_get_count VI Intel.globals0 w = Done 1 Intel.globals0 w /\
      Intel.gpu_get_usage O VI Intel.globals0 w = Done (-1) Intel.globals0 w /\
      returned (Intel.gpu_get_info_json O VI Intel.globals0 w) <> None).
Proof.
  split; [ | split; [ | split; [ | split ] ] ].
  4:{ intros g w g1 w1 E Es.
      destruct (nvidia_gpu_init_cases O V Nvidia.globals0 world0)
        as (r & g' & w' & E' & _ & [(_ & h & Hr & Hm) | (Hr & _)]);
        rewrite E in E'; inversion E'; subst; [ | now elim Hr ].
      rewrite (nvidia_ready_shutdown_eq O V h g' w' Hr) in Es
        by (rewrite Hm; apply held_cons_same).
      inversion Es; subst. apply nvidia_unloaded_queries.
      split; [ reflexivity | ]. cbn [modules]. rewrite Hm.
      apply remove_one_cons_same. }
  - intros w. repeat split.
  - intros calls g w E.
    destruct (failed_attempts_invariant (Nvidia.gpu_init O V) (Nvidia.gpu_shutdown V)
                nvidia_unloaded (nvidia_unloaded_init O V) (nvidia_unloaded_shutdown V)
                calls Nvidia.globals0 world0 (conj eq_refl eq_refl))
      as (b & g' & w' & E' & HI).
    unfold nvidia_attempts in E. rewrite E in E'. inversion E'; subst.
    apply nvidia_unloaded_queries, HI. reflexivity.
  - intros g0 w0 g w E. destruct (nvidia_init_ready O V g0 w0 g w E) as (h & Hr & Hw).
    split.
    + destruct (nvidia_ready_count O V h g w Hr Hw) as (a & w' & Ea & _). eauto.
    + destruct (nvidia_ready_usage O V h g w Hr Hw) as (a & w' & Ea & _). eauto.
  - intros VA VI w. split; [ reflexivity | ]. split; [ reflexivity | ].
    split; [ | split; [ reflexivity | split; [ reflexivity | ] ] ].
    + unfold Amd.gpu_get_info_json, Amd.gpu_get_count, bind, read, malloc, ret, id.
      cbn [Amd.ags_initialized Amd.globals0 Z.leb Z.compare].
      destruct (os_malloc O (now w)); cbn; discriminate.
    + unfold Intel.gpu_get_info_json, bind, malloc.
      destruct (os_malloc O (now w)); cbn; discriminate.
Qed.

Lemma nvidia_queries_need_init_witness :
  let O := machine nvml_dll (all_but "nvmlDeviceGetName") false in
  let V := nvml_two_devices in
  let calls := [CallInit; CallShutdown; CallInit] in
  exists g w,
    nvidia_attempts O V calls Nvidia.globals0 world0 = Done true g w /\
    (exists f, Nvidia.gpu_get_count V g w = Fault f) /\
    (exists f, Nvidia.gpu_get_info_json O V g w = Fault f) /\
    (exists f, Nvidia.gpu_get_usage V g w = Fault f).
Proof.
  cbv zeta.
  destruct (nvidia_attempts (machine nvml_dll (all_but "nvmlDeviceGetName") false)
              nvml_two_devices [CallInit; CallShutdown; CallInit]
              Nvidia.globals0 world0) as [b g w | f] eqn:E;
    pose proof E as E2; vm_compute in E2; [ | discriminate E2 ].
  inversion E2; subst. clear E2.
  do 2 eexists. split; [ reflexivity | ].
  exact (proj1 (proj2 (nvidia_queries_need_init _ _)) _ _ _ E).
Defined.

(* ===================================================================== *)
(** * [gpu_shutdown] after a successful [gpu_init] *)

Definition amd_attempts (O : OS) (V : Amd.AGS) :=
  failed_attempts (Amd.gpu_init O V) (Amd.gpu_shutdown V).

Definition intel_attempts (O : OS) (V : Intel.IGCL) :=
  failed_attempts (Intel.gpu_init O V) (Intel.gpu_shutdown V).

Section ShutdownAfterInit.
Variable O : OS.

(** Every handle the AMD globals hold is live in the world. *)
Definition amd_handles_live (g : Amd.globals) (w : world) : Prop :=
  (amd_deinit_due g = true ->
   exists h, Amd.agsDeInitialize g = Some h /\ held h (modules w) = true) /\
  (forall h, Amd.ags_lib g = Some h -> held h (modules w) = true) /\
  (forall q, query_handle (Amd.pdh g) = Some q -> held q (queries w) = true).

(** Every handle the Intel globals hold is live in the world. *)
Definition intel_handles_live (g : Intel.globals) (w : world) : Prop :=
  (intel_shutdown_due g = true ->
   exists h, Intel.igcl_shutdown g = Some h /\ held h (modules w) = true) /\
  (forall h, Intel.igcl_lib g = Some h -> held h (modules w) = true) /\
  (forall q, query_handle (Intel.pdh g) = Some q -> held q (queries w) = true).

Lemma nvidia_shutdown_after_init V g0 w0 g w w2 :
  Nvidia.gpu_init O V g0 w0 = Done 0 g w ->
  modules w2 = modules w ->
  exists g1 w1, Nvidia.gpu_shutdown V g w2 = Done tt g1 w1.
Proof.
  intros E Hm. destruct (nvidia_init_ready O V g0 w0 g w E) as (h & Hr & Hw).
  unfold module_loaded in Hw. rewrite <- Hm in Hw.
  rewrite (nvidia_ready_shutdown_eq O V h g w2 Hr Hw). eauto.
Qed.

Lemma amd_handles_live_same g w w2 :
  modules w2 = modules w -> queries w2 = queries w ->
  amd_handles_live g w -> amd_handles_live g w2.
Proof. unfold amd_handles_live. intros -> ->. trivial. Qed.

Lemma intel_handles_live_same g w w2 :
  modules w2 = modules w -> queries w2 = queries w ->
  intel_handles_live g w -> intel_handles_live g w2.
Proof. unfold intel_handles_live. intros -> ->. trivial. Qed.

Lemma amd_shutdown_live V g w :
  amd_handles_live g w -> exists g1 w1, Amd.gpu_shutdown V g w = Done tt g1 w1.
Proof.
  intros (Hd & Hl & Hq).
  assert (Hu : exists g1 w1, Amd.unload_ags V g w = Done tt g1 w1
                             /\ Amd.pdh g1 = Amd.pdh g /\ queries w1 = queries w).
  { unfold Amd.unload_ags, bind, read, ret, id.
    assert (Hfree : forall g' w', Amd.ags_lib g' = Amd.ags_lib g ->
                      modules w' = modules w -> queries w' = queries w ->
                      Amd.pdh g' = Amd.pdh g ->
                      exists g1 w1,
                        match Amd.ags_lib g' with
                        | Some h => fun g2 w2 =>
                            match FreeLibrary h g2 w2 with
                            | Done _ g3 w3 => write (Amd.set_ags_lib None) g3 w3
                            | Fault f => Fault f
                            end
                        | None => fun g2 w2 => Done tt g2 w2
                        end g' w' = Done tt g1 w1
                        /\ Amd.pdh g1 = Amd.pdh g /\ queries w1 = queries w).
    { intros g' w' El Em Eq Ep. rewrite El.
      destruct (Amd.ags_lib g) as [h | ] eqn:E.
      - unfold FreeLibrary, write. rewrite Em, (Hl h eq_refl).
        do 2 eexists. split; [ reflexivity | ]. split; [ exact Ep | exact Eq ].
      - do 2 eexists. split; [ reflexivity | ]. split; [ exact Ep | exact Eq ]. }
    unfold amd_deinit_due in Hd.
    destruct (Amd.ags_initialized g) eqn:Hi; [ | now apply Hfree ].
    destruct (Amd.ags_context g) as [ctx | ] eqn:Hc; [ | now apply Hfree ].
    destruct (Amd.agsDeInitialize g) as [hd | ] eqn:Hp; [ | now apply Hfree ].
    destruct (Hd eq_refl) as (h & Hh & Hheld). inversion Hh; subst hd.
    unfold callg, call, bind, read, write. rewrite Hp, Hheld.
    now apply Hfree. }
  destruct Hu as (g1 & w1 & Hu & Hp & Hqs).
  unfold Amd.gpu_shutdown. rewrite (bind_eq _ _ _ _ _ _ _ Hu).
  unfold Amd.cleanup_performance_counters.
  destruct (query_handle (Amd.pdh g1)) as [q | ] eqn:Eq.
  - apply (cleanup_performance_counters_held Amd.pdh Amd.set_pdh g1 w1 q Eq).
    rewrite Hqs. apply Hq. now rewrite <- Hp.
  - unfold cleanup_performance_counters, bind, read, upd, write, ret. rewrite Eq. eauto.
Qed.

Lemma amd_shutdown_after_init V w0 g w w2 :
  Amd.gpu_init O V Amd.globals0 w0 = Done 0 g w ->
  modules w2 = modules w -> queries w2 = queries w ->
  exists g1 w1, Amd.gpu_shutdown V g w2 = Done tt g1 w1.
Proof.
  intros E Hm2 Hq2. apply amd_shutdown_live.
  apply (amd_handles_live_same g w w2 Hm2 Hq2).
  destruct (amd_gpu_init_cases O V Amd.globals0 w0) as (r' & g' & w' & E' & Hc).
  rewrite E in E'. inversion E'; subst r' g' w'. clear E'.
  destruct Hc as [(_ & Hp & _ & h & (_ & Hl & _ & Hd & _) & Hm)
                 | (Hi & Hlib & [(_ & _ & q & Hq & Hqs) | (Hr & _)])];
    [ | | discriminate Hr ].
  - repeat split.
    + intros _. exists h. split; [ exact Hd | rewrite Hm; apply held_cons_same ].
    + intros h' Hh. assert (h' = h) by congruence. subst.
      rewrite Hm. apply held_cons_same.
    + intros q Hq. rewrite Hp in Hq. discriminate Hq.
  - repeat split.
    + unfold amd_deinit_due. rewrite Hi. discriminate.
    + intros h Hh. destruct Hlib as [(Hn & _) | (h' & Hs & Hm)]; [ congruence | ].
      assert (h = h') by congruence. subst. rewrite Hm. apply held_cons_same.
    + intros q' Hq'. assert (q' = q) by congruence. subst.
      rewrite Hqs. apply held_cons_same.
Qed.

Lemma intel_shutdown_live V g w :
  intel_handles_live g w -> exists g1 w1, Intel.gpu_shutdown V g w = Done tt g1 w1.
Proof.
  intros (Hd & Hl & Hq).
  assert (Hu : exists g1 w1, Intel.unload_igcl V g w = Done tt g1 w1
                             /\ Intel.pdh g1 = Intel.pdh g /\ queries w1 = queries w).
  { unfold Intel.unload_igcl, bind, read, ret, id.
    assert (Hfree : forall g' w', Intel.igcl_lib g' = Intel.igcl_lib g ->
                      modules w' = modules w -> queries w' = queries w ->
                      Intel.pdh g' = Intel.pdh g ->
                      exists g1 w1,
                        match Intel.igcl_lib g' with
                        | Some h => fun g2 w2 =>
                            match FreeLibrary h g2 w2 with
                            | Done _ g3 w3 => write (Intel.set_igcl_lib None) g3 w3
                            | Fault f => Fault f
                            end
                        | None => fun g2 w2 => Done tt g2 w2
                        end g' w' = Done tt g1 w1
                        /\ Intel.pdh g1 = Intel.pdh g /\ queries w1 = queries w).
    { intros g' w' El Em Eq Ep. rewrite El.
      destruct (Intel.igcl_lib g) as [h | ] eqn:E.
      - unfold FreeLibrary, write. rewrite Em, (Hl h eq_refl).
        do 2 eexists. split; [ reflexivity | ]. split; [ exact Ep | exact Eq ].
      - do 2 eexists. split; [ reflexivity | ]. split; [ exact Ep | exact Eq ]. }
    unfold intel_shutdown_due in Hd.
    destruct (Intel.igcl_initialized g && non_null (Intel.igcl_shutdown g)) eqn:Hg;
      [ | now apply Hfree ].
    destruct (Hd eq_refl) as (h & Hh & Hheld).
    unfold callg, call, bind, read, write. rewrite Hh, Hheld.
    now apply Hfree. }
  destruct Hu as (g1 & w1 & Hu & Hp & Hqs).
  unfold Intel.gpu_shutdown. rewrite (bind_eq _ _ _ _ _ _ _ Hu).
  unfold Intel.cleanup_performance_counters.
  destruct (query_handle (Intel.pdh g1)) as [q | ] eqn:Eq.
  - apply (cleanup_performance_counters_held Intel.pdh Intel.set_pdh g1 w1 q Eq).
    rewrite Hqs. apply Hq. now rewrite <- Hp.
  - unfold cleanup_performance_counters, bind, read, upd, write, ret. rewrite Eq. eauto.
Qed.

Lemma intel_shutdown_after_init V w0 g w w2 :
  Intel.gpu_init O V Intel.globals0 w0 = Done 0 g w ->
  modules w2 = modules w -> queries w2 = queries w ->
  exists g1 w1, Intel.gpu_shutdown V g w2 = Done tt g1 w1.
Proof.
  intros E Hm2 Hq2. apply intel_shutdown_live.
  apply (intel_handles_live_same g w w2 Hm2 Hq2).
  destruct (intel_gpu_init_cases O V Intel.globals0 w0) as (r' & g' & w' & E' & Hc).
  rewrite E in E'. inversion E'; subst r' g' w'. clear E'.
  destruct Hc as [(_ & Hp & _ & h & (_ & Hl & _ & Hd & _) & Hm)
                 | (Hi & Hlib & [(_ & _ & q & Hq & Hqs) | (Hr & _)])];
    [ | | discriminate Hr ].
  - repeat split.
    + intros _. exists h. split; [ exact Hd | rewrite Hm; apply held_cons_same ].
    + intros h' Hh. assert (h' = h) by congruence. subst.
      rewrite Hm. apply held_cons_same.
    + intros q Hq. rewrite Hp in Hq. discriminate Hq.
  - repeat split.
    + unfold intel_shutdown_due. rewrite Hi. discriminate.
    + intros h Hh. destruct Hlib as [(Hn & _) | (h' & Hs & Hm)]; [ congruence | ].
      assert (h = h') by congruence. subst. rewrite Hm. apply held_cons_same.
    + intros q' Hq'. assert (q' = q) by congruence. subst.
      rewrite Hqs. apply held_cons_same.
Qed.
End ShutdownAfterInit.

(* ===================================================================== *)
(** * Optional NVML symbols (C5) *)

(** C5 fails on the code: [load_nvml] does not insist on
    [nvmlDeviceGetTemperature] (nor on [nvmlDeviceGetPowerUsage]), yet
    [gpu_get_info_json] calls both without a test.  With a library that
    lacks one of them [gpu_init] returns 0 and the first snapshot calls
    a NULL pointer. *)
Theorem nvidia_optional_symbol_unguarded :
  let V := nvml_two_devices in
  let O1 := machine nvml_dll (all_but "nvmlDeviceGetTemperature") false in
  let O2 := machine nvml_dll (all_but "nvmlDeviceGetPowerUsage") false in
  returned (Nvidia.gpu_init O1 V Nvidia.globals0 world0) = Some 0 /\
  nvidia_session O1 V = Fault (NullCall "nvmlDeviceGetTemperature") /\
  returned (Nvidia.gpu_init O2 V Nvidia.globals0 world0) = Some 0 /\
  nvidia_session O2 V = Fault (NullCall "nvmlDeviceGetPowerUsage").
Proof. cbv zeta. repeat split; vm_compute; reflexivity. Qed.

(** The AMD file has the same kind of optional symbol and tests it
    before every call: a library without [agsGetGPUMemoryUsage] gives a
    snapshot, with the counter-path defaults. *)
Example amd_optional_symbol_guarded :
  records_of (amd_session (machine ags_dll (all_but "agsGetGPUMemoryUsage") false)
                          (ags_devices 1))
  = [ mkRecord 0 "Radeon" 0 0 (16 * GiB) 0 (16 * GiB) 0%Q 0%Q ].
Proof. vm_compute. reflexivity. Qed.

(* ===================================================================== *)
(** * Queries when no backend came up (C4) *)

Lemma loop_out_one Qb i doc : loop_out Qb 1 i doc -> Qb i doc.
Proof.
  intros H. inversion H as [ | n j out rest Ho Hr ]; subst.
  inversion Hr; subst. now rewrite app_nil_r.
Qed.

Definition amd_default_record (gpu_name : string) : gpu_record :=
  mkRecord 0 gpu_name 0 0 (8 * GiB) 0 (8 * GiB) 0%Q 0%Q.

Definition intel_default_record (gpu_name : string) (total_mem : Z) : gpu_record :=
  mkRecord 0 gpu_name 0 0 total_mem 0 total_mem 0%Q 0%Q.

Section Unselected.
Variable O : OS.

Lemma perf_ready_off {G} (pdh : G -> pdh_globals) g :
  perf_counters_initialized (pdh g) = false -> perf_ready pdh g = false.
Proof. unfold perf_ready. now intros ->. Qed.

(** AMD with neither flag set: the queries, evaluated. *)
Lemma amd_idle_queries V g w :
  Amd.ags_initialized g = false ->
  perf_counters_initialized (Amd.pdh g) = false ->
  Amd.gpu_get_count g w = Done 1 g w /\
  Amd.gpu_get_usage O V g w = Done (-1) g w /\
  exists res w',
    Amd.gpu_get_info_json O V g w = Done res g w' /\
    extends counter_event w w' /\
    match res with
    | None => exists t, os_malloc O t = false
    | Some doc => exists gpu_name, doc = [Obj (amd_default_record gpu_name)]
    end.
Proof.
  intros Hi Hf. split; [ | split ].
  - unfold Amd.gpu_get_count, bind, read, id. now rewrite Hi.
  - unfold Amd.gpu_get_usage, Amd.get_gpu_utilization, bind, read, id. rewrite Hi.
    cbn [andb]. unfold Amd.get_gpu_utilization_perf_counter,
      get_gpu_utilization_perf_counter, bind, read. now rewrite Hf.
  - destruct (runs_total any_modules counter_event g _ (Amd.gpu_get_info_json O V) w
                (amd_gpu_get_info_json_runs O V any_modules no_fault counter_event g
                   (fun _ H => H)
                   ltac:(intros H; congruence) ltac:(intros H; congruence)) I)
      as (res & w' & E & Hres & Hext).
    exists res, w'. split; [ exact E | ]. split; [ exact Hext | ].
    unfold amd_info_out, amd_count in Hres. rewrite Hi in Hres.
    destruct res as [doc | ]; [ | destruct Hres as [H | H]; [ lia | exact H ] ].
    destruct Hres as (_ & Hl). apply loop_out_one in Hl.
    destruct Hl as (nm & u & tm & um & te & pw & -> & Hu & Hg & Hd).
    exists nm. cbn [Z.gtb Z.compare app]. do 2 f_equal.
    pose proof (perf_ready_off Amd.pdh g Hf) as Hr.
    assert (um = 0) as ->.
    { destruct Hu as [(H & _) | [-> | (H & _)]]; congruence. }
    assert (u = -1) as ->.
    { destruct Hg as [(H & _) | [-> | (H & _)]]; congruence. }
    destruct Hd as [(H & _) | (_ & -> & -> & ->)]; [ congruence | ].
    reflexivity.
Qed.

(** Intel with neither flag set: the queries, evaluated. *)
Lemma intel_idle_queries V g w :
  Intel.igcl_initialized g = false ->
  perf_counters_initialized (Intel.pdh g) = false ->
  Intel.gpu_get_count V g w = Done 1 g w /\
  Intel.gpu_get_usage O V g w = Done (-1) g w /\
  exists res w',
    Intel.gpu_get_info_json O V g w = Done res g w' /\
    extends counter_event w w' /\
    match res with
    | None => exists t, os_malloc O t = false
    | Some doc =>
        exists gpu_name t,
          doc = [Obj (intel_default_record gpu_name (u64 (os_ullTotalPhys O t) / 8))]
    end.
Proof.
  intros Hi Hf. split; [ | split ].
  - unfold Intel.gpu_get_count, bind, read, id. now rewrite Hi.
  - unfold Intel.gpu_get_usage, Intel.get_gpu_utilization, bind, read, id. rewrite Hi.
    cbn [andb]. unfold Intel.get_gpu_utilization_perf_counter,
      get_gpu_utilization_perf_counter, bind, read. now rewrite Hf.
  - destruct (runs_total any_modules counter_event g _ (Intel.gpu_get_info_json O V) w
                (intel_gpu_get_info_json_runs O V any_modules no_fault counter_event g
                   (fun _ H => H)
                   ltac:(intros H; congruence) ltac:(intros H; congruence)
                   ltac:(intros H; congruence)) I)
      as (res & w' & E & Hres & Hext).
    exists res, w'. split; [ exact E | ]. split; [ exact Hext | ].
    unfold intel_info_out in Hres.
    destruct res as [doc | ]; [ | exact Hres ].
    destruct Hres as (nm & u & tm & um & te & pw & -> & Hu & Hm & Ht & Hd).
    pose proof (perf_ready_off Intel.pdh g Hf) as Hr.
    assert (um = 0) as ->.
    { destruct Hm as [(H & _) | [-> | (H & _)]]; congruence. }
    assert (u = -1) as ->.
    { destruct Hu as [(H & _) | [-> | (H & _)]]; congruence. }
    destruct Hd as [(-> & ->) | (H & _)]; [ | congruence ].
    destruct Ht as [(H & _) | (t & ->)]; [ congruence | ].
    exists nm, t. do 2 f_equal.
    unfold Intel.make_record, intel_default_record.
    set (total := u64 (os_ullTotalPhys O t) / 8).
    assert (0 <= total < 2 ^ 64).
    { apply (intel_total_out_range O V g). right. now exists t. }
    rewrite Z.sub_0_r, (u64_small total) by assumption.
    cbn [Z.geb Z.compare Z.mul]. destruct (total >? 0); reflexivity.
Qed.
End Unselected.

(** [gpu_init(); q()] from the initial state. *)
Definition amd_after_init {A} (O : OS) (V : Amd.AGS) (q : M Amd.globals A) :=
  (Amd.gpu_init O V ;; q) Amd.globals0 world0.

Definition intel_after_init {A} (O : OS) (V : Intel.IGCL) (q : M Intel.globals A) :=
  (Intel.gpu_init O V ;; q) Intel.globals0 world0.

(** C4, as stated, fails: with no vendor library and no counters
    [gpu_init] returns -1, after which [gpu_get_count] returns 1 and
    [gpu_get_info_json] returns a document with one record; only
    [gpu_get_usage] returns -1. *)
Lemma failed_init_counterexample :
  let O := machine "none" all_symbols false in
  let V := ags_devices 2 in
  returned (Amd.gpu_init O V Amd.globals0 world0) = Some (-1) /\
  returned (amd_after_init O V Amd.gpu_get_count) = Some 1 /\
  returned (amd_after_init O V (Amd.gpu_get_info_json O V))
  = Some (Some [Obj (amd_default_record "AMD Graphics Card")]) /\
  returned (amd_after_init O V (Amd.gpu_get_usage O V)) = Some (-1).
Proof. cbv zeta. repeat split; vm_compute; reflexivity. Qed.

(** C4 (amended): when [gpu_init] fails on AMD or Intel (neither the
    vendor library nor the counters came up), [gpu_get_usage] returns
    -1, [gpu_get_count] returns 1, and [gpu_get_info_json] returns a
    document with exactly one record holding the defaults: utilization
    0, memory used 0, the estimated capacity (8 GiB on AMD, an eighth of
    physical memory on Intel) as total and free, temperature and power
    0; it returns NULL only when the buffer cannot be allocated.  No
    vendor function is called. *)
Theorem queries_after_failed_init (O : OS) :
  (forall V g0 w0 r g w,
      Amd.ags_initialized g0 = false ->
      perf_counters_initialized (Amd.pdh g0) = false ->
      Amd.gpu_init O V g0 w0 = Done r g w -> r <> 0 ->
      Amd.gpu_get_count g w = Done 1 g w /\
      Amd.gpu_get_usage O V g w = Done (-1) g w /\
      exists res w',
        Amd.gpu_get_info_json O V g w = Done res g w' /\
        extends counter_event w w' /\
        match res with
        | None => exists t, os_malloc O t = false
        | Some doc => exists gpu_name, doc = [Obj (amd_default_record gpu_name)]
        end) /\
  (forall V g0 w0 r g w,
      Intel.igcl_initialized g0 = false ->
      perf_counters_initialized (Intel.pdh g0) = false ->
      Intel.gpu_init O V g0 w0 = Done r g w -> r <> 0 ->
      Intel.gpu_get_count V g w = Done 1 g w /\
      Intel.gpu_get_usage O V g w = Done (-1) g w /\
      exists res w',
        Intel.gpu_get_info_json O V g w = Done res g w' /\
        extends counter_event w w' /\
        match res with
        | None => exists t, os_malloc O t = false
        | Some doc =>
            exists gpu_name t,
              doc = [Obj (intel_default_record gpu_name (u64 (os_ullTotalPhys O t) / 8))]
        end).
Proof.
  split; intros V g0 w0 r g w Hi Hf E Hr.
  - destruct (amd_gpu_init_cases O V g0 w0) as (r' & g' & w' & E' & Hc).
    rewrite E in E'. inversion E'; subst r' g' w'. clear E'.
    destruct Hc as [(-> & _) | (Hi' & _ & [(-> & _) | (_ & Hf' & _)])];
      try (now elim Hr).
    apply amd_idle_queries; congruence.
  - destruct (intel_gpu_init_cases O V g0 w0) as (r' & g' & w' & E' & Hc).
    rewrite E in E'. inversion E'; subst r' g' w'. clear E'.
    destruct Hc as [(-> & _) | (Hi' & _ & [(-> & _) | (_ & Hf' & _)])];
      try (now elim Hr).
    apply intel_idle_queries; congruence.
Qed.

Lemma queries_after_failed_init_witness :
  match Amd.gpu_init (machine "none" all_symbols false) (ags_devices 2)
                     Amd.globals0 world0 with
  | Done r g w =>
      Amd.gpu_get_count g w = Done 1 g w /\
      Amd.gpu_get_usage (machine "none" all_symbols false) (ags_devices 2) g w
      = Done (-1) g w
  | Fault _ => False
  end.
Proof.
  destruct (Amd.gpu_init (machine "none" all_symbols false) (ags_devices 2)
                         Amd.globals0 world0) as [r g w | f] eqn:E;
    pose proof E as E'; vm_compute in E'; [ | discriminate E' ].
  assert (Hr : r <> 0) by (inversion E'; discriminate).
  clear E'.
  destruct (proj1 (queries_after_failed_init _) _ Amd.globals0 world0 r g w
                  eq_refl eq_refl E Hr)
    as (Hc & Hu & _).
  split; assumption.
Defined.

(* ===================================================================== *)
(** * The selected backend is fixed (C8) *)

Inductive query_call : Type := CallCount | CallInfoJson | CallUsage.

(** A series of queries, results dropped. *)
Fixpoint queries_run {G} (run : query_call -> M G unit) (qs : list query_call)
  : M G unit :=
  match qs with
  | [] => ret tt
  | q :: rest => run q ;; queries_run run rest
  end.

Definition amd_query (O : OS) (V : Amd.AGS) (q : query_call) : M Amd.globals unit :=
  match q with
  | CallCount => Amd.gpu_get_count ;; ret tt
  | CallInfoJson => Amd.gpu_get_info_json O V ;; ret tt
  | CallUsage => Amd.gpu_get_usage O V ;; ret tt
  end.

Definition intel_query (O : OS) (V : Intel.IGCL) (q : query_call)
  : M Intel.globals unit :=
  match q with
  | CallCount => Intel.gpu_get_count V ;; ret tt
  | CallInfoJson => Intel.gpu_get_info_json O V ;; ret tt
  | CallUsage => Intel.gpu_get_usage O V ;; ret tt
  end.

Inductive backend_kind : Type := NoneSelected | VendorBackend | FallbackCounters.

Definition amd_backend (g : Amd.globals) : backend_kind :=
  if Amd.ags_initialized g then VendorBackend
  else if perf_counters_initialized (Amd.pdh g) then FallbackCounters
  else NoneSelected.

Definition intel_backend (g : Intel.globals) : backend_kind :=
  if Intel.igcl_initialized g then VendorBackend
  else if perf_counters_initialized (Intel.pdh g) then FallbackCounters
  else NoneSelected.

Lemma runs_queries_run {G} P bad ok (g : G) (run : query_call -> M G unit) :
  (forall q, runs P bad ok g (fun _ => True) (run q)) ->
  forall qs, runs P bad ok g (fun _ => True) (queries_run run qs).
Proof.
  intros H. induction qs as [ | q qs IH ]; simpl.
  - now apply runs_ret.
  - eapply runs_bind; [ apply H | ]. intros _ _. exact IH.
Qed.

Lemma runs_drop {G A} P bad ok (g : G) (Q : A -> Prop) (m : M G A) :
  runs P bad ok g Q m -> runs P bad ok g (fun _ => True) (m ;; ret tt).
Proof.
  intros H. eapply runs_bind; [ exact H | ]. intros a _. now apply runs_ret.
Qed.

Section FixedBackend.
Variable O : OS.

Lemma amd_query_runs V P bad ok g q :
  (forall e, counter_event e = true -> ok e = true) ->
  (Amd.ags_initialized g = true ->
   forall fn h, lifecycle_fn fn = false -> ok (EvCall fn h) = true) ->
  (Amd.ags_initialized g = true ->
   forall h, Amd.agsGetGPUMemoryUsage g = Some h -> callable P bad (Some h)) ->
  runs P bad ok g (fun _ => True) (amd_query O V q).
Proof.
  intros H1 H2 H3. destruct q; simpl; eapply runs_drop.
  - now apply amd_gpu_get_count_runs.
  - now apply amd_gpu_get_info_json_runs.
  - now apply amd_gpu_get_usage_runs.
Qed.

Lemma intel_query_runs V ok g q :
  (forall e, counter_event e = true -> ok e = true) ->
  (Intel.igcl_initialized g = true ->
   forall fn h, lifecycle_fn fn = false -> ok (EvCall fn h) = true) ->
  runs any_modules any_fault ok g (fun _ => True) (intel_query O V q).
Proof.
  intros H1 H2. destruct q; simpl; eapply runs_drop.
  - apply intel_gpu_get_count_runs; auto. intros _ h _. apply callable_any.
  - apply intel_gpu_get_info_json_runs; auto; intros _ h _; apply callable_any.
  - apply intel_gpu_get_usage_runs; auto. intros _ h _. apply callable_any.
Qed.

Lemma sample_of_counter e : counter_event e = true -> sample_event e = true.
Proof. destruct e; simpl; congruence. Qed.

Lemma sample_call fn h : lifecycle_fn fn = false -> sample_event (EvCall fn h) = true.
Proof. simpl. now intros ->. Qed.

(** After a [gpu_init] that returned 0, every series of queries
    returns. *)
Lemma amd_queries_after_init V qs g0 w0 g w :
  Amd.ags_initialized g0 = false ->
  Amd.gpu_init O V g0 w0 = Done 0 g w ->
  exists w', queries_run (amd_query O V) qs g w = Done tt g w'.
Proof.
  intros Hi0 E.
  destruct (amd_gpu_init_cases O V g0 w0) as (r' & g' & w' & E' & Hc).
  rewrite E in E'. inversion E'; subst r' g' w'. clear E'.
  destruct Hc as [(_ & _ & _ & h & (Hi & _ & _ & _ & Hu) & Hm) | (Hi & _)].
  - destruct (runs_total (module_loaded h) sample_event g (fun _ => True)
                (queries_run (amd_query O V) qs) w) as ([ ] & w' & E' & _).
    + apply runs_queries_run. intros q.
      apply amd_query_runs.
      * apply sample_of_counter.
      * intros _ fn h'. apply sample_call.
      * intros _ h' Hh. rewrite Hh in Hu.
        destruct (os_exports O h "agsGetGPUMemoryUsage"); [ | discriminate ].
        inversion Hu. apply callable_loaded.
    + unfold module_loaded. rewrite Hm. apply held_cons_same.
    + eauto.
  - destruct (runs_total any_modules sample_event g (fun _ => True)
                (queries_run (amd_query O V) qs) w) as ([ ] & w' & E' & _).
    + apply runs_queries_run. intros q.
      apply amd_query_runs.
      * apply sample_of_counter.
      * intros _ fn h'. apply sample_call.
      * intros H. congruence.
    + exact I.
    + eauto.
Qed.

Lemma intel_queries_after_init V qs g0 w0 g w :
  Intel.igcl_initialized g0 = false ->
  Intel.gpu_init O V g0 w0 = Done 0 g w ->
  exists w', queries_run (intel_query O V) qs g w = Done tt g w'.
Proof.
  intros Hi0 E.
  destruct (intel_gpu_init_cases O V g0 w0) as (r' & g' & w' & E' & Hc).
  rewrite E in E'. inversion E'; subst r' g' w'. clear E'.
  destruct Hc as [(_ & _ & _ & h & (Hi & _ & _ & _ & Hcount & Hinfo & Hstats) & Hm)
                 | (Hi & _)].
  - destruct (runs_total (module_loaded h) sample_event g (fun _ => True)
                (queries_run (intel_query O V) qs) w) as ([ ] & w' & E' & _).
    + apply runs_queries_run. intros q.
      destruct q; simpl; eapply runs_drop.
      * apply intel_gpu_get_count_runs.
        -- intros _ fn h'. apply sample_call.
        -- intros _ h' Hh. rewrite Hh in Hcount. inversion Hcount.
           apply callable_loaded.
      * apply intel_gpu_get_info_json_runs.
        -- apply sample_of_counter.
        -- intros _ fn h'. apply sample_call.
        -- intros _ h' Hh. rewrite Hh in Hinfo. inversion Hinfo. apply callable_loaded.
        -- intros _ h' Hh. rewrite Hh in Hstats. inversion Hstats.
           apply callable_loaded.
      * apply intel_gpu_get_usage_runs.
        -- apply sample_of_counter.
        -- intros _ fn h'. apply sample_call.
        -- intros _ h' Hh. rewrite Hh in Hstats. inversion Hstats.
           apply callable_loaded.
    + unfold module_loaded. rewrite Hm. apply held_cons_same.
    + eauto.
  - destruct (runs_total any_modules sample_event g (fun _ => True)
                (queries_run (intel_query O V) qs) w) as ([ ] & w' & E' & _).
    + apply runs_queries_run. intros q.
      destruct q; simpl; eapply runs_drop.
      * apply intel_gpu_get_count_runs.
        -- intros _ fn h'. apply sample_call.
        -- intros H. congruence.
      * apply intel_gpu_get_info_json_runs.
        -- apply sample_of_counter.
        -- intros _ fn h'. apply sample_call.
        -- intros H. congruence.
        -- intros H. congruence.
      * apply intel_gpu_get_usage_runs.
        -- apply sample_of_counter.
        -- intros _ fn h'. apply sample_call.
        -- intros H. congruence.
    + exact I.
    + eauto.
Qed.
End FixedBackend.

(** C8: a series of queries leaves every global of the file as it was,
    so the backend kind chosen by [gpu_init] stays what it is; it loads,
    resolves, frees, opens and closes nothing and starts or stops no
    vendor session (its events are sampling events only); and when the
    counter fallback is the selected backend it makes no call into a
    vendor library at all.  After a [gpu_init] from the initial state
    that returned 0, every series of queries does return. *)
Theorem backend_selection_fixed (O : OS) :
  (forall V qs g w g' w',
      queries_run (amd_query O V) qs g w = Done tt g' w' ->
      g' = g /\ amd_backend g' = amd_backend g /\
      extends sample_event w w' /\
      (amd_backend g = FallbackCounters -> extends counter_event w w')) /\
  (forall V qs g w g' w',
      queries_run (intel_query O V) qs g w = Done tt g' w' ->
      g' = g /\ intel_backend g' = intel_backend g /\
      extends sample_event w w' /\
      (intel_backend g = FallbackCounters -> extends counter_event w w')) /\
  (forall V qs w0 g w,
      Amd.gpu_init O V Amd.globals0 w0 = Done 0 g w ->
      exists w', queries_run (amd_query O V) qs g w = Done tt g w') /\
  (forall V qs w0 g w,
      Intel.gpu_init O V Intel.globals0 w0 = Done 0 g w ->
      exists w', queries_run (intel_query O V) qs g w = Done tt g w').
Proof.
  split; [ | split; [ | split ] ].
  3:{ intros V qs w0 g w E.
      exact (amd_queries_after_init O V qs Amd.globals0 w0 g w eq_refl E). }
  3:{ intros V qs w0 g w E.
      exact (intel_queries_after_init O V qs Intel.globals0 w0 g w eq_refl E). }
  all: intros V qs g w g' w' E.
  - assert (Hs := runs_Done any_modules any_fault sample_event g _ _ w tt g' w'
                    (runs_queries_run _ _ _ g _
                       (fun q => amd_query_runs O V any_modules any_fault sample_event g q
                                   sample_of_counter
                                   (fun _ fn h => sample_call fn h)
                                   (fun _ h _ => callable_any (Some h))) qs) I E).
    destruct Hs as (_ & -> & Hext).
    split; [ reflexivity | ]. split; [ reflexivity | ]. split; [ exact Hext | ].
    intros Hb.
    assert (Hi : Amd.ags_initialized g = false).
    { unfold amd_backend in Hb. destruct (Amd.ags_initialized g); [ discriminate | ].
      reflexivity. }
    apply (runs_Done any_modules any_fault counter_event g _ _ w tt g w'
             (runs_queries_run _ _ _ g _
                (fun q => amd_query_runs O V any_modules any_fault counter_event g q
                            (fun _ H => H) ltac:(intros H; congruence)
                            (fun _ h _ => callable_any (Some h))) qs) I E).
  - assert (Hs := runs_Done any_modules any_fault sample_event g _ _ w tt g' w'
                    (runs_queries_run _ _ _ g _
                       (fun q => intel_query_runs O V sample_event g q sample_of_counter
                                   (fun _ fn h => sample_call fn h)) qs) I E).
    destruct Hs as (_ & -> & Hext).
    split; [ reflexivity | ]. split; [ reflexivity | ]. split; [ exact Hext | ].
    intros Hb.
    assert (Hi : Intel.igcl_initialized g = false).
    { unfold intel_backend in Hb. destruct (Intel.igcl_initialized g); [ discriminate | ].
      reflexivity. }
    apply (runs_Done any_modules any_fault counter_event g _ _ w tt g w'
             (runs_queries_run _ _ _ g _
                (fun q => intel_query_runs O V counter_event g q (fun _ H => H)
                            ltac:(intros H; congruence)) qs) I E).
Qed.

(** The fallback is selected by [gpu_init]; four queries later it still
    is, and the trace holds no vendor call. *)
Lemma backend_selection_fixed_witness :
  let O := machine "none" all_symbols true in
  let V := ags_devices 2 in
  match Amd.gpu_init O V Amd.globals0 world0 with
  | Done r g w =>
      r = 0 /\ amd_backend g = FallbackCounters /\
      match queries_run (amd_query O V) [CallUsage; CallInfoJson; CallCount; CallUsage]
                        g w with
      | Done _ g' w' =>
          g' = g /\ amd_backend g' = FallbackCounters /\ extends counter_event w w'
      | Fault _ => False
      end
  | Fault _ => False
  end.
Proof.
  cbv zeta.
  destruct (Amd.gpu_init (machine "none" all_symbols true) (ags_devices 2)
                         Amd.globals0 world0) as [r g w | f] eqn:E;
    pose proof E as E'; vm_compute in E'; [ | discriminate E' ].
  inversion E'; subst r g w. clear E'.
  split; [ reflexivity | ]. split; [ reflexivity | ].
  match goal with
  | |- match ?run with _ => _ end =>
      destruct run as [[ ] g' w' | f] eqn:E1; [ | vm_compute in E1; discriminate E1 ]
  end.
  destruct (proj1 (backend_selection_fixed _) _ _ _ _ _ _ E1) as (Hg & Hb & _ & Hc).
  split; [ exact Hg | ]. split; [ rewrite Hb; reflexivity | ].
  apply Hc. reflexivity.
Defined.

(* ===================================================================== *)
(** * The loaders: what they return *)

(** What a loader reports for the library its probe ended on. *)
Definition loader_code (found : option (string * HMODULE)) (complete : HMODULE -> bool)
  : Z :=
  match found with
  | None => -1
  | Some (_, h) => if complete h then 0 else -2
  end.

(** The library handle a loader leaves, and the modules it leaves loaded. *)
Definition loader_lib (found : option (string * HMODULE)) (complete : HMODULE -> bool)
  : option HMODULE :=
  match found with
  | Some (_, h) => if complete h then Some h else None
  | None => None
  end.

Definition loader_modules (found : option (string * HMODULE)) (complete : HMODULE -> bool)
    (ms : list HMODULE) : list HMODULE :=
  match loader_lib found complete with
  | Some h => h :: ms
  | None => ms
  end.

Lemma nvidia_load_nvml_code O g w :
  exists g' w',
    Nvidia.load_nvml O g w
    = Done (loader_code (snd (probe O (now w) Nvidia.possible_paths)) (nvidia_complete O))
           g' w' /\
    Nvidia.nvml_lib g'
    = loader_lib (snd (probe O (now w) Nvidia.possible_paths)) (nvidia_complete O) /\
    modules w'
    = loader_modules (snd (probe O (now w) Nvidia.possible_paths)) (nvidia_complete O)
                     (modules w) /\
    queries w' = queries w.
Proof.
  pose proof (nvidia_load_nvml_eq O g w) as Hl.
  destruct (probe O (now w) Nvidia.possible_paths) as [failed [[p h] | ]];
    unfold loader_code, loader_lib, loader_modules, loader_lib; cbn [snd].
  - destruct Hl as (res & _ & Hl). cbv zeta in Hl. rewrite Hl.
    destruct (nvidia_complete O h); do 2 eexists; repeat split; reflexivity.
  - rewrite Hl. do 2 eexists. repeat split; reflexivity.
Qed.

Lemma amd_load_ags_code O g w :
  exists g' w',
    Amd.load_ags O g w
    = Done (loader_code (snd (probe O (now w) Amd.possible_paths)) (amd_complete O))
           g' w' /\
    Amd.ags_lib g'
    = loader_lib (snd (probe O (now w) Amd.possible_paths)) (amd_complete O) /\
    modules w'
    = loader_modules (snd (probe O (now w) Amd.possible_paths)) (amd_complete O)
                     (modules w) /\
    queries w' = queries w.
Proof.
  pose proof (amd_load_ags_eq O g w) as Hl.
  destruct (probe O (now w) Amd.possible_paths) as [failed [[p h] | ]];
    unfold loader_code, loader_lib, loader_modules, loader_lib; cbn [snd].
  - destruct Hl as (res & _ & Hl). cbv zeta in Hl. rewrite Hl.
    destruct (amd_complete O h); do 2 eexists; repeat split; reflexivity.
  - rewrite Hl. do 2 eexists. repeat split; reflexivity.
Qed.

Lemma intel_load_igcl_code O g w :
  exists g' w',
    Intel.load_igcl O g w
    = Done (loader_code (snd (probe O (now w) Intel.possible_paths)) (intel_complete O))
           g' w' /\
    Intel.igcl_lib g'
    = loader_lib (snd (probe O (now w) Intel.possible_paths)) (intel_complete O) /\
    modules w'
    = loader_modules (snd (probe O (now w) Intel.possible_paths)) (intel_complete O)
                     (modules w) /\
    queries w' = queries w.
Proof.
  pose proof (intel_load_igcl_eq O g w) as Hl.
  destruct (probe O (now w) Intel.possible_paths) as [failed [[p h] | ]];
    unfold loader_code, loader_lib, loader_modules, loader_lib; cbn [snd].
  - destruct Hl as (res & _ & Hl). cbv zeta in Hl. rewrite Hl.
    destruct (intel_complete O h); do 2 eexists; repeat split; reflexivity.
  - rewrite Hl. do 2 eexists. repeat split; reflexivity.
Qed.

(** X1: The three loaders never fault and report: -1 when no candidate
    path loads, 0 when the first library that loads exports every
    required symbol (it is then the library handle and stays loaded),
    -2 when it does not (the handle is NULL and nothing stays loaded).
    For NVML a required entry point may be exported under its [_v2] name
    or its legacy name. *)
Theorem loader_return_codes (O : OS) :
  (forall g w, exists g' w',
      Nvidia.load_nvml O g w
      = Done (loader_code (snd (probe O (now w) Nvidia.possible_paths))
                          (nvidia_complete O)) g' w' /\
      Nvidia.nvml_lib g'
      = loader_lib (snd (probe O (now w) Nvidia.possible_paths)) (nvidia_complete O) /\
      modules w'
      = loader_modules (snd (probe O (now w) Nvidia.possible_paths))
                       (nvidia_complete O) (modules w) /\
      queries w' = queries w) /\
  (forall g w, exists g' w',
      Amd.load_ags O g w
      = Done (loader_code (snd (probe O (now w) Amd.possible_paths))
                          (amd_complete O)) g' w' /\
      Amd.ags_lib g'
      = loader_lib (snd (probe O (now w) Amd.possible_paths)) (amd_complete O) /\
      modules w'
      = loader_modules (snd (probe O (now w) Amd.possible_paths))
                       (amd_complete O) (modules w) /\
      queries w' = queries w) /\
  (forall g w, exists g' w',
      Intel.load_igcl O g w
      = Done (loader_code (snd (probe O (now w) Intel.possible_paths))
                          (intel_complete O)) g' w' /\
      Intel.igcl_lib g'
      = loader_lib (snd (probe O (now w) Intel.possible_paths)) (intel_complete O) /\
      modules w'
      = loader_modules (snd (probe O (now w) Intel.possible_paths))
                       (intel_complete O) (modules w) /\
      queries w' = queries w).
Proof.
  split; [ | split ]; intros g w.
  - apply nvidia_load_nvml_code.
  - apply amd_load_ags_code.
  - apply intel_load_igcl_code.
Qed.
(* ===================================================================== *)
(** * NVML symbol resolution: the [_v2] entry points come first *)

Section NvidiaLookups.
Variable O : OS.
Variable h : HMODULE.

(** One [GetProcAddress(nvml_lib, sym)]. *)
Definition lookup (sym : string) : event := EvGetProcAddress h sym (os_exports O h sym).

(** [fp = GetProcAddress(lib, v2); if (!fp) fp = GetProcAddress(lib, legacy);] *)
Definition versioned (v2 legacy : string) : list event :=
  lookup v2 :: (if os_exports O h v2 then [] else [lookup legacy]).

(** The lookups of [load_nvml], oldest first. *)
Definition nvidia_lookups : list event :=
  versioned "nvmlInit_v2" "nvmlInit"
  ++ [lookup "nvmlShutdown"]
  ++ versioned "nvmlDeviceGetCount_v2" "nvmlDeviceGetCount"
  ++ versioned "nvmlDeviceGetHandleByIndex_v2" "nvmlDeviceGetHandleByIndex"
  ++ map lookup [ "nvmlDeviceGetName"; "nvmlDeviceGetUtilizationRates";
                  "nvmlDeviceGetMemoryInfo"; "nvmlDeviceGetTemperature";
                  "nvmlDeviceGetPowerUsage" ].

Definition looked_up (sym : string) (evs : list event) : bool :=
  existsb (fun e => match e with
                    | EvGetProcAddress _ s _ => String.eqb s sym
                    | _ => false
                    end) evs.

Lemma nvidia_resolve_symbols_trace g w :
  Nvidia.resolve_symbols O h g w
  = Done tt (nvidia_table O h g)
         (mkWorld (rev nvidia_lookups ++ trace w) (modules w) (queries w)).
Proof.
  unfold Nvidia.resolve_symbols, Nvidia.resolve, Nvidia.resolve_if_null, GetProcAddress,
    nvidia_table, nvidia_lookups, versioned, lookup, bind, read, write, ret.
  destruct (os_exports O h "nvmlInit_v2"),
           (os_exports O h "nvmlDeviceGetCount_v2"),
           (os_exports O h "nvmlDeviceGetHandleByIndex_v2");
    cbv [orb ptr_of is_null Nvidia.set_nvmlInit Nvidia.set_nvmlShutdown
         Nvidia.set_nvmlDeviceGetCount Nvidia.set_nvmlDeviceGetHandleByIndex
         Nvidia.set_nvmlDeviceGetName
         Nvidia.set_nvmlDeviceGetUtilizationRates Nvidia.set_nvmlDeviceGetMemoryInfo
         Nvidia.set_nvmlDeviceGetTemperature Nvidia.set_nvmlDeviceGetPowerUsage
         Nvidia.nvml_lib Nvidia.nvmlInit Nvidia.nvmlShutdown Nvidia.nvmlDeviceGetCount
         Nvidia.nvmlDeviceGetHandleByIndex
         Nvidia.nvmlDeviceGetName Nvidia.nvmlDeviceGetUtilizationRates
         Nvidia.nvmlDeviceGetMemoryInfo
         Nvidia.nvmlDeviceGetTemperature Nvidia.nvmlDeviceGetPowerUsage
         log trace modules queries app map rev];
    reflexivity.
Qed.

Lemma looked_up_legacy :
  looked_up "nvmlInit" nvidia_lookups = negb (os_exports O h "nvmlInit_v2") /\
  looked_up "nvmlDeviceGetCount" nvidia_lookups
  = negb (os_exports O h "nvmlDeviceGetCount_v2") /\
  looked_up "nvmlDeviceGetHandleByIndex" nvidia_lookups
  = negb (os_exports O h "nvmlDeviceGetHandleByIndex_v2").
Proof.
  unfold nvidia_lookups, versioned, lookup.
  destruct (os_exports O h "nvmlInit_v2"),
           (os_exports O h "nvmlDeviceGetCount_v2"),
           (os_exports O h "nvmlDeviceGetHandleByIndex_v2");
    repeat split; vm_compute; reflexivity.
Qed.
End NvidiaLookups.

(** X2: [load_nvml] looks every entry point up under its [_v2] name first
    and under its legacy name only when the [_v2] name is not exported:
    the lookups it makes are exactly [nvidia_lookups], in that order
    (between 9 and 12 of them), and a versioned pointer ends up non-NULL
    when either name is exported. *)
Theorem nvml_v2_preferred (O : OS) (h : HMODULE) (g : Nvidia.globals) (w : world) :
  exists g' w',
    Nvidia.resolve_symbols O h g w = Done tt g' w' /\
    trace w' = rev (nvidia_lookups O h) ++ trace w /\
    modules w' = modules w /\
    looked_up "nvmlInit" (nvidia_lookups O h) = negb (os_exports O h "nvmlInit_v2") /\
    looked_up "nvmlDeviceGetCount" (nvidia_lookups O h)
    = negb (os_exports O h "nvmlDeviceGetCount_v2") /\
    looked_up "nvmlDeviceGetHandleByIndex" (nvidia_lookups O h)
    = negb (os_exports O h "nvmlDeviceGetHandleByIndex_v2") /\
    (9 <= List.length (nvidia_lookups O h) <= 12)%nat /\
    Nvidia.nvmlInit g'
    = ptr_of (os_exports O h "nvmlInit_v2" || os_exports O h "nvmlInit") h /\
    Nvidia.nvmlDeviceGetCount g'
    = ptr_of (os_exports O h "nvmlDeviceGetCount_v2"
              || os_exports O h "nvmlDeviceGetCount") h /\
    Nvidia.nvmlDeviceGetHandleByIndex g'
    = ptr_of (os_exports O h "nvmlDeviceGetHandleByIndex_v2"
              || os_exports O h "nvmlDeviceGetHandleByIndex") h.
Proof.
  do 2 eexists. split; [ apply nvidia_resolve_symbols_trace | ].
  split; [ reflexivity | ]. split; [ reflexivity | ].
  destruct (looked_up_legacy O h) as (H1 & H2 & H3).
  split; [ exact H1 | ]. split; [ exact H2 | ]. split; [ exact H3 | ].
  split.
  - unfold nvidia_lookups, versioned.
    destruct (os_exports O h "nvmlInit_v2"),
             (os_exports O h "nvmlDeviceGetCount_v2"),
             (os_exports O h "nvmlDeviceGetHandleByIndex_v2"); simpl; lia.
  - repeat split; reflexivity.
Qed.
(* ===================================================================== *)
(** * NVIDIA [gpu_init]: return codes, and what a failure leaves *)

(** X3: [gpu_init] of the NVIDIA file never faults.  It returns -1 when
    [load_nvml] failed for either reason (no library, or a library with
    a required symbol missing: the loader's -2 is not passed on), -2
    when the library is complete but [nvmlInit] reported an error, and 0
    otherwise.  After a failure no library stays loaded, the handle is
    NULL, and a [gpu_shutdown] does nothing at all. *)
Theorem nvidia_gpu_init_codes (O : OS) (V : Nvidia.NVML) (g : Nvidia.globals) (w : world) :
  exists r g' w',
    Nvidia.gpu_init O V g w = Done r g' w' /\ queries w' = queries w /\
    match snd (probe O (now w) Nvidia.possible_paths) with
    | None => r = -1
    | Some (_, h) =>
        if nvidia_complete O h
        then exists t, r = if Nvidia.nvmlInit_impl V t =? Nvidia.NVML_SUCCESS
                           then 0 else -2
        else r = -1
    end /\
    (r = 0 -> exists h, Nvidia.nvml_lib g' = Some h /\ modules w' = h :: modules w) /\
    (r <> 0 ->
     Nvidia.nvml_lib g' = None /\ modules w' = modules w /\
     Nvidia.gpu_shutdown V g' w' = Done tt g' w').
Proof.
  unfold Nvidia.gpu_init. unfold bind at 1.
  pose proof (nvidia_load_nvml_eq O g w) as Hl.
  destruct (probe O (now w) Nvidia.possible_paths) as [failed [[p h] | ]]; cbn [snd].
  2:{ rewrite Hl. cbn. do 3 eexists. split; [ reflexivity | ]. split; [ reflexivity | ].
      split; [ reflexivity | ]. split; [ discriminate | ]. intros _.
      split; [ reflexivity | ]. split; [ reflexivity | ].
      now apply nvidia_gpu_shutdown_unloaded. }
  destruct Hl as (res & _ & Hl). cbv zeta in Hl. rewrite Hl. clear Hl.
  destruct (nvidia_complete O h) eqn:Hc.
  2:{ cbn. do 3 eexists. split; [ reflexivity | ]. split; [ reflexivity | ].
      split; [ reflexivity | ]. split; [ discriminate | ]. intros _.
      split; [ reflexivity | ]. split; [ reflexivity | ].
      now apply nvidia_gpu_shutdown_unloaded. }
  pose proof (nvidia_complete_ready O h g Hc) as Hr.
  set (g1 := nvidia_table O h (Nvidia.set_nvml_lib (Some h) g)) in *.
  destruct Hr as (Hlib & Hinit & Hrest).
  cbn [Z.eqb negb]. unfold bind at 1, callg, bind at 1, read, call.
  rewrite Hinit. cbn [modules]. rewrite held_cons_same.
  match goal with
  | |- context [ Nvidia.nvmlInit_impl V ?t ] => set (t0 := t)
  end.
  destruct (Nvidia.nvmlInit_impl V t0 =? Nvidia.NVML_SUCCESS) eqn:Hrc; cbn [negb].
  - do 3 eexists. split; [ reflexivity | ]. split; [ reflexivity | ].
    split; [ exists t0; now rewrite Hrc | ].
    split; [ intros _; exists h; split; [ exact Hlib | reflexivity ] | ].
    intros H. now elim H.
  - unfold Nvidia.unload_nvml, bind, read, FreeLibrary, write, ret. rewrite Hlib.
    cbn [log modules trace queries]. rewrite held_cons_same, remove_one_cons_same.
    do 3 eexists. split; [ reflexivity | ]. split; [ reflexivity | ].
    split; [ exists t0; now rewrite Hrc | ].
    split; [ discriminate | ]. intros _.
    split; [ reflexivity | ]. split; [ reflexivity | ].
    now apply nvidia_gpu_shutdown_unloaded.
Qed.
(* ===================================================================== *)
(** * AMD and Intel [gpu_init]: the vendor half, precisely *)

Section AmdInit.
Import Amd.
Variable O : OS.
Variable V : AGS.

(** What [agsInitialize] wrote and whether it reported success. *)
Definition ags_answer (b : bool) (g g' : globals) : Prop :=
  exists t,
    b = (fst (fst (agsInitialize_impl V t (ags_context g) (gpu_info g))) =? AGS_SUCCESS) /\
    ags_context g' = snd (fst (agsInitialize_impl V t (ags_context g) (gpu_info g))) /\
    gpu_info g' = snd (agsInitialize_impl V t (ags_context g) (gpu_info g)).

(** The state [try_ags] leaves, by what the probe ended on. *)
Definition amd_try_state (b : bool) (g g' : globals) (w w' : world) : Prop :=
  match loader_lib (snd (probe O (now w) possible_paths)) (amd_complete O) with
  | Some h =>
      ags_lib g' = Some h /\ modules w' = h :: modules w /\
      agsInitialize g' = Some h /\ agsDeInitialize g' = Some h /\
      agsGetGPUMemoryUsage g' = ptr_of (os_exports O h "agsGetGPUMemoryUsage") h /\
      ags_answer b g g' /\
      ags_initialized g' = (b || ags_initialized g)
  | None =>
      b = false /\ ags_lib g' = None /\ modules w' = modules w /\
      ags_initialized g' = ags_initialized g /\ ags_context g' = ags_context g /\
      gpu_info g' = gpu_info g
  end.

Lemma amd_try_ags_state g w :
  exists b g' w',
    try_ags O V g w = Done b g' w' /\ queries w' = queries w /\ pdh g' = pdh g /\
    amd_try_state b g g' w w'.
Proof.
  unfold try_ags, amd_try_state, loader_lib. unfold bind at 1.
  pose proof (amd_load_ags_eq O g w) as Hl.
  destruct (probe O (now w) possible_paths) as [failed [[p h] | ]]; cbn [snd].
  2:{ rewrite Hl. cbn. do 3 eexists. repeat (split; [ reflexivity | ]). reflexivity. }
  destruct Hl as (res & _ & Hl). cbv zeta in Hl. rewrite Hl. clear Hl.
  destruct (amd_complete O h) eqn:Hc.
  2:{ cbn. do 3 eexists. repeat (split; [ reflexivity | ]). reflexivity. }
  unfold amd_complete in Hc. apply andb_true_iff in Hc. destruct Hc as [Hi Hd].
  cbn [Z.eqb]. unfold bind at 1. cbv [read id].
  cbn [amd_table agsInitialize]. rewrite Hi. cbn [ptr_of non_null is_null negb].
  unfold bind at 1, callg, bind at 1, read, call.
  cbn [amd_table agsInitialize modules]. rewrite Hi. cbn [ptr_of]. rewrite held_cons_same.
  cbn [amd_table set_ags_lib ags_context gpu_info].
  match goal with
  | |- context [ agsInitialize_impl V ?t ] => set (t0 := t)
  end.
  assert (Ha : forall b g',
             b = (fst (fst (agsInitialize_impl V t0 (ags_context g) (gpu_info g)))
                  =? AGS_SUCCESS) ->
             ags_context g'
             = snd (fst (agsInitialize_impl V t0 (ags_context g) (gpu_info g))) ->
             gpu_info g' = snd (agsInitialize_impl V t0 (ags_context g) (gpu_info g)) ->
             ags_answer b g g').
  { intros b g' H1 H2 H3. exists t0. auto. }
  destruct (agsInitialize_impl V t0 (ags_context g) (gpu_info g)) as [[rc ctx] info].
  cbn [fst snd] in Ha.
  unfold bind, write, printf, emit, ret.
  destruct (rc =? AGS_SUCCESS) eqn:Hrc.
  - do 3 eexists. repeat (split; [ reflexivity | ]).
    cbn. rewrite Hi, Hd. repeat (split; [ reflexivity | ]).
    split; [ | reflexivity ]. apply Ha; reflexivity.
  - do 3 eexists. repeat (split; [ reflexivity | ]).
    cbn. rewrite Hi, Hd. repeat (split; [ reflexivity | ]).
    split; [ | reflexivity ]. apply Ha; reflexivity.
Qed.

(** The same for [gpu_init]: the counter half changes the counter
    globals and the open queries only. *)
Lemma amd_gpu_init_state g w :
  exists r b g' w',
    gpu_init O V g w = Done r g' w' /\
    amd_try_state b g g' w w' /\
    ((b = true /\ r = 0 /\ pdh g' = pdh g /\ queries w' = queries w) \/
     (b = false /\
      ((r = 0 /\ perf_counters_initialized (pdh g') = true /\
        exists q, query_handle (pdh g') = Some q /\ queries w' = q :: queries w) \/
       (r = -1 /\
        perf_counters_initialized (pdh g') = perf_counters_initialized (pdh g) /\
        (query_handle (pdh g') = query_handle (pdh g) \/ query_handle (pdh g') = None) /\
        queries w' = queries w)))).
Proof.
  unfold gpu_init. unfold bind at 1.
  destruct (amd_try_ags_state g w) as (b & g1 & w1 & -> & Hq1 & Hp1 & Hs).
  destruct b.
  { exists 0, true, g1, w1. split; [ reflexivity | ]. split; [ exact Hs | ].
    left. repeat split; assumption. }
  unfold bind at 1, init_performance_counters.
  destruct (init_performance_counters_cases O pdh set_pdh amd_pdh_with amd_with_with
              amd_with_same gpu_counter_paths memory_counter_paths g1 w1)
    as (r & p' & w2 & -> & Hm2 & Hcases).
  assert (Hs2 : amd_try_state false g (set_pdh p' g1) w w2).
  { unfold amd_try_state in *. rewrite Hm2.
    destruct (loader_lib _ _); cbn [set_pdh ags_lib agsInitialize agsDeInitialize
                                   agsGetGPUMemoryUsage ags_initialized ags_context
                                   gpu_info]; [ | exact Hs ].
    destruct Hs as (H1 & H2 & H3 & H4 & H5 & (t & H6 & H7 & H8) & H9).
    repeat (split; [ assumption | ]). split; [ | assumption ].
    exists t. repeat split; assumption. }
  destruct Hcases as [(-> & Hf & q & Hq & Hqs) | (Hr & Hf & Hq & Hqs)].
  - cbn [Z.eqb]. unfold bind, printf, emit, ret.
    exists 0, false. do 2 eexists. split; [ reflexivity | ].
    split; [ exact Hs2 | ]. right. split; [ reflexivity | ]. left.
    split; [ reflexivity | ]. split; [ exact Hf | ]. exists q.
    split; [ exact Hq | ]. cbn [log queries]. congruence.
  - destruct (r =? 0) eqn:Er; [ apply Z.eqb_eq in Er; contradiction | ].
    exists (-1), false. do 2 eexists. split; [ reflexivity | ].
    split; [ exact Hs2 | ]. right. split; [ reflexivity | ]. right.
    split; [ reflexivity | ]. rewrite <- Hp1, <- Hq1. cbn [pdh set_pdh].
    repeat split; assumption.
Qed.
End AmdInit.
Section IntelInit.
Import Intel.
Variable O : OS.
Variable V : IGCL.

(** The state [try_igcl] leaves, by what the probe ended on. *)
Definition intel_try_state (b : bool) (g g' : globals) (w w' : world) : Prop :=
  match loader_lib (snd (probe O (now w) possible_paths)) (intel_complete O) with
  | Some h =>
      igcl_lib g' = Some h /\ modules w' = h :: modules w /\
      igcl_init g' = Some h /\ igcl_shutdown g' = Some h /\
      igcl_get_device_count g' = Some h /\ igcl_get_device_info g' = Some h /\
      igcl_get_device_stats g' = Some h /\
      (exists t, b = (igcl_init_impl V t =? IGCL_SUCCESS)) /\
      igcl_initialized g' = (b || igcl_initialized g)
  | None =>
      b = false /\ igcl_lib g' = None /\ modules w' = modules w /\
      igcl_initialized g' = igcl_initialized g
  end.

Lemma intel_try_igcl_state g w :
  exists b g' w',
    try_igcl O V g w = Done b g' w' /\ queries w' = queries w /\ pdh g' = pdh g /\
    intel_try_state b g g' w w'.
Proof.
  unfold try_igcl, intel_try_state, loader_lib. unfold bind at 1.
  pose proof (intel_load_igcl_eq O g w) as Hl.
  destruct (probe O (now w) possible_paths) as [failed [[p h] | ]]; cbn [snd].
  2:{ rewrite Hl. cbn. do 3 eexists. repeat (split; [ reflexivity | ]). reflexivity. }
  destruct Hl as (res & _ & Hl). cbv zeta in Hl. rewrite Hl. clear Hl.
  destruct (intel_complete O h) eqn:Hc.
  2:{ cbn. do 3 eexists. repeat (split; [ reflexivity | ]). reflexivity. }
  unfold intel_complete in Hc. rewrite !andb_true_iff in Hc.
  destruct Hc as ((((H1 & H2) & H3) & H4) & H5).
  cbn [Z.eqb]. unfold bind at 1. cbv [read id].
  cbn [intel_table igcl_init]. rewrite H1. cbn [ptr_of non_null is_null negb].
  unfold bind at 1, callg, bind at 1, read, call.
  cbn [intel_table igcl_init modules]. rewrite H1. cbn [ptr_of]. rewrite held_cons_same.
  match goal with
  | |- context [ igcl_init_impl V ?t ] => set (t0 := t)
  end.
  unfold bind, write, printf, emit, ret.
  destruct (igcl_init_impl V t0 =? IGCL_SUCCESS) eqn:Hrc.
  - do 3 eexists. repeat (split; [ reflexivity | ]).
    cbn. rewrite H1, H2, H3, H4, H5. repeat (split; [ reflexivity | ]).
    split; [ | reflexivity ]. exists t0. now rewrite Hrc.
  - do 3 eexists. repeat (split; [ reflexivity | ]).
    cbn. rewrite H1, H2, H3, H4, H5. repeat (split; [ reflexivity | ]).
    split; [ | reflexivity ]. exists t0. now rewrite Hrc.
Qed.

Lemma intel_gpu_init_state g w :
  exists r b g' w',
    gpu_init O V g w = Done r g' w' /\
    intel_try_state b g g' w w' /\
    ((b = true /\ r = 0 /\ pdh g' = pdh g /\ queries w' = queries w) \/
     (b = false /\
      ((r = 0 /\ perf_counters_initialized (pdh g') = true /\
        exists q, query_handle (pdh g') = Some q /\ queries w' = q :: queries w) \/
       (r = -1 /\
        perf_counters_initialized (pdh g') = perf_counters_initialized (pdh g) /\
        (query_handle (pdh g') = query_handle (pdh g) \/ query_handle (pdh g') = None) /\
        queries w' = queries w)))).
Proof.
  unfold gpu_init. unfold bind at 1.
  destruct (intel_try_igcl_state g w) as (b & g1 & w1 & -> & Hq1 & Hp1 & Hs).
  destruct b.
  { exists 0, true, g1, w1. split; [ reflexivity | ]. split; [ exact Hs | ].
    left. repeat split; assumption. }
  unfold bind at 1, init_performance_counters.
  destruct (init_performance_counters_cases O pdh set_pdh intel_pdh_with intel_with_with
              intel_with_same gpu_counter_paths memory_counter_paths g1 w1)
    as (r & p' & w2 & -> & Hm2 & Hcases).
  assert (Hs2 : intel_try_state false g (set_pdh p' g1) w w2).
  { unfold intel_try_state in *. rewrite Hm2.
    destruct (loader_lib _ _); cbn [set_pdh igcl_lib igcl_init igcl_shutdown
                                   igcl_get_device_count igcl_get_device_info
                                   igcl_get_device_stats igcl_initialized];
      exact Hs. }
  destruct Hcases as [(-> & Hf & q & Hq & Hqs) | (Hr & Hf & Hq & Hqs)].
  - cbn [Z.eqb]. unfold bind, printf, emit, ret.
    exists 0, false. do 2 eexists. split; [ reflexivity | ].
    split; [ exact Hs2 | ]. right. split; [ reflexivity | ]. left.
    split; [ reflexivity | ]. split; [ exact Hf | ]. exists q.
    split; [ exact Hq | ]. cbn [log queries]. congruence.
  - destruct (r =? 0) eqn:Er; [ apply Z.eqb_eq in Er; contradiction | ].
    exists (-1), false. do 2 eexists. split; [ reflexivity | ].
    split; [ exact Hs2 | ]. right. split; [ reflexivity | ]. right.
    split; [ reflexivity | ]. rewrite <- Hp1, <- Hq1. cbn [pdh set_pdh].
    repeat split; assumption.
Qed.
End IntelInit.
(* ===================================================================== *)
(** * AMD and Intel [gpu_init]: return code, backend, library *)





(** X5: [gpu_init] of the AMD and Intel files never unloads the vendor
    library: whatever it returns (0 through the vendor session, 0
    through the fallback, or -1), a library that loaded with every
    required symbol is the library handle afterwards and stays loaded.  A library with
    a required symbol missing was freed by the loader. *)
Theorem gpu_init_keeps_library (O : OS) :
  (forall V g w, exists r g' w',
      Amd.gpu_init O V g w = Done r g' w' /\
      Amd.ags_lib g'
      = loader_lib (snd (probe O (now w) Amd.possible_paths)) (amd_complete O) /\
      modules w'
      = loader_modules (snd (probe O (now w) Amd.possible_paths)) (amd_complete O)
                       (modules w)) /\
  (forall V g w, exists r g' w',
      Intel.gpu_init O V g w = Done r g' w' /\
      Intel.igcl_lib g'
      = loader_lib (snd (probe O (now w) Intel.possible_paths)) (intel_complete O) /\
      modules w'
      = loader_modules (snd (probe O (now w) Intel.possible_paths)) (intel_complete O)
                       (modules w)).
Proof.
  split; intros V g w.
  - destruct (amd_gpu_init_state O V g w) as (r & b & g' & w' & E & Hs & _).
    exists r, g', w'. split; [ exact E | ].
    unfold amd_try_state in Hs. unfold loader_modules.
    destruct (loader_lib _ _).
    + destruct Hs as (H1 & H2 & _). now split.
    + destruct Hs as (_ & H1 & H2 & _). now split.
  - destruct (intel_gpu_init_state O V g w) as (r & b & g' & w' & E & Hs & _).
    exists r, g', w'. split; [ exact E | ].
    unfold intel_try_state in Hs. unfold loader_modules.
    destruct (loader_lib _ _).
    + destruct Hs as (H1 & H2 & _). now split.
    + destruct Hs as (_ & H1 & H2 & _). now split.
Qed.

(** An AGS library whose [agsInitialize] reports an error. *)
Definition ags_rejecting : Amd.AGS :=
  Amd.mkAGS (fun _ ctx info => (-1, ctx, info)) (fun _ _ => 0)
            (fun _ _ _ => (-1, Amd.mkUsage 0 0 0 0)).

(** The library loads, its [agsInitialize] is rejected and there are no
    counters: [gpu_init] returns -1 and the library is still loaded. *)
Example amd_failed_init_library_loaded :
  let run := Amd.gpu_init (machine ags_dll all_symbols false) ags_rejecting
                          Amd.globals0 world0 in
  returned run = Some (-1) /\ modules (final_world run) = [1%nat].
Proof. vm_compute. split; reflexivity. Qed.
(* ===================================================================== *)
(** * Sessions: [gpu_init] then [gpu_shutdown], any number of times *)

(** [n] sessions in a row, the result of [gpu_init] ignored as [main]
    would after an error message. *)
Fixpoint sessions {G} (init : M G Z) (shutdown : M G unit) (n : nat) : M G unit :=
  match n with
  | O => ret tt
  | S k => init ;; shutdown ;; sessions init shutdown k
  end.

Lemma sessions_invariant {G} (init : M G Z) (shutdown : M G unit) (Inv : G -> Prop) :
  (forall g w, Inv g ->
     exists r g1 w1 g2 w2,
       init g w = Done r g1 w1 /\ shutdown g1 w1 = Done tt g2 w2 /\
       modules w2 = modules w /\ queries w2 = queries w /\ Inv g2) ->
  forall n g w, Inv g ->
    exists g' w', sessions init shutdown n g w = Done tt g' w' /\
                  modules w' = modules w /\ queries w' = queries w /\ Inv g'.
Proof.
  intros Hstep. induction n as [ | n IH ]; intros g w HI; simpl.
  - exists g, w. repeat split. exact HI.
  - destruct (Hstep g w HI) as (r & g1 & w1 & g2 & w2 & E1 & E2 & Hm & Hq & HI2).
    rewrite (bind_eq _ _ _ _ _ _ _ E1), (bind_eq _ _ _ _ _ _ _ E2).
    destruct (IH g2 w2 HI2) as (g' & w' & E & Hm' & Hq' & HI').
    exists g', w'. split; [ exact E | ]. repeat split; congruence.
Qed.

Section CleanupEffect.
Context {G : Type}.
Variable pdh : G -> pdh_globals.
Variable with_pdh : pdh_globals -> G -> G.

(** [cleanup_performance_counters] closes the query the handle names,
    and nothing else. *)
Lemma cleanup_performance_counters_effect g w g1 w1 :
  cleanup_performance_counters pdh with_pdh g w = Done tt g1 w1 ->
  modules w1 = modules w /\
  queries w1 = match query_handle (pdh g) with
               | Some q => remove_one q (queries w)
               | None => queries w
               end /\
  exists p', g1 = with_pdh p' (match query_handle (pdh g) with
                               | Some _ => with_pdh (set_query_handle None (pdh g)) g
                               | None => g
                               end).
Proof.
  unfold cleanup_performance_counters, bind, read, PdhCloseQuery, upd, write, ret.
  destruct (query_handle (pdh g)) as [q | ].
  - destruct (held q (queries w)); [ | discriminate ].
    intros E. inversion E. subst. repeat split. eexists. reflexivity.
  - intros E. inversion E. subst. repeat split. eexists. reflexivity.
Qed.
End CleanupEffect.

Section NvidiaSessions.
Variable O : OS.
Variable V : Nvidia.NVML.

Lemma nvidia_session_step g w :
  Nvidia.nvml_lib g = None ->
  exists r g1 w1 g2 w2,
    Nvidia.gpu_init O V g w = Done r g1 w1 /\
    Nvidia.gpu_shutdown V g1 w1 = Done tt g2 w2 /\
    modules w2 = modules w /\ queries w2 = queries w /\ Nvidia.nvml_lib g2 = None.
Proof.
  intros _.
  destruct (nvidia_gpu_init_cases O V g w)
    as (r & g1 & w1 & E & Hq & [(-> & h & Hr & Hm) | (Hr & Hl & Hm)]).
  - exists 0, g1, w1. do 2 eexists. split; [ exact E | ].
    split; [ apply (nvidia_ready_shutdown_eq O V h g1 w1 Hr);
             rewrite Hm; apply held_cons_same | ].
    cbn [modules queries]. rewrite Hm, remove_one_cons_same. now repeat split.
  - exists r, g1, w1, g1, w1. split; [ exact E | ].
    split; [ now apply nvidia_gpu_shutdown_unloaded | ]. now repeat split.
Qed.
End NvidiaSessions.

Section AmdSessions.
Import Amd.
Variable O : OS.
Variable V : AGS.

(** Between sessions: no library, no query, the fallback flag clear,
    and no vendor context left behind a set vendor flag. *)
Definition amd_between_sessions (g : globals) : Prop :=
  ags_lib g = None /\ query_handle (pdh g) = None /\
  perf_counters_initialized (pdh g) = false /\
  (ags_initialized g = true -> ags_context g = None).

Lemma amd_unload_ags_effect g w g1 w1 :
  unload_ags V g w = Done tt g1 w1 ->
  modules w1 = match ags_lib g with
               | Some h => remove_one h (modules w)
               | None => modules w
               end /\
  agsDeInitialize g1 = agsDeInitialize g.
Proof.
  unfold unload_ags. intros H.
  apply bind_Done in H. destruct H as (g0 & ga & wa & Ha & H).
  inversion Ha; subst; clear Ha. unfold id in H.
  apply bind_Done in H. destruct H as ([ ] & gb & wb & Hb & H).
  assert (Hmid : modules wb = modules wa /\ ags_lib gb = ags_lib ga /\
                 agsDeInitialize gb = agsDeInitialize ga).
  { destruct (ags_initialized ga); [ | inversion Hb; subst; repeat split ].
    destruct (ags_context ga) as [ctx | ]; [ | inversion Hb; subst; repeat split ].
    destruct (agsDeInitialize ga) as [hd | ] eqn:Hp;
      [ | inversion Hb; subst; rewrite Hp; repeat split ].
    apply bind_Done in Hb. destruct Hb as (rc & gc & wc & Hc1 & Hb).
    unfold callg, call, bind, read in Hc1. rewrite Hp in Hc1.
    destruct (held hd (modules wa)); [ | discriminate ].
    inversion Hc1; subst; clear Hc1.
    unfold bind, write in Hb. inversion Hb; subst. cbn. rewrite Hp. repeat split. }
  destruct Hmid as (Hm & Hl & Hp).
  apply bind_Done in H. destruct H as (lib & gc & wc & Hc & H).
  inversion Hc; subst; clear Hc. rewrite <- Hl, <- Hm, <- Hp.
  destruct (ags_lib gc) as [h | ].
  - unfold bind, FreeLibrary, write in H.
    destruct (held h (modules wc)); [ | discriminate ].
    inversion H; subst. split; reflexivity.
  - inversion H; subst. split; reflexivity.
Qed.

Lemma amd_gpu_shutdown_effect g w g1 w1 :
  gpu_shutdown V g w = Done tt g1 w1 ->
  modules w1 = match ags_lib g with
               | Some h => remove_one h (modules w)
               | None => modules w
               end /\
  queries w1 = match query_handle (pdh g) with
               | Some q => remove_one q (queries w)
               | None => queries w
               end /\
  (ags_initialized g1 = true -> ags_context g1 <> None -> agsDeInitialize g = None).
Proof.
  unfold gpu_shutdown. intros H.
  apply bind_Done in H. destruct H as ([ ] & ga & wa & Ha & H).
  pose proof (amd_unload_ags_effect _ _ _ _ Ha) as (Hm & Hp).
  apply amd_unload_ags_Done in Ha. destruct Ha as (Hd & _ & Hpdh & Hq).
  apply cleanup_performance_counters_effect in H. destruct H as (Hm2 & Hq2 & p' & ->).
  rewrite Hpdh in Hq2. rewrite Hm2, Hq2, Hm, Hq.
  split; [ reflexivity | ]. split; [ reflexivity | ].
  unfold amd_deinit_due in Hd. rewrite Hp in Hd. rewrite Hpdh.
  destruct (query_handle (pdh g)); cbn [set_pdh ags_initialized ags_context];
    intros Hi Hc; rewrite Hi in Hd;
    destruct (ags_context ga); try (now elim Hc);
    destruct (agsDeInitialize g); try reflexivity; discriminate.
Qed.

Lemma amd_session_step g w :
  amd_between_sessions g ->
  exists r g1 w1 g2 w2,
    gpu_init O V g w = Done r g1 w1 /\ gpu_shutdown V g1 w1 = Done tt g2 w2 /\
    modules w2 = modules w /\ queries w2 = queries w /\ amd_between_sessions g2.
Proof.
  intros (Hl & Hq & Hf & Hctx).
  destruct (amd_gpu_init_state O V g w) as (r & b & g1 & w1 & E & Hs & Hc).
  assert (Hqs : (query_handle (pdh g1) = None /\ queries w1 = queries w) \/
                (exists q, query_handle (pdh g1) = Some q /\ queries w1 = q :: queries w)).
  { destruct Hc as [(_ & _ & Hp & Hq1) | (_ & [(_ & _ & q & H1 & H2)
                                               | (_ & _ & [H1 | H1] & H2)])].
    - left. split; [ congruence | exact Hq1 ].
    - right. now exists q.
    - left. split; [ congruence | exact H2 ].
    - left. split; [ exact H1 | exact H2 ]. }
  unfold amd_try_state in Hs.
  assert (Hlive : amd_handles_live g1 w1).
  { unfold amd_handles_live.
    destruct (loader_lib _ _) as [h | ].
    - destruct Hs as (H1 & H2 & _ & H4 & _). split; [ | split ].
      + intros _. exists h. split; [ exact H4 | ]. rewrite H2. apply held_cons_same.
      + intros h' Hh'. assert (h' = h) by congruence. subst.
        rewrite H2. apply held_cons_same.
      + intros q' Hq'. destruct Hqs as [(Hn & _) | (q & Hs1 & Hs2)]; [ congruence | ].
        assert (q' = q) by congruence. subst. rewrite Hs2. apply held_cons_same.
    - destruct Hs as (_ & H1 & _ & H3 & H4 & _). split; [ | split ].
      + unfold amd_deinit_due. rewrite H3, H4.
        destruct (ags_initialized g); [ rewrite (Hctx eq_refl) | ]; discriminate.
      + intros h' Hh'. congruence.
      + intros q' Hq'. destruct Hqs as [(Hn & _) | (q & Hs1 & Hs2)]; [ congruence | ].
        assert (q' = q) by congruence. subst. rewrite Hs2. apply held_cons_same. }
  destruct (amd_shutdown_live V g1 w1 Hlive) as (g2 & w2 & E2).
  exists r, g1, w1, g2, w2. split; [ exact E | ]. split; [ exact E2 | ].
  pose proof (amd_gpu_shutdown_effect _ _ _ _ E2) as (Hm2 & Hq2 & Hp2).
  pose proof (amd_gpu_shutdown_Done V g1 w1 g2 w2 E2) as (Hl2 & Hh2 & Hf2 & _).
  split; [ | split ].
  - rewrite Hm2. destruct (loader_lib _ _) as [h | ].
    + destruct Hs as (H1 & H2 & _). rewrite H1, H2. apply remove_one_cons_same.
    + destruct Hs as (_ & H1 & H2 & _). now rewrite H1.
  - rewrite Hq2. destruct Hqs as [(-> & Hs2) | (q & -> & Hs2)]; [ exact Hs2 | ].
    rewrite Hs2. apply remove_one_cons_same.
  - split; [ exact Hl2 | ]. split; [ exact Hh2 | ]. split; [ exact Hf2 | ].
    intros Hi2. destruct (ags_context g2) as [c | ] eqn:Hc2; [ | reflexivity ].
    assert (Hp : agsDeInitialize g1 = None) by (apply Hp2; congruence).
    destruct (loader_lib _ _) as [h | ].
    + destruct Hs as (_ & _ & _ & H4 & _). congruence.
    + destruct Hs as (_ & H1 & _ & H3 & H4 & _).
      assert (Hdue : amd_deinit_due g1 = false).
      { unfold amd_deinit_due. rewrite Hp. now rewrite andb_false_r. }
      unfold gpu_shutdown in E2. apply bind_Done in E2.
      destruct E2 as ([ ] & ga & wa & Ha & Hb).
      rewrite (amd_unload_ags_idle V g1 w1 Hdue H1) in Ha. inversion Ha; subst ga wa.
      apply cleanup_performance_counters_effect in Hb. destruct Hb as (_ & _ & p' & ->).
      destruct (query_handle (pdh g1));
        cbn [set_pdh ags_initialized ags_context] in Hi2, Hc2;
        rewrite H3 in Hi2; rewrite H4 in Hc2; rewrite (Hctx Hi2) in Hc2; discriminate.
Qed.
End AmdSessions.
Section IntelSessions.
Import Intel.
Variable O : OS.
Variable V : IGCL.

(** Between sessions: no library, no query, both flags clear. *)
Definition intel_between_sessions (g : globals) : Prop :=
  igcl_lib g = None /\ query_handle (pdh g) = None /\
  perf_counters_initialized (pdh g) = false /\ igcl_initialized g = false.

Lemma intel_unload_igcl_effect g w g1 w1 :
  unload_igcl V g w = Done tt g1 w1 ->
  modules w1 = match igcl_lib g with
               | Some h => remove_one h (modules w)
               | None => modules w
               end /\
  igcl_shutdown g1 = igcl_shutdown g /\
  (igcl_initialized g1 = true -> igcl_initialized g = true).
Proof.
  unfold unload_igcl. intros H.
  apply bind_Done in H. destruct H as (g0 & ga & wa & Ha & H).
  inversion Ha; subst; clear Ha. unfold id in H.
  apply bind_Done in H. destruct H as ([ ] & gb & wb & Hb & H).
  assert (Hmid : modules wb = modules wa /\ igcl_lib gb = igcl_lib ga /\
                 igcl_shutdown gb = igcl_shutdown ga /\
                 (igcl_initialized gb = true -> igcl_initialized ga = true)).
  { destruct (igcl_initialized ga && non_null (igcl_shutdown ga)) eqn:Hg;
      [ | inversion Hb; subst; repeat split; trivial ].
    apply bind_Done in Hb. destruct Hb as (rc & gc & wc & Hc1 & Hb).
    unfold callg, call, bind, read in Hc1.
    destruct (igcl_shutdown ga) as [hs | ] eqn:Hp; [ | discriminate ].
    destruct (held hs (modules wa)); [ | discriminate ].
    inversion Hc1; subst; clear Hc1.
    unfold write in Hb. inversion Hb; subst. cbn. rewrite Hp.
    repeat split. discriminate. }
  destruct Hmid as (Hm & Hl & Hp & Hi).
  apply bind_Done in H. destruct H as (lib & gc & wc & Hc & H).
  inversion Hc; subst; clear Hc. rewrite <- Hl, <- Hm, <- Hp.
  destruct (igcl_lib gc) as [h | ].
  - unfold bind, FreeLibrary, write in H.
    destruct (held h (modules wc)); [ | discriminate ].
    inversion H; subst. repeat split. exact Hi.
  - inversion H; subst. repeat split. exact Hi.
Qed.

Lemma intel_gpu_shutdown_effect g w g1 w1 :
  gpu_shutdown V g w = Done tt g1 w1 ->
  modules w1 = match igcl_lib g with
               | Some h => remove_one h (modules w)
               | None => modules w
               end /\
  queries w1 = match query_handle (pdh g) with
               | Some q => remove_one q (queries w)
               | None => queries w
               end /\
  (igcl_initialized g1 = true -> igcl_initialized g = true /\ igcl_shutdown g = None).
Proof.
  unfold gpu_shutdown. intros H.
  apply bind_Done in H. destruct H as ([ ] & ga & wa & Ha & H).
  pose proof (intel_unload_igcl_effect _ _ _ _ Ha) as (Hm & Hp & Hi).
  apply intel_unload_igcl_Done in Ha. destruct Ha as (Hd & _ & Hpdh & Hq).
  apply cleanup_performance_counters_effect in H. destruct H as (Hm2 & Hq2 & p' & ->).
  rewrite Hpdh in Hq2. rewrite Hm2, Hq2, Hm, Hq.
  split; [ reflexivity | ]. split; [ reflexivity | ].
  unfold intel_shutdown_due in Hd. rewrite Hp in Hd. rewrite Hpdh.
  destruct (query_handle (pdh g)); cbn [set_pdh igcl_initialized];
    intros Hi1; split; try (now apply Hi); rewrite Hi1 in Hd;
    destruct (igcl_shutdown g); try reflexivity; discriminate.
Qed.

Lemma intel_session_step g w :
  intel_between_sessions g ->
  exists r g1 w1 g2 w2,
    gpu_init O V g w = Done r g1 w1 /\ gpu_shutdown V g1 w1 = Done tt g2 w2 /\
    modules w2 = modules w /\ queries w2 = queries w /\ intel_between_sessions g2.
Proof.
  intros (Hl & Hq & Hf & Hflag).
  destruct (intel_gpu_init_state O V g w) as (r & b & g1 & w1 & E & Hs & Hc).
  assert (Hqs : (query_handle (pdh g1) = None /\ queries w1 = queries w) \/
                (exists q, query_handle (pdh g1) = Some q /\ queries w1 = q :: queries w)).
  { destruct Hc as [(_ & _ & Hp & Hq1) | (_ & [(_ & _ & q & H1 & H2)
                                               | (_ & _ & [H1 | H1] & H2)])].
    - left. split; [ congruence | exact Hq1 ].
    - right. now exists q.
    - left. split; [ congruence | exact H2 ].
    - left. split; [ exact H1 | exact H2 ]. }
  unfold intel_try_state in Hs.
  assert (Hlive : intel_handles_live g1 w1).
  { unfold intel_handles_live.
    destruct (loader_lib _ _) as [h | ].
    - destruct Hs as (H1 & H2 & _ & H4 & _). split; [ | split ].
      + intros _. exists h. split; [ exact H4 | ]. rewrite H2. apply held_cons_same.
      + intros h' Hh'. assert (h' = h) by congruence. subst.
        rewrite H2. apply held_cons_same.
      + intros q' Hq'. destruct Hqs as [(Hn & _) | (q & Hs1 & Hs2)]; [ congruence | ].
        assert (q' = q) by congruence. subst. rewrite Hs2. apply held_cons_same.
    - destruct Hs as (_ & H1 & _ & H3). split; [ | split ].
      + unfold intel_shutdown_due. rewrite H3, Hflag. discriminate.
      + intros h' Hh'. congruence.
      + intros q' Hq'. destruct Hqs as [(Hn & _) | (q & Hs1 & Hs2)]; [ congruence | ].
        assert (q' = q) by congruence. subst. rewrite Hs2. apply held_cons_same. }
  destruct (intel_shutdown_live V g1 w1 Hlive) as (g2 & w2 & E2).
  exists r, g1, w1, g2, w2. split; [ exact E | ]. split; [ exact E2 | ].
  pose proof (intel_gpu_shutdown_effect _ _ _ _ E2) as (Hm2 & Hq2 & Hp2).
  pose proof (intel_gpu_shutdown_Done V g1 w1 g2 w2 E2) as (Hl2 & Hh2 & Hf2 & _).
  split; [ | split ].
  - rewrite Hm2. destruct (loader_lib _ _) as [h | ].
    + destruct Hs as (H1 & H2 & _). rewrite H1, H2. apply remove_one_cons_same.
    + destruct Hs as (_ & H1 & H2 & _). now rewrite H1.
  - rewrite Hq2. destruct Hqs as [(-> & Hs2) | (q & -> & Hs2)]; [ exact Hs2 | ].
    rewrite Hs2. apply remove_one_cons_same.
  - split; [ exact Hl2 | ]. split; [ exact Hh2 | ]. split; [ exact Hf2 | ].
    destruct (igcl_initialized g2) eqn:Hi2; [ | reflexivity ].
    destruct (Hp2 eq_refl) as (Hi1 & Hp1).
    destruct (loader_lib _ _) as [h | ].
    + destruct Hs as (_ & _ & _ & H4 & _). congruence.
    + destruct Hs as (_ & _ & _ & H3). congruence.
Qed.
End IntelSessions.

(** X6: Any number of [gpu_init] / [gpu_shutdown] sessions in a row, from
    the initial state and whatever each [gpu_init] returns, runs without
    a fault and leaves the loaded modules and the open counter queries
    exactly as they were: nothing leaks, nothing is freed or closed
    twice. *)
Theorem sessions_leak_nothing (O : OS) (n : nat) (w : world) :
  (forall V, exists g' w',
      sessions (Nvidia.gpu_init O V) (Nvidia.gpu_shutdown V) n Nvidia.globals0 w
      = Done tt g' w' /\
      modules w' = modules w /\ queries w' = queries w) /\
  (forall V, exists g' w',
      sessions (Amd.gpu_init O V) (Amd.gpu_shutdown V) n Amd.globals0 w
      = Done tt g' w' /\
      modules w' = modules w /\ queries w' = queries w) /\
  (forall V, exists g' w',
      sessions (Intel.gpu_init O V) (Intel.gpu_shutdown V) n Intel.globals0 w
      = Done tt g' w' /\
      modules w' = modules w /\ queries w' = queries w).
Proof.
  split; [ | split ]; intros V.
  - destruct (sessions_invariant (Nvidia.gpu_init O V) (Nvidia.gpu_shutdown V)
                (fun g => Nvidia.nvml_lib g = None) (nvidia_session_step O V)
                n Nvidia.globals0 w eq_refl) as (g' & w' & E & Hm & Hq & _).
    now exists g', w'.
  - destruct (sessions_invariant (Amd.gpu_init O V) (Amd.gpu_shutdown V)
                amd_between_sessions (amd_session_step O V) n Amd.globals0 w)
      as (g' & w' & E & Hm & Hq & _).
    { repeat split. }
    now exists g', w'.
  - destruct (sessions_invariant (Intel.gpu_init O V) (Intel.gpu_shutdown V)
                intel_between_sessions (intel_session_step O V) n Intel.globals0 w)
      as (g' & w' & E & Hm & Hq & _).
    { repeat split. }
    now exists g', w'.
Qed.
(* ===================================================================== *)
(** * The counter fallback: what [init_performance_counters] returns *)

(** What a registration loop started at time [t] ends with: the first
    counter that registered, and the number of paths it tried. *)
Fixpoint first_registered (O : OS) (t : nat) (q : PDH_HQUERY) (paths : list string)
  : option PDH_HCOUNTER * nat :=
  match paths with
  | [] => (None, 0%nat)
  | p :: rest =>
      match os_PdhAddCounterA O t q p with
      | Some c => (Some c, 1%nat)
      | None => let '(r, n) := first_registered O (S t) q rest in (r, S n)
      end
  end.

(** The return value of [init_performance_counters] started at time
    [t]: -1 when the query cannot be opened, -2 when no utilisation path
    registers, 0 otherwise.  The memory paths play no part. *)
Definition counters_code (O : OS) (t : nat) (upaths : list string) : Z :=
  match os_PdhOpenQueryA O t with
  | None => -1
  | Some q =>
      match fst (first_registered O (S t) q upaths) with
      | None => -2
      | Some _ => 0
      end
  end.

(** The counter globals [init_performance_counters] leaves. *)
Definition counters_state (O : OS) (t : nat) (upaths mpaths : list string)
    (p : pdh_globals) : pdh_globals :=
  match os_PdhOpenQueryA O t with
  | None => p
  | Some q =>
      let '(cu, nu) := first_registered O (S t) q upaths in
      let '(cm, _) := first_registered O (S t + nu) q mpaths in
      let memory := match cm with Some c => Some c | None => gpu_memory_counter p end in
      match cu with
      | None => mkPdh None (gpu_util_counter p) memory (perf_counters_initialized p)
      | Some c => mkPdh (Some q) (Some c) memory true
      end
  end.

Section CounterContract.
Context {G : Type}.
Variable O : OS.
Variable pdh : G -> pdh_globals.
Variable with_pdh : pdh_globals -> G -> G.
Hypothesis pdh_with : forall p g, pdh (with_pdh p g) = p.
Hypothesis with_with : forall p p' g, with_pdh p (with_pdh p' g) = with_pdh p g.
Hypothesis with_pdh_same : forall g, with_pdh (pdh g) g = g.

Lemma add_first_counter_eq q set paths :
  forall g w,
    exists w',
      add_first_counter O pdh with_pdh q set paths g w
      = Done (non_null (fst (first_registered O (now w) q paths)))
             (match fst (first_registered O (now w) q paths) with
              | Some c => with_pdh (set (Some c) (pdh g)) g
              | None => g
              end) w' /\
      now w' = (now w + snd (first_registered O (now w) q paths))%nat /\
      modules w' = modules w /\ queries w' = queries w.
Proof.
  induction paths as [ | p rest IH ]; intros g w.
  - exists w. simpl. unfold ret. repeat split. lia.
  - simpl. unfold bind at 1, PdhAddCounterA.
    destruct (os_PdhAddCounterA O (now w) q p) as [c | ].
    + eexists. split; [ reflexivity | ]. cbn [fst snd]. repeat split.
      unfold now, log. simpl. lia.
    + destruct (IH g (log (EvPdhAddCounterA q p None) w)) as (w' & E & Hn & Hm & Hq).
      change (now (log (EvPdhAddCounterA q p None) w)) with (S (now w)) in *.
      destruct (first_registered O (S (now w)) q rest) as [r n]. cbn [fst snd] in *.
      exists w'. split; [ exact E | ]. split; [ lia | ]. split; assumption.
Qed.

Lemma init_performance_counters_eq upaths mpaths g w :
  exists w',
    init_performance_counters O pdh with_pdh upaths mpaths g w
    = Done (counters_code O (now w) upaths)
           (with_pdh (counters_state O (now w) upaths mpaths (pdh g)) g) w' /\
    modules w' = modules w /\
    queries w' = match query_handle (counters_state O (now w) upaths mpaths (pdh g)),
                       os_PdhOpenQueryA O (now w) with
                 | Some q, Some _ => q :: queries w
                 | _, _ => queries w
                 end.
Proof.
  unfold init_performance_counters, counters_code, counters_state.
  unfold bind at 1, PdhOpenQueryA.
  destruct (os_PdhOpenQueryA O (now w)) as [q | ].
  2:{ eexists. rewrite with_pdh_same. split; [ reflexivity | ].
      split; [ reflexivity | ]. cbn [log queries].
      destruct (query_handle (pdh g)); reflexivity. }
  set (g1 := with_pdh (set_query_handle (Some q) (pdh g)) g).
  set (w1 := mkWorld _ _ _).
  assert (Hn1 : now w1 = S (now w)) by reflexivity.
  unfold bind at 1.
  destruct (add_first_counter_eq q set_gpu_util_counter upaths g1 w1)
    as (w2 & -> & Hn2 & Hm2 & Hq2).
  rewrite Hn1 in *.
  destruct (first_registered O (S (now w)) q upaths) as [cu nu]. cbn [fst snd] in *.
  set (g2 := match cu with
             | Some c => with_pdh (set_gpu_util_counter (Some c) (pdh g1)) g1
             | None => g1
             end).
  unfold bind at 1.
  destruct (add_first_counter_eq q set_gpu_memory_counter mpaths g2 w2)
    as (w3 & -> & Hn3 & Hm3 & Hq3).
  rewrite Hn2 in *.
  destruct (first_registered O (S (now w) + nu) q mpaths) as [cm nm]. cbn [fst snd] in *.
  assert (Hq1 : queries w1 = q :: queries w) by reflexivity.
  assert (Hm1 : modules w1 = modules w) by reflexivity.
  destruct cu as [c | ]; cbn [non_null is_null negb].
  - unfold bind, PdhCollectQueryData, Sleep, emit, upd, write, ret.
    eexists. split.
    + f_equal. unfold g2, g1. destruct cm as [c' | ];
        rewrite ?pdh_with, ?with_with; f_equal.
    + cbn [log modules queries query_handle]. split; congruence.
  - unfold bind, PdhCloseQuery, upd, write, ret.
    assert (Hh : held q (queries w3) = true).
    { rewrite Hq3, Hq2, Hq1. apply held_cons_same. }
    rewrite Hh.
    eexists. split.
    + f_equal. unfold g2, g1. destruct cm as [c' | ];
        rewrite ?pdh_with, ?with_with; f_equal.
    + cbn [log modules queries query_handle]. split; [ congruence | ].
      rewrite Hq3, Hq2, Hq1. apply remove_one_cons_same.
Qed.
End CounterContract.
Lemma counters_code_cases O t upaths mpaths p :
  let code := counters_code O t upaths in
  let p' := counters_state O t upaths mpaths p in
  (code = 0 \/ code = -1 \/ code = -2) /\
  (code = 0 ->
   query_handle p' = os_PdhOpenQueryA O t /\ query_handle p' <> None /\
   gpu_util_counter p' <> None /\ perf_counters_initialized p' = true) /\
  (code = -2 ->
   query_handle p' = None /\ gpu_util_counter p' = gpu_util_counter p /\
   perf_counters_initialized p' = perf_counters_initialized p) /\
  (code = -1 -> p' = p).
Proof.
  unfold counters_code, counters_state. cbv zeta.
  destruct (os_PdhOpenQueryA O t) as [q | ].
  2:{ split; [ auto | ]. repeat split; discriminate || reflexivity. }
  destruct (first_registered O (S t) q upaths) as [[c | ] nu];
    destruct (first_registered O (S t + nu) q mpaths) as [cm nm]; cbn [fst];
    (split; [ auto | ]); repeat split; try discriminate; try reflexivity.
Qed.

(** X7: [init_performance_counters] (the same code in the AMD and the Intel
    file) never faults and returns [counters_code]: -1 when
    [PdhOpenQueryA] fails, and then nothing has changed; -2 when the
    query opened but none of the utilisation paths registered, whatever
    the memory paths did, and then the query was closed again and the
    handle is NULL; 0 otherwise, with the query open, a utilisation
    counter registered and the flag set.  A memory counter is optional
    and never decides the result. *)
Theorem counter_fallback_contract (O : OS) :
  (forall g w, exists w',
      Amd.init_performance_counters O g w
      = Done (counters_code O (now w) Amd.gpu_counter_paths)
             (Amd.set_pdh (counters_state O (now w) Amd.gpu_counter_paths
                                          Amd.memory_counter_paths (Amd.pdh g)) g) w' /\
      modules w' = modules w /\
      queries w' = (if counters_code O (now w) Amd.gpu_counter_paths =? 0
                    then match os_PdhOpenQueryA O (now w) with
                         | Some q => q :: queries w
                         | None => queries w
                         end
                    else queries w)) /\
  (forall g w, exists w',
      Intel.init_performance_counters O g w
      = Done (counters_code O (now w) Intel.gpu_counter_paths)
             (Intel.set_pdh (counters_state O (now w) Intel.gpu_counter_paths
                                            Intel.memory_counter_paths (Intel.pdh g)) g)
             w' /\
      modules w' = modules w /\
      queries w' = (if counters_code O (now w) Intel.gpu_counter_paths =? 0
                    then match os_PdhOpenQueryA O (now w) with
                         | Some q => q :: queries w
                         | None => queries w
                         end
                    else queries w)) /\
  (forall t upaths mpaths p,
      let code := counters_code O t upaths in
      let p' := counters_state O t upaths mpaths p in
      (code = 0 \/ code = -1 \/ code = -2) /\
      (code = 0 ->
       query_handle p' = os_PdhOpenQueryA O t /\ query_handle p' <> None /\
       gpu_util_counter p' <> None /\ perf_counters_initialized p' = true) /\
      (code = -2 ->
       query_handle p' = None /\ gpu_util_counter p' = gpu_util_counter p /\
       perf_counters_initialized p' = perf_counters_initialized p) /\
      (code = -1 -> p' = p)).
Proof.
  split; [ | split ].
  - intros g w. unfold Amd.init_performance_counters.
    destruct (init_performance_counters_eq O Amd.pdh Amd.set_pdh amd_pdh_with
                amd_with_with amd_with_same Amd.gpu_counter_paths
                Amd.memory_counter_paths g w) as (w' & E & Hm & Hq).
    exists w'. split; [ exact E | ]. split; [ exact Hm | ]. rewrite Hq.
    unfold counters_code, counters_state.
    destruct (os_PdhOpenQueryA O (now w)) as [q | ];
      [ | destruct (query_handle (Amd.pdh g)); reflexivity ].
    destruct (first_registered O (S (now w)) q Amd.gpu_counter_paths) as [[c | ] nu];
      destruct (first_registered O (S (now w) + nu) q Amd.memory_counter_paths);
      reflexivity.
  - intros g w. unfold Intel.init_performance_counters.
    destruct (init_performance_counters_eq O Intel.pdh Intel.set_pdh intel_pdh_with
                intel_with_with intel_with_same Intel.gpu_counter_paths
                Intel.memory_counter_paths g w) as (w' & E & Hm & Hq).
    exists w'. split; [ exact E | ]. split; [ exact Hm | ]. rewrite Hq.
    unfold counters_code, counters_state.
    destruct (os_PdhOpenQueryA O (now w)) as [q | ];
      [ | destruct (query_handle (Intel.pdh g)); reflexivity ].
    destruct (first_registered O (S (now w)) q Intel.gpu_counter_paths) as [[c | ] nu];
      destruct (first_registered O (S (now w) + nu) q Intel.memory_counter_paths);
      reflexivity.
  - intros t upaths mpaths p. apply counters_code_cases.
Qed.
(* ===================================================================== *)
(** * The shape of the [gpus] array *)

(** [, {..} , {..} ...]: what may follow an object. *)
Fixpoint comma_led (doc : list token) : bool :=
  match doc with
  | [] => true
  | Comma :: Obj _ :: rest => comma_led rest
  | _ => false
  end.

(** The text between the brackets is a well-formed list: empty, or
    objects with exactly one comma between neighbours. *)
Definition well_separated (doc : list token) : bool :=
  match doc with
  | [] => true
  | Obj _ :: rest => comma_led rest
  | Comma :: _ => false
  end.

(** Strictly increasing, starting at [lo] or above. *)
Fixpoint ascending_from (lo : Z) (l : list Z) : Prop :=
  match l with
  | [] => True
  | x :: rest => lo <= x /\ ascending_from (x + 1) rest
  end.

(** What an iteration of a device loop appends: nothing, or the object
    of device [i], after a comma unless [i] is 0. *)
Definition chunk_of (i : Z) (out : list token) : Prop :=
  out = [] \/
  exists r, out = (if i >? 0 then [Comma] else []) ++ [Obj r] /\ index r = i.

(** The same, when no iteration can be skipped. *)
Definition full_chunk_of (i : Z) (out : list token) : Prop :=
  exists r, out = (if i >? 0 then [Comma] else []) ++ [Obj r] /\ index r = i.

Lemma loop_out_impl (Qb Qb' : Z -> list token -> Prop) :
  (forall i out, Qb i out -> Qb' i out) ->
  forall n i doc, loop_out Qb n i doc -> loop_out Qb' n i doc.
Proof.
  intros H n i doc Hl. induction Hl; constructor; auto.
Qed.

Lemma ascending_from_weaken l : forall lo lo',
  lo' <= lo -> ascending_from lo l -> ascending_from lo' l.
Proof.
  destruct l as [ | x rest ]; simpl; [ trivial | ].
  intros lo lo' Hle (H1 & H2). split; [ lia | exact H2 ].
Qed.

Lemma loop_chunks_tail n : forall i doc,
  0 < i -> loop_out chunk_of n i doc ->
  comma_led doc = true /\
  ascending_from i (map index (records doc)) /\
  Forall (fun r => index r < i + Z.of_nat n) (records doc) /\
  (forall r rest, records doc = r :: rest -> exists d, doc = Comma :: Obj r :: d).
Proof.
  induction n as [ | n IH ]; intros i doc Hi Hl; inversion Hl; subst.
  - repeat split; try constructor. intros r0 rest0 Hrec. discriminate Hrec.
  - match goal with
    | Ho : chunk_of i ?out, Hr : loop_out chunk_of n (i + 1) ?rest |- _ =>
        destruct (IH (i + 1) rest ltac:(lia) Hr) as (Hc & Ha & Hb & Hd);
        destruct Ho as [-> | (r & -> & Hidx)]
    end.
    + simpl. split; [ exact Hc | ].
      split; [ apply (ascending_from_weaken _ (i + 1)); [ lia | exact Ha ] | ].
      split; [ | exact Hd ].
      eapply Forall_impl; [ | exact Hb ]. cbv beta. intros. lia.
    + destruct (Z.gtb_spec i 0); [ | lia ]. simpl.
      split; [ exact Hc | ].
      split; [ split; [ lia | rewrite Hidx; exact Ha ] | ].
      split.
      * constructor; [ lia | ]. eapply Forall_impl; [ | exact Hb ]. cbv beta. intros. lia.
      * intros r' rest' Hrec. inversion Hrec; subst. eexists. reflexivity.
Qed.

Lemma loop_chunks_head n doc :
  loop_out chunk_of n 0 doc ->
  well_separated doc
  = match records doc with
    | [] => true
    | r :: _ => index r =? 0
    end /\
  ascending_from 0 (map index (records doc)) /\
  Forall (fun r => index r < Z.of_nat n) (records doc).
Proof.
  intros Hl. inversion Hl; subst.
  - repeat split; constructor.
  - match goal with
    | Ho : chunk_of 0 ?out, Hr : loop_out chunk_of ?k (0 + 1) ?rest |- _ =>
        destruct (loop_chunks_tail k (0 + 1) rest ltac:(lia) Hr) as (Hc & Ha & Hb & Hd);
        destruct Ho as [-> | (r & -> & Hidx)]
    end.
    + simpl. split; [ | split ].
      * destruct (records rest) as [ | r rs ] eqn:Hr.
        -- destruct rest as [ | [ | r' ] rest' ]; [ reflexivity | | discriminate Hr ].
           simpl in Hc. destruct rest' as [ | [ | r'' ] d ]; discriminate.
        -- destruct (Hd r rs eq_refl) as (d & ->). simpl.
           simpl in Ha. destruct Ha as (Hlo & _). symmetry. apply Z.eqb_neq. lia.
      * apply (ascending_from_weaken _ (0 + 1)); [ lia | exact Ha ].
      * eapply Forall_impl; [ | exact Hb ]. cbv beta. intros. lia.
    + simpl. split; [ | split ].
      * rewrite Hidx. exact Hc.
      * split; [ lia | ]. rewrite Hidx. exact Ha.
      * constructor; [ lia | ]. eapply Forall_impl; [ | exact Hb ]. cbv beta. intros. lia.
Qed.

Lemma loop_full_indices n : forall i doc,
  loop_out full_chunk_of n i doc ->
  map index (records doc) = map (fun k => i + Z.of_nat k) (seq 0 n).
Proof.
  induction n as [ | n IH ]; intros i doc Hl; inversion Hl; subst.
  - reflexivity.
  - match goal with
    | Ho : full_chunk_of i ?out, Hr : loop_out full_chunk_of n (i + 1) ?rest |- _ =>
        destruct Ho as (r & -> & Hidx); rewrite records_app, map_app, (IH _ _ Hr)
    end.
    rewrite records_chunk. simpl. rewrite Hidx, Z.add_0_r. f_equal.
    rewrite <- seq_shift, map_map. apply map_ext. intros k. lia.
Qed.

Lemma nvidia_device_chunk V i out : nvidia_device_out V i out -> chunk_of i out.
Proof.
  intros [(-> & _) | (r & -> & Hidx & _)]; [ now left | right ]. now exists r.
Qed.

Lemma amd_device_chunk O V g i out : amd_device_out O V g i out -> full_chunk_of i out.
Proof.
  intros (nm & u & tm & um & te & pw & -> & _). eexists. split; reflexivity.
Qed.

Lemma full_chunk_chunk i out : full_chunk_of i out -> chunk_of i out.
Proof. intros H. now right. Qed.

(** X8: The NVIDIA document is well-formed exactly when it is empty or
    starts with the object of device 0: the comma is written for every
    device but device 0, also when the devices before it were skipped,
    so a document whose device 0 could not be opened starts with a
    comma.  The AMD and the Intel document are always well-formed. *)
Theorem json_separators (O : OS) :
  (forall V g w doc g' w',
      Nvidia.gpu_get_info_json O V g w = Done (Some doc) g' w' ->
      well_separated doc = match records doc with
                           | [] => true
                           | r :: _ => index r =? 0
                           end) /\
  (forall V g w doc g' w',
      Amd.gpu_get_info_json O V g w = Done (Some doc) g' w' ->
      well_separated doc = true) /\
  (forall V g w doc g' w',
      Intel.gpu_get_info_json O V g w = Done (Some doc) g' w' ->
      well_separated doc = true).
Proof.
  split; [ | split ]; intros V g w doc g' w' E.
  - apply nvidia_info_any in E. destruct E as ((t & _ & Hl) & _).
    apply (loop_out_impl _ chunk_of) in Hl; [ | apply nvidia_device_chunk ].
    apply loop_chunks_head in Hl. apply Hl.
  - apply amd_info_any in E. destruct E as ((Hn & Hl) & _).
    pose proof (loop_out_impl _ full_chunk_of (amd_device_chunk O V g) _ _ _ Hl) as Hf.
    pose proof (loop_full_indices _ _ _ Hf) as Hi.
    apply (loop_out_impl _ chunk_of full_chunk_chunk) in Hf.
    apply loop_chunks_head in Hf. destruct Hf as (-> & _).
    destruct (records doc) as [ | r rs ]; [ reflexivity | ].
    destruct (Z.to_nat (amd_count g)) as [ | k ]; [ discriminate Hi | ].
    simpl in Hi. injection Hi as Hi0 _. rewrite Hi0. reflexivity.
  - apply intel_info_any in E.
    destruct E as ((nm & u & tm & um & te & pw & -> & _) & _). reflexivity.
Qed.

(** An NVML library with two devices of which the first cannot be
    opened. *)
Definition nvml_first_device_lost : Nvidia.NVML :=
  Nvidia.mkNVML
    (fun _ => 0) (fun _ => 0)
    (fun _ => (0, 2))
    (fun _ i => if i =? 0 then (15, 0) else (0, 100 + i))
    (fun _ _ => (0, "GeForce"))
    (fun _ _ => (0, Nvidia.mkUtil 50 30))
    (fun _ _ => (0, Nvidia.mkMem 1000 600 400))
    (fun _ _ => Some 65)
    (fun _ _ => Some 120000).

(** Device 0 cannot be opened, device 1 can: the document is a comma
    followed by the object of device 1. *)
Lemma json_separators_witness :
  let O := machine nvml_dll all_symbols false in
  let V := nvml_first_device_lost in
  match nvidia_session O V with
  | Done (Some doc) _ _ =>
      well_separated doc = false /\ map index (records doc) = [1] /\
      exists r, doc = [Comma; Obj r]
  | _ => False
  end.
Proof.
  cbv zeta. unfold nvidia_session.
  destruct (Nvidia.gpu_init (machine nvml_dll all_symbols false) nvml_first_device_lost
                            Nvidia.globals0 world0) as [r g w | f] eqn:E;
    pose proof E as E'; vm_compute in E'; [ | discriminate E' ].
  rewrite (bind_eq _ _ _ _ _ _ _ E).
  destruct (Nvidia.gpu_get_info_json (machine nvml_dll all_symbols false)
                                     nvml_first_device_lost g w)
    as [[doc | ] g1 w1 | f] eqn:E1;
    pose proof E1 as E1'; inversion E'; subst r g w; vm_compute in E1';
    try discriminate E1'.
  pose proof (proj1 (json_separators _) _ _ _ _ _ _ E1) as Hs.
  inversion E1'; subst doc. split; [ rewrite Hs; reflexivity | ].
  split; [ reflexivity | ]. eexists. reflexivity.
Defined.
(* ===================================================================== *)
(** * Which device a record describes *)

Lemma loop_out_bounds (Qb : Z -> list token -> Prop) n : forall i doc,
  loop_out Qb n i doc ->
  loop_out (fun j out => i <= j < i + Z.of_nat n /\ Qb j out) n i doc.
Proof.
  induction n as [ | n IH ]; intros i doc Hl; inversion Hl; subst; constructor.
  - split; [ lia | assumption ].
  - eapply loop_out_impl; [ | apply IH; eassumption ].
    cbv beta. intros j out' (Hj & Hq). split; [ lia | exact Hq ].
Qed.

Lemma strncpy255_length s : (String.length (strncpy255 s) <= 255)%nat.
Proof.
  unfold strncpy255. generalize 255%nat. intros n. revert s.
  induction n as [ | n IH ]; intros s.
  - destruct s; simpl; lia.
  - destruct s as [ | c s ]; simpl; [ lia | ]. specialize (IH s). lia.
Qed.

(** X9: The [index] fields of a document, in order.  AMD: 0, 1, ..., one
    per counted device.  Intel: 0.  NVIDIA: strictly increasing device
    numbers below the reported count (a skipped device leaves a gap, the
    later records keep their device numbers). *)
Theorem record_indices (O : OS) :
  (forall V g w doc g' w',
      Nvidia.gpu_get_info_json O V g w = Done (Some doc) g' w' ->
      ascending_from 0 (map index (records doc)) /\
      exists t,
        fst (Nvidia.nvmlDeviceGetCount_impl V t) = Nvidia.NVML_SUCCESS /\
        Forall (fun r => index r < u32 (snd (Nvidia.nvmlDeviceGetCount_impl V t)))
               (records doc)) /\
  (forall V g w doc g' w',
      Amd.gpu_get_info_json O V g w = Done (Some doc) g' w' ->
      map index (records doc) = map Z.of_nat (seq 0 (Z.to_nat (amd_count g)))) /\
  (forall V g w doc g' w',
      Intel.gpu_get_info_json O V g w = Done (Some doc) g' w' ->
      map index (records doc) = [0]).
Proof.
  split; [ | split ]; intros V g w doc g' w' E.
  - apply nvidia_info_any in E. destruct E as ((t & Hc & Hl) & _).
    apply (loop_out_impl _ chunk_of) in Hl; [ | apply nvidia_device_chunk ].
    apply loop_chunks_head in Hl. destruct Hl as (_ & Ha & Hb).
    split; [ exact Ha | ]. exists t. split; [ exact Hc | ].
    eapply Forall_impl; [ | exact Hb ]. cbv beta. intros r Hr.
    pose proof (u32_range (snd (Nvidia.nvmlDeviceGetCount_impl V t))). lia.
  - apply amd_info_any in E. destruct E as ((Hn & Hl) & _).
    apply (loop_out_impl _ full_chunk_of (amd_device_chunk O V g)) in Hl.
    rewrite (loop_full_indices _ _ _ Hl). apply map_ext. intros k. lia.
  - apply intel_info_any in E.
    destruct E as ((nm & u & tm & um & te & pw & -> & _) & _). reflexivity.
Qed.

Lemma record_indices_witness :
  let O := machine ags_dll all_symbols false in
  let V := ags_devices 2 in
  match amd_session O V with
  | Done (Some doc) _ _ => map index (records doc) = [0; 1]
  | _ => False
  end.
Proof.
  cbv zeta. unfold amd_session.
  destruct (Amd.gpu_init (machine ags_dll all_symbols false) (ags_devices 2)
                         Amd.globals0 world0) as [r g w | f] eqn:E;
    pose proof E as E'; vm_compute in E'; [ | discriminate E' ].
  rewrite (bind_eq _ _ _ _ _ _ _ E).
  destruct (Amd.gpu_get_info_json (machine ags_dll all_symbols false) (ags_devices 2) g w)
    as [[doc | ] g1 w1 | f] eqn:E1;
    pose proof E1 as E1'; inversion E'; subst r g w; vm_compute in E1';
    try discriminate E1'.
  rewrite (proj1 (proj2 (record_indices _)) _ _ _ _ _ _ E1). reflexivity.
Defined.

(** Where an AMD record takes its name and capacity from. *)
Definition amd_from_device_table (g : Amd.globals) (r : gpu_record) : Prop :=
  name r = strncpy255 (Amd.adapterString (Amd.devices (Amd.gpu_info g) (index r))) /\
  (String.length (name r) <= 255)%nat /\
  memory_total r = u64 (Amd.localMemoryInBytes (Amd.devices (Amd.gpu_info g) (index r))).

Definition amd_assumed (r : gpu_record) : Prop :=
  memory_total r = 8 * GiB /\ temperature r = 0%Q /\ power_usage r = 0%Q.

(** X10: With the vendor session up, AMD record [i] describes entry [i] of
    the device table [agsInitialize] filled in: its name is that
    adapter string cut to 255 characters and its [memory_total] that
    local memory size.  Without the vendor session there is one record,
    with an assumed capacity of 8 GiB and no temperature or power
    reading, whatever the counters report. *)
Theorem amd_record_source (O : OS) (V : Amd.AGS) (g : Amd.globals) (w : world)
    (doc : list token) (g' : Amd.globals) (w' : world) :
  Amd.gpu_get_info_json O V g w = Done (Some doc) g' w' ->
  (Amd.ags_initialized g = true -> Forall (amd_from_device_table g) (records doc)) /\
  (Amd.ags_initialized g = false ->
   List.length (records doc) = 1%nat /\ Forall amd_assumed (records doc)).
Proof.
  intros E. apply amd_info_any in E. destruct E as ((Hn & Hl) & _).
  split; intros Hi.
  - apply loop_out_bounds in Hl.
    eapply loop_out_records; [ | exact Hl ]. cbv beta.
    intros i out (Hb & nm & u & tm & um & te & pw & -> & _ & _ & Hd).
    rewrite records_chunk. constructor; [ | constructor ].
    unfold amd_from_device_table.
    cbn [name index memory_total Amd.make_record].
    unfold amd_count in Hn, Hb. rewrite Hi in Hn, Hb.
    destruct Hd as [(_ & _ & -> & -> & _) | ([Hf | Hle] & _)];
      [ | congruence | lia ].
    split; [ reflexivity | ]. split; [ apply strncpy255_length | reflexivity ].
  - split.
    + assert (Hc : amd_count g = 1) by (unfold amd_count; now rewrite Hi).
      rewrite Hc in Hl.
      apply (loop_out_length _ (amd_device_one O V g)) in Hl. exact Hl.
    + eapply loop_out_records; [ | exact Hl ].
      intros i out (nm & u & tm & um & te & pw & -> & _ & _ & Hd).
      rewrite records_chunk. constructor; [ | constructor ].
      unfold amd_assumed. cbn [memory_total temperature power_usage Amd.make_record].
      destruct Hd as [(Hf & _) | (_ & -> & -> & ->)]; [ congruence | ].
      repeat split.
Qed.

(** Two devices named by the vendor library; the name and the 16 GiB
    come from the device table. *)
Lemma amd_record_source_witness :
  let O := machine ags_dll all_symbols false in
  let V := ags_devices 2 in
  match Amd.gpu_init O V Amd.globals0 world0 with
  | Done _ g w =>
      match Amd.gpu_get_info_json O V g w with
      | Done (Some doc) _ _ =>
          Forall (amd_from_device_table g) (records doc) /\
          map name (records doc) = ["Radeon"; "Radeon"] /\
          map memory_total (records doc) = [16 * GiB; 16 * GiB]
      | _ => False
      end
  | Fault _ => False
  end.
Proof.
  cbv zeta.
  destruct (Amd.gpu_init (machine ags_dll all_symbols false) (ags_devices 2)
                         Amd.globals0 world0) as [r g w | f] eqn:E;
    pose proof E as E'; vm_compute in E'; [ | discriminate E' ].
  destruct (Amd.gpu_get_info_json (machine ags_dll all_symbols false) (ags_devices 2) g w)
    as [[doc | ] g1 w1 | f] eqn:E1;
    pose proof E1 as E1'; inversion E'; subst r g w; vm_compute in E1';
    try discriminate E1'.
  split.
  - apply (proj1 (amd_record_source _ _ _ _ _ _ _ E1)). reflexivity.
  - inversion E1'; subst doc. split; reflexivity.
Defined.
(* ===================================================================== *)
(** * The test programs ([main], compiled when STANDALONE is defined) *)

(** An argument of one of [main]'s [printf] calls. *)
Inductive printf_arg : Type :=
| ArgInt (z : Z)                  (* %d *)
| ArgJson (doc : list token).     (* %s, the snapshot *)

(** What [main] does besides calling the library. *)
Inductive action : Type :=
| Printf (format : string) (args : list printf_arg)
| Free.                           (* free(json_info) *)

(** [main] runs on the globals of its file and its own actions so far,
    newest first. *)
Definition program (G : Type) : Type := (G * list action)%type.

Definition lift {G A} (m : M G A) : M (program G) A :=
  fun s w =>
    match m (fst s) w with
    | Done a g' w' => Done a (g', snd s) w'
    | Fault f => Fault f
    end.

Definition act {G} (a : action) : M (program G) unit :=
  fun s w => Done tt (fst s, a :: snd s) w.

(** The newline character. *)
Definition nl : string := String (Ascii.ascii_of_nat 10) "".

Module NvidiaMain.
Import Nvidia.
Section Code.
Variable O : OS.
Variable V : NVML.

Definition main : M (program globals) Z :=
  act (Printf ("NVIDIA GPU Usage Monitor Test" ++ nl) []) ;;
  act (Printf ("=============================" ++ nl) []) ;;
  r <- lift (gpu_init O V) ;;
  if negb (r =? 0)
  then
    act (Printf ("Error: Could not initialize NVML. Make sure NVIDIA drivers are installed."
                 ++ nl) []) ;;
    ret 1
  else
    count <- lift (gpu_get_count V) ;;
    act (Printf ("Found %d GPU(s)" ++ nl ++ nl) [ArgInt count]) ;;
    (if count >? 0
     then
       json_info <- lift (gpu_get_info_json O V) ;;
       match json_info with
       | Some doc =>
           act (Printf ("GPU Information (JSON):" ++ nl ++ "%s" ++ nl ++ nl)
                       [ArgJson doc]) ;;
           act Free
       | None => ret tt
       end ;;
       usage <- lift (gpu_get_usage V) ;;
       if usage >=? 0
       then act (Printf ("Primary GPU Usage: %d%%" ++ nl) [ArgInt usage])
       else ret tt
     else ret tt) ;;
    lift (gpu_shutdown V) ;;
    ret 0.
End Code.
End NvidiaMain.

Module AmdMain.
Import Amd.
Section Code.
Variable O : OS.
Variable V : AGS.

Definition main : M (program globals) Z :=
  act (Printf ("AMD GPU Usage Monitor Test" ++ nl) []) ;;
  act (Printf ("==========================" ++ nl) []) ;;
  r <- lift (gpu_init O V) ;;
  if negb (r =? 0)
  then
    act (Printf ("Error: Could not initialize AMD GPU monitoring." ++ nl) []) ;;
    act (Printf ("Make sure AMD drivers are installed." ++ nl) []) ;;
    ret 1
  else
    count <- lift gpu_get_count ;;
    act (Printf ("Found %d AMD GPU(s)" ++ nl ++ nl) [ArgInt count]) ;;
    (if count >? 0
     then
       json_info <- lift (gpu_get_info_json O V) ;;
       match json_info with
       | Some doc =>
           act (Printf ("AMD GPU Information (JSON):" ++ nl ++ "%s" ++ nl ++ nl)
                       [ArgJson doc]) ;;
           act Free
       | None => ret tt
       end ;;
       usage <- lift (gpu_get_usage O V) ;;
       act (Printf ("AMD GPU Usage: %d%%" ++ nl) [ArgInt usage])
     else ret tt) ;;
    lift (gpu_shutdown V) ;;
    ret 0.
End Code.
End AmdMain.

Module IntelMain.
Import Intel.
Section Code.
Variable O : OS.
Variable V : IGCL.

Definition main : M (program globals) Z :=
  act (Printf ("Intel GPU Usage Monitor Test" ++ nl) []) ;;
  act (Printf ("============================" ++ nl) []) ;;
  r <- lift (gpu_init O V) ;;
  if negb (r =? 0)
  then
    act (Printf ("Error: Could not initialize Intel GPU monitoring." ++ nl) []) ;;
    act (Printf ("Make sure Intel Graphics drivers are installed." ++ nl) []) ;;
    ret 1
  else
    count <- lift (gpu_get_count V) ;;
    act (Printf ("Found %d Intel GPU(s)" ++ nl ++ nl) [ArgInt count]) ;;
    (if count >? 0
     then
       json_info <- lift (gpu_get_info_json O V) ;;
       match json_info with
       | Some doc =>
           act (Printf ("Intel GPU Information (JSON):" ++ nl ++ "%s" ++ nl ++ nl)
                       [ArgJson doc]) ;;
           act Free
       | None => ret tt
       end ;;
       usage <- lift (gpu_get_usage O V) ;;
       act (Printf ("Intel GPU Usage: %d%%" ++ nl) [ArgInt usage])
     else ret tt) ;;
    lift (gpu_shutdown V) ;;
    ret 0.
End Code.
End IntelMain.

(* --------------------------------------------------------------------- *)
(** ** Reasoning about a program *)

Definition is_free (a : action) : bool :=
  match a with Free => true | _ => false end.

Definition prints_snapshot (a : action) : bool :=
  match a with
  | Printf _ args => existsb (fun x => match x with ArgJson _ => true | _ => false end) args
  | Free => false
  end.

(** Every snapshot that was printed has been freed. *)
Definition snapshots_freed (acts : list action) : Prop :=
  List.length (filter is_free acts) = List.length (filter prints_snapshot acts).

Lemma lift_Done {G A} (m : M G A) g acts w a g' w' :
  m g w = Done a g' w' -> lift m (g, acts) w = Done a (g', acts) w'.
Proof. intros E. unfold lift. cbn [fst snd]. now rewrite E. Qed.

(** The part of a [main] between the device count and [gpu_shutdown]:
    it keeps the globals, the modules and the queries, and frees what
    it prints. *)
Lemma sampling_block {G} (info : M G (option (list token))) (usage : M G Z)
    (fmt : string) (report : Z -> M (program G) unit) g acts w :
  (forall w1, modules w1 = modules w -> queries w1 = queries w ->
     exists res w2, info g w1 = Done res g w2 /\
                    modules w2 = modules w /\ queries w2 = queries w) ->
  (forall w1, modules w1 = modules w -> queries w1 = queries w ->
     exists u w2, usage g w1 = Done u g w2 /\
                  modules w2 = modules w /\ queries w2 = queries w) ->
  (forall u acts1 w1, exists acts2,
     report u (g, acts1) w1 = Done tt (g, acts2 ++ acts1) w1 /\
     forallb (fun a => negb (is_free a) && negb (prints_snapshot a)) acts2 = true) ->
  snapshots_freed acts ->
  exists acts' w',
    (json_info <- lift info ;;
     match json_info with
     | Some doc => act (Printf fmt [ArgJson doc]) ;; act Free
     | None => ret tt
     end ;;
     u <- lift usage ;;
     report u) (g, acts) w = Done tt (g, acts') w' /\
    modules w' = modules w /\ queries w' = queries w /\ snapshots_freed acts'.
Proof.
  intros Hinfo Husage Hreport Hfreed.
  destruct (Hinfo w eq_refl eq_refl) as (res & w2 & E1 & Hm2 & Hq2).
  rewrite (bind_eq _ _ _ _ _ _ _ (lift_Done _ _ acts _ _ _ _ E1)).
  assert (Hmid : exists acts1,
             match res with
             | Some doc => act (Printf fmt [ArgJson doc]) ;; act Free
             | None => ret tt
             end (g, acts) w2 = Done tt (g, acts1) w2 /\ snapshots_freed acts1).
  { destruct res as [doc | ].
    - eexists. split; [ reflexivity | ]. unfold snapshots_freed in *.
      cbn. now rewrite Hfreed.
    - exists acts. split; [ reflexivity | exact Hfreed ]. }
  destruct Hmid as (acts1 & E2 & Hf1).
  rewrite (bind_eq _ _ _ _ _ _ _ E2).
  destruct (Husage w2 Hm2 Hq2) as (u & w3 & E3 & Hm3 & Hq3).
  rewrite (bind_eq _ _ _ _ _ _ _ (lift_Done _ _ acts1 _ _ _ _ E3)).
  destruct (Hreport u acts1 w3) as (acts2 & E4 & Hq).
  exists (acts2 ++ acts1), w3. split; [ exact E4 | ].
  split; [ exact Hm3 | ]. split; [ exact Hq3 | ].
  unfold snapshots_freed in *. rewrite !filter_app, !length_app, Hf1. f_equal.
  clear E4. induction acts2 as [ | a acts2 IH ]; [ reflexivity | ].
  simpl in Hq. apply andb_true_iff in Hq. destruct Hq as (Ha & Hq).
  apply andb_true_iff in Ha. destruct Ha as (Ha1 & Ha2).
  simpl. destruct (is_free a); [ discriminate | ].
  destruct (prints_snapshot a); [ discriminate | ]. now apply IH.
Qed.
Lemma bind_act {G B} (a : action) (k : M (program G) B) g acts w :
  (act a ;; k) (g, acts) w = k (g, a :: acts) w.
Proof. reflexivity. Qed.

Section AmdProgram.
Variable O : OS.
Variable V : Amd.AGS.

Lemma amd_sampling_after_init g0 w0 g w :
  Amd.ags_initialized g0 = false ->
  Amd.gpu_init O V g0 w0 = Done 0 g w ->
  (forall w1, modules w1 = modules w -> queries w1 = queries w ->
     exists res w2, Amd.gpu_get_info_json O V g w1 = Done res g w2 /\
                    modules w2 = modules w /\ queries w2 = queries w) /\
  (forall w1, modules w1 = modules w -> queries w1 = queries w ->
     exists u w2, Amd.gpu_get_usage O V g w1 = Done u g w2 /\
                  modules w2 = modules w /\ queries w2 = queries w).
Proof.
  intros Hi0 E.
  destruct (amd_gpu_init_cases O V g0 w0) as (r' & g' & w' & E' & Hc).
  rewrite E in E'. inversion E'; subst r' g' w'. clear E'.
  assert (HP : exists P : list HMODULE -> Prop,
             P (modules w) /\
             (Amd.ags_initialized g = true ->
              forall h, Amd.agsGetGPUMemoryUsage g = Some h ->
                        callable P no_fault (Some h))).
  { destruct Hc as [(_ & _ & _ & h & (Hi & _ & _ & _ & Hu) & Hm) | (Hi & _)].
    - exists (module_loaded h). split.
      + unfold module_loaded. rewrite Hm. apply held_cons_same.
      + intros _ h' Hh. rewrite Hh in Hu.
        destruct (os_exports O h "agsGetGPUMemoryUsage"); [ | discriminate ].
        inversion Hu. apply callable_loaded.
    - exists any_modules. split; [ exact I | ]. intros H. congruence. }
  destruct HP as (P & HPw & Hcall).
  split; intros w1 Hm1 Hq1.
  - destruct (runs_total P sample_event g (amd_info_out O V g)
                (Amd.gpu_get_info_json O V) w1) as (res & w2 & E2 & _ & He).
    + apply amd_gpu_get_info_json_runs; [ apply sample_of_counter | | exact Hcall ].
      intros _ fn h'. apply sample_call.
    + now rewrite Hm1.
    + exists res, w2. split; [ exact E2 | ]. destruct He as (Hm2 & Hq2 & _).
      split; congruence.
  - destruct (runs_total P sample_event g (amd_util_out O V g 0)
                (Amd.gpu_get_usage O V) w1) as (res & w2 & E2 & _ & He).
    + apply amd_gpu_get_usage_runs; [ apply sample_of_counter | | exact Hcall ].
      intros _ fn h'. apply sample_call.
    + now rewrite Hm1.
    + exists res, w2. split; [ exact E2 | ]. destruct He as (Hm2 & Hq2 & _).
      split; congruence.
Qed.

Lemma amd_main_runs w :
  exists code g' acts w',
    AmdMain.main O V (Amd.globals0, []) w = Done code (g', acts) w' /\
    (code = 0 \/ code = 1) /\
    (code = 0 <-> returned (Amd.gpu_init O V Amd.globals0 w) = Some 0) /\
    (code = 0 -> modules w' = modules w /\ queries w' = queries w) /\
    (code = 1 -> exists r, Amd.gpu_init O V Amd.globals0 w = Done r g' w') /\
    snapshots_freed acts.
Proof.
  unfold AmdMain.main. rewrite !bind_act.
  destruct (amd_gpu_init_state O V Amd.globals0 w) as (r & b & g & w1 & E & Hs & Hc).
  rewrite (bind_eq _ _ _ _ _ _ _ (lift_Done _ _ _ _ _ _ _ E)).
  assert (Hr : r = 0 \/ r = -1).
  { destruct Hc as [(_ & -> & _) | (_ & [(-> & _) | (-> & _)])]; auto. }
  destruct Hr as [-> | ->]; cbn [Z.eqb negb].
  2:{ rewrite !bind_act. do 4 eexists. split; [ reflexivity | ].
      split; [ now right | ]. rewrite E. cbn [returned].
      split; [ split; discriminate | ]. split; [ discriminate | ].
      split; [ intros _; eexists; reflexivity | reflexivity ]. }
  assert (Ecount : Amd.gpu_get_count g w1 = Done (amd_count g) g w1).
  { unfold Amd.gpu_get_count, amd_count, bind, read, ret, id.
    now destruct (Amd.ags_initialized g). }
  rewrite (bind_eq _ _ _ _ _ _ _ (lift_Done _ _ _ _ _ _ _ Ecount)).
  rewrite bind_act.
  destruct (amd_sampling_after_init Amd.globals0 w g w1 eq_refl E) as (Hinfo & Husage).
  match goal with
  | |- context [ (?blk ;; lift (Amd.gpu_shutdown V) ;; ret 0) (g, ?acts0) w1 ] =>
      assert (Hblk : exists acts1 w2,
                 blk (g, acts0) w1 = Done tt (g, acts1) w2 /\
                 modules w2 = modules w1 /\ queries w2 = queries w1 /\
                 snapshots_freed acts1)
  end.
  { destruct (amd_count g >? 0).
    - apply sampling_block; [ exact Hinfo | exact Husage | | reflexivity ].
      intros u acts1 w2. exists [Printf ("AMD GPU Usage: %d%%" ++ nl) [ArgInt u]].
      split; reflexivity.
    - do 2 eexists. split; [ reflexivity | ]. repeat split. }
  destruct Hblk as (acts1 & w2 & E2 & Hm2 & Hq2 & Hf).
  rewrite (bind_eq _ _ _ _ _ _ _ E2).
  destruct (amd_shutdown_after_init O V w g w1 w2 E Hm2 Hq2) as (g3 & w3 & E3).
  rewrite (bind_eq _ _ _ _ _ _ _ (lift_Done _ _ _ _ _ _ _ E3)).
  do 4 eexists. split; [ reflexivity | ]. split; [ now left | ].
  rewrite E. cbn [returned]. split; [ split; reflexivity | ].
  split; [ intros _ | split; [ discriminate | exact Hf ] ].
  pose proof (amd_gpu_shutdown_effect V _ _ _ _ E3) as (Hm3 & Hq3 & _).
  rewrite Hm3, Hq3, Hm2, Hq2. split.
  - unfold amd_try_state in Hs. destruct (loader_lib _ _) as [h | ].
    + destruct Hs as (H1 & H2 & _). rewrite H1, H2. apply remove_one_cons_same.
    + destruct Hs as (_ & H1 & H2 & _). now rewrite H1.
  - destruct Hc as [(_ & _ & Hp & Hq1) | (_ & [(_ & _ & q & H1 & H2)
                                               | (Hr & _)])].
    + rewrite Hp. exact Hq1.
    + rewrite H1, H2. apply remove_one_cons_same.
    + discriminate Hr.
Qed.
End AmdProgram.
Section IntelProgram.
Variable O : OS.
Variable V : Intel.IGCL.

Lemma intel_sampling_after_init g0 w0 g w :
  Intel.igcl_initialized g0 = false ->
  Intel.gpu_init O V g0 w0 = Done 0 g w ->
  (forall w1, modules w1 = modules w -> queries w1 = queries w ->
     exists n w2, Intel.gpu_get_count V g w1 = Done n g w2 /\
                  modules w2 = modules w /\ queries w2 = queries w) /\
  (forall w1, modules w1 = modules w -> queries w1 = queries w ->
     exists res w2, Intel.gpu_get_info_json O V g w1 = Done res g w2 /\
                    modules w2 = modules w /\ queries w2 = queries w) /\
  (forall w1, modules w1 = modules w -> queries w1 = queries w ->
     exists u w2, Intel.gpu_get_usage O V g w1 = Done u g w2 /\
                  modules w2 = modules w /\ queries w2 = queries w).
Proof.
  intros Hi0 E.
  destruct (intel_gpu_init_cases O V g0 w0) as (r' & g' & w' & E' & Hc).
  rewrite E in E'. inversion E'; subst r' g' w'. clear E'.
  assert (HP : exists P : list HMODULE -> Prop,
             P (modules w) /\
             (Intel.igcl_initialized g = true ->
              forall h, Intel.igcl_get_device_count g = Some h ->
                        callable P no_fault (Some h)) /\
             (Intel.igcl_initialized g = true ->
              forall h, Intel.igcl_get_device_info g = Some h ->
                        callable P no_fault (Some h)) /\
             (Intel.igcl_initialized g = true ->
              forall h, Intel.igcl_get_device_stats g = Some h ->
                        callable P no_fault (Some h))).
  { destruct Hc as [(_ & _ & _ & h & (Hi & _ & _ & _ & Hcount & Hinfo & Hstats) & Hm)
                   | (Hi & _)].
    - exists (module_loaded h). split.
      + unfold module_loaded. rewrite Hm. apply held_cons_same.
      + repeat split; intros _ h' Hh;
          assert (h' = h) by congruence; subst; apply callable_loaded.
    - exists any_modules. split; [ exact I | ].
      repeat split; intros H; congruence. }
  destruct HP as (P & HPw & Hc1 & Hc2 & Hc3).
  split; [ | split ]; intros w1 Hm1 Hq1.
  - destruct (runs_total P sample_event g (intel_count_out V g)
                (Intel.gpu_get_count V) w1) as (res & w2 & E2 & _ & He).
    + apply intel_gpu_get_count_runs; [ | exact Hc1 ].
      intros _ fn h'. apply sample_call.
    + now rewrite Hm1.
    + exists res, w2. split; [ exact E2 | ]. destruct He as (Hm2 & Hq2 & _).
      split; congruence.
  - destruct (runs_total P sample_event g (intel_info_out O V g)
                (Intel.gpu_get_info_json O V) w1) as (res & w2 & E2 & _ & He).
    + apply intel_gpu_get_info_json_runs;
        [ apply sample_of_counter | | exact Hc2 | exact Hc3 ].
      intros _ fn h'. apply sample_call.
    + now rewrite Hm1.
    + exists res, w2. split; [ exact E2 | ]. destruct He as (Hm2 & Hq2 & _).
      split; congruence.
  - destruct (runs_total P sample_event g (intel_util_out O V g)
                (Intel.gpu_get_usage O V) w1) as (res & w2 & E2 & _ & He).
    + apply intel_gpu_get_usage_runs; [ apply sample_of_counter | | exact Hc3 ].
      intros _ fn h'. apply sample_call.
    + now rewrite Hm1.
    + exists res, w2. split; [ exact E2 | ]. destruct He as (Hm2 & Hq2 & _).
      split; congruence.
Qed.

Lemma intel_main_runs w :
  exists code g' acts w',
    IntelMain.main O V (Intel.globals0, []) w = Done code (g', acts) w' /\
    (code = 0 \/ code = 1) /\
    (code = 0 <-> returned (Intel.gpu_init O V Intel.globals0 w) = Some 0) /\
    (code = 0 -> modules w' = modules w /\ queries w' = queries w) /\
    (code = 1 -> exists r, Intel.gpu_init O V Intel.globals0 w = Done r g' w') /\
    snapshots_freed acts.
Proof.
  unfold IntelMain.main. rewrite !bind_act.
  destruct (intel_gpu_init_state O V Intel.globals0 w) as (r & b & g & w1 & E & Hs & Hc).
  rewrite (bind_eq _ _ _ _ _ _ _ (lift_Done _ _ _ _ _ _ _ E)).
  assert (Hr : r = 0 \/ r = -1).
  { destruct Hc as [(_ & -> & _) | (_ & [(-> & _) | (-> & _)])]; auto. }
  destruct Hr as [-> | ->]; cbn [Z.eqb negb].
  2:{ rewrite !bind_act. do 4 eexists. split; [ reflexivity | ].
      split; [ now right | ]. rewrite E. cbn [returned].
      split; [ split; discriminate | ]. split; [ discriminate | ].
      split; [ intros _; eexists; reflexivity | reflexivity ]. }
  destruct (intel_sampling_after_init Intel.globals0 w g w1 eq_refl E)
    as (Hcount & Hinfo & Husage).
  destruct (Hcount w1 eq_refl eq_refl) as (n & w1' & Ecount & Hm1 & Hq1).
  rewrite (bind_eq _ _ _ _ _ _ _ (lift_Done _ _ _ _ _ _ _ Ecount)).
  rewrite bind_act.
  match goal with
  | |- context [ (?blk ;; lift (Intel.gpu_shutdown V) ;; ret 0) (g, ?acts0) w1' ] =>
      assert (Hblk : exists acts1 w2,
                 blk (g, acts0) w1' = Done tt (g, acts1) w2 /\
                 modules w2 = modules w1 /\ queries w2 = queries w1 /\
                 snapshots_freed acts1)
  end.
  { destruct (n >? 0).
    - destruct (sampling_block (Intel.gpu_get_info_json O V) (Intel.gpu_get_usage O V)
                  ("Intel GPU Information (JSON):" ++ nl ++ "%s" ++ nl ++ nl)
                  (fun usage => act (Printf ("Intel GPU Usage: %d%%" ++ nl)
                                            [ArgInt usage]))
                  g [Printf ("Found %d Intel GPU(s)" ++ nl ++ nl) [ArgInt n];
                     Printf ("============================" ++ nl) [];
                     Printf ("Intel GPU Usage Monitor Test" ++ nl) []] w1')
        as (acts1 & w2 & Eb & Hmb & Hqb & Hfb).
      + intros w2 Hm2 Hq2. destruct (Hinfo w2) as (res & w3 & E3 & Hm3 & Hq3);
          [ congruence | congruence | ].
        exists res, w3. split; [ exact E3 | ]. split; congruence.
      + intros w2 Hm2 Hq2. destruct (Husage w2) as (res & w3 & E3 & Hm3 & Hq3);
          [ congruence | congruence | ].
        exists res, w3. split; [ exact E3 | ]. split; congruence.
      + intros u acts1 w2. exists [Printf ("Intel GPU Usage: %d%%" ++ nl) [ArgInt u]].
        split; reflexivity.
      + reflexivity.
      + exists acts1, w2. split; [ exact Eb | ]. repeat split; congruence.
    - do 2 eexists. split; [ reflexivity | ]. repeat split; assumption. }
  destruct Hblk as (acts1 & w2 & E2 & Hm2 & Hq2 & Hf).
  rewrite (bind_eq _ _ _ _ _ _ _ E2).
  destruct (intel_shutdown_after_init O V w g w1 w2 E Hm2 Hq2) as (g3 & w3 & E3).
  rewrite (bind_eq _ _ _ _ _ _ _ (lift_Done _ _ _ _ _ _ _ E3)).
  do 4 eexists. split; [ reflexivity | ]. split; [ now left | ].
  rewrite E. cbn [returned]. split; [ split; reflexivity | ].
  split; [ intros _ | split; [ discriminate | exact Hf ] ].
  pose proof (intel_gpu_shutdown_effect V _ _ _ _ E3) as (Hm3 & Hq3 & _).
  rewrite Hm3, Hq3, Hm2, Hq2. split.
  - unfold intel_try_state in Hs. destruct (loader_lib _ _) as [h | ].
    + destruct Hs as (H1 & H2 & _). rewrite H1, H2. apply remove_one_cons_same.
    + destruct Hs as (_ & H1 & H2 & _). now rewrite H1.
  - destruct Hc as [(_ & _ & Hp & Hq0) | (_ & [(_ & _ & q & H1 & H2)
                                               | (Hr & _)])].
    + rewrite Hp. exact Hq0.
    + rewrite H1, H2. apply remove_one_cons_same.
    + discriminate Hr.
Qed.
End IntelProgram.

(** X11: [main] of the AMD and of the Intel file never faults, whatever the
    platform does.  It exits with 0 exactly when [gpu_init] returned 0,
    and then the loaded modules and open queries are as they were when
    it started.  Otherwise it exits with 1 straight after [gpu_init]: no
    query and no [gpu_shutdown] is made.  Every snapshot it printed has
    been freed. *)
Theorem main_with_fallback (O : OS) (w : world) :
  (forall V, exists code g' acts w',
      AmdMain.main O V (Amd.globals0, []) w = Done code (g', acts) w' /\
      (code = 0 \/ code = 1) /\
      (code = 0 <-> returned (Amd.gpu_init O V Amd.globals0 w) = Some 0) /\
      (code = 0 -> modules w' = modules w /\ queries w' = queries w) /\
      (code = 1 -> exists r, Amd.gpu_init O V Amd.globals0 w = Done r g' w') /\
      snapshots_freed acts) /\
  (forall V, exists code g' acts w',
      IntelMain.main O V (Intel.globals0, []) w = Done code (g', acts) w' /\
      (code = 0 \/ code = 1) /\
      (code = 0 <-> returned (Intel.gpu_init O V Intel.globals0 w) = Some 0) /\
      (code = 0 -> modules w' = modules w /\ queries w' = queries w) /\
      (code = 1 -> exists r, Intel.gpu_init O V Intel.globals0 w = Done r g' w') /\
      snapshots_freed acts).
Proof.
  split; intros V.
  - apply amd_main_runs.
  - apply intel_main_runs.
Qed.

(** The AMD test program on a machine with the vendor library: what it
    prints. *)
Example amd_main_output :
  let run := AmdMain.main (machine ags_dll all_symbols false) (ags_devices 1)
                          (Amd.globals0, []) world0 in
  returned run = Some 0 /\
  match run with
  | Done _ (_, acts) w =>
      modules w = [] /\
      map (fun a => match a with
                    | Printf _ [ArgInt z] => Some z
                    | _ => None
                    end) (rev acts)
      = [None; None; Some 1; None; None; Some 130]
  | Fault _ => False
  end.
Proof. vm_compute. repeat split. Qed.
Section NvidiaProgram.
Variable O : OS.
Variable V : Nvidia.NVML.

Lemma nvidia_ready_sampling h g w :
  nvidia_ready O h g -> held h (modules w) = true ->
  Nvidia.nvmlDeviceGetTemperature g <> None ->
  Nvidia.nvmlDeviceGetPowerUsage g <> None ->
  (forall w1, modules w1 = modules w -> queries w1 = queries w ->
     exists res w2, Nvidia.gpu_get_info_json O V g w1 = Done res g w2 /\
                    modules w2 = modules w /\ queries w2 = queries w) /\
  (forall w1, modules w1 = modules w -> queries w1 = queries w ->
     exists u w2, Nvidia.gpu_get_usage V g w1 = Done u g w2 /\
                  modules w2 = modules w /\ queries w2 = queries w).
Proof.
  intros Hr Hw Htn Hpn.
  pose proof Hr as (_ & _ & _ & Hc & Hh & Hn & Hu & Hm & Ht & Hp).
  split; intros w1 Hm1 Hq1.
  - destruct (runs_total (module_loaded h) sample_event g _
                (Nvidia.gpu_get_info_json O V) w1
                (nvidia_gpu_get_info_json_runs O V _ _ g
                   ltac:(rewrite Hc; apply callable_loaded)
                   ltac:(rewrite Hh; apply callable_loaded)
                   ltac:(rewrite Hn; apply callable_loaded)
                   ltac:(rewrite Hu; apply callable_loaded)
                   ltac:(rewrite Hm; apply callable_loaded)
                   (ptr_of_callable h _ _ Ht Htn)
                   (ptr_of_callable h _ _ Hp Hpn)))
      as (res & w2 & E & _ & (Hm2 & Hq2 & _)).
    + unfold module_loaded. now rewrite Hm1.
    + exists res, w2. split; [ exact E | ]. split; congruence.
  - destruct (nvidia_ready_usage O V h g w1 Hr) as (u & w2 & E & (Hm2 & Hq2 & _)).
    + unfold module_loaded. now rewrite Hm1.
    + exists u, w2. split; [ exact E | ]. split; congruence.
Qed.

Lemma nvidia_main_total w :
  (forall h, os_exports O h "nvmlDeviceGetTemperature" = true) ->
  (forall h, os_exports O h "nvmlDeviceGetPowerUsage" = true) ->
  exists code g' acts w',
    NvidiaMain.main O V (Nvidia.globals0, []) w = Done code (g', acts) w' /\
    (code = 0 \/ code = 1) /\
    (code = 0 <-> returned (Nvidia.gpu_init O V Nvidia.globals0 w) = Some 0) /\
    modules w' = modules w /\ queries w' = queries w /\
    Nvidia.nvml_lib g' = None /\
    snapshots_freed acts.
Proof.
  intros Htemp Hpower.
  unfold NvidiaMain.main. rewrite !bind_act.
  destruct (nvidia_gpu_init_cases O V Nvidia.globals0 w)
    as (r & g & w1 & E & Hq1 & [(-> & h & Hr & Hm1) | (Hr & Hl & Hm1)]).
  2:{ rewrite (bind_eq _ _ _ _ _ _ _ (lift_Done _ _ _ _ _ _ _ E)).
      destruct (r =? 0) eqn:Er; [ apply Z.eqb_eq in Er; contradiction | ].
      cbn [negb]. rewrite !bind_act. do 4 eexists. split; [ reflexivity | ].
      split; [ now right | ]. rewrite E. cbn [returned].
      split; [ split; [ discriminate | intros H; inversion H; contradiction ] | ].
      repeat split; assumption. }
  rewrite (bind_eq _ _ _ _ _ _ _ (lift_Done _ _ _ _ _ _ _ E)). cbn [Z.eqb negb].
  assert (Hw1 : held h (modules w1) = true) by (rewrite Hm1; apply held_cons_same).
  destruct (nvidia_ready_count O V h g w1 Hr Hw1) as (n & w1' & Ecount & (Hmc & Hqc & _)).
  rewrite (bind_eq _ _ _ _ _ _ _ (lift_Done _ _ _ _ _ _ _ Ecount)).
  rewrite bind_act.
  pose proof Hr as (_ & _ & _ & _ & _ & _ & _ & _ & Ht & Hp).
  rewrite Htemp in Ht. rewrite Hpower in Hp. cbn [ptr_of] in Ht, Hp.
  destruct (nvidia_ready_sampling h g w1 Hr Hw1
              ltac:(rewrite Ht; discriminate) ltac:(rewrite Hp; discriminate))
    as (Hinfo & Husage).
  match goal with
  | |- context [ (?blk ;; lift (Nvidia.gpu_shutdown V) ;; ret 0) (g, ?acts0) w1' ] =>
      assert (Hblk : exists acts1 w2,
                 blk (g, acts0) w1' = Done tt (g, acts1) w2 /\
                 modules w2 = modules w1 /\ queries w2 = queries w1 /\
                 snapshots_freed acts1)
  end.
  { destruct (n >? 0).
    - destruct (sampling_block (Nvidia.gpu_get_info_json O V) (Nvidia.gpu_get_usage V)
                  ("GPU Information (JSON):" ++ nl ++ "%s" ++ nl ++ nl)
                  (fun usage =>
                     if usage >=? 0
                     then act (Printf ("Primary GPU Usage: %d%%" ++ nl) [ArgInt usage])
                     else ret tt)
                  g [Printf ("Found %d GPU(s)" ++ nl ++ nl) [ArgInt n];
                     Printf ("=============================" ++ nl) [];
                     Printf ("NVIDIA GPU Usage Monitor Test" ++ nl) []] w1')
        as (acts1 & w2 & Eb & Hmb & Hqb & Hfb).
      + intros w2 Hm2 Hq2. destruct (Hinfo w2) as (res & w3 & E3 & Hm3 & Hq3);
          [ congruence | congruence | ].
        exists res, w3. split; [ exact E3 | ]. split; congruence.
      + intros w2 Hm2 Hq2. destruct (Husage w2) as (res & w3 & E3 & Hm3 & Hq3);
          [ congruence | congruence | ].
        exists res, w3. split; [ exact E3 | ]. split; congruence.
      + intros u acts1 w2. destruct (u >=? 0).
        * exists [Printf ("Primary GPU Usage: %d%%" ++ nl) [ArgInt u]]. split; reflexivity.
        * exists []. split; reflexivity.
      + reflexivity.
      + exists acts1, w2. split; [ exact Eb | ]. repeat split; congruence.
    - do 2 eexists. split; [ reflexivity | ]. repeat split; assumption. }
  destruct Hblk as (acts1 & w2 & E2 & Hm2 & Hq2 & Hf).
  rewrite (bind_eq _ _ _ _ _ _ _ E2).
  assert (Hw2 : held h (modules w2) = true) by (rewrite Hm2; exact Hw1).
  rewrite (bind_eq _ _ _ _ _ _ _
             (lift_Done _ _ _ _ _ _ _ (nvidia_ready_shutdown_eq O V h g w2 Hr Hw2))).
  do 4 eexists. split; [ reflexivity | ]. split; [ now left | ].
  rewrite E. cbn [returned modules queries]. split; [ split; reflexivity | ].
  rewrite Hm2, Hm1, remove_one_cons_same.
  repeat split; try congruence; exact Hf.
Qed.
End NvidiaProgram.

(** X12: [main] of the NVIDIA file, on a platform whose NVML exports the two
    optional entry points: it never faults; it exits with 0 exactly
    when [gpu_init] returned 0 and with 1 otherwise; on both paths the
    library handle is NULL and the loaded modules are as they were when
    it started; every snapshot it printed has been freed. *)
Theorem nvidia_main_runs (O : OS) (V : Nvidia.NVML) (w : world) :
  (forall h, os_exports O h "nvmlDeviceGetTemperature" = true) ->
  (forall h, os_exports O h "nvmlDeviceGetPowerUsage" = true) ->
  exists code g' acts w',
    NvidiaMain.main O V (Nvidia.globals0, []) w = Done code (g', acts) w' /\
    (code = 0 \/ code = 1) /\
    (code = 0 <-> returned (Nvidia.gpu_init O V Nvidia.globals0 w) = Some 0) /\
    modules w' = modules w /\ queries w' = queries w /\
    Nvidia.nvml_lib g' = None /\
    snapshots_freed acts.
Proof. apply nvidia_main_total. Qed.

Lemma nvidia_main_runs_witness :
  exists code g' acts w',
    NvidiaMain.main (machine nvml_dll all_symbols false) nvml_two_devices
                    (Nvidia.globals0, []) world0 = Done code (g', acts) w' /\
    (code = 0 \/ code = 1) /\
    (code = 0 <->
     returned (Nvidia.gpu_init (machine nvml_dll all_symbols false) nvml_two_devices
                               Nvidia.globals0 world0) = Some 0) /\
    modules w' = modules world0 /\ queries w' = queries world0 /\
    Nvidia.nvml_lib g' = None /\
    snapshots_freed acts.
Proof.
  apply nvidia_main_runs; intros h; reflexivity.
Defined.
(* ===================================================================== *)
(** * NVIDIA: the queries only read, and [gpu_init] starts afresh *)

(** X13: The NVIDIA queries carry no state of their own: a query that
    returns has left every global as it was, loaded and freed no
    module, and made only sampling calls (no [nvmlInit], no
    [nvmlShutdown], no [LoadLibraryA], [GetProcAddress] or
    [FreeLibrary]). *)
Theorem nvidia_queries_read_only (O : OS) (V : Nvidia.NVML) (g : Nvidia.globals)
    (w : world) :
  (forall a g' w',
      Nvidia.gpu_get_count V g w = Done a g' w' ->
      g' = g /\ extends sample_event w w') /\
  (forall a g' w',
      Nvidia.gpu_get_info_json O V g w = Done a g' w' ->
      g' = g /\ extends sample_event w w') /\
  (forall a g' w',
      Nvidia.gpu_get_usage V g w = Done a g' w' ->
      g' = g /\ extends sample_event w w').
Proof.
  split; [ | split ]; intros a g' w' E.
  - apply (runs_Done any_modules any_fault sample_event g _ _ w a g' w'
             (nvidia_gpu_get_count_runs V _ _ g (callable_any _)) I E).
  - apply nvidia_info_any in E. apply E.
  - apply (runs_Done any_modules any_fault sample_event g _ _ w a g' w'
             (nvidia_gpu_get_usage_runs V _ _ g (callable_any _) (callable_any _)) I E).
Qed.

Lemma nvidia_queries_read_only_witness :
  let O := machine nvml_dll all_symbols false in
  let V := nvml_two_devices in
  match Nvidia.gpu_init O V Nvidia.globals0 world0 with
  | Done _ g w =>
      match Nvidia.gpu_get_usage V g w with
      | Done a g' w' => a = 150 /\ g' = g /\ extends sample_event w w'
      | Fault _ => False
      end
  | Fault _ => False
  end.
Proof.
  cbv zeta.
  destruct (Nvidia.gpu_init (machine nvml_dll all_symbols false) nvml_two_devices
                            Nvidia.globals0 world0) as [r g w | f] eqn:E;
    pose proof E as E'; vm_compute in E'; [ | discriminate E' ].
  destruct (Nvidia.gpu_get_usage nvml_two_devices g w) as [a g1 w1 | f] eqn:E1;
    pose proof E1 as E1'; inversion E'; subst r g w; vm_compute in E1';
    [ | discriminate E1' ].
  split; [ now inversion E1' | ].
  apply (proj2 (proj2 (nvidia_queries_read_only (machine nvml_dll all_symbols false)
                                                nvml_two_devices _ _)) _ _ _ E1).
Defined.

Section NvidiaFresh.
Variable O : OS.
Variable V : Nvidia.NVML.

(** [load_nvml], evaluated, with its lookups. *)
Lemma nvidia_load_nvml_trace g w :
  Nvidia.load_nvml O g w
  = match probe O (now w) Nvidia.possible_paths with
    | (failed, None) =>
        Done (-1) (Nvidia.set_nvml_lib None g)
             (mkWorld (probe_events failed None ++ trace w) (modules w) (queries w))
    | (failed, Some (p, h)) =>
        let tr := rev (nvidia_lookups O h) ++ probe_events failed (Some (p, h))
                  ++ trace w in
        let g1 := nvidia_table O h (Nvidia.set_nvml_lib (Some h) g) in
        if nvidia_complete O h
        then Done 0 g1 (mkWorld tr (h :: modules w) (queries w))
        else Done (-2) (Nvidia.set_nvml_lib None g1)
                  (mkWorld (EvFreeLibrary h :: tr) (modules w) (queries w))
    end.
Proof.
  assert (Hl := load_first_eq O Nvidia.set_nvml_lib (fun _ _ _ => eq_refl)
                 (tl Nvidia.possible_paths) (hd "" Nvidia.possible_paths) g w).
  change (hd "" Nvidia.possible_paths :: tl Nvidia.possible_paths)
    with Nvidia.possible_paths in Hl.
  destruct (probe O (now w) Nvidia.possible_paths) as [failed [[p h] | ]];
    unfold Nvidia.load_nvml; unfold bind at 1; rewrite Hl; [ | reflexivity ].
  cbv [found_module option_map snd probe_modules].
  unfold bind at 1. cbv [read]. cbn [Nvidia.nvml_lib Nvidia.set_nvml_lib].
  unfold bind at 1. rewrite nvidia_resolve_symbols_trace.
  unfold bind at 1. cbv [read id].
  pose proof (nvidia_check_complete O h (Nvidia.set_nvml_lib (Some h) g)) as Hc.
  cbv zeta in Hc |- *. rewrite Hc. cbn [trace modules queries].
  destruct (nvidia_complete O h); cbv [negb].
  - reflexivity.
  - unfold bind, FreeLibrary, write, ret. cbn [modules trace queries].
    rewrite held_cons_same, remove_one_cons_same. reflexivity.
Qed.

Lemma nvidia_table_fresh h g g' :
  nvidia_table O h (Nvidia.set_nvml_lib (Some h) g)
  = nvidia_table O h (Nvidia.set_nvml_lib (Some h) g').
Proof. reflexivity. Qed.

(** [gpu_init], evaluated: the globals it starts from appear only
    where no library loaded. *)
Lemma nvidia_gpu_init_eq g w :
  Nvidia.gpu_init O V g w
  = match probe O (now w) Nvidia.possible_paths with
    | (failed, None) =>
        Done (-1) (Nvidia.set_nvml_lib None g)
             (mkWorld (probe_events failed None ++ trace w) (modules w) (queries w))
    | (failed, Some (p, h)) =>
        let tr := rev (nvidia_lookups O h) ++ probe_events failed (Some (p, h))
                  ++ trace w in
        let g1 := nvidia_table O h (Nvidia.set_nvml_lib (Some h) Nvidia.globals0) in
        if nvidia_complete O h
        then
          if Nvidia.nvmlInit_impl V (List.length tr) =? Nvidia.NVML_SUCCESS
          then Done 0 g1 (mkWorld (EvCall "nvmlInit" h :: tr) (h :: modules w) (queries w))
          else Done (-2) (Nvidia.set_nvml_lib None g1)
                    (mkWorld (EvFreeLibrary h :: EvCall "nvmlInit" h :: tr)
                             (modules w) (queries w))
        else Done (-1) (Nvidia.set_nvml_lib None g1)
                  (mkWorld (EvFreeLibrary h :: tr) (modules w) (queries w))
    end.
Proof.
  unfold Nvidia.gpu_init. unfold bind at 1. rewrite nvidia_load_nvml_trace.
  destruct (probe O (now w) Nvidia.possible_paths) as [failed [[p h] | ]];
    [ | reflexivity ].
  cbv zeta. rewrite (nvidia_table_fresh h g Nvidia.globals0).
  destruct (nvidia_complete O h) eqn:Hc; [ | reflexivity ].
  pose proof (nvidia_complete_ready O h Nvidia.globals0 Hc) as (Hlib & Hinit & _).
  cbn [Z.eqb negb]. unfold bind at 1, callg, bind at 1, read, call.
  rewrite Hinit. cbn [modules]. rewrite held_cons_same.
  unfold now at 1. cbn [trace].
  destruct (Nvidia.nvmlInit_impl V _ =? Nvidia.NVML_SUCCESS); cbn [negb].
  - reflexivity.
  - unfold Nvidia.unload_nvml, bind, read, FreeLibrary, write, ret. rewrite Hlib.
    cbn [log modules trace queries]. rewrite held_cons_same, remove_one_cons_same.
    reflexivity.
Qed.
End NvidiaFresh.

(** X14: [gpu_init] of the NVIDIA file reads nothing of what an earlier
    session left in the globals: started in any state it returns what it
    returns from the initial state and does the same to the platform,
    and when a library loaded it leaves the very same globals (every
    pointer is looked up again).  Calling it again after [gpu_shutdown],
    or after a failed [gpu_init], is a fresh start. *)
Theorem nvidia_gpu_init_fresh (O : OS) (V : Nvidia.NVML) (g : Nvidia.globals) (w : world) :
  exists r g1 g2 w',
    Nvidia.gpu_init O V g w = Done r g1 w' /\
    Nvidia.gpu_init O V Nvidia.globals0 w = Done r g2 w' /\
    (snd (probe O (now w) Nvidia.possible_paths) <> None -> g1 = g2).
Proof.
  rewrite (nvidia_gpu_init_eq O V g w), (nvidia_gpu_init_eq O V Nvidia.globals0 w).
  destruct (probe O (now w) Nvidia.possible_paths) as [failed [[p h] | ]]; cbn [snd].
  2:{ do 4 eexists. split; [ reflexivity | ]. split; [ reflexivity | ].
      intros H. now elim H. }
  cbv zeta. destruct (nvidia_complete O h).
  - match goal with
    | |- context [ Nvidia.nvmlInit_impl V ?t =? _ ] =>
        destruct (Nvidia.nvmlInit_impl V t =? Nvidia.NVML_SUCCESS)
    end.
    + do 4 eexists. split; [ reflexivity | ]. split; reflexivity.
    + do 4 eexists. split; [ reflexivity | ]. split; reflexivity.
  - do 4 eexists. split; [ reflexivity | ]. split; reflexivity.
Qed.
(* ===================================================================== *)
(** * The adapter name when the vendor library is not in use *)

(** What the registry fallback leaves in the name buffer at time [t]:
    the [DriverDesc] value of the first display adapter when the key
    opens and the value is read, the preset text otherwise. *)
Definition driver_desc (O : OS) (t : nat) (preset : string) : string :=
  match os_DriverDesc O t with
  | Some (Some s) => s
  | _ => preset
  end.

Section FallbackName.
Variable O : OS.

Lemma runs_registry_name_value {G} (g : G) preset :
  runs any_modules any_fault sample_event g
       (fun s => exists t, s = driver_desc O t preset) (registry_name O preset).
Proof.
  apply (runs_step any_modules any_fault sample_event g (fun _ => EvRegistry)
                   (fun t => driver_desc O t preset)); reflexivity.
Qed.

Definition named_by_registry (preset : string) (r : gpu_record) : Prop :=
  exists t, name r = driver_desc O t preset.

Lemma amd_device_json_name V g i :
  Amd.ags_initialized g = false ->
  runs any_modules any_fault sample_event g
       (fun out => Forall (named_by_registry "AMD Graphics Card") (records out))
       (Amd.device_json O V i).
Proof.
  intros Hi. unfold Amd.device_json.
  eapply runs_bind.
  { apply (amd_get_gpu_memory_usage_runs O V any_modules any_fault sample_event g).
    - apply sample_of_counter.
    - intros _ fn h. apply sample_call.
    - intros _ h _. apply callable_any. }
  intros used_mem _.
  eapply runs_bind.
  { apply (amd_get_gpu_utilization_runs O V any_modules any_fault sample_event g).
    - apply sample_of_counter.
    - intros _ fn h. apply sample_call.
    - intros _ h _. apply callable_any. }
  intros gpu_util _.
  eapply runs_bind; [ apply runs_read | ]. intros g' ->. unfold id.
  rewrite Hi. cbn [andb].
  eapply runs_bind.
  { eapply runs_bind; [ apply (runs_registry_name_value g "AMD Graphics Card") | ].
    intros nm Hnm.
    apply (runs_ret _ _ _ _
             (fun x : string * Z * Q * Q =>
                exists t, fst (fst (fst x)) = driver_desc O t "AMD Graphics Card")).
    exact Hnm. }
  intros [[[nm tm] te] pw] Hnm. cbn [fst] in Hnm.
  apply runs_ret. rewrite records_chunk. constructor; [ | constructor ].
  exact Hnm.
Qed.

Lemma amd_info_json_name V g :
  Amd.ags_initialized g = false ->
  runs any_modules any_fault sample_event g
       (fun res => match res with
                   | Some doc => Forall (named_by_registry "AMD Graphics Card")
                                        (records doc)
                   | None => True
                   end)
       (Amd.gpu_get_info_json O V).
Proof.
  intros Hi. unfold Amd.gpu_get_info_json.
  eapply runs_bind; [ apply amd_gpu_get_count_runs | ]. intros n _.
  destruct (n <=? 0); [ now apply runs_ret | ].
  eapply runs_bind; [ apply runs_malloc; reflexivity | ].
  intros b _. destruct b; cbn [negb]; [ | now apply runs_ret ].
  eapply runs_bind.
  { apply runs_for_loop. intros i. now apply amd_device_json_name. }
  intros doc Hl. apply runs_ret.
  eapply loop_out_records; [ | exact Hl ]. trivial.
Qed.

Lemma intel_info_json_name V g :
  Intel.igcl_initialized g = false ->
  runs any_modules any_fault sample_event g
       (fun res => match res with
                   | Some doc => Forall (named_by_registry "Intel Integrated Graphics")
                                        (records doc)
                   | None => True
                   end)
       (Intel.gpu_get_info_json O V).
Proof.
  intros Hi. unfold Intel.gpu_get_info_json.
  eapply runs_bind; [ apply runs_malloc; reflexivity | ].
  intros b _. destruct b; cbn [negb]; [ | now apply runs_ret ].
  eapply runs_bind.
  { apply (intel_get_gpu_utilization_runs O V any_modules any_fault sample_event g).
    - apply sample_of_counter.
    - intros _ fn h. apply sample_call.
    - intros _ h _. apply callable_any. }
  intros gpu_util _.
  eapply runs_bind.
  { apply (intel_get_gpu_memory_usage_runs O V any_modules any_fault sample_event g).
    - apply sample_of_counter.
    - intros _ fn h. apply sample_call.
    - intros _ h _. apply callable_any. }
  intros memory_used _.
  eapply runs_bind.
  { apply (intel_get_gpu_total_memory_runs O V any_modules any_fault sample_event g).
    - apply sample_of_counter.
    - intros _ fn h. apply sample_call.
    - intros _ h _. apply callable_any. }
  intros total_mem _.
  eapply runs_bind; [ apply runs_read | ]. intros g' ->. unfold id.
  rewrite Hi. cbn [andb].
  eapply runs_bind;
    [ apply (runs_registry_name_value g "Intel Integrated Graphics") | ].
  intros nm Hnm.
  eapply runs_bind with (Q1 := fun _ => True); [ now apply runs_ret | ].
  intros [te pw] _. apply runs_ret. cbn [records].
  constructor; [ | constructor ]. exact Hnm.
Qed.
End FallbackName.

(** X15: Without the vendor session the [name] of a record is what the
    registry fallback left in the buffer: the [DriverDesc] of the first
    display adapter when the registry answers, the preset text of the
    file otherwise. *)
Theorem fallback_record_name (O : OS) :
  (forall V g w doc g' w',
      Amd.ags_initialized g = false ->
      Amd.gpu_get_info_json O V g w = Done (Some doc) g' w' ->
      Forall (named_by_registry O "AMD Graphics Card") (records doc)) /\
  (forall V g w doc g' w',
      Intel.igcl_initialized g = false ->
      Intel.gpu_get_info_json O V g w = Done (Some doc) g' w' ->
      Forall (named_by_registry O "Intel Integrated Graphics") (records doc)).
Proof.
  split; intros V g w doc g' w' Hi E.
  - apply (runs_Done any_modules any_fault sample_event g _ _ w (Some doc) g' w'
             (amd_info_json_name O V g Hi) I E).
  - apply (runs_Done any_modules any_fault sample_event g _ _ w (Some doc) g' w'
             (intel_info_json_name O V g Hi) I E).
Qed.

(** A machine whose registry names the adapter; no vendor library, the
    counters present. *)
Definition machine_with_registry (desc : string) : OS :=
  mkOS (fun _ _ => None) (fun _ _ => false) (fun _ => true)
       (fun _ => Some 7%nat) (fun _ _ _ => Some 3%nat) (fun _ _ => true)
       (fun _ _ => Some (Qmake 42 1)) (fun _ _ => Some (2 * GiB))
       (fun _ => Some (Some desc)) (fun _ => 16 * GiB).

Lemma fallback_record_name_witness :
  let O := machine_with_registry "Radeon RX 580" in
  let V := ags_devices 2 in
  match Amd.gpu_init O V Amd.globals0 world0 with
  | Done _ g w =>
      match Amd.gpu_get_info_json O V g w with
      | Done (Some doc) _ _ =>
          Forall (named_by_registry O "AMD Graphics Card") (records doc) /\
          map name (records doc) = ["Radeon RX 580"]
      | _ => False
      end
  | Fault _ => False
  end.
Proof.
  cbv zeta.
  destruct (Amd.gpu_init (machine_with_registry "Radeon RX 580") (ags_devices 2)
                         Amd.globals0 world0) as [r g w | f] eqn:E;
    pose proof E as E'; vm_compute in E'; [ | discriminate E' ].
  destruct (Amd.gpu_get_info_json (machine_with_registry "Radeon RX 580")
                                  (ags_devices 2) g w)
    as [[doc | ] g1 w1 | f] eqn:E1;
    pose proof E1 as E1'; inversion E'; subst r g w; vm_compute in E1';
    try discriminate E1'.
  split.
  - eapply (proj1 (fallback_record_name (machine_with_registry "Radeon RX 580")));
      [ | exact E1 ].
    reflexivity.
  - inversion E1'; subst doc. reflexivity.
Defined.
(* ===================================================================== *)
(** * [gpu_get_usage] of the AMD and Intel files, by backend *)

Section UsageByBackend.
Variable O : OS.

(** The counters never came up in this state. *)
Lemma perf_util_out_off {G} (pdh : G -> pdh_globals) g a :
  perf_counters_initialized (pdh g) = false -> perf_util_out O pdh g a -> a = -1.
Proof.
  intros Hf [-> | (Hr & _)]; [ reflexivity | ].
  unfold perf_ready in Hr. rewrite Hf in Hr. discriminate Hr.
Qed.

Lemma amd_usage_after_init V w g w1 :
  Amd.gpu_init O V Amd.globals0 w = Done 0 g w1 ->
  forall w2, modules w2 = modules w1 ->
    exists u w3,
      Amd.gpu_get_usage O V g w2 = Done u g w3 /\
      match amd_backend g with
      | VendorBackend =>
          u = -1 \/
          amd_sample V g 0 (fun s => u = int_of_float (Amd.gpuUsagePercent s))
      | _ => perf_util_out O Amd.pdh g u
      end.
Proof.
  intros E w2 Hm2.
  destruct (amd_gpu_init_cases O V Amd.globals0 w) as (r' & g' & w' & E' & Hc).
  rewrite E in E'. inversion E'; subst r' g' w'. clear E'.
  destruct Hc as [(_ & Hp & _ & h & (Hi & _ & _ & _ & Hu) & Hm) | (Hi & _)].
  - destruct (runs_total (module_loaded h) sample_event g (amd_util_out O V g 0)
                (Amd.gpu_get_usage O V) w2) as (u & w3 & E2 & Hout & _).
    + apply amd_gpu_get_usage_runs; [ apply sample_of_counter | | ].
      * intros _ fn h'. apply sample_call.
      * intros _ h' Hh. rewrite Hh in Hu.
        destruct (os_exports O h "agsGetGPUMemoryUsage"); [ | discriminate ].
        inversion Hu. apply callable_loaded.
    + unfold module_loaded. rewrite Hm2, Hm. apply held_cons_same.
    + exists u, w3. split; [ exact E2 | ]. unfold amd_backend. rewrite Hi.
      destruct Hout as [Hs | Hperf]; [ now right | left ].
      apply (perf_util_out_off Amd.pdh g u); [ now rewrite Hp | exact Hperf ].
  - change (Amd.ags_initialized g = false) in Hi.
    destruct (runs_total any_modules sample_event g (amd_util_out O V g 0)
                (Amd.gpu_get_usage O V) w2) as (u & w3 & E2 & Hout & _).
    + apply amd_gpu_get_usage_runs; [ apply sample_of_counter | | ].
      * intros _ fn h'. apply sample_call.
      * intros H. congruence.
    + exact I.
    + exists u, w3. split; [ exact E2 | ]. unfold amd_backend. rewrite Hi.
      assert (Hperf : perf_util_out O Amd.pdh g u).
      { destruct Hout as [(Hs & _) | Hperf]; [ congruence | exact Hperf ]. }
      destruct (perf_counters_initialized (Amd.pdh g)); exact Hperf.
Qed.

Lemma intel_usage_after_init V w g w1 :
  Intel.gpu_init O V Intel.globals0 w = Done 0 g w1 ->
  forall w2, modules w2 = modules w1 ->
    exists u w3,
      Intel.gpu_get_usage O V g w2 = Done u g w3 /\
      match intel_backend g with
      | VendorBackend =>
          u = -1 \/
          intel_stats_sample V g
            (fun s => u = to_int (u32 (Intel.stats_gpu_utilization s)))
      | _ => perf_util_out O Intel.pdh g u
      end.
Proof.
  intros E w2 Hm2.
  destruct (intel_gpu_init_cases O V Intel.globals0 w) as (r' & g' & w' & E' & Hc).
  rewrite E in E'. inversion E'; subst r' g' w'. clear E'.
  destruct Hc as [(_ & Hp & _ & h & (Hi & _ & _ & _ & _ & _ & Hstats) & Hm) | (Hi & _)].
  - destruct (runs_total (module_loaded h) sample_event g (intel_util_out O V g)
                (Intel.gpu_get_usage O V) w2) as (u & w3 & E2 & Hout & _).
    + apply intel_gpu_get_usage_runs; [ apply sample_of_counter | | ].
      * intros _ fn h'. apply sample_call.
      * intros _ h' Hh. assert (h' = h) by congruence. subst. apply callable_loaded.
    + unfold module_loaded. rewrite Hm2, Hm. apply held_cons_same.
    + exists u, w3. split; [ exact E2 | ]. unfold intel_backend. rewrite Hi.
      destruct Hout as [Hs | Hperf]; [ now right | left ].
      apply (perf_util_out_off Intel.pdh g u); [ now rewrite Hp | exact Hperf ].
  - change (Intel.igcl_initialized g = false) in Hi.
    destruct (runs_total any_modules sample_event g (intel_util_out O V g)
                (Intel.gpu_get_usage O V) w2) as (u & w3 & E2 & Hout & _).
    + apply intel_gpu_get_usage_runs; [ apply sample_of_counter | | ].
      * intros _ fn h'. apply sample_call.
      * intros H. congruence.
    + exact I.
    + exists u, w3. split; [ exact E2 | ]. unfold intel_backend. rewrite Hi.
      assert (Hperf : perf_util_out O Intel.pdh g u).
      { destruct Hout as [(Hs & _) | Hperf]; [ congruence | exact Hperf ]. }
      destruct (perf_counters_initialized (Intel.pdh g)); exact Hperf.
Qed.
End UsageByBackend.

(* ===================================================================== *)
(** * [gpu_shutdown]: what it does, and in which order *)

(** The platform calls of a [gpu_shutdown] started with globals [g],
    newest first: the vendor session is closed, then the library is
    freed, then the counter query is closed. *)
Definition nvidia_shutdown_events (g : Nvidia.globals) : list event :=
  match Nvidia.nvml_lib g with
  | Some h =>
      EvFreeLibrary h
      :: match Nvidia.nvmlShutdown g with
         | Some hs => [EvCall "nvmlShutdown" hs]
         | None => []
         end
  | None => []
  end.

Definition amd_shutdown_events (g : Amd.globals) : list event :=
  match query_handle (Amd.pdh g) with Some q => [EvPdhCloseQuery q] | None => [] end
  ++ match Amd.ags_lib g with Some h => [EvFreeLibrary h] | None => [] end
  ++ match Amd.ags_initialized g, Amd.ags_context g, Amd.agsDeInitialize g with
     | true, Some _, Some hd => [EvCall "agsDeInitialize" hd]
     | _, _, _ => []
     end.

Definition intel_shutdown_events (g : Intel.globals) : list event :=
  match query_handle (Intel.pdh g) with Some q => [EvPdhCloseQuery q] | None => [] end
  ++ match Intel.igcl_lib g with Some h => [EvFreeLibrary h] | None => [] end
  ++ match Intel.igcl_initialized g, Intel.igcl_shutdown g with
     | true, Some hs => [EvCall "igcl_shutdown" hs]
     | _, _ => []
     end.

Lemma nvidia_gpu_shutdown_trace V g w g1 w1 :
  Nvidia.gpu_shutdown V g w = Done tt g1 w1 ->
  trace w1 = nvidia_shutdown_events g ++ trace w.
Proof.
  unfold Nvidia.gpu_shutdown, Nvidia.unload_nvml, nvidia_shutdown_events,
    callg, call, bind, read, ret, id, FreeLibrary, write.
  destruct (Nvidia.nvml_lib g) as [h | ] eqn:Hl; cbn [non_null is_null negb andb].
  - destruct (Nvidia.nvmlShutdown g) as [hs | ] eqn:Hs; cbn [non_null is_null negb].
    + rewrite Hs. destruct (held hs (modules w)); [ | discriminate ].
      rewrite Hl. cbn [log modules]. destruct (held h (modules w)); [ | discriminate ].
      intros E. inversion E. reflexivity.
    + rewrite Hl. destruct (held h (modules w)); [ | discriminate ].
      intros E. inversion E. reflexivity.
  - rewrite Hl. intros E. inversion E. reflexivity.
Qed.

Lemma cleanup_performance_counters_trace {G} (pdh : G -> pdh_globals)
    (with_pdh : pdh_globals -> G -> G) g w g1 w1 :
  cleanup_performance_counters pdh with_pdh g w = Done tt g1 w1 ->
  trace w1 = match query_handle (pdh g) with
             | Some q => [EvPdhCloseQuery q]
             | None => []
             end ++ trace w.
Proof.
  unfold cleanup_performance_counters, bind, read, PdhCloseQuery, upd, write, ret.
  destruct (query_handle (pdh g)) as [q | ].
  - destruct (held q (queries w)); [ | discriminate ].
    intros E. inversion E. reflexivity.
  - intros E. inversion E. reflexivity.
Qed.

Lemma amd_unload_ags_trace V g w g1 w1 :
  Amd.unload_ags V g w = Done tt g1 w1 ->
  trace w1 = match Amd.ags_lib g with Some h => [EvFreeLibrary h] | None => [] end
             ++ match Amd.ags_initialized g, Amd.ags_context g, Amd.agsDeInitialize g with
                | true, Some _, Some hd => [EvCall "agsDeInitialize" hd]
                | _, _, _ => []
                end ++ trace w.
Proof.
  unfold Amd.unload_ags. intros H.
  apply bind_Done in H. destruct H as (g0 & ga & wa & Ha & H).
  inversion Ha; subst; clear Ha. unfold id in H.
  apply bind_Done in H. destruct H as ([ ] & gb & wb & Hb & H).
  assert (Hmid : trace wb
                 = match Amd.ags_initialized ga, Amd.ags_context ga,
                         Amd.agsDeInitialize ga with
                   | true, Some _, Some hd => [EvCall "agsDeInitialize" hd]
                   | _, _, _ => []
                   end ++ trace wa /\ Amd.ags_lib gb = Amd.ags_lib ga).
  { destruct (Amd.ags_initialized ga); [ | inversion Hb; subst; split; reflexivity ].
    destruct (Amd.ags_context ga) as [ctx | ];
      [ | inversion Hb; subst; split; reflexivity ].
    destruct (Amd.agsDeInitialize ga) as [hd | ] eqn:Hp;
      [ | inversion Hb; subst; split; reflexivity ].
    apply bind_Done in Hb. destruct Hb as (rc & gc & wc & Hc1 & Hb).
    unfold callg, call, bind, read in Hc1. rewrite Hp in Hc1.
    destruct (held hd (modules wa)); [ | discriminate ].
    inversion Hc1; subst; clear Hc1.
    unfold bind, write in Hb. inversion Hb; subst. split; reflexivity. }
  destruct Hmid as (Ht & Hl).
  apply bind_Done in H. destruct H as (lib & gc & wc & Hc & H).
  inversion Hc; subst; clear Hc. rewrite <- Hl.
  destruct (Amd.ags_lib gc) as [h | ].
  - unfold bind, FreeLibrary, write in H.
    destruct (held h (modules wc)); [ | discriminate ].
    inversion H; subst. cbn [trace]. rewrite Ht. reflexivity.
  - inversion H; subst. rewrite Ht. reflexivity.
Qed.

Lemma intel_unload_igcl_trace V g w g1 w1 :
  Intel.unload_igcl V g w = Done tt g1 w1 ->
  trace w1 = match Intel.igcl_lib g with Some h => [EvFreeLibrary h] | None => [] end
             ++ match Intel.igcl_initialized g, Intel.igcl_shutdown g with
                | true, Some hs => [EvCall "igcl_shutdown" hs]
                | _, _ => []
                end ++ trace w.
Proof.
  unfold Intel.unload_igcl. intros H.
  apply bind_Done in H. destruct H as (g0 & ga & wa & Ha & H).
  inversion Ha; subst; clear Ha. unfold id in H.
  apply bind_Done in H. destruct H as ([ ] & gb & wb & Hb & H).
  assert (Hmid : trace wb
                 = match Intel.igcl_initialized ga, Intel.igcl_shutdown ga with
                   | true, Some hs => [EvCall "igcl_shutdown" hs]
                   | _, _ => []
                   end ++ trace wa /\ Intel.igcl_lib gb = Intel.igcl_lib ga).
  { destruct (Intel.igcl_initialized ga);
      [ | cbn [andb] in Hb; inversion Hb; subst; split; reflexivity ].
    destruct (Intel.igcl_shutdown ga) as [hs | ] eqn:Hp;
      [ | cbn [andb non_null is_null negb] in Hb; inversion Hb; subst;
          split; reflexivity ].
    cbn [andb non_null is_null negb] in Hb.
    apply bind_Done in Hb. destruct Hb as (rc & gc & wc & Hc1 & Hb).
    unfold callg, call, bind, read in Hc1. rewrite Hp in Hc1.
    destruct (held hs (modules wa)); [ | discriminate ].
    inversion Hc1; subst; clear Hc1.
    unfold write in Hb. inversion Hb; subst. split; reflexivity. }
  destruct Hmid as (Ht & Hl).
  apply bind_Done in H. destruct H as (lib & gc & wc & Hc & H).
  inversion Hc; subst; clear Hc. rewrite <- Hl.
  destruct (Intel.igcl_lib gc) as [h | ].
  - unfold bind, FreeLibrary, write in H.
    destruct (held h (modules wc)); [ | discriminate ].
    inversion H; subst. cbn [trace]. rewrite Ht. reflexivity.
  - inversion H; subst. rewrite Ht. reflexivity.
Qed.

(** X17: A [gpu_shutdown] that returns has made exactly the calls of
    [.._shutdown_events], in this order: first the vendor session is
    closed (when one is up), then the library is freed (when one is
    held), then the counter query is closed (when one is open); each at
    most once, and nothing else.  On AMD the vendor session is closed
    only if [agsInitialize] handed back a non-NULL context. *)
Theorem shutdown_order :
  (forall V g w g1 w1,
      Nvidia.gpu_shutdown V g w = Done tt g1 w1 ->
      trace w1 = nvidia_shutdown_events g ++ trace w) /\
  (forall V g w g1 w1,
      Amd.gpu_shutdown V g w = Done tt g1 w1 ->
      trace w1 = amd_shutdown_events g ++ trace w) /\
  (forall V g w g1 w1,
      Intel.gpu_shutdown V g w = Done tt g1 w1 ->
      trace w1 = intel_shutdown_events g ++ trace w).
Proof.
  split; [ | split ]; intros V g w g1 w1 E.
  - exact (nvidia_gpu_shutdown_trace V g w g1 w1 E).
  - unfold Amd.gpu_shutdown in E.
    apply bind_Done in E. destruct E as ([ ] & ga & wa & Ha & H).
    pose proof (amd_unload_ags_trace _ _ _ _ _ Ha) as Ht.
    apply amd_unload_ags_Done in Ha. destruct Ha as (_ & _ & Hp & _).
    apply cleanup_performance_counters_trace in H.
    rewrite H, Hp, Ht. unfold amd_shutdown_events. now rewrite <- !app_assoc.
  - unfold Intel.gpu_shutdown in E.
    apply bind_Done in E. destruct E as ([ ] & ga & wa & Ha & H).
    pose proof (intel_unload_igcl_trace _ _ _ _ _ Ha) as Ht.
    apply intel_unload_igcl_Done in Ha. destruct Ha as (_ & _ & Hp & _).
    apply cleanup_performance_counters_trace in H.
    rewrite H, Hp, Ht. unfold intel_shutdown_events. now rewrite <- !app_assoc.
Qed.

(** A vendor session on AMD: [agsDeInitialize], then [FreeLibrary]. *)
Lemma shutdown_order_witness :
  let O := machine ags_dll all_symbols false in
  let V := ags_devices 2 in
  match Amd.gpu_init O V Amd.globals0 world0 with
  | Done _ g w =>
      match Amd.gpu_shutdown V g w with
      | Done _ _ w1 =>
          trace w1 = [EvFreeLibrary 1%nat; EvCall "agsDeInitialize" 1%nat] ++ trace w
      | Fault _ => False
      end
  | Fault _ => False
  end.
Proof.
  cbv zeta.
  destruct (Amd.gpu_init (machine ags_dll all_symbols false) (ags_devices 2)
                         Amd.globals0 world0) as [r g w | f] eqn:E;
    pose proof E as E'; vm_compute in E'; [ | discriminate E' ].
  destruct (Amd.gpu_shutdown (ags_devices 2) g w) as [[ ] g1 w1 | f] eqn:E1;
    pose proof E1 as E1'; inversion E'; subst r g w; vm_compute in E1';
    [ | discriminate E1' ].
  rewrite (proj1 (proj2 shutdown_order) _ _ _ _ _ E1). reflexivity.
Defined.

(* ===================================================================== *)
(** * Exact evaluation: which answer of the platform a query uses *)

(** A call through a global pointer that returned: the answer is the one
    of that moment, the globals are untouched, one event is logged. *)
Lemma callg_Done {G R} (fn : string) (sel : G -> fnptr) (impl : nat -> R) g w a g' w' :
  callg fn sel impl g w = Done a g' w' ->
  a = impl (now w) /\ g' = g /\ now w' = S (now w).
Proof.
  unfold callg, call, bind, read. destruct (sel g) as [h | ]; [ | discriminate ].
  destruct (held h (modules w)); [ | discriminate ].
  intros E. inversion E; subst. repeat split.
Qed.

Section NvidiaExact.
Import Nvidia.
Variable V : NVML.

(** The device loop of [gpu_get_info_json], started at time [t0]: the
    moment at which iteration [k] looks up its handle.  An iteration
    whose lookup fails makes that one call; an iteration whose lookup
    succeeds makes five more. *)
Fixpoint nvidia_lookup_time (t0 : nat) (k : nat) : nat :=
  match k with
  | O => t0
  | S k' =>
      let t := nvidia_lookup_time t0 k' in
      if fst (nvmlDeviceGetHandleByIndex_impl V t (Z.of_nat k')) =? NVML_SUCCESS
      then (t + 6)%nat else (t + 1)%nat
  end.

(** The handle lookup of iteration [k] succeeds. *)
Definition nvidia_found (t0 : nat) (k : nat) : bool :=
  fst (nvmlDeviceGetHandleByIndex_impl V (nvidia_lookup_time t0 k) (Z.of_nat k))
  =? NVML_SUCCESS.

(** The utilization and memory fields of [r] are those of the device
    whose handle the lookup for [index r], made at time [t], answered:
    the rates queried at [t + 2] and the memory figures queried at
    [t + 3], or zeros for a query that failed. *)
Definition nvidia_stats_at (t : nat) (r : gpu_record) : Prop :=
  let device := snd (nvmlDeviceGetHandleByIndex_impl V t (index r)) in
  let rates := nvmlDeviceGetUtilizationRates_impl V (t + 2) device in
  let mem := nvmlDeviceGetMemoryInfo_impl V (t + 3) device in
  gpu_utilization r = (if fst rates =? NVML_SUCCESS then u32 (gpu (snd rates)) else 0) /\
  memory_utilization r
  = (if fst rates =? NVML_SUCCESS then u32 (memory (snd rates)) else 0) /\
  memory_total r = (if fst mem =? NVML_SUCCESS then u64 (total (snd mem)) else 0) /\
  memory_used r = (if fst mem =? NVML_SUCCESS then u64 (used (snd mem)) else 0) /\
  memory_free r = (if fst mem =? NVML_SUCCESS then u64 (free (snd mem)) else 0).

(** The name and the two optional readings of [r] are those of the same
    device: the name queried at [t + 1], or "Unknown GPU" when that
    query failed; the temperature written at [t + 4] and the power
    written at [t + 5] (milliwatts, as watts), or the preset 0 when the
    driver wrote nothing. *)
Definition nvidia_readings_at (t : nat) (r : gpu_record) : Prop :=
  let device := snd (nvmlDeviceGetHandleByIndex_impl V t (index r)) in
  let nm := nvmlDeviceGetName_impl V (t + 1) device in
  name r = (if fst nm =? NVML_SUCCESS then snd nm else "Unknown GPU") /\
  temperature r
  = inject_Z (match nvmlDeviceGetTemperature_impl V (t + 4) device with
              | Some v => u32 v
              | None => 0
              end) /\
  power_usage r
  = milli (match nvmlDeviceGetPowerUsage_impl V (t + 5) device with
           | Some v => u32 v
           | None => 0
           end).

Lemma nvidia_device_json_Done i g w out g' w' :
  device_json V i g w = Done out g' w' ->
  g' = g /\
  if fst (nvmlDeviceGetHandleByIndex_impl V (now w) i) =? NVML_SUCCESS
  then now w' = (now w + 6)%nat /\
       exists r, out = (if i >? 0 then [Comma] else []) ++ [Obj r] /\ index r = i /\
                 nvidia_stats_at (now w) r /\ nvidia_readings_at (now w) r
  else now w' = (now w + 1)%nat /\ out = [].
Proof.
  unfold device_json. intros H.
  apply bind_Done in H. destruct H as ([rc device] & g1 & w1 & H1 & H).
  apply callg_Done in H1. destruct H1 as (Ha & -> & N1).
  rewrite <- Ha. cbn [fst snd].
  destruct (rc =? NVML_SUCCESS) eqn:Hrc; cbn [negb] in H.
  2:{ inversion H; subst. split; [ reflexivity | ]. split; [ lia | reflexivity ]. }
  apply bind_Done in H. destruct H as ([rcn vname] & g2 & w2 & H2 & H).
  apply callg_Done in H2. destruct H2 as (Hn & -> & N2).
  apply bind_Done in H. destruct H as ([rcu ut] & g3 & w3 & H3 & H).
  apply callg_Done in H3. destruct H3 as (Hu & -> & N3).
  apply bind_Done in H. destruct H as ([rcm mem] & g4 & w4 & H4 & H).
  apply callg_Done in H4. destruct H4 as (Hm & -> & N4).
  apply bind_Done in H. destruct H as (wt & g5 & w5 & H5 & H).
  apply callg_Done in H5. destruct H5 as (Ht & -> & N5).
  apply bind_Done in H. destruct H as (wp & g6 & w6 & H6 & H).
  apply callg_Done in H6. destruct H6 as (Hp & -> & N6).
  inversion H; subst out g' w'. clear H.
  split; [ reflexivity | ]. split; [ lia | ].
  eexists. split; [ reflexivity | ]. split; [ reflexivity | ].
  assert (E1 : now w1 = (now w + 1)%nat) by lia.
  assert (E2 : now w2 = (now w + 2)%nat) by lia.
  assert (E3 : now w3 = (now w + 3)%nat) by lia.
  assert (E4 : now w4 = (now w + 4)%nat) by lia.
  assert (E5 : now w5 = (now w + 5)%nat) by lia.
  rewrite E1 in Hn. rewrite E2 in Hu. rewrite E3 in Hm. rewrite E4 in Ht.
  rewrite E5 in Hp.
  unfold nvidia_stats_at, nvidia_readings_at.
  cbn [index name gpu_utilization memory_utilization memory_total memory_used memory_free
       temperature power_usage].
  rewrite <- Ha. cbn [snd]. rewrite <- Hn, <- Hu, <- Hm, <- Ht, <- Hp. cbn [fst snd].
  repeat split.
Qed.

(** The records the loop writes from iteration [k0] on. *)
Lemma nvidia_loop_Done t0 g n : forall k0 w doc g' w',
  for_loop n (Z.of_nat k0) (device_json V) g w = Done doc g' w' ->
  now w = nvidia_lookup_time t0 k0 ->
  g' = g /\
  Forall2 (fun k r => index r = Z.of_nat k /\
                      nvidia_stats_at (nvidia_lookup_time t0 k) r /\
                      nvidia_readings_at (nvidia_lookup_time t0 k) r)
          (filter (nvidia_found t0) (seq k0 n)) (records doc).
Proof.
  induction n as [ | n IH ]; intros k0 w doc g' w' H Hw.
  - inversion H; subst. split; [ reflexivity | constructor ].
  - cbn [for_loop] in H.
    apply bind_Done in H. destruct H as (out & g1 & w1 & H1 & H).
    apply nvidia_device_json_Done in H1. destruct H1 as (-> & H1).
    apply bind_Done in H. destruct H as (rest & g2 & w2 & H2 & H).
    inversion H; subst doc g' w'. clear H.
    replace (Z.of_nat k0 + 1) with (Z.of_nat (S k0)) in H2 by lia.
    cbn [seq filter]. unfold nvidia_found at 1. rewrite <- Hw.
    destruct (fst (nvmlDeviceGetHandleByIndex_impl V (now w) (Z.of_nat k0))
              =? NVML_SUCCESS) eqn:Hf.
    + destruct H1 as (N1 & r & -> & Hi & Hs & Hr).
      apply IH in H2; [ | cbn [nvidia_lookup_time]; rewrite <- Hw, Hf; exact N1 ].
      destruct H2 as (-> & H2). split; [ reflexivity | ].
      rewrite records_app, records_chunk. cbn [app].
      constructor; [ | exact H2 ]. rewrite <- Hw. auto.
    + destruct H1 as (N1 & ->).
      apply IH in H2; [ | cbn [nvidia_lookup_time]; rewrite <- Hw, Hf; exact N1 ].
      exact H2.
Qed.
End NvidiaExact.

(* --------------------------------------------------------------------- *)
(** ** The counter readers *)

Section PerfExact.
Context {G : Type}.
Variable O : OS.
Variable pdh : G -> pdh_globals.

(** What [get_gpu_utilization_perf_counter] returns when called at time
    [t] with the counter globals [p]: the data are collected at [t] and
    the formatted value is read at [S t]. *)
Definition perf_util_at (p : pdh_globals) (t : nat) : Z :=
  match perf_counters_initialized p, query_handle p with
  | true, Some q =>
      if os_PdhCollectQueryData O t q
      then match gpu_util_counter p with
           | Some c =>
               match os_PdhGetFormattedCounterValue_double O (S t) c with
               | Some doubleValue => int_of_float doubleValue
               | None => 0
               end
           | None => 0
           end
      else -1
  | _, _ => -1
  end.

(** The platform calls it makes on the way. *)
Definition perf_util_calls (p : pdh_globals) (t : nat) : nat :=
  match perf_counters_initialized p, query_handle p with
  | true, Some q =>
      if os_PdhCollectQueryData O t q
      then match gpu_util_counter p with
           | Some _ => 2%nat
           | None => 1%nat
           end
      else 1%nat
  | _, _ => 0%nat
  end.

(** What [get_gpu_memory_perf_counter] returns when called at time [t]. *)
Definition perf_mem_at (p : pdh_globals) (t : nat) : Z :=
  match perf_counters_initialized p, query_handle p with
  | true, Some _ =>
      match gpu_memory_counter p with
      | Some c =>
          match os_PdhGetFormattedCounterValue_large O t c with
          | Some largeValue => u64 largeValue
          | None => 0
          end
      | None => 0
      end
  | _, _ => 0
  end.

(** The platform calls it makes on the way. *)
Definition perf_mem_calls (p : pdh_globals) : nat :=
  match perf_counters_initialized p, query_handle p, gpu_memory_counter p with
  | true, Some _, Some _ => 1%nat
  | _, _, _ => 0%nat
  end.

Local Ltac returned_now :=
  intros E; inversion E; subst;
  split; [ reflexivity | ]; split; [ reflexivity | ];
  unfold now, log; cbn [trace List.length]; lia.

Lemma perf_util_Done g w a g' w' :
  get_gpu_utilization_perf_counter O pdh g w = Done a g' w' ->
  a = perf_util_at (pdh g) (now w) /\ g' = g /\
  now w' = (now w + perf_util_calls (pdh g) (now w))%nat.
Proof.
  unfold get_gpu_utilization_perf_counter, perf_util_at, perf_util_calls, bind, read,
    PdhCollectQueryData, PdhGetFormattedCounterValue, ret.
  destruct (perf_counters_initialized (pdh g)); [ | returned_now ].
  destruct (query_handle (pdh g)) as [q | ]; [ | returned_now ].
  destruct (os_PdhCollectQueryData O (now w) q); cbn [negb]; [ | returned_now ].
  destruct (gpu_util_counter (pdh g)) as [c | ]; [ | returned_now ].
  change (now (log (EvPdhCollectQueryData q true) w)) with (S (now w)).
  destruct (os_PdhGetFormattedCounterValue_double O (S (now w)) c); returned_now.
Qed.

Lemma perf_mem_Done g w a g' w' :
  get_gpu_memory_perf_counter O pdh g w = Done a g' w' ->
  a = perf_mem_at (pdh g) (now w) /\ g' = g /\
  now w' = (now w + perf_mem_calls (pdh g))%nat.
Proof.
  unfold get_gpu_memory_perf_counter, perf_mem_at, perf_mem_calls, bind, read,
    PdhGetFormattedCounterValue, ret.
  destruct (perf_counters_initialized (pdh g)); [ | returned_now ].
  destruct (query_handle (pdh g)) as [q | ]; [ | returned_now ].
  destruct (gpu_memory_counter (pdh g)) as [c | ]; [ | returned_now ].
  destruct (os_PdhGetFormattedCounterValue_large O (now w) c); returned_now.
Qed.

Lemma perf_util_at_off p t :
  perf_counters_initialized p = false -> perf_util_at p t = -1.
Proof. unfold perf_util_at. now intros ->. Qed.

Lemma perf_mem_at_off p t :
  perf_counters_initialized p = false -> perf_mem_at p t = 0.
Proof. unfold perf_mem_at. now intros ->. Qed.
End PerfExact.

Lemma int_of_float_range q : INT_MIN <= int_of_float q <= INT_MAX.
Proof.
  unfold int_of_float. cbv zeta.
  destruct (INT_MIN <=? Z.quot (Qnum q) (Z.pos (Qden q))) eqn:H1; cbn [andb].
  - destruct (Z.quot (Qnum q) (Z.pos (Qden q)) <=? INT_MAX) eqn:H2.
    + apply Z.leb_le in H1. apply Z.leb_le in H2. lia.
    + unfold INT_MIN, INT_MAX. lia.
  - unfold INT_MIN, INT_MAX. lia.
Qed.

Lemma perf_util_at_range O p t : INT_MIN <= perf_util_at O p t <= INT_MAX.
Proof.
  unfold perf_util_at.
  destruct (perf_counters_initialized p); [ | unfold INT_MIN, INT_MAX; lia ].
  destruct (query_handle p) as [q | ]; [ | unfold INT_MIN, INT_MAX; lia ].
  destruct (os_PdhCollectQueryData O t q); [ | unfold INT_MIN, INT_MAX; lia ].
  destruct (gpu_util_counter p) as [c | ]; [ | unfold INT_MIN, INT_MAX; lia ].
  destruct (os_PdhGetFormattedCounterValue_double O (S t) c);
    [ apply int_of_float_range | unfold INT_MIN, INT_MAX; lia ].
Qed.

Lemma to_int_range z : INT_MIN <= to_int z <= INT_MAX.
Proof.
  unfold to_int, INT_MIN, INT_MAX.
  pose proof (Z.mod_pos_bound (z + 2 ^ 31) (2 ^ 32) eq_refl). lia.
Qed.

(** Records written one per listed iteration, each carrying its
    iteration number as index: every record satisfies what its own
    iteration guarantees. *)
Lemma written_by_index (P : nat -> gpu_record -> Prop) (n : nat) ks rs :
  (forall k r, P k r -> index r = Z.of_nat k) ->
  Forall (fun k => (k < n)%nat) ks ->
  Forall2 P ks rs ->
  Forall (fun r => 0 <= index r < Z.of_nat n /\ P (Z.to_nat (index r)) r) rs.
Proof.
  intros Hi Hb H. induction H as [ | k r ks rs Hp _ IH ]; [ constructor | ].
  inversion Hb; subst. constructor; [ | now apply IH ].
  rewrite (Hi k r Hp), Nat2Z.id. split; [ lia | exact Hp ].
Qed.

(* --------------------------------------------------------------------- *)
(** ** AMD *)

Section AmdExact.
Import Amd.
Variable O : OS.
Variable V : AGS.

(** The vendor library is asked: the session is up and the optional
    entry point was resolved. *)
Definition amd_asked (g : globals) : bool :=
  ags_initialized g && non_null (agsGetGPUMemoryUsage g).

(** What [agsGetGPUMemoryUsage(ags_context, i, &usage)] hands over at
    time [t]: the structure it filled in, when the library is asked and
    reports success. *)
Definition amd_answer (g : globals) (t : nat) (i : Z) : option AGSGPUUsage :=
  if amd_asked g
  then let '(rc, usage) := agsGetGPUMemoryUsage_impl V t (ags_context g) i in
       if rc =? AGS_SUCCESS then Some usage else None
  else None.

(** The moment at which the counters are read instead: at once when the
    library is not asked, one call later when it was asked and refused. *)
Definition amd_fallback_time (g : globals) (t : nat) : nat :=
  if amd_asked g then S t else t.

(** What [get_gpu_utilization(i)] returns when called at time [t], and
    the platform calls it makes. *)
Definition amd_util_at (g : globals) (t : nat) (i : Z) : Z :=
  match amd_answer g t i with
  | Some usage => int_of_float (gpuUsagePercent usage)
  | None => perf_util_at O (pdh g) (amd_fallback_time g t)
  end.

Definition amd_util_calls (g : globals) (t : nat) (i : Z) : nat :=
  match amd_answer g t i with
  | Some _ => 1%nat
  | None => ((if amd_asked g then 1 else 0)
             + perf_util_calls O (pdh g) (amd_fallback_time g t))%nat
  end.

(** What [get_gpu_memory_usage(i)] returns when called at time [t], and
    the platform calls it makes. *)
Definition amd_used_at (g : globals) (t : nat) (i : Z) : Z :=
  match amd_answer g t i with
  | Some usage => u64 (memoryUsedInBytes usage)
  | None => perf_mem_at O (pdh g) (amd_fallback_time g t)
  end.

Definition amd_used_calls (g : globals) (t : nat) (i : Z) : nat :=
  match amd_answer g t i with
  | Some _ => 1%nat
  | None => ((if amd_asked g then 1 else 0) + perf_mem_calls (pdh g))%nat
  end.

Lemma usage_query_Done i g w a g' w' :
  usage_query V i g w = Done a g' w' ->
  a = agsGetGPUMemoryUsage_impl V (now w) (ags_context g) i /\ g' = g /\
  now w' = S (now w).
Proof.
  unfold usage_query. intros H.
  apply bind_Done in H. destruct H as (ctx & g1 & w1 & H1 & H).
  inversion H1; subst ctx g1 w1. now apply callg_Done in H.
Qed.

Lemma amd_get_gpu_utilization_Done i g w a g' w' :
  get_gpu_utilization O V i g w = Done a g' w' ->
  a = amd_util_at g (now w) i /\ g' = g /\
  now w' = (now w + amd_util_calls g (now w) i)%nat.
Proof.
  unfold get_gpu_utilization, amd_util_at, amd_util_calls, amd_answer,
    amd_fallback_time, amd_asked.
  intros H.
  apply bind_Done in H. destruct H as (g0 & g1 & w1 & H1 & H).
  inversion H1; subst g0 g1 w1; clear H1. unfold id in H.
  destruct (ags_initialized g && non_null (agsGetGPUMemoryUsage g)).
  2:{ apply perf_util_Done in H. destruct H as (-> & -> & ->).
      repeat split; lia. }
  apply bind_Done in H. destruct H as ([rc usage] & g1 & w1 & H1 & H).
  apply usage_query_Done in H1. destruct H1 as (Ha & -> & N1).
  rewrite <- Ha. destruct (rc =? AGS_SUCCESS).
  - inversion H; subst. repeat split; lia.
  - apply perf_util_Done in H. rewrite N1 in H. destruct H as (-> & -> & ->).
    repeat split; lia.
Qed.

Lemma amd_get_gpu_memory_usage_Done i g w a g' w' :
  get_gpu_memory_usage O V i g w = Done a g' w' ->
  a = amd_used_at g (now w) i /\ g' = g /\
  now w' = (now w + amd_used_calls g (now w) i)%nat.
Proof.
  unfold get_gpu_memory_usage, amd_used_at, amd_used_calls, amd_answer,
    amd_fallback_time, amd_asked.
  intros H.
  apply bind_Done in H. destruct H as (g0 & g1 & w1 & H1 & H).
  inversion H1; subst g0 g1 w1; clear H1. unfold id in H.
  destruct (ags_initialized g && non_null (agsGetGPUMemoryUsage g)).
  2:{ apply perf_mem_Done in H. destruct H as (-> & -> & ->).
      repeat split; lia. }
  apply bind_Done in H. destruct H as ([rc usage] & g1 & w1 & H1 & H).
  apply usage_query_Done in H1. destruct H1 as (Ha & -> & N1).
  rewrite <- Ha. destruct (rc =? AGS_SUCCESS).
  - inversion H; subst. repeat split; lia.
  - apply perf_mem_Done in H. rewrite N1 in H. destruct H as (-> & -> & ->).
    repeat split; lia.
Qed.

Lemma amd_util_at_range g t i : INT_MIN <= amd_util_at g t i <= INT_MAX.
Proof.
  unfold amd_util_at. destruct (amd_answer g t i);
    [ apply int_of_float_range | apply perf_util_at_range ].
Qed.

(** The temperature and the power of the record for device [i], when
    the block that fills in the name and these readings starts at time
    [t]: the vendor's readings for a device of the table, zeros
    otherwise; and the platform calls the block makes (the vendor query
    for a device of the table, the registry otherwise). *)
Definition amd_readings_at (g : globals) (t : nat) (i : Z) : Q * Q :=
  if i <? numDevices (gpu_info g)
  then match amd_answer g t i with
       | Some usage => (temperatureInC usage, powerUsageInWatts usage)
       | None => (0%Q, 0%Q)
       end
  else (0%Q, 0%Q).

Definition amd_detail_calls (g : globals) (i : Z) : nat :=
  if ags_initialized g && (i <? numDevices (gpu_info g))
  then if non_null (agsGetGPUMemoryUsage g) then 1%nat else 0%nat
  else 1%nat.

(** One iteration of the device loop for device [i], started at time
    [t]: the memory in use is asked at [t], the utilization next, then
    the name and readings block runs. *)
Definition amd_util_time (g : globals) (t : nat) (i : Z) : nat :=
  (t + amd_used_calls g t i)%nat.

Definition amd_readings_time (g : globals) (t : nat) (i : Z) : nat :=
  (amd_util_time g t i + amd_util_calls g (amd_util_time g t i) i)%nat.

Definition amd_next_time (g : globals) (t : nat) (i : Z) : nat :=
  (amd_readings_time g t i + amd_detail_calls g i)%nat.

(** The record of device [i] carries the answers of the iteration that
    started at time [t]. *)
Definition amd_record_at (g : globals) (t : nat) (i : Z) (r : gpu_record) : Prop :=
  index r = i /\
  memory_used r = amd_used_at g t i /\
  gpu_utilization r = Z.max (amd_util_at g (amd_util_time g t i) i) 0 /\
  (temperature r, power_usage r) = amd_readings_at g (amd_readings_time g t i) i.

Lemma amd_device_json_Done i g w out g' w' :
  device_json O V i g w = Done out g' w' ->
  g' = g /\ now w' = amd_next_time g (now w) i /\
  exists r, out = (if i >? 0 then [Comma] else []) ++ [Obj r] /\
            amd_record_at g (now w) i r.
Proof.
  unfold device_json. intros H.
  apply bind_Done in H. destruct H as (used_mem & g1 & w1 & H1 & H).
  apply amd_get_gpu_memory_usage_Done in H1. destruct H1 as (Hu & -> & N1).
  apply bind_Done in H. destruct H as (gpu_util & g2 & w2 & H2 & H).
  apply amd_get_gpu_utilization_Done in H2. destruct H2 as (Hg & -> & N2).
  apply bind_Done in H. destruct H as (g0 & g3 & w3 & H3 & H).
  inversion H3; subst g0 g3 w3; clear H3. unfold id in H.
  apply bind_Done in H.
  destruct H as ([[[gpu_name total_mem] te] pw] & g4 & w4 & H4 & H).
  assert (Hd : g4 = g /\ (te, pw) = amd_readings_at g (now w2) i /\
               now w4 = (now w2 + amd_detail_calls g i)%nat).
  { unfold amd_readings_at, amd_detail_calls, amd_answer, amd_asked.
    destruct (ags_initialized g) eqn:Hi; cbn [andb] in H4 |- *.
    2:{ apply bind_Done in H4. destruct H4 as (nm & g5 & w5 & H5 & H4).
        unfold registry_name in H5. inversion H5; subst. inversion H4; subst.
        split; [ reflexivity | ].
        split; [ now destruct (i <? numDevices (gpu_info g4)) | ].
        unfold now, log. cbn [trace List.length]. lia. }
    destruct (i <? numDevices (gpu_info g)).
    2:{ apply bind_Done in H4. destruct H4 as (nm & g5 & w5 & H5 & H4).
        unfold registry_name in H5. inversion H5; subst. inversion H4; subst.
        split; [ reflexivity | ]. split; [ reflexivity | ].
        unfold now, log. cbn [trace List.length]. lia. }
    destruct (non_null (agsGetGPUMemoryUsage g)).
    2:{ inversion H4; subst. split; [ reflexivity | ]. split; [ reflexivity | lia ]. }
    apply bind_Done in H4. destruct H4 as ([rc usage] & g5 & w5 & H5 & H4).
    apply usage_query_Done in H5. destruct H5 as (Ha & -> & N5).
    rewrite <- Ha.
    destruct (rc =? AGS_SUCCESS); inversion H4; subst;
      (split; [ reflexivity | ]; split; [ reflexivity | lia ]). }
  destruct Hd as (-> & Hd & N4).
  inversion H; subst out g' w'. clear H.
  assert (T1 : now w1 = amd_util_time g (now w) i) by (unfold amd_util_time; lia).
  assert (T2 : now w2 = amd_readings_time g (now w) i).
  { unfold amd_readings_time. rewrite <- T1. lia. }
  split; [ reflexivity | ].
  split; [ unfold amd_next_time; rewrite <- T2; exact N4 | ].
  eexists. split; [ reflexivity | ]. unfold amd_record_at.
  cbn [index memory_used gpu_utilization temperature power_usage make_record].
  split; [ reflexivity | ]. split; [ exact Hu | ]. split.
  - rewrite <- T1, <- Hg. destruct (Z.geb_spec gpu_util 0); lia.
  - rewrite <- T2. exact Hd.
Qed.

(** The device loop started at time [t0]: the moment at which iteration
    [k] starts. *)
Fixpoint amd_device_time (g : globals) (t0 : nat) (k : nat) : nat :=
  match k with
  | 0%nat => t0
  | S k' => amd_next_time g (amd_device_time g t0 k') (Z.of_nat k')
  end.

(** Record [r] is the one iteration [k] wrote. *)
Definition amd_written (g : globals) (t0 : nat) (k : nat) (r : gpu_record) : Prop :=
  amd_record_at g (amd_device_time g t0 k) (Z.of_nat k) r.

Lemma amd_loop_Done t0 g n : forall k0 w doc g' w',
  for_loop n (Z.of_nat k0) (device_json O V) g w = Done doc g' w' ->
  now w = amd_device_time g t0 k0 ->
  g' = g /\ Forall2 (amd_written g t0) (seq k0 n) (records doc).
Proof.
  induction n as [ | n IH ]; intros k0 w doc g' w' H Hw.
  - inversion H; subst. split; [ reflexivity | constructor ].
  - cbn [for_loop] in H.
    apply bind_Done in H. destruct H as (out & g1 & w1 & H1 & H).
    apply amd_device_json_Done in H1. destruct H1 as (-> & N1 & r & -> & Hr).
    apply bind_Done in H. destruct H as (rest & g2 & w2 & H2 & H).
    inversion H; subst doc g' w'. clear H.
    replace (Z.of_nat k0 + 1) with (Z.of_nat (S k0)) in H2 by lia.
    apply IH in H2; [ | cbn [amd_device_time]; rewrite <- Hw; exact N1 ].
    destruct H2 as (-> & H2). split; [ reflexivity | ].
    rewrite records_app, records_chunk. cbn [app seq].
    constructor; [ | exact H2 ]. unfold amd_written. now rewrite <- Hw.
Qed.

(** [gpu_get_info_json], called at time [t]: the buffer is asked at
    [t] and the device loop starts at [t + 1]. *)
Lemma amd_gpu_get_info_json_Done g w res g' w' :
  gpu_get_info_json O V g w = Done res g' w' ->
  g' = g /\
  match res with
  | None => amd_count g <= 0 \/ os_malloc O (now w) = false
  | Some doc =>
      0 < amd_count g /\ os_malloc O (now w) = true /\
      Forall2 (amd_written g (S (now w))) (seq 0 (Z.to_nat (amd_count g))) (records doc)
  end.
Proof.
  unfold gpu_get_info_json. intros H.
  apply bind_Done in H. destruct H as (n & g1 & w1 & H1 & H).
  assert (n = amd_count g /\ g1 = g /\ w1 = w) as (-> & -> & ->).
  { unfold gpu_get_count, bind, read, id, ret in H1. unfold amd_count.
    destruct (ags_initialized g); inversion H1; now subst. }
  clear H1. destruct (amd_count g <=? 0) eqn:Hn.
  { inversion H; subst. split; [ reflexivity | ]. left. now apply Z.leb_le. }
  apply Z.leb_gt in Hn.
  apply bind_Done in H. destruct H as (b & g1 & w1 & H1 & H).
  unfold malloc in H1. inversion H1; subst b g1 w1; clear H1.
  destruct (os_malloc O (now w)) eqn:Hb; cbn [negb] in H.
  2:{ inversion H; subst. split; [ reflexivity | now right ]. }
  apply bind_Done in H. destruct H as (doc & g1 & w1 & H1 & H).
  apply (amd_loop_Done (S (now w)) g _ 0%nat) in H1; [ | reflexivity ].
  destruct H1 as (-> & Hl). inversion H; subst.
  split; [ reflexivity | ]. split; [ exact Hn | ]. split; [ reflexivity | exact Hl ].
Qed.

Lemma amd_written_indices g t0 ks rs :
  Forall2 (amd_written g t0) ks rs -> map index rs = map Z.of_nat ks.
Proof.
  induction 1 as [ | k r ks rs (Hi & _) _ IH ]; simpl; [ reflexivity | ].
  now rewrite Hi, IH.
Qed.

Lemma amd_written_fields g t0 n rs :
  Forall2 (amd_written g t0) (seq 0 n) rs ->
  Forall (fun r => 0 <= index r < Z.of_nat n /\
                   amd_record_at g (amd_device_time g t0 (Z.to_nat (index r)))
                                 (index r) r) rs.
Proof.
  intros H. apply (written_by_index (amd_written g t0) n) in H.
  - eapply Forall_impl; [ | exact H ]. cbv beta. intros r (Hb & Hw).
    split; [ exact Hb | ]. unfold amd_written in Hw.
    rewrite Z2Nat.id in Hw by lia. exact Hw.
  - intros k r (Hi & _). exact Hi.
  - apply Forall_forall. intros k Hk. apply in_seq in Hk. lia.
Qed.

(** Every record of a document is the one its iteration wrote. *)
Lemma amd_records_at g w (R : gpu_record -> Prop) :
  (forall r, 0 <= index r < amd_count g ->
             amd_record_at g (amd_device_time g (S (now w)) (Z.to_nat (index r)))
                           (index r) r ->
             R r) ->
  Forall R (records_of (gpu_get_info_json O V g w)).
Proof.
  intros HR. destruct (gpu_get_info_json O V g w) as [[doc | ] g' w' | f] eqn:E;
    simpl; try constructor.
  apply amd_gpu_get_info_json_Done in E. destruct E as (_ & Hn & _ & Hl).
  apply amd_written_fields in Hl. eapply Forall_impl; [ | exact Hl ].
  cbv beta. intros r (Hb & Hr). apply HR; [ | exact Hr ].
  rewrite Z2Nat.id in Hb by lia. exact Hb.
Qed.
End AmdExact.

(* --------------------------------------------------------------------- *)
(** ** Intel *)

Section IntelExact.
Import Intel.
Variable O : OS.
Variable V : IGCL.

(** The stats entry point is asked: the session is up and the pointer
    is set.  Likewise the device-info entry point. *)
Definition intel_stats_asked (g : globals) : bool :=
  igcl_initialized g && non_null (igcl_get_device_stats g).

Definition intel_info_asked (g : globals) : bool :=
  igcl_initialized g && non_null (igcl_get_device_info g).

(** What [igcl_get_device_stats(0, &stats)] hands over at time [t], when
    it is asked and reports success. *)
Definition intel_stats_answer (g : globals) (t : nat) : option igcl_device_stats_t :=
  if intel_stats_asked g
  then let '(rc, stats) := igcl_get_device_stats_impl V t 0 in
       if rc =? IGCL_SUCCESS then Some stats else None
  else None.

(** What [igcl_get_device_info(0, &info)] hands over at time [t], when it
    is asked and reports success. *)
Definition intel_info_answer (g : globals) (t : nat) : option igcl_device_info_t :=
  if intel_info_asked g
  then let '(rc, info) := igcl_get_device_info_impl V t 0 in
       if rc =? IGCL_SUCCESS then Some info else None
  else None.

(** The moment at which the fallback of a vendor query is read: at once
    when the vendor is not asked, one call later when it was asked and
    refused. *)
Definition intel_stats_fallback_time (g : globals) (t : nat) : nat :=
  if intel_stats_asked g then S t else t.

Definition intel_info_fallback_time (g : globals) (t : nat) : nat :=
  if intel_info_asked g then S t else t.

(** What [get_gpu_utilization()] returns when called at time [t], and
    the platform calls it makes. *)
Definition intel_util_at (g : globals) (t : nat) : Z :=
  match intel_stats_answer g t with
  | Some stats => to_int (u32 (stats_gpu_utilization stats))
  | None => perf_util_at O (pdh g) (intel_stats_fallback_time g t)
  end.

Definition intel_util_calls (g : globals) (t : nat) : nat :=
  match intel_stats_answer g t with
  | Some _ => 1%nat
  | None => ((if intel_stats_asked g then 1 else 0)
             + perf_util_calls O (pdh g) (intel_stats_fallback_time g t))%nat
  end.

(** What [get_gpu_memory_usage()] returns when called at time [t], and
    the platform calls it makes. *)
Definition intel_used_at (g : globals) (t : nat) : Z :=
  match intel_stats_answer g t with
  | Some stats => u64 (stats_memory_used stats)
  | None => perf_mem_at O (pdh g) (intel_stats_fallback_time g t)
  end.

Definition intel_used_calls (g : globals) (t : nat) : nat :=
  match intel_stats_answer g t with
  | Some _ => 1%nat
  | None => ((if intel_stats_asked g then 1 else 0) + perf_mem_calls (pdh g))%nat
  end.

(** What [get_gpu_total_memory()] returns when called at time [t]: the
    vendor's figure, or an eighth of the physical memory; and the
    platform calls it makes. *)
Definition intel_total_at (g : globals) (t : nat) : Z :=
  match intel_info_answer g t with
  | Some info => u64 (total_memory info)
  | None => u64 (os_ullTotalPhys O (intel_info_fallback_time g t)) / 8
  end.

Definition intel_total_calls (g : globals) (t : nat) : nat :=
  match intel_info_answer g t with
  | Some _ => 1%nat
  | None => ((if intel_info_asked g then 1 else 0) + 1)%nat
  end.

(** The name written when the block that determines it starts at time
    [t] (it makes one platform call): the vendor's device name, cut to
    255 characters; the preset text when the vendor was asked and
    refused; what the registry fallback leaves when the vendor is not
    asked. *)
Definition intel_name_at (g : globals) (t : nat) : string :=
  match intel_info_answer g t with
  | Some info => strncpy255 (device_name info)
  | None => if intel_info_asked g then "Intel Integrated Graphics"
            else driver_desc O t "Intel Integrated Graphics"
  end.

(** The temperature and the power written when the block that reads
    them starts at time [t]: the vendor's readings (power in
    milliwatts, as watts), zeros otherwise. *)
Definition intel_readings_at (g : globals) (t : nat) : Q * Q :=
  match intel_stats_answer g t with
  | Some stats => (inject_Z (u32 (stats_temperature stats)),
                   milli (u32 (stats_power_usage stats)))
  | None => (inject_Z 0, 0%Q)
  end.

Lemma intel_get_gpu_utilization_Done g w a g' w' :
  get_gpu_utilization O V g w = Done a g' w' ->
  a = intel_util_at g (now w) /\ g' = g /\
  now w' = (now w + intel_util_calls g (now w))%nat.
Proof.
  unfold get_gpu_utilization, intel_util_at, intel_util_calls, intel_stats_answer,
    intel_stats_fallback_time, intel_stats_asked.
  intros H.
  apply bind_Done in H. destruct H as (g0 & g1 & w1 & H1 & H).
  inversion H1; subst g0 g1 w1; clear H1. unfold id in H.
  destruct (igcl_initialized g && non_null (igcl_get_device_stats g)).
  2:{ apply perf_util_Done in H. destruct H as (-> & -> & ->). repeat split. }
  apply bind_Done in H. destruct H as ([rc stats] & g1 & w1 & H1 & H).
  apply callg_Done in H1. destruct H1 as (Ha & -> & N1).
  rewrite <- Ha. destruct (rc =? IGCL_SUCCESS).
  - inversion H; subst. repeat split; lia.
  - apply perf_util_Done in H. rewrite N1 in H. destruct H as (-> & -> & ->).
    repeat split; lia.
Qed.

Lemma intel_get_gpu_memory_usage_Done g w a g' w' :
  get_gpu_memory_usage O V g w = Done a g' w' ->
  a = intel_used_at g (now w) /\ g' = g /\
  now w' = (now w + intel_used_calls g (now w))%nat.
Proof.
  unfold get_gpu_memory_usage, intel_used_at, intel_used_calls, intel_stats_answer,
    intel_stats_fallback_time, intel_stats_asked.
  intros H.
  apply bind_Done in H. destruct H as (g0 & g1 & w1 & H1 & H).
  inversion H1; subst g0 g1 w1; clear H1. unfold id in H.
  destruct (igcl_initialized g && non_null (igcl_get_device_stats g)).
  2:{ apply perf_mem_Done in H. destruct H as (-> & -> & ->). repeat split. }
  apply bind_Done in H. destruct H as ([rc stats] & g1 & w1 & H1 & H).
  apply callg_Done in H1. destruct H1 as (Ha & -> & N1).
  rewrite <- Ha. destruct (rc =? IGCL_SUCCESS).
  - inversion H; subst. repeat split; lia.
  - apply perf_mem_Done in H. rewrite N1 in H. destruct H as (-> & -> & ->).
    repeat split; lia.
Qed.

Lemma intel_get_gpu_total_memory_Done g w a g' w' :
  get_gpu_total_memory O V g w = Done a g' w' ->
  a = intel_total_at g (now w) /\ g' = g /\
  now w' = (now w + intel_total_calls g (now w))%nat.
Proof.
  unfold get_gpu_total_memory, intel_total_at, intel_total_calls, intel_info_answer,
    intel_info_fallback_time, intel_info_asked.
  intros H.
  apply bind_Done in H. destruct H as (g0 & g1 & w1 & H1 & H).
  inversion H1; subst g0 g1 w1; clear H1. unfold id in H.
  destruct (igcl_initialized g && non_null (igcl_get_device_info g)).
  2:{ unfold system_memory_estimate in H. inversion H; subst. repeat split.
      unfold now, log. cbn [trace List.length]. lia. }
  apply bind_Done in H. destruct H as ([rc info] & g1 & w1 & H1 & H).
  apply callg_Done in H1. destruct H1 as (Ha & -> & N1).
  rewrite <- Ha. destruct (rc =? IGCL_SUCCESS).
  - inversion H; subst. repeat split; lia.
  - unfold system_memory_estimate in H. inversion H; subst. rewrite N1.
    repeat split. unfold now, log in *. cbn [trace List.length] in *. lia.
Qed.

Lemma intel_util_at_range g t : INT_MIN <= intel_util_at g t <= INT_MAX.
Proof.
  unfold intel_util_at. destruct (intel_stats_answer g t);
    [ apply to_int_range | apply perf_util_at_range ].
Qed.

(** [gpu_get_info_json], called at time [t0]: the buffer is asked at
    [t0], the utilization at [t0 + 1], then the memory in use, the
    capacity, the name (one call) and the readings. *)
Definition intel_used_time (g : globals) (t0 : nat) : nat :=
  (S t0 + intel_util_calls g (S t0))%nat.

Definition intel_total_time (g : globals) (t0 : nat) : nat :=
  (intel_used_time g t0 + intel_used_calls g (intel_used_time g t0))%nat.

Definition intel_name_time (g : globals) (t0 : nat) : nat :=
  (intel_total_time g t0 + intel_total_calls g (intel_total_time g t0))%nat.

Definition intel_readings_time (g : globals) (t0 : nat) : nat :=
  S (intel_name_time g t0).

(** The single object of the document carries the answers of the query
    that started at time [t0]. *)
Definition intel_record_at (g : globals) (t0 : nat) (r : gpu_record) : Prop :=
  index r = 0 /\
  gpu_utilization r = Z.max (intel_util_at g (S t0)) 0 /\
  memory_used r = intel_used_at g (intel_used_time g t0) /\
  memory_total r = intel_total_at g (intel_total_time g t0) /\
  name r = intel_name_at g (intel_name_time g t0) /\
  (temperature r, power_usage r) = intel_readings_at g (intel_readings_time g t0).

Lemma intel_gpu_get_info_json_Done g w res g' w' :
  gpu_get_info_json O V g w = Done res g' w' ->
  g' = g /\
  match res with
  | None => os_malloc O (now w) = false
  | Some doc => os_malloc O (now w) = true /\
                exists r, doc = [Obj r] /\ intel_record_at g (now w) r
  end.
Proof.
  unfold gpu_get_info_json. intros H.
  apply bind_Done in H. destruct H as (b & g1 & w1 & H1 & H).
  unfold malloc in H1. inversion H1; subst b g1 w1; clear H1.
  destruct (os_malloc O (now w)) eqn:Hb; cbn [negb] in H.
  2:{ inversion H; subst. now split. }
  apply bind_Done in H. destruct H as (gpu_util & g1 & w1 & H1 & H).
  apply intel_get_gpu_utilization_Done in H1. destruct H1 as (Hu & -> & N1).
  change (now (log (EvMalloc true) w)) with (S (now w)) in Hu, N1.
  apply bind_Done in H. destruct H as (used_mem & g2 & w2 & H2 & H).
  apply intel_get_gpu_memory_usage_Done in H2. destruct H2 as (Hm & -> & N2).
  apply bind_Done in H. destruct H as (total_mem & g3 & w3 & H3 & H).
  apply intel_get_gpu_total_memory_Done in H3. destruct H3 as (Ht & -> & N3).
  apply bind_Done in H. destruct H as (g0 & g4 & w4 & H4 & H).
  inversion H4; subst g0 g4 w4; clear H4. unfold id in H.
  apply bind_Done in H. destruct H as (gpu_name & g5 & w5 & H5 & H).
  assert (Hn : g5 = g /\ gpu_name = intel_name_at g (now w3) /\ now w5 = S (now w3)).
  { unfold intel_name_at, intel_info_answer, intel_info_asked.
    destruct (igcl_initialized g && non_null (igcl_get_device_info g)).
    2:{ unfold registry_name in H5. inversion H5; subst. repeat split. }
    apply bind_Done in H5. destruct H5 as ([rc info] & g6 & w6 & H6 & H5).
    apply callg_Done in H6. destruct H6 as (Ha & -> & N6).
    rewrite <- Ha. destruct (rc =? IGCL_SUCCESS); inversion H5; subst; now repeat split. }
  destruct Hn as (-> & Hn & N5).
  apply bind_Done in H. destruct H as ([te pw] & g6 & w6 & H6 & H).
  assert (Hr : g6 = g /\ (inject_Z te, pw) = intel_readings_at g (now w5)).
  { unfold intel_readings_at, intel_stats_answer, intel_stats_asked.
    destruct (igcl_initialized g && non_null (igcl_get_device_stats g)).
    2:{ inversion H6; subst. now split. }
    apply bind_Done in H6. destruct H6 as ([rc stats] & g7 & w7 & H7 & H6).
    apply callg_Done in H7. destruct H7 as (Ha & -> & _).
    rewrite <- Ha. destruct (rc =? IGCL_SUCCESS); inversion H6; subst; now split. }
  destruct Hr as (-> & Hr).
  inversion H; subst res g' w'. clear H.
  assert (T1 : now w1 = intel_used_time g (now w)) by (unfold intel_used_time; lia).
  assert (T2 : now w2 = intel_total_time g (now w)).
  { unfold intel_total_time. rewrite <- T1. lia. }
  assert (T3 : now w3 = intel_name_time g (now w)).
  { unfold intel_name_time. rewrite <- T2. lia. }
  assert (T5 : now w5 = intel_readings_time g (now w)).
  { unfold intel_readings_time. rewrite <- T3. exact N5. }
  split; [ reflexivity | ]. split; [ reflexivity | ].
  eexists. split; [ reflexivity | ]. unfold intel_record_at.
  cbn [index gpu_utilization memory_used memory_total name temperature power_usage
       make_record].
  split; [ reflexivity | ]. split.
  { rewrite <- Hu. destruct (Z.geb_spec gpu_util 0); lia. }
  rewrite <- T1, <- T2, <- T3, <- T5. now repeat split.
Qed.

Lemma intel_records_at g w (R : gpu_record -> Prop) :
  (forall r, intel_record_at g (now w) r -> R r) ->
  Forall R (records_of (gpu_get_info_json O V g w)).
Proof.
  intros HR. destruct (gpu_get_info_json O V g w) as [[doc | ] g' w' | f] eqn:E;
    simpl; try constructor.
  apply intel_gpu_get_info_json_Done in E. destruct E as (_ & _ & r & -> & Hr).
  simpl. constructor; [ now apply HR | constructor ].
Qed.
End IntelExact.

(* --------------------------------------------------------------------- *)
(** ** NVIDIA: the document *)

Lemma filter_length_le {A} (f : A -> bool) (l : list A) :
  (List.length (filter f l) <= List.length l)%nat.
Proof.
  induction l as [ | x l IH ]; simpl; [ lia | ]. destruct (f x); simpl; lia.
Qed.

Lemma filter_length_all {A} (f : A -> bool) (l : list A) :
  List.length (filter f l) = List.length l <-> forallb f l = true.
Proof.
  induction l as [ | x l IH ]; simpl; [ tauto | ].
  pose proof (filter_length_le f l) as Hle.
  destruct (f x); simpl.
  - rewrite <- IH. lia.
  - split; [ lia | discriminate ].
Qed.

Section NvidiaDocument.
Import Nvidia.
Variable O : OS.
Variable V : NVML.

(** Record [r] is the one iteration [k] wrote. *)
Definition nvidia_written (t0 : nat) (k : nat) (r : gpu_record) : Prop :=
  index r = Z.of_nat k /\
  nvidia_stats_at V (nvidia_lookup_time V t0 k) r /\
  nvidia_readings_at V (nvidia_lookup_time V t0 k) r.

(** [gpu_get_info_json], called at time [t]: the count is asked at [t],
    the buffer at [t + 1], and the device loop starts at [t + 2]. *)
Lemma nvidia_gpu_get_info_json_Done g w res g' w' :
  gpu_get_info_json O V g w = Done res g' w' ->
  g' = g /\
  match res with
  | None =>
      fst (nvmlDeviceGetCount_impl V (now w)) <> NVML_SUCCESS
      \/ os_malloc O (S (now w)) = false
  | Some doc =>
      fst (nvmlDeviceGetCount_impl V (now w)) = NVML_SUCCESS /\
      os_malloc O (S (now w)) = true /\
      Forall2 (nvidia_written (now w + 2))
              (filter (nvidia_found V (now w + 2))
                      (seq 0 (Z.to_nat (u32 (snd (nvmlDeviceGetCount_impl V (now w)))))))
              (records doc)
  end.
Proof.
  unfold gpu_get_info_json. intros H.
  apply bind_Done in H. destruct H as ([rc n] & g1 & w1 & H1 & H).
  apply callg_Done in H1. destruct H1 as (Ha & -> & N1).
  rewrite <- Ha. cbn [fst snd].
  destruct (rc =? NVML_SUCCESS) eqn:Hrc; cbn [negb] in H.
  2:{ inversion H; subst. split; [ reflexivity | ]. left. now apply Z.eqb_neq. }
  apply Z.eqb_eq in Hrc.
  apply bind_Done in H. destruct H as (b & g2 & w2 & H2 & H).
  unfold malloc in H2. inversion H2; subst b g2 w2; clear H2.
  rewrite N1 in H. destruct (os_malloc O (S (now w))) eqn:Hb; cbn [negb] in H.
  2:{ inversion H; subst. split; [ reflexivity | now right ]. }
  apply bind_Done in H. destruct H as (doc & g2 & w2 & H2 & H).
  apply (nvidia_loop_Done V (now w + 2) g _ 0%nat) in H2.
  2:{ change (now (log (EvMalloc true) w1)) with (S (now w1)). cbn. lia. }
  destruct H2 as (-> & H2). inversion H; subst.
  split; [ reflexivity | ]. split; [ reflexivity | ]. split; [ reflexivity | exact H2 ].
Qed.

Lemma nvidia_written_indices t0 ks rs :
  Forall2 (nvidia_written t0) ks rs -> map index rs = map Z.of_nat ks.
Proof.
  induction 1 as [ | k r ks rs (Hi & _) _ IH ]; simpl; [ reflexivity | ].
  now rewrite Hi, IH.
Qed.

Lemma nvidia_written_fields t0 ks rs :
  Forall2 (nvidia_written t0) ks rs ->
  Forall (fun r => nvidia_stats_at V (nvidia_lookup_time V t0 (Z.to_nat (index r))) r /\
                   nvidia_readings_at V (nvidia_lookup_time V t0 (Z.to_nat (index r))) r)
         rs.
Proof.
  induction 1 as [ | k r ks rs (Hi & Hs & Hr) _ IH ]; constructor; [ | exact IH ].
  rewrite Hi, Nat2Z.id. now split.
Qed.

(** Every record of a document is the one its iteration wrote. *)
Lemma nvidia_records_at g w (R : gpu_record -> Prop) :
  (forall r,
      nvidia_stats_at V (nvidia_lookup_time V (now w + 2) (Z.to_nat (index r))) r ->
      nvidia_readings_at V (nvidia_lookup_time V (now w + 2) (Z.to_nat (index r))) r ->
      R r) ->
  Forall R (records_of (gpu_get_info_json O V g w)).
Proof.
  intros HR. destruct (gpu_get_info_json O V g w) as [[doc | ] g' w' | f] eqn:E;
    simpl; try constructor.
  apply nvidia_gpu_get_info_json_Done in E. destruct E as (_ & _ & _ & Hl).
  apply nvidia_written_fields in Hl.
  eapply Forall_impl; [ | exact Hl ]. cbv beta. intros r (Hs & Hr). now apply HR.
Qed.
End NvidiaDocument.

(* ===================================================================== *)
(** * How many records a snapshot holds, and which (C3) *)

(** The stats fields of an AMD record when the counter fallback is not
    in use.  The vendor is then asked three times for each device, one
    call after the other, the loop having started at time [t0]: for the
    memory in use, for the utilization, and for the temperature and the
    power.  Each field is what the vendor answered for that very device
    at that moment, and the zero default exactly when the vendor was not
    asked or did not report success. *)
Definition amd_defaulted (V : Amd.AGS) (g : Amd.globals) (t0 : nat) (r : gpu_record)
  : Prop :=
  let t := (t0 + 3 * Z.to_nat (index r))%nat in
  memory_used r
  = match amd_answer V g t (index r) with
    | Some u => u64 (Amd.memoryUsedInBytes u)
    | None => 0
    end /\
  gpu_utilization r
  = match amd_answer V g (t + 1) (index r) with
    | Some u => Z.max (int_of_float (Amd.gpuUsagePercent u)) 0
    | None => 0
    end /\
  (temperature r, power_usage r)
  = match amd_answer V g (t + 2) (index r) with
    | Some u => (Amd.temperatureInC u, Amd.powerUsageInWatts u)
    | None => (0%Q, 0%Q)
    end.

Section AmdVendorOnly.
Variable O : OS.
Variable V : Amd.AGS.
Variable g : Amd.globals.
Hypothesis counters_off : perf_counters_initialized (Amd.pdh g) = false.

Lemma amd_not_asked t i : amd_asked g = false -> amd_answer V g t i = None.
Proof. unfold amd_answer. now intros ->. Qed.

(** With the vendor asked and the counters off, an iteration for a
    device of the table makes exactly three calls. *)
Lemma amd_vendor_iteration t i :
  amd_asked g = true -> i < Amd.numDevices (Amd.gpu_info g) ->
  amd_util_time V g t i = (t + 1)%nat /\
  amd_readings_time O V g t i = (t + 2)%nat /\
  amd_next_time O V g t i = (t + 3)%nat.
Proof.
  intros Ha Hi.
  assert (H1 : forall t', amd_used_calls V g t' i = 1%nat).
  { intros t'. unfold amd_used_calls, perf_mem_calls.
    rewrite Ha, counters_off. now destruct (amd_answer V g t' i). }
  assert (H2 : forall t', amd_util_calls O V g t' i = 1%nat).
  { intros t'. unfold amd_util_calls, perf_util_calls.
    rewrite Ha, counters_off. now destruct (amd_answer V g t' i). }
  assert (H3 : amd_detail_calls g i = 1%nat).
  { unfold amd_detail_calls. unfold amd_asked in Ha.
    apply andb_true_iff in Ha. destruct Ha as (-> & ->).
    apply Z.ltb_lt in Hi. now rewrite Hi. }
  unfold amd_next_time, amd_readings_time, amd_util_time.
  rewrite !H1, !H2, H3. lia.
Qed.

Lemma amd_vendor_schedule t0 k :
  amd_asked g = true -> Z.of_nat k <= Amd.numDevices (Amd.gpu_info g) ->
  amd_device_time O V g t0 k = (t0 + 3 * k)%nat.
Proof.
  intros Ha. induction k as [ | k IH ]; intros Hk; cbn [amd_device_time]; [ lia | ].
  rewrite IH by lia.
  destruct (amd_vendor_iteration (t0 + 3 * k) (Z.of_nat k) Ha ltac:(lia)) as (_ & _ & ->).
  lia.
Qed.

Lemma amd_record_defaulted t0 r :
  0 <= index r < amd_count g ->
  amd_record_at O V g (amd_device_time O V g t0 (Z.to_nat (index r))) (index r) r ->
  amd_defaulted V g t0 r.
Proof.
  intros Hi (_ & Hu & Hg & Hd). unfold amd_defaulted. cbv zeta.
  destruct (amd_asked g) eqn:Ha.
  - assert (Hinit : Amd.ags_initialized g = true).
    { unfold amd_asked in Ha. now apply andb_true_iff in Ha. }
    unfold amd_count in Hi. rewrite Hinit in Hi.
    rewrite amd_vendor_schedule in Hu, Hg, Hd by (try assumption; lia).
    destruct (amd_vendor_iteration (t0 + 3 * Z.to_nat (index r)) (index r) Ha
                ltac:(lia)) as (T1 & T2 & _).
    rewrite T1 in Hg. rewrite T2 in Hd.
    split; [ | split ].
    + rewrite Hu. unfold amd_used_at.
      destruct (amd_answer V g _ (index r)); [ reflexivity | ].
      now apply perf_mem_at_off.
    + rewrite Hg. unfold amd_util_at.
      destruct (amd_answer V g _ (index r)); [ reflexivity | ].
      now rewrite perf_util_at_off.
    + rewrite Hd. unfold amd_readings_at.
      destruct (index r <? Amd.numDevices (Amd.gpu_info g)) eqn:Hlt; [ reflexivity | ].
      apply Z.ltb_ge in Hlt. lia.
  - rewrite !amd_not_asked by exact Ha.
    split; [ | split ].
    + rewrite Hu. unfold amd_used_at. rewrite amd_not_asked by exact Ha.
      now apply perf_mem_at_off.
    + rewrite Hg. unfold amd_util_at. rewrite amd_not_asked by exact Ha.
      now rewrite perf_util_at_off.
    + rewrite Hd. unfold amd_readings_at. rewrite amd_not_asked by exact Ha.
      now destruct (index r <? Amd.numDevices (Amd.gpu_info g)).
Qed.
End AmdVendorOnly.

(** C3, as stated, fails.  AMD: the vendor backend is selected with a
    device count of 0 and the snapshot is NULL, not a document with an
    empty array.  NVIDIA: the count is 2, the handle of device 1 cannot
    be obtained, and the document has one record.  Intel: the library
    counts 2 devices and the document has one record. *)
Lemma record_count_counterexample :
  (returned (Amd.gpu_init (machine ags_dll all_symbols false) (ags_devices 0)
                          Amd.globals0 world0) = Some 0 /\
   returned (amd_after_init (machine ags_dll all_symbols false) (ags_devices 0)
                            Amd.gpu_get_count) = Some 0 /\
   returned (amd_session (machine ags_dll all_symbols false) (ags_devices 0))
   = Some None) /\
  (returned ((Nvidia.gpu_init (machine nvml_dll all_symbols false) nvml_lost_device ;;
              Nvidia.gpu_get_count nvml_lost_device) Nvidia.globals0 world0) = Some 2 /\
   List.length (records_of (nvidia_session (machine nvml_dll all_symbols false)
                                           nvml_lost_device)) = 1%nat) /\
  (returned (intel_after_init (machine igcl_dll all_symbols false) (igcl_overcommitted 2)
                              (Intel.gpu_get_count (igcl_overcommitted 2))) = Some 2 /\
   List.length (records_of (intel_session (machine igcl_dll all_symbols false)
                                          (igcl_overcommitted 2))) = 1%nat).
Proof. repeat split; vm_compute; reflexivity. Qed.

(** C3 (amended).
    NVIDIA, the query made at time [t]: the snapshot is NULL exactly
    when the count query (at [t]) or the allocation (at [t + 1]) fails.
    Otherwise, with [n] the reported count, the records of the document
    are, in order, those of the device indices below [n] whose handle
    lookup succeeded at the moment the loop made it: at most [n]
    records, and [n] exactly when every one of these lookups succeeded.
    A failed utilization or memory query never drops the record: each
    record carries the answers for the device its own lookup returned,
    and zeros in the fields of a query that failed.
    AMD: the snapshot is NULL exactly when [gpu_get_count] is not
    positive or the allocation fails, and otherwise holds one record for
    each index below [gpu_get_count], in order; with the counter
    fallback not in use, each stats field is the vendor's answer for
    that device at the moment the loop asked for it, or 0 exactly when
    the vendor was not asked or did not report success.
    Intel: the snapshot is NULL exactly when the allocation fails, and
    otherwise holds exactly one record.
    After a [gpu_init] that returned 0 (on NVIDIA: with the two optional
    symbols resolved) [gpu_get_info_json] returns. *)
Theorem snapshot_record_count (O : OS) :
  (forall V g w res g' w',
      Nvidia.gpu_get_info_json O V g w = Done res g' w' ->
      let count := Nvidia.nvmlDeviceGetCount_impl V (now w) in
      let n := Z.to_nat (u32 (snd count)) in
      let t0 := (now w + 2)%nat in
      match res with
      | None => fst count <> Nvidia.NVML_SUCCESS \/ os_malloc O (S (now w)) = false
      | Some doc =>
          fst count = Nvidia.NVML_SUCCESS /\ os_malloc O (S (now w)) = true /\
          map index (records doc)
          = map Z.of_nat (filter (nvidia_found V t0) (seq 0 n)) /\
          (List.length (records doc) <= n)%nat /\
          (List.length (records doc) = n <-> forallb (nvidia_found V t0) (seq 0 n) = true) /\
          Forall (fun r => nvidia_stats_at V (nvidia_lookup_time V t0 (Z.to_nat (index r)))
                                           r)
                 (records doc)
      end) /\
  (forall V g w res g' w',
      Amd.gpu_get_info_json O V g w = Done res g' w' ->
      match res with
      | None => amd_count g <= 0 \/ os_malloc O (now w) = false
      | Some doc =>
          0 < amd_count g /\ os_malloc O (now w) = true /\
          map index (records doc) = map Z.of_nat (seq 0 (Z.to_nat (amd_count g))) /\
          List.length (records doc) = Z.to_nat (amd_count g) /\
          (perf_counters_initialized (Amd.pdh g) = false ->
           Forall (amd_defaulted V g (S (now w))) (records doc))
      end) /\
  (forall V g w res g' w',
      Intel.gpu_get_info_json O V g w = Done res g' w' ->
      match res with
      | None => os_malloc O (now w) = false
      | Some doc => os_malloc O (now w) = true /\ List.length (records doc) = 1%nat
      end) /\
  (forall V g0 w0 g w,
      Nvidia.gpu_init O V g0 w0 = Done 0 g w ->
      Nvidia.nvmlDeviceGetTemperature g <> None ->
      Nvidia.nvmlDeviceGetPowerUsage g <> None ->
      exists res w', Nvidia.gpu_get_info_json O V g w = Done res g w') /\
  (forall V g0 w0 g w,
      Amd.ags_initialized g0 = false ->
      Amd.gpu_init O V g0 w0 = Done 0 g w ->
      exists res w', Amd.gpu_get_info_json O V g w = Done res g w') /\
  (forall V g0 w0 g w,
      Intel.igcl_initialized g0 = false ->
      Intel.gpu_init O V g0 w0 = Done 0 g w ->
      exists res w', Intel.gpu_get_info_json O V g w = Done res g w').
Proof.
  split; [ | split; [ | split; [ | split; [ | split ] ] ] ].
  - intros V g w res g' w' E. cbv zeta.
    apply nvidia_gpu_get_info_json_Done in E. destruct E as (_ & E).
    destruct res as [doc | ]; [ | exact E ].
    destruct E as (Hc & Hb & Hl). split; [ exact Hc | ]. split; [ exact Hb | ].
    pose proof (nvidia_written_indices V _ _ _ Hl) as Hi.
    assert (Hlen : List.length (records doc)
                   = List.length (filter (nvidia_found V (now w + 2))
                       (seq 0 (Z.to_nat (u32 (snd (Nvidia.nvmlDeviceGetCount_impl
                                                     V (now w)))))))).
    { symmetry. eapply Forall2_length. exact Hl. }
    split; [ exact Hi | ]. split; [ | split ].
    + rewrite Hlen. etransitivity; [ apply filter_length_le | ]. now rewrite length_seq.
    + rewrite Hlen, <- filter_length_all, length_seq. reflexivity.
    + apply nvidia_written_fields in Hl. eapply Forall_impl; [ | exact Hl ].
      cbv beta. intros r (Hs & _). exact Hs.
  - intros V g w res g' w' E.
    apply amd_gpu_get_info_json_Done in E. destruct E as (_ & E).
    destruct res as [doc | ]; [ | exact E ].
    destruct E as (Hn & Hb & Hl). split; [ exact Hn | ]. split; [ exact Hb | ].
    pose proof (amd_written_indices O V _ _ _ _ Hl) as Hidx.
    split; [ exact Hidx | ]. split.
    + rewrite <- (length_map index), Hidx, length_map, length_seq. reflexivity.
    + intros Hf. apply amd_written_fields in Hl.
      eapply Forall_impl; [ | exact Hl ]. cbv beta. intros r (Hi & Hr).
      apply (amd_record_defaulted O V g Hf); [ lia | exact Hr ].
  - intros V g w res g' w' E.
    apply intel_gpu_get_info_json_Done in E. destruct E as (_ & E).
    destruct res as [doc | ]; [ | exact E ].
    destruct E as (Hb & r & -> & _). now split.
  - intros V g0 w0 g w E Ht Hp.
    destruct (nvidia_init_ready O V g0 w0 g w E) as (h & Hr & Hw).
    destruct (nvidia_ready_info O V h g w Hr Hw Ht Hp) as (res & w' & E' & _). eauto.
  - intros V g0 w0 g w Hi0 E.
    destruct (amd_gpu_init_cases O V g0 w0) as (r' & g' & w' & E' & Hc).
    rewrite E in E'. inversion E'; subst r' g' w'. clear E'.
    destruct Hc as [(_ & _ & _ & h & (Hi & _ & _ & _ & Hu) & Hm) | (Hi & _)].
    + destruct (runs_total (module_loaded h) sample_event g (amd_info_out O V g)
                  (Amd.gpu_get_info_json O V) w) as (res & w' & E' & _).
      * apply amd_gpu_get_info_json_runs.
        -- apply sample_of_counter.
        -- intros _ fn h'. apply sample_call.
        -- intros _ h' Hh. rewrite Hh in Hu.
           destruct (os_exports O h "agsGetGPUMemoryUsage"); [ | discriminate ].
           inversion Hu. apply callable_loaded.
      * unfold module_loaded. rewrite Hm. apply held_cons_same.
      * eauto.
    + destruct (runs_total any_modules sample_event g (amd_info_out O V g)
                  (Amd.gpu_get_info_json O V) w) as (res & w' & E' & _).
      * apply amd_gpu_get_info_json_runs.
        -- apply sample_of_counter.
        -- intros _ fn h'. apply sample_call.
        -- intros H. congruence.
      * exact I.
      * eauto.
  - intros V g0 w0 g w Hi0 E.
    destruct (intel_gpu_init_cases O V g0 w0) as (r' & g' & w' & E' & Hc).
    rewrite E in E'. inversion E'; subst r' g' w'. clear E'.
    destruct Hc as [(_ & _ & _ & h & (Hi & _ & _ & _ & _ & Hinfo & Hstats) & Hm)
                   | (Hi & _)].
    + destruct (runs_total (module_loaded h) sample_event g (intel_info_out O V g)
                  (Intel.gpu_get_info_json O V) w) as (res & w' & E' & _).
      * apply intel_gpu_get_info_json_runs.
        -- apply sample_of_counter.
        -- intros _ fn h'. apply sample_call.
        -- intros _ h' Hh. rewrite Hh in Hinfo. inversion Hinfo. apply callable_loaded.
        -- intros _ h' Hh. rewrite Hh in Hstats. inversion Hstats.
           apply callable_loaded.
      * unfold module_loaded. rewrite Hm. apply held_cons_same.
      * eauto.
    + destruct (runs_total any_modules sample_event g (intel_info_out O V g)
                  (Intel.gpu_get_info_json O V) w) as (res & w' & E' & _).
      * apply intel_gpu_get_info_json_runs.
        -- apply sample_of_counter.
        -- intros _ fn h'. apply sample_call.
        -- intros H. congruence.
        -- intros H. congruence.
      * exact I.
      * eauto.
Qed.

(** Two NVIDIA devices whose utilization query fails at time [t_fail]
    and whose memory query fails one call later, whatever the device;
    at every other moment both succeed. *)
Definition nvml_transient (t_fail : nat) : Nvidia.NVML :=
  Nvidia.mkNVML
    (fun _ => 0) (fun _ => 0)
    (fun _ => (0, 2))
    (fun _ i => (0, 100 + i))
    (fun _ _ => (0, "GeForce"))
    (fun t _ => if Nat.eqb t t_fail then (999, Nvidia.mkUtil 77 77)
                else (0, Nvidia.mkUtil 50 30))
    (fun t _ => if Nat.eqb t (S t_fail) then (999, Nvidia.mkMem 5 5 5)
                else (0, Nvidia.mkMem 1000 600 400))
    (fun _ _ => Some 65)
    (fun _ _ => Some 120000).

(** The spec's scenario: two NVIDIA devices, the stats queries for
    device 1 fail transiently.  [gpu_init] makes 12 platform calls; the
    first snapshot asks the count at time 12, the buffer at 13, looks up
    device 0 at 14 and device 1 at 20, and queries the rates and the
    memory of device 1 at 22 and 23, where they fail.  Both lookups
    succeed, so the document holds the records of devices 0 and 1;
    record 1 carries zeros, record 0 is populated.  The next snapshot
    finds both populated. *)
Lemma snapshot_record_count_witness :
  let O := machine nvml_dll all_symbols false in
  let V := nvml_transient 22 in
  match Nvidia.gpu_init O V Nvidia.globals0 world0 with
  | Done r g w =>
      r = 0 /\ now w = 12%nat /\
      exists doc w',
        Nvidia.gpu_get_info_json O V g w = Done (Some doc) g w' /\
        map index (records doc) = [0; 1] /\
        Forall (fun r => nvidia_stats_at V
                           (nvidia_lookup_time V (now w + 2) (Z.to_nat (index r))) r)
               (records doc) /\
        map gpu_utilization (records doc) = [50; 0] /\
        map memory_total (records doc) = [1000; 0] /\
        map gpu_utilization (records_of (Nvidia.gpu_get_info_json O V g w')) = [50; 50]
  | Fault _ => False
  end.
Proof.
  cbv zeta.
  destruct (Nvidia.gpu_init (machine nvml_dll all_symbols false) (nvml_transient 22)
                            Nvidia.globals0 world0) as [r g w | f] eqn:E;
    pose proof E as E'; vm_compute in E'; [ | discriminate E' ].
  inversion E'; subst r g w; clear E'.
  split; [ reflexivity | ]. split; [ reflexivity | ].
  destruct (proj1 (proj2 (proj2 (proj2 (snapshot_record_count _)))) _ _ _ _ _ E)
    as (res & w' & E1); [ discriminate | discriminate | ].
  pose proof (proj1 (snapshot_record_count _) _ _ _ _ _ _ E1) as Hspec.
  cbv zeta in Hspec.
  pose proof E1 as E1'. vm_compute in E1'.
  destruct res as [doc | ]; [ | discriminate E1' ].
  exists doc, w'. split; [ exact E1 | ].
  destruct Hspec as (_ & _ & Hi & _ & _ & Hf).
  split; [ rewrite Hi; vm_compute; reflexivity | ].
  split; [ exact Hf | ].
  inversion E1'; subst doc w'.
  repeat split; vm_compute; reflexivity.
Defined.

(* ===================================================================== *)
(** * [gpu_utilization] (C7) *)

Definition utilization_in_percent_range (r : gpu_record) : Prop :=
  0 <= gpu_utilization r <= 100.

(** C7, as stated, fails: a backend that reports 150 (NVIDIA), 130 (AMD)
    or 120 (Intel) percent gets exactly that figure into the record. *)
Lemma gpu_utilization_counterexample :
  ~ Forall utilization_in_percent_range
      (records_of (nvidia_session (machine nvml_dll all_symbols false) nvml_two_devices))
  /\
  ~ Forall utilization_in_percent_range
      (records_of (amd_session (machine ags_dll all_symbols false) (ags_devices 2)))
  /\
  ~ Forall utilization_in_percent_range
      (records_of (intel_session (machine igcl_dll all_symbols false)
                                 (igcl_overcommitted 1))).
Proof.
  split; [ | split ]; intros H.
  - rewrite nvidia_session_two_devices in H.
    apply Forall_inv in H. vm_compute in H. destruct H as [_ H]. now apply H.
  - rewrite amd_session_two_devices in H.
    apply Forall_inv in H. vm_compute in H. destruct H as [_ H]. now apply H.
  - rewrite intel_session_overcommitted in H.
    apply Forall_inv in H. vm_compute in H. destruct H as [_ H]. now apply H.
Qed.

(** C7 (amended): in every record [gpu_utilization] is a non-negative
    integer and there is no clamp at 100.  NVIDIA writes the gpu rate
    that [nvmlDeviceGetUtilizationRates] answered for the record's own
    device, unchanged, as an unsigned 32-bit value, and 0 exactly when
    that query failed.  AMD and Intel write max(raw, 0), where raw is
    what [get_gpu_utilization] returned when the loop called it for
    that device: the vendor's figure converted to [int] when the vendor
    answered, otherwise what the counters gave (-1 when they are not
    available).  So the field
    lies between 0 and [INT_MAX], and it is at most 100 exactly when
    raw is. *)
Theorem gpu_utilization_by_backend (O : OS) :
  (forall V g w,
      Forall (fun r =>
                nvidia_stats_at V (nvidia_lookup_time V (now w + 2) (Z.to_nat (index r)))
                                r /\
                0 <= gpu_utilization r < 2 ^ 32)
             (records_of (Nvidia.gpu_get_info_json O V g w))) /\
  (forall V g w,
      Forall (fun r =>
                let t := amd_device_time O V g (S (now w)) (Z.to_nat (index r)) in
                let raw := amd_util_at O V g (amd_util_time V g t (index r)) (index r) in
                gpu_utilization r = Z.max raw 0 /\
                0 <= gpu_utilization r <= INT_MAX /\
                (gpu_utilization r <= 100 <-> raw <= 100))
             (records_of (Amd.gpu_get_info_json O V g w))) /\
  (forall V g w,
      Forall (fun r =>
                let raw := intel_util_at O V g (S (now w)) in
                gpu_utilization r = Z.max raw 0 /\
                0 <= gpu_utilization r <= INT_MAX /\
                (gpu_utilization r <= 100 <-> raw <= 100))
             (records_of (Intel.gpu_get_info_json O V g w))).
Proof.
  split; [ | split ]; intros V g w.
  - apply nvidia_records_at. intros r Hs _. split; [ exact Hs | ].
    destruct Hs as (-> & _).
    destruct (_ =? _); [ apply u32_range | split; [ lia | reflexivity ] ].
  - apply amd_records_at. intros r _ (_ & _ & Hg & _). cbv zeta.
    match type of Hg with _ = Z.max (amd_util_at _ _ _ ?t _) 0 =>
      pose proof (amd_util_at_range O V g t (index r)) as Hr
    end.
    split; [ exact Hg | ]. rewrite Hg. unfold INT_MIN, INT_MAX in *. lia.
  - apply intel_records_at. intros r (_ & Hg & _). cbv zeta.
    pose proof (intel_util_at_range O V g (S (now w))) as Hr.
    split; [ exact Hg | ]. rewrite Hg. unfold INT_MIN, INT_MAX in *. lia.
Qed.

(** An AMD vendor session with two devices: the vendor reports 130
    percent for device 0 and refuses device 1; the records carry 130
    and 0. *)
Lemma gpu_utilization_by_backend_witness :
  let O := machine ags_dll all_symbols false in
  let V := ags_devices 2 in
  match Amd.gpu_init O V Amd.globals0 world0 with
  | Done _ g w =>
      map gpu_utilization (records_of (Amd.gpu_get_info_json O V g w)) = [130; 0] /\
      Forall (fun r =>
                let t := amd_device_time O V g (S (now w)) (Z.to_nat (index r)) in
                let raw := amd_util_at O V g (amd_util_time V g t (index r)) (index r) in
                gpu_utilization r = Z.max raw 0 /\
                0 <= gpu_utilization r <= INT_MAX /\
                (gpu_utilization r <= 100 <-> raw <= 100))
             (records_of (Amd.gpu_get_info_json O V g w))
  | Fault _ => False
  end.
Proof.
  cbv zeta.
  destruct (Amd.gpu_init (machine ags_dll all_symbols false) (ags_devices 2)
                         Amd.globals0 world0) as [r g w | f] eqn:E;
    pose proof E as E'; vm_compute in E'; [ | discriminate E' ].
  split; [ inversion E'; subst; vm_compute; reflexivity | ].
  apply (proj1 (proj2 (gpu_utilization_by_backend _))).
Defined.

(* ===================================================================== *)
(** * [gpu_get_usage]: the value returned, by backend *)

(** X16: After a [gpu_init] from the initial state that returned 0,
    [gpu_get_usage] of the AMD and Intel files returns a value that
    fits an [int].  In a vendor session it is the figure the vendor
    answers for device 0 at that moment, converted to [int], and -1
    exactly when the vendor is not asked or does not report success: the
    per-call fallback to the counters can only answer -1 there, because
    a vendor session never initialises the counters.  In a fallback
    session it is what the counter reader returns at that moment. *)
Theorem gpu_get_usage_by_backend (O : OS) :
  (forall V w g w1,
      Amd.gpu_init O V Amd.globals0 w = Done 0 g w1 ->
      forall w2, modules w2 = modules w1 ->
        exists u w3,
          Amd.gpu_get_usage O V g w2 = Done u g w3 /\
          INT_MIN <= u <= INT_MAX /\
          u = match amd_backend g with
              | VendorBackend =>
                  match amd_answer V g (now w2) 0 with
                  | Some usage => int_of_float (Amd.gpuUsagePercent usage)
                  | None => -1
                  end
              | _ => perf_util_at O (Amd.pdh g) (now w2)
              end) /\
  (forall V w g w1,
      Intel.gpu_init O V Intel.globals0 w = Done 0 g w1 ->
      forall w2, modules w2 = modules w1 ->
        exists u w3,
          Intel.gpu_get_usage O V g w2 = Done u g w3 /\
          INT_MIN <= u <= INT_MAX /\
          u = match intel_backend g with
              | VendorBackend =>
                  match intel_stats_answer V g (now w2) with
                  | Some stats => to_int (u32 (Intel.stats_gpu_utilization stats))
                  | None => -1
                  end
              | _ => perf_util_at O (Intel.pdh g) (now w2)
              end).
Proof.
  split; intros V w g w1 E w2 Hm.
  - destruct (amd_usage_after_init O V w g w1 E w2 Hm) as (u & w3 & E2 & _).
    exists u, w3. split; [ exact E2 | ].
    apply amd_get_gpu_utilization_Done in E2. destruct E2 as (-> & _ & _).
    split; [ apply amd_util_at_range | ].
    destruct (amd_gpu_init_cases O V Amd.globals0 w) as (r' & g' & w' & E' & Hc).
    rewrite E in E'. inversion E'; subst r' g' w'. clear E'.
    unfold amd_backend, amd_util_at.
    destruct Hc as [(_ & Hp & _ & h & (Hi & _) & _) | (Hi & _)].
    + rewrite Hi. destruct (amd_answer V g (now w2) 0); [ reflexivity | ].
      apply perf_util_at_off. now rewrite Hp.
    + change (Amd.ags_initialized g = false) in Hi.
      unfold amd_answer, amd_fallback_time, amd_asked. rewrite Hi. cbn [andb].
      now destruct (perf_counters_initialized (Amd.pdh g)).
  - destruct (intel_usage_after_init O V w g w1 E w2 Hm) as (u & w3 & E2 & _).
    exists u, w3. split; [ exact E2 | ].
    apply intel_get_gpu_utilization_Done in E2. destruct E2 as (-> & _ & _).
    split; [ apply intel_util_at_range | ].
    destruct (intel_gpu_init_cases O V Intel.globals0 w) as (r' & g' & w' & E' & Hc).
    rewrite E in E'. inversion E'; subst r' g' w'. clear E'.
    unfold intel_backend, intel_util_at.
    destruct Hc as [(_ & Hp & _ & h & (Hi & _) & _) | (Hi & _)].
    + rewrite Hi. destruct (intel_stats_answer V g (now w2)); [ reflexivity | ].
      apply perf_util_at_off. now rewrite Hp.
    + change (Intel.igcl_initialized g = false) in Hi.
      unfold intel_stats_answer, intel_stats_fallback_time, intel_stats_asked.
      rewrite Hi. cbn [andb].
      now destruct (perf_counters_initialized (Intel.pdh g)).
Qed.

(** An AGS library that initialises but whose usage query fails. *)
Definition ags_usage_failing : Amd.AGS :=
  Amd.mkAGS
    (fun _ _ _ => (0, Some 9%nat,
                   Amd.mkInfo 1 (fun _ => Amd.mkDevice "Radeon" (16 * GiB))))
    (fun _ _ => 0)
    (fun _ _ _ => (-1, Amd.mkUsage (Qmake 55 1) 1 (Qmake 1 1) (Qmake 1 1))).

(** Vendor session, the usage query fails, counters are available on
    the machine: [gpu_get_usage] still says -1. *)
Lemma gpu_get_usage_by_backend_witness :
  let O := machine ags_dll all_symbols true in
  let V := ags_usage_failing in
  match Amd.gpu_init O V Amd.globals0 world0 with
  | Done r g w1 =>
      r = 0 /\ amd_backend g = VendorBackend /\
      exists w3, Amd.gpu_get_usage O V g w1 = Done (-1) g w3
  | Fault _ => False
  end.
Proof.
  cbv zeta.
  destruct (Amd.gpu_init (machine ags_dll all_symbols true) ags_usage_failing
                         Amd.globals0 world0) as [r g w1 | f] eqn:E;
    pose proof E as E'; vm_compute in E'; [ | discriminate E' ].
  assert (r = 0) as -> by (inversion E'; reflexivity).
  split; [ reflexivity | ]. split; [ inversion E'; reflexivity | ].
  destruct (proj1 (gpu_get_usage_by_backend (machine ags_dll all_symbols true))
                  ags_usage_failing world0 g w1 E w1 eq_refl) as (u & w3 & E3 & _ & Hu).
  exists w3. rewrite E3. f_equal.
  rewrite Hu. inversion E'; subst g w1. vm_compute. reflexivity.
Defined.

(* ===================================================================== *)
(** * NVIDIA: the name and the two optional readings of a record *)

(** X18: Every record of an NVIDIA document carries the name and the
    two optional readings of its own device, the one whose handle the
    lookup for the record's index returned: the name
    [nvmlDeviceGetName] reported, and "Unknown GPU" exactly when that
    call failed; the temperature [nvmlDeviceGetTemperature] wrote, and
    the preset 0 exactly when it wrote nothing; the power
    [nvmlDeviceGetPowerUsage] wrote, taken as milliwatts and divided by
    1000, and 0 exactly when it wrote nothing. *)
Theorem nvidia_record_readings (O : OS) (V : Nvidia.NVML) (g : Nvidia.globals)
    (w : world) :
  Forall (fun r =>
            nvidia_readings_at V (nvidia_lookup_time V (now w + 2) (Z.to_nat (index r))) r)
         (records_of (Nvidia.gpu_get_info_json O V g w)).
Proof. apply nvidia_records_at. intros r _ Hr. exact Hr. Qed.

(** Two devices whose names differ by device and whose second device
    has no temperature sensor. *)
Definition nvml_named_devices : Nvidia.NVML :=
  Nvidia.mkNVML
    (fun _ => 0) (fun _ => 0)
    (fun _ => (0, 2))
    (fun _ i => (0, 100 + i))
    (fun _ d => if d =? 100 then (0, "GeForce RTX 4090") else (999, ""))
    (fun _ _ => (0, Nvidia.mkUtil 50 30))
    (fun _ _ => (0, Nvidia.mkMem 1000 600 400))
    (fun _ d => if d =? 100 then Some 65 else None)
    (fun _ _ => Some 120000).

Lemma nvidia_record_readings_witness :
  let O := machine nvml_dll all_symbols false in
  let V := nvml_named_devices in
  match Nvidia.gpu_init O V Nvidia.globals0 world0 with
  | Done _ g w =>
      map name (records_of (Nvidia.gpu_get_info_json O V g w))
      = ["GeForce RTX 4090"; "Unknown GPU"] /\
      map temperature (records_of (Nvidia.gpu_get_info_json O V g w))
      = [inject_Z 65; inject_Z 0] /\
      Forall (fun r =>
                nvidia_readings_at V
                  (nvidia_lookup_time V (now w + 2) (Z.to_nat (index r))) r)
             (records_of (Nvidia.gpu_get_info_json O V g w))
  | Fault _ => False
  end.
Proof.
  cbv zeta.
  destruct (Nvidia.gpu_init (machine nvml_dll all_symbols false) nvml_named_devices
                            Nvidia.globals0 world0) as [r g w | f] eqn:E;
    pose proof E as E'; vm_compute in E'; [ | discriminate E' ].
  split; [ inversion E'; subst; vm_compute; reflexivity | ].
  split; [ inversion E'; subst; vm_compute; reflexivity | ].
  apply nvidia_record_readings.
Defined.

(* ===================================================================== *)
(** * Intel: where the name, the capacity and the readings come from *)

(** X19: The Intel record, each field taken at the moment the query
    reaches it.  [memory_total] is the figure
    [igcl_get_device_info] answered, and an eighth of the physical
    memory exactly when the vendor is not asked or does not report
    success.  The name is the vendor's device name cut to 255
    characters; when the vendor was asked and refused it is the preset
    text (the registry is not consulted); when the vendor is not asked
    it is what the registry fallback leaves.  The temperature and the
    power are the vendor's readings (power in milliwatts, divided by
    1000), and zeros exactly when [igcl_get_device_stats] is not asked
    or does not report success. *)
Theorem intel_record_source (O : OS) (V : Intel.IGCL) (g : Intel.globals) (w : world) :
  Forall (fun r =>
            memory_total r = intel_total_at O V g (intel_total_time O V g (now w)) /\
            name r = intel_name_at O V g (intel_name_time O V g (now w)) /\
            (temperature r, power_usage r)
            = intel_readings_at V g (intel_readings_time O V g (now w)))
         (records_of (Intel.gpu_get_info_json O V g w)).
Proof.
  apply intel_records_at. intros r (_ & _ & _ & Ht & Hn & Hr). auto.
Qed.

(** An IGCL library whose device-info query is refused. *)
Definition igcl_info_refused : Intel.IGCL :=
  Intel.mkIGCL
    (fun _ => 0) (fun _ => 0)
    (fun _ => (0, 1))
    (fun _ _ => (7, Intel.mkDeviceInfo "Iris Xe" 8000))
    (fun _ _ => (0, Intel.mkStats 20 3000 50 15000)).

Example intel_record_source_example :
  records_of (intel_session (machine igcl_dll all_symbols false)
                            (igcl_reporting 1 3000 8000))
  = [ mkRecord 0 "Iris Xe" 120 37 8000 3000 5000 (inject_Z 50) (milli 15000) ] /\
  records_of (intel_session (machine igcl_dll all_symbols false) igcl_info_refused)
  = [ mkRecord 0 "Intel Integrated Graphics" 20 0 (2 * GiB) 3000 (2 * GiB - 3000)
               (inject_Z 50) (milli 15000) ].
Proof. vm_compute. split; reflexivity. Qed.

(* ===================================================================== *)
(** * [gpu_shutdown]: what it releases and what it resets (C9) *)

(** The handles held once the one named by [h] has been released. *)
Definition release (h : option nat) (held_now : list nat) : list nat :=
  match h with
  | Some x => remove_one x held_now
  | None => held_now
  end.

(** The counter globals after [cleanup_performance_counters]: the query
    handle is NULL and the flag is clear; the two counter handles keep
    their values. *)
Definition pdh_released (p : pdh_globals) : pdh_globals :=
  mkPdh None (gpu_util_counter p) (gpu_memory_counter p) false.

(** The NVIDIA globals after [gpu_shutdown]: the library handle is NULL;
    every function pointer keeps its value. *)
Definition nvidia_released (g : Nvidia.globals) : Nvidia.globals :=
  Nvidia.set_nvml_lib None g.

(** The AMD globals after [gpu_shutdown]: the library handle is NULL and
    the counter globals are released; the vendor flag and the context
    are cleared only when [agsDeInitialize] was due (flag set, context
    not NULL, entry point resolved); every function pointer and the
    device table keep their values. *)
Definition amd_released (g : Amd.globals) : Amd.globals :=
  Amd.mkGlobals None (Amd.agsInitialize g) (Amd.agsDeInitialize g)
    (Amd.agsGetGPUMemoryUsage g) (Amd.agsGetVersionNumber g)
    (if amd_deinit_due g then None else Amd.ags_context g)
    (Amd.gpu_info g)
    (if amd_deinit_due g then false else Amd.ags_initialized g)
    (pdh_released (Amd.pdh g)).

(** The Intel globals after [gpu_shutdown]: the library handle is NULL
    and the counter globals are released; the vendor flag is cleared
    only when [igcl_shutdown] was due (flag set, entry point resolved);
    every function pointer keeps its value. *)
Definition intel_released (g : Intel.globals) : Intel.globals :=
  Intel.mkGlobals None (Intel.igcl_init g) (Intel.igcl_shutdown g)
    (Intel.igcl_get_device_count g) (Intel.igcl_get_device_info g)
    (Intel.igcl_get_device_stats g)
    (if intel_shutdown_due g then false else Intel.igcl_initialized g)
    (pdh_released (Intel.pdh g)).

Local Ltac nvidia_red :=
  cbn [non_null is_null negb andb log modules trace queries
       Nvidia.nvml_lib Nvidia.nvmlShutdown Nvidia.set_nvml_lib Nvidia.nvmlInit
       Nvidia.nvmlDeviceGetCount Nvidia.nvmlDeviceGetHandleByIndex
       Nvidia.nvmlDeviceGetName Nvidia.nvmlDeviceGetUtilizationRates
       Nvidia.nvmlDeviceGetMemoryInfo Nvidia.nvmlDeviceGetTemperature
       Nvidia.nvmlDeviceGetPowerUsage].

Local Ltac amd_red :=
  cbn [non_null is_null negb andb log modules trace queries
       Amd.set_ags_context Amd.set_ags_initialized Amd.set_ags_lib Amd.set_pdh
       Amd.ags_lib Amd.agsInitialize Amd.agsDeInitialize Amd.agsGetGPUMemoryUsage
       Amd.agsGetVersionNumber Amd.ags_context Amd.gpu_info Amd.ags_initialized Amd.pdh
       set_query_handle set_perf_counters_initialized
       query_handle gpu_util_counter gpu_memory_counter perf_counters_initialized].

Local Ltac intel_red :=
  cbn [non_null is_null negb andb log modules trace queries
       Intel.set_igcl_initialized Intel.set_igcl_lib Intel.set_pdh
       Intel.igcl_lib Intel.igcl_init Intel.igcl_shutdown Intel.igcl_get_device_count
       Intel.igcl_get_device_info Intel.igcl_get_device_stats Intel.igcl_initialized
       Intel.pdh set_query_handle set_perf_counters_initialized
       query_handle gpu_util_counter gpu_memory_counter perf_counters_initialized].

Local Ltac held_or_fault :=
  match goal with
  | |- context [held ?h ?l] => destruct (held h l); [ | discriminate ]
  end.

Lemma nvidia_gpu_shutdown_exact V g w g1 w1 :
  Nvidia.gpu_shutdown V g w = Done tt g1 w1 ->
  g1 = nvidia_released g /\
  modules w1 = release (Nvidia.nvml_lib g) (modules w) /\ queries w1 = queries w.
Proof.
  unfold Nvidia.gpu_shutdown, Nvidia.unload_nvml, callg, call, bind, read, ret, id,
    FreeLibrary, write, nvidia_released, release.
  destruct g as [lib p1 p2 p3 p4 p5 p6 p7 p8 p9]. nvidia_red.
  destruct lib as [h | ]; nvidia_red.
  - destruct p2 as [hs | ]; nvidia_red; repeat (held_or_fault; nvidia_red);
      intros E; inversion E; repeat split.
  - intros E. inversion E. repeat split.
Qed.

Lemma amd_gpu_shutdown_exact V g w g1 w1 :
  Amd.gpu_shutdown V g w = Done tt g1 w1 ->
  g1 = amd_released g /\
  modules w1 = release (Amd.ags_lib g) (modules w) /\
  queries w1 = release (query_handle (Amd.pdh g)) (queries w).
Proof.
  unfold Amd.gpu_shutdown, Amd.unload_ags, Amd.cleanup_performance_counters,
    cleanup_performance_counters, callg, call, bind, read, ret, id, upd,
    FreeLibrary, PdhCloseQuery, write, amd_released, amd_deinit_due, release,
    pdh_released.
  destruct g as [lib p1 p2 p3 p4 ctx info init [qh uc mc pf]]. amd_red.
  destruct init, ctx as [c | ], p2 as [hd | ], lib as [h | ], qh as [q | ]; amd_red;
    repeat (held_or_fault; amd_red);
    intros E; inversion E; repeat split.
Qed.

Lemma intel_gpu_shutdown_exact V g w g1 w1 :
  Intel.gpu_shutdown V g w = Done tt g1 w1 ->
  g1 = intel_released g /\
  modules w1 = release (Intel.igcl_lib g) (modules w) /\
  queries w1 = release (query_handle (Intel.pdh g)) (queries w).
Proof.
  unfold Intel.gpu_shutdown, Intel.unload_igcl, Intel.cleanup_performance_counters,
    cleanup_performance_counters, callg, call, bind, read, ret, id, upd,
    FreeLibrary, PdhCloseQuery, write, intel_released, intel_shutdown_due, release,
    pdh_released.
  destruct g as [lib p1 p2 p3 p4 p5 init [qh uc mc pf]]. intel_red.
  destruct init, p2 as [hs | ], lib as [h | ], qh as [q | ]; intel_red;
    repeat (held_or_fault; intel_red);
    intros E; inversion E; repeat split.
Qed.

(** An AGS library whose [agsInitialize] reports success and hands back
    a NULL context. *)
Definition ags_null_context : Amd.AGS :=
  Amd.mkAGS
    (fun _ _ _ => (0, None, Amd.mkInfo 1 (fun _ => Amd.mkDevice "Radeon" (16 * GiB))))
    (fun _ _ => 0)
    (fun _ _ _ => (0, Amd.mkUsage (Qmake 40 1) GiB (Qmake 60 1) (Qmake 100 1))).

(** [gpu_init(); gpu_shutdown()] from the initial state. *)
Definition nvidia_init_shutdown (O : OS) (V : Nvidia.NVML) :=
  (Nvidia.gpu_init O V ;; Nvidia.gpu_shutdown V) Nvidia.globals0 world0.

Definition amd_init_shutdown (O : OS) (V : Amd.AGS) :=
  (Amd.gpu_init O V ;; Amd.gpu_shutdown V) Amd.globals0 world0.

(** C9, as stated, fails in its last part: [gpu_shutdown] does not reset
    all handle state.  NVIDIA, an ordinary session: the library is freed
    and its handle is NULL, but the function pointers still point into
    it, and [gpu_get_count] calls into the freed module.  AMD, a counter
    session: the query is closed and its handle is NULL, but the counter
    handle keeps its value.  AMD, a vendor that reports success with a
    NULL context: [agsDeInitialize] is skipped, the vendor flag stays
    set after the library is freed, and [gpu_get_usage] calls into the
    freed module. *)
Lemma shutdown_reset_counterexample :
  match nvidia_init_shutdown (machine nvml_dll all_symbols false) nvml_two_devices with
  | Done _ g1 w1 =>
      modules w1 = [] /\ Nvidia.nvml_lib g1 = None /\
      Nvidia.nvmlDeviceGetCount g1 = Some 1%nat /\
      Nvidia.gpu_get_count nvml_two_devices g1 w1
      = Fault (DanglingCall "nvmlDeviceGetCount" 1%nat)
  | Fault _ => False
  end /\
  match amd_init_shutdown (machine "none" all_symbols true) (ags_devices 1) with
  | Done _ g1 w1 =>
      queries w1 = [] /\ query_handle (Amd.pdh g1) = None /\
      gpu_util_counter (Amd.pdh g1) = Some 3%nat
  | Fault _ => False
  end /\
  match amd_init_shutdown (machine ags_dll all_symbols false) ags_null_context with
  | Done _ g1 w1 =>
      modules w1 = [] /\ Amd.ags_lib g1 = None /\
      Amd.ags_initialized g1 = true /\
      Amd.agsGetGPUMemoryUsage g1 = Some 1%nat /\
      Amd.gpu_get_usage (machine ags_dll all_symbols false) ags_null_context g1 w1
      = Fault (DanglingCall "agsGetGPUMemoryUsage" 1%nat)
  | Fault _ => False
  end.
Proof. vm_compute. repeat split. Qed.

(** C9 (amended).
    (1-3) Whenever [gpu_shutdown] has returned, it has freed the library
    its handle named and closed the counter query its handle named,
    each once and nothing else; the globals are those it started with
    except that the library handle and the query handle are NULL and the
    fallback flag is clear, and that the vendor flag (and on AMD the
    context) is cleared when the vendor's closing call was due.  The
    function pointers and the counter handles keep their values; on AMD
    the vendor flag stays set when the context is NULL.  Calling
    [gpu_shutdown] again at once returns in the very same state and
    world: no platform call is made, so nothing is freed or closed a
    second time.
    (4-6) In any history of [gpu_init] and [gpu_shutdown] calls from the
    initial state, up to the first [gpu_init] that returns 0, no call
    faults, and a further [gpu_shutdown] returns.
    (7-9) After a [gpu_init] from the initial state that returned 0, and
    whatever was sampled since, [gpu_shutdown] returns and the loaded
    modules and open queries are those from before that [gpu_init]. *)
Theorem gpu_shutdown_releases (O : OS) :
  (forall V g w g1 w1,
      Nvidia.gpu_shutdown V g w = Done tt g1 w1 ->
      g1 = nvidia_released g /\
      modules w1 = release (Nvidia.nvml_lib g) (modules w) /\
      queries w1 = queries w /\
      Nvidia.gpu_shutdown V g1 w1 = Done tt g1 w1) /\
  (forall V g w g1 w1,
      Amd.gpu_shutdown V g w = Done tt g1 w1 ->
      g1 = amd_released g /\
      modules w1 = release (Amd.ags_lib g) (modules w) /\
      queries w1 = release (query_handle (Amd.pdh g)) (queries w) /\
      Amd.gpu_shutdown V g1 w1 = Done tt g1 w1) /\
  (forall V g w g1 w1,
      Intel.gpu_shutdown V g w = Done tt g1 w1 ->
      g1 = intel_released g /\
      modules w1 = release (Intel.igcl_lib g) (modules w) /\
      queries w1 = release (query_handle (Intel.pdh g)) (queries w) /\
      Intel.gpu_shutdown V g1 w1 = Done tt g1 w1) /\
  (forall V calls, exists b g w,
      nvidia_attempts O V calls Nvidia.globals0 world0 = Done b g w /\
      (b = true -> exists g1 w1, Nvidia.gpu_shutdown V g w = Done tt g1 w1)) /\
  (forall V calls, exists b g w,
      amd_attempts O V calls Amd.globals0 world0 = Done b g w /\
      (b = true -> exists g1 w1, Amd.gpu_shutdown V g w = Done tt g1 w1)) /\
  (forall V calls, exists b g w,
      intel_attempts O V calls Intel.globals0 world0 = Done b g w /\
      (b = true -> exists g1 w1, Intel.gpu_shutdown V g w = Done tt g1 w1)) /\
  (forall V w0 g w w2,
      Nvidia.gpu_init O V Nvidia.globals0 w0 = Done 0 g w ->
      extends sample_event w w2 ->
      exists g1 w1, Nvidia.gpu_shutdown V g w2 = Done tt g1 w1 /\
                    modules w1 = modules w0 /\ queries w1 = queries w0) /\
  (forall V w0 g w w2,
      Amd.gpu_init O V Amd.globals0 w0 = Done 0 g w ->
      extends sample_event w w2 ->
      exists g1 w1, Amd.gpu_shutdown V g w2 = Done tt g1 w1 /\
                    modules w1 = modules w0 /\ queries w1 = queries w0) /\
  (forall V w0 g w w2,
      Intel.gpu_init O V Intel.globals0 w0 = Done 0 g w ->
      extends sample_event w w2 ->
      exists g1 w1, Intel.gpu_shutdown V g w2 = Done tt g1 w1 /\
                    modules w1 = modules w0 /\ queries w1 = queries w0).
Proof.
  split; [ | split; [ | split; [ | split; [ | split; [ | split; [ | split;
    [ | split ] ] ] ] ] ] ].
  - intros V g w g1 w1 E.
    destruct (nvidia_gpu_shutdown_exact V g w g1 w1 E) as (Hg & Hm & Hq).
    repeat split; try assumption.
    apply nvidia_gpu_shutdown_unloaded. now apply nvidia_gpu_shutdown_Done in E.
  - intros V g w g1 w1 E.
    destruct (amd_gpu_shutdown_exact V g w g1 w1 E) as (Hg & Hm & Hq).
    repeat split; try assumption. now apply amd_gpu_shutdown_Done in E.
  - intros V g w g1 w1 E.
    destruct (intel_gpu_shutdown_exact V g w g1 w1 E) as (Hg & Hm & Hq).
    repeat split; try assumption. now apply intel_gpu_shutdown_Done in E.
  - intros V calls.
    destruct (failed_attempts_invariant (Nvidia.gpu_init O V) (Nvidia.gpu_shutdown V)
                nvidia_unloaded (nvidia_unloaded_init O V) (nvidia_unloaded_shutdown V)
                calls Nvidia.globals0 world0 (conj eq_refl eq_refl))
      as (b & g & w & E & HI).
    exists b, g, w. split; [ exact E | ]. intros Hb.
    destruct (nvidia_unloaded_shutdown V g w (HI Hb)) as (g1 & w1 & E1 & _). eauto.
  - intros V calls.
    destruct (failed_attempts_invariant (Amd.gpu_init O V) (Amd.gpu_shutdown V)
                amd_unselected (amd_unselected_init O V) (amd_unselected_shutdown V)
                calls Amd.globals0 world0)
      as (b & g & w & E & HI).
    { repeat split. intros h Hh. discriminate Hh. }
    exists b, g, w. split; [ exact E | ]. intros Hb.
    destruct (amd_unselected_shutdown V g w (HI Hb)) as (g1 & w1 & E1 & _). eauto.
  - intros V calls.
    destruct (failed_attempts_invariant (Intel.gpu_init O V) (Intel.gpu_shutdown V)
                intel_unselected (intel_unselected_init O V)
                (intel_unselected_shutdown V) calls Intel.globals0 world0)
      as (b & g & w & E & HI).
    { repeat split. intros h Hh. discriminate Hh. }
    exists b, g, w. split; [ exact E | ]. intros Hb.
    destruct (intel_unselected_shutdown V g w (HI Hb)) as (g1 & w1 & E1 & _). eauto.
  - intros V w0 g w w2 E (Hm & Hq & _).
    destruct (nvidia_shutdown_after_init O V _ _ _ _ _ E Hm) as (g1 & w1 & E1).
    exists g1, w1. split; [ exact E1 | ].
    destruct (nvidia_gpu_shutdown_exact V g w2 g1 w1 E1) as (_ & Hm1 & Hq1).
    destruct (nvidia_gpu_init_cases O V Nvidia.globals0 w0)
      as (r & g' & w' & E' & Hq0 & [(_ & h & (Hl & _) & Hm0) | (Hr & _)]);
      rewrite E in E'; inversion E'; subst r g' w'; [ | now elim Hr ].
    rewrite Hm1, Hq1, Hl, Hm, Hq, Hm0. cbn [release].
    split; [ apply remove_one_cons_same | exact Hq0 ].
  - intros V w0 g w w2 E (Hm & Hq & _).
    destruct (amd_shutdown_after_init O V _ _ _ _ E Hm Hq) as (g1 & w1 & E1).
    exists g1, w1. split; [ exact E1 | ].
    destruct (amd_gpu_shutdown_exact V g w2 g1 w1 E1) as (_ & Hm1 & Hq1).
    destruct (amd_session_step O V Amd.globals0 w0)
      as (r & ga & wa & gb & wb & Ea & Eb & Hmb & Hqb & _).
    { repeat split. }
    rewrite E in Ea. inversion Ea; subst r ga wa.
    destruct (amd_gpu_shutdown_exact V g w gb wb Eb) as (_ & Hm2 & Hq2).
    rewrite Hm1, Hq1, Hm, Hq, <- Hm2, <- Hq2. now split.
  - intros V w0 g w w2 E (Hm & Hq & _).
    destruct (intel_shutdown_after_init O V _ _ _ _ E Hm Hq) as (g1 & w1 & E1).
    exists g1, w1. split; [ exact E1 | ].
    destruct (intel_gpu_shutdown_exact V g w2 g1 w1 E1) as (_ & Hm1 & Hq1).
    destruct (intel_session_step O V Intel.globals0 w0)
      as (r & ga & wa & gb & wb & Ea & Eb & Hmb & Hqb & _).
    { repeat split. }
    rewrite E in Ea. inversion Ea; subst r ga wa.
    destruct (intel_gpu_shutdown_exact V g w gb wb Eb) as (_ & Hm2 & Hq2).
    rewrite Hm1, Hq1, Hm, Hq, <- Hm2, <- Hq2. now split.
Qed.

(** An AMD vendor session shut down twice: the library is freed once,
    the vendor flag is cleared, the function pointers stay, and the
    second call changes nothing. *)
Lemma gpu_shutdown_releases_witness :
  let O := machine ags_dll all_symbols false in
  let V := ags_devices 2 in
  match Amd.gpu_init O V Amd.globals0 world0 with
  | Done r g w =>
      r = 0 /\ modules w = [1%nat] /\
      match Amd.gpu_shutdown V g w with
      | Done _ g1 w1 =>
          g1 = amd_released g /\ modules w1 = [] /\ queries w1 = [] /\
          Amd.ags_initialized g1 = false /\
          Amd.agsGetGPUMemoryUsage g1 = Some 1%nat /\
          Amd.gpu_shutdown V g1 w1 = Done tt g1 w1
      | Fault _ => False
      end
  | Fault _ => False
  end.
Proof.
  cbv zeta.
  destruct (Amd.gpu_init (machine ags_dll all_symbols false) (ags_devices 2)
                         Amd.globals0 world0) as [r g w | f] eqn:E0;
    pose proof E0 as E0'; vm_compute in E0'; [ | discriminate E0' ].
  inversion E0'; subst r g w; clear E0'.
  split; [ reflexivity | ]. split; [ reflexivity | ].
  match goal with
  | |- match ?run with _ => _ end =>
      destruct run as [[ ] g1 w1 | f] eqn:E1; [ | vm_compute in E1; discriminate E1 ]
  end.
  destruct (proj1 (proj2 (gpu_shutdown_releases (machine ags_dll all_symbols false)))
              _ _ _ _ _ E1) as (Hg & Hm & Hq & E2).
  split; [ exact Hg | ]. split; [ rewrite Hm; reflexivity | ].
  split; [ rewrite Hq; reflexivity | ].
  split; [ rewrite Hg; reflexivity | ]. split; [ rewrite Hg; reflexivity | exact E2 ].
Defined.
